(** * compton's OpenGL backend (src/opengl.c): a shallow embedding

    The first part follows the layout of [opengl.c]:
    - [CInt]: the C integer operations the code relies on;
    - [Damage]: [glx_paint_pre], the buffer-age damage tracker;
    - [FBConfig]: [glx_cmp_fbconfig], [glx_update_fbconfig_bydepth],
      [glx_update_fbconfig];
    - [GL]: the GL context as [opengl.c] drives it;
    - [Pixmap]: [glx_bind_pixmap], [glx_release_pixmap];
    - [CString]: C strings, [strlen] and [sprintf];
    - [Shader]: [glx_create_shader], [glx_create_program],
      [glx_init_conv_blur], [glx_init_kawase_blur], [glx_init_blur];
    - [Blur]: [glx_conv_blur_dst], [glx_kawase_blur_dst];
    - [BlurDst]: [glx_blur_dst];
    - [Program]: [glx_create_program_from_str], [glx_load_prog_main],
      [glx_free_prog_main];
    - [Paint]: [glx_set_clip], [glx_dim_dst], [glx_render];
    - [Init]: [glx_init], [glx_destroy], [glx_reinit].
    The second part holds example inputs and the predicates the
    properties are stated with, the third part the properties.

    The X server, the GL driver and the C library are collaborators
    outside [opengl.c]: their answers are inputs of the model (records of
    answer functions, the rendering of [%.7g]), and the calls issued to
    the first two are logged in the GL context. Constants
    of headers that are not part of the sources ([common.h], [opengl.h])
    are section variables. *)

From Stdlib Require Import ZArith QArith Lia List Bool String.
From stdpp Require Import base option list gmap sets.

Local Open Scope Z_scope.

(** ** Outcomes of a C function

    A call either returns, stops the process on a failed [assert], or
    runs into undefined behaviour (an out-of-bounds array access, a signed
    overflow, a shift outside the width of [int], a read of an
    uninitialised variable). *)

Inductive outcome (A : Type) : Type :=
| Returned (a : A)
| Aborted
| Undefined.

Arguments Returned {A} a.
Arguments Aborted {A}.
Arguments Undefined {A}.

Definition obind {A B : Type} (m : outcome A) (k : A -> outcome B) : outcome B :=
  match m with
  | Returned a => k a
  | Aborted => Aborted
  | Undefined => Undefined
  end.

Notation "'do' x <-- m ; k" := (obind m (fun x => k))
  (at level 10, x pattern, m at level 100, k at level 200, only parsing).

(** [assert (b)] *)
Definition c_assert (b : bool) : outcome unit :=
  if b then Returned tt else Aborted.

(** An array read [a[i]]: outside the array the behaviour is undefined. *)
Definition c_index {A : Type} (a : list A) (i : Z) : outcome A :=
  if i <? 0 then Undefined
  else match a !! Z.to_nat i with
       | Some x => Returned x
       | None => Undefined
       end.

(** ** C integers *)

Module CInt.

Definition INT_MIN : Z := - 2 ^ 31.
Definition INT_MAX : Z := 2 ^ 31 - 1.

Definition in_int (x : Z) : bool := (INT_MIN <=? x) && (x <=? INT_MAX).

(** Conversion [unsigned -> int] as gcc and clang define it: modulo 2^32. *)
Definition int_of_unsigned (u : Z) : Z :=
  if u <=? INT_MAX then u else u - 2 ^ 32.

(** Signed arithmetic: a result outside [int] is undefined. *)
Definition int_checked (r : Z) : outcome Z :=
  if in_int r then Returned r else Undefined.

Definition int_sub (a b : Z) : outcome Z := int_checked (a - b).
Definition int_neg (a : Z) : outcome Z := int_checked (- a).

(** [1 << n] on [int]: defined for [0 <= n <= 30] only. *)
Definition int_shl1 (n : Z) : outcome Z :=
  if (0 <=? n) && (n <=? 30) then Returned (Z.shiftl 1 n) else Undefined.

End CInt.

(** ** Frame-age damage tracker: [glx_paint_pre] *)

Module Damage.

(** A pixman region is a set of pixels; [pixman_region32_union] is the
    union of the two sets and [copy_region] overwrites the destination. *)
Definition region_t : Type := gset (Z * Z).

Definition pixman_region32_union (a b : region_t) : region_t := a ∪ b.
Definition copy_region (src : region_t) : region_t := src.
(** [pixman_region32_init]: the empty region. *)
Definition pixman_region32_init : region_t := ∅.

(** The part of [session_t] the function touches. *)
Record session_t : Type := {
  glx_swap_method : Z;              (* ps->o.glx_swap_method *)
  all_damage_last : list region_t;  (* region_t all_damage_last[CGLX_MAX_BUFFER_AGE] *)
  screen_reg : region_t;
}.

Section WithConstants.

(** Constants of [common.h], which is not part of the sources at hand. *)
Variable CGLX_MAX_BUFFER_AGE : Z.
Variable SWAPM_BUFFER_AGE : Z.

(** [for (int i = 0; i < buffer_age - 1; ++i)
      pixman_region32_union(preg, preg, &ps->all_damage_last[i]);]
    [n] counts the iterations left, [i] is the loop index. *)
Fixpoint union_damage (hist : list region_t) (n : nat) (i : Z)
    (preg : region_t) : outcome region_t :=
  match n with
  | O => Returned preg
  | S n' =>
      do d <-- c_index hist i ;
      union_damage hist n' (i + 1) (pixman_region32_union preg d)
  end.

(** [pixman_region32_fini(&all_damage_last[CGLX_MAX_BUFFER_AGE - 1]);
     memmove(all_damage_last + 1, all_damage_last, (CGLX_MAX_BUFFER_AGE - 1) * sizeof(region_t));
     all_damage_last[0] = newdamage;] *)
Definition push_damage (hist : list region_t) (newdamage : region_t)
    : list region_t :=
  match hist with
  | [] => []
  | _ :: _ => newdamage :: take (Z.to_nat (CGLX_MAX_BUFFER_AGE - 1)) hist
  end.

(** [glx_paint_pre(ps, preg)]. [val] is what [glXQueryDrawable] stores
    for [GLX_BACK_BUFFER_AGE_EXT] (an [unsigned]); it is only asked for
    under [SWAPM_BUFFER_AGE]. The result is the updated session and the
    region left in [*preg]. The calls that follow ([glx_set_clip],
    [glx_check_err]) read [preg] and change neither it nor the history. *)
Definition glx_paint_pre (ps : session_t) (preg : region_t) (val : Z)
    : outcome (session_t * region_t) :=
  let trace_damage :=
    (glx_swap_method ps <? 0) || (1 <? glx_swap_method ps) in
  let newdamage := pixman_region32_init in
  let newdamage := if trace_damage then copy_region preg else newdamage in
  let buffer_age := 0 in
  let buffer_age :=
    if glx_swap_method ps =? SWAPM_BUFFER_AGE
    then CInt.int_of_unsigned val else buffer_age in
  (* Buffer age too high *)
  let buffer_age :=
    if CGLX_MAX_BUFFER_AGE + 1 <? buffer_age then 0 else buffer_age in
  do _ <-- c_assert (0 <=? buffer_age) ;
  do preg' <-- (if negb (buffer_age =? 0)
             then union_damage (all_damage_last ps)
                    (Z.to_nat (buffer_age - 1)) 0 preg
             else Returned (copy_region (screen_reg ps))) ;
  let hist :=
    if trace_damage then push_damage (all_damage_last ps) newdamage
    else all_damage_last ps in
  Returned ({| glx_swap_method := glx_swap_method ps;
               all_damage_last := hist;
               screen_reg := screen_reg ps |}, preg').

(** What the call leaves in [*preg]. *)
Definition paint_region (ps : session_t) (preg : region_t) (val : Z)
    : outcome region_t :=
  do (_, r) <-- glx_paint_pre ps preg val ; Returned r.

End WithConstants.

End Damage.

(** ** Capability negotiation: the per-depth FBConfig table *)

Module FBConfig.

(** The attributes [opengl.c] queries with [glXGetFBConfigAttrib]. *)
Inductive glx_attr : Type :=
| GLX_RED_SIZE
| GLX_BIND_TO_TEXTURE_RGBA_EXT
| GLX_DOUBLEBUFFER
| GLX_STENCIL_SIZE
| GLX_DEPTH_SIZE
| GLX_BIND_TO_MIPMAP_TEXTURE_EXT
| GLX_SAMPLES
| GLX_BUFFER_SIZE
| GLX_ALPHA_SIZE
| GLX_BIND_TO_TEXTURE_TARGETS_EXT
| GLX_BIND_TO_TEXTURE_RGB_EXT
| GLX_Y_INVERTED_EXT.

(** An opaque handle of the GLX implementation. *)
Definition GLXFBConfig : Type := Z.

(** The GLX side of a display connection. [glXGetFBConfigAttrib c a] is
    [Some v] when the query returns [Success] and stores [v], [None] when
    it fails and stores nothing. [glXGetVisualFromFBConfig c] is the
    [depth] of the visual, [None] for a NULL [XVisualInfo]. *)
Record Display : Type := {
  glXGetFBConfigAttrib : GLXFBConfig -> glx_attr -> option Z;
  glXGetVisualFromFBConfig : GLXFBConfig -> option Z;
  glXGetFBConfigs : list GLXFBConfig;
}.

Record glx_fbconfig_t : Type := {
  cfg : GLXFBConfig;
  texture_fmt : Z;
  texture_tgts : Z;
  y_inverted : bool;
}.

(** Values of [GL/glxext.h]. *)
Definition GLX_TEXTURE_FORMAT_RGB_EXT : Z := 0x20D9.
Definition GLX_TEXTURE_FORMAT_RGBA_EXT : Z := 0x20DA.

(** [ps->dpy], [ps->depth] and [ps->psglx->fbconfigs]. *)
Record session_t : Type := {
  dpy : Display;
  depth : Z;
  fbconfigs : list (option glx_fbconfig_t);
}.

(** [glx_cmp_fbconfig_cmpattr]: both locals start at 0 and the status of
    the queries is not looked at. *)
Definition glx_cmp_fbconfig_cmpattr (d : Display)
    (pfbc_a pfbc_b : glx_fbconfig_t) (attr : glx_attr) : outcome Z :=
  let attr_a := default 0 (glXGetFBConfigAttrib d (cfg pfbc_a) attr) in
  let attr_b := default 0 (glXGetFBConfigAttrib d (cfg pfbc_b) attr) in
  CInt.int_sub attr_a attr_b.

(** [#define P_CMPATTR_LT(attr)
      { if ((result = glx_cmp_fbconfig_cmpattr(ps, pfbc_a, pfbc_b, (attr)))) return -result; }]
    [k] is the rest of the function. *)
Definition P_CMPATTR_LT (d : Display) (pfbc_a pfbc_b : glx_fbconfig_t)
    (attr : glx_attr) (k : outcome Z) : outcome Z :=
  do result <-- glx_cmp_fbconfig_cmpattr d pfbc_a pfbc_b attr ;
  if negb (result =? 0) then CInt.int_neg result else k.

(** [#define P_CMPATTR_GT(attr)
      { if ((result = glx_cmp_fbconfig_cmpattr(ps, pfbc_a, pfbc_b, (attr)))) return result; }] *)
Definition P_CMPATTR_GT (d : Display) (pfbc_a pfbc_b : glx_fbconfig_t)
    (attr : glx_attr) (k : outcome Z) : outcome Z :=
  do result <-- glx_cmp_fbconfig_cmpattr d pfbc_a pfbc_b attr ;
  if negb (result =? 0) then Returned result else k.

(** [glx_cmp_fbconfig]. [tmpattr] is declared without a value: when the
    first [GLX_RED_SIZE] query fails, the test reads an uninitialised
    variable; when the second one fails, [tmpattr] still holds what the
    first one stored. *)
Definition glx_cmp_fbconfig (d : Display)
    (pfbc_a pfbc_b : option glx_fbconfig_t) : outcome Z :=
  match pfbc_a with
  | None => Returned (-1)
  | Some a =>
      match pfbc_b with
      | None => Returned 1
      | Some b =>
          (* Avoid 10-bit colors *)
          match glXGetFBConfigAttrib d (cfg a) GLX_RED_SIZE with
          | None => Undefined
          | Some tmpattr =>
              if negb (tmpattr =? 8) then Returned (-1)
              else
                let tmpattr :=
                  default tmpattr (glXGetFBConfigAttrib d (cfg b) GLX_RED_SIZE) in
                if negb (tmpattr =? 8) then Returned 1
                else
                  P_CMPATTR_LT d a b GLX_BIND_TO_TEXTURE_RGBA_EXT
                  (P_CMPATTR_LT d a b GLX_DOUBLEBUFFER
                  (P_CMPATTR_LT d a b GLX_STENCIL_SIZE
                  (P_CMPATTR_LT d a b GLX_DEPTH_SIZE
                  (P_CMPATTR_GT d a b GLX_BIND_TO_MIPMAP_TEXTURE_EXT
                  (Returned 0)))))
          end
      end
  end.

Section WithConstants.

(** [OPENGL_MAX_DEPTH] of [common.h]; the table has
    [OPENGL_MAX_DEPTH + 1] slots. *)
Variable OPENGL_MAX_DEPTH : Z.

(** [glx_update_fbconfig_bydepth]: the table after the call. *)
Definition glx_update_fbconfig_bydepth (d : Display)
    (tbl : list (option glx_fbconfig_t)) (depth : Z)
    (pfbcfg : glx_fbconfig_t) : outcome (list (option glx_fbconfig_t)) :=
  (* Make sure the depth is sane *)
  if (depth <? 0) || (OPENGL_MAX_DEPTH <? depth) then Returned tbl
  else
    do cur <-- c_index tbl depth ;
    (* Compare new FBConfig with current one *)
    do r <-- glx_cmp_fbconfig d cur (Some pfbcfg) ;
    if r <? 0 then Returned (<[Z.to_nat depth := Some pfbcfg]> tbl)
    else Returned tbl.

(** [Success == glXGetFBConfigAttrib(..., attr, &val) && val] *)
Definition attr_is_set (d : Display) (c : GLXFBConfig) (attr : glx_attr)
    : bool :=
  match glXGetFBConfigAttrib d c attr with
  | Some val => negb (val =? 0)
  | None => false
  end.

(** The body of the loop of [glx_update_fbconfig] for the candidate
    [pcur] (with [GLX_SAMPLES] defined); every [continue] leaves the
    table as it is. *)
Definition glx_update_fbconfig_step (d : Display)
    (tbl : list (option glx_fbconfig_t)) (pcur : GLXFBConfig)
    : outcome (list (option glx_fbconfig_t)) :=
  (* Skip over multi-sampled visuals *)
  if match glXGetFBConfigAttrib d pcur GLX_SAMPLES with
     | Some val => 1 <? val
     | None => false
     end
  then Returned tbl
  else
    match glXGetFBConfigAttrib d pcur GLX_BUFFER_SIZE,
          glXGetFBConfigAttrib d pcur GLX_ALPHA_SIZE with
    | Some depth, Some depth_alpha =>
        match glXGetFBConfigAttrib d pcur GLX_BIND_TO_TEXTURE_TARGETS_EXT with
        | None => Returned tbl
        | Some tgts =>
            match glXGetVisualFromFBConfig d pcur with
            | None => Returned tbl
            | Some visualdepth =>
                let rgba :=
                  (32 <=? depth) && negb (depth_alpha =? 0)
                  && attr_is_set d pcur GLX_BIND_TO_TEXTURE_RGBA_EXT in
                let rgb := attr_is_set d pcur GLX_BIND_TO_TEXTURE_RGB_EXT in
                let y_inv :=
                  match glXGetFBConfigAttrib d pcur GLX_Y_INVERTED_EXT with
                  | Some val => negb (val =? 0)
                  | None => false
                  end in
                do tgtdpt <-- CInt.int_sub depth depth_alpha ;
                do tbl <--
                  (if (tgtdpt =? visualdepth) && (tgtdpt <? 32) && rgb
                   then glx_update_fbconfig_bydepth d tbl tgtdpt
                          {| cfg := pcur;
                             texture_fmt := GLX_TEXTURE_FORMAT_RGB_EXT;
                             texture_tgts := tgts;
                             y_inverted := y_inv |}
                   else Returned tbl) ;
                if (depth =? visualdepth) && rgba
                then glx_update_fbconfig_bydepth d tbl depth
                       {| cfg := pcur;
                          texture_fmt := GLX_TEXTURE_FORMAT_RGBA_EXT;
                          texture_tgts := tgts;
                          y_inverted := y_inv |}
                else Returned tbl
            end
        end
    | _, _ => Returned tbl
    end.

(** [for (GLXFBConfig *pcur = pfbcfgs; pcur < pfbcfgs + nele; pcur++)] *)
Fixpoint glx_update_fbconfig_loop (d : Display)
    (tbl : list (option glx_fbconfig_t)) (pfbcfgs : list GLXFBConfig)
    : outcome (list (option glx_fbconfig_t)) :=
  match pfbcfgs with
  | [] => Returned tbl
  | pcur :: rest =>
      do tbl <-- glx_update_fbconfig_step d tbl pcur ;
      glx_update_fbconfig_loop d tbl rest
  end.

(** [glx_update_fbconfig]: the result and the session after the call
    (logging left out). *)
Definition glx_update_fbconfig (ps : session_t) : outcome (bool * session_t) :=
  do tbl <-- glx_update_fbconfig_loop (dpy ps) (fbconfigs ps)
               (glXGetFBConfigs (dpy ps)) ;
  let ps' := {| dpy := dpy ps; depth := depth ps; fbconfigs := tbl |} in
  (* Sanity checks *)
  do dflt <-- c_index tbl (depth ps) ;
  match dflt with
  | None => Returned (false, ps')
  | Some _ =>
      do _ <-- c_index tbl 32 ;
      Returned (true, ps')
  end.

End WithConstants.

End FBConfig.

(** ** The GL context seen from [opengl.c] *)

Module GL.

Definition GLenum : Type := Z.

(** Values of [GL/gl.h], [GL/glext.h] and [GL/glxext.h]. *)
Definition GL_TEXTURE_2D : GLenum := 0x0DE1.
Definition GL_TEXTURE_RECTANGLE : GLenum := 0x84F5.
Definition GL_SCISSOR_TEST : GLenum := 0x0C11.
Definition GL_STENCIL_TEST : GLenum := 0x0B90.
Definition GL_FRAMEBUFFER_COMPLETE : GLenum := 0x8CD5.
Definition GL_FRAGMENT_SHADER : GLenum := 0x8B30.
Definition GLX_TEXTURE_2D_BIT_EXT : Z := 0x2.
Definition GLX_TEXTURE_RECTANGLE_BIT_EXT : Z := 0x4.
Definition GLX_TEXTURE_2D_EXT : Z := 0x20DC.
Definition GLX_TEXTURE_RECTANGLE_EXT : Z := 0x20DD.

(** The calls [opengl.c] issues, with their integer arguments
    (floating-point arguments are left out). *)
Inductive call : Type :=
| Enable (cap : GLenum)
| Disable (cap : GLenum)
| GenTextures
| BindTexture (target : GLenum) (texture : Z)
| TexParameteri (target : GLenum)
| TexImage2D (target : GLenum) (width height : Z)
| CopyTexSubImage2D (target : GLenum) (xoff yoff x y width height : Z)
| GenFramebuffers
| DeleteFramebuffers (fbo : Z)
| DeleteTextures (texture : Z)
| BindFramebuffer (fbo : Z)
| FramebufferTexture2D (texture : Z)
| DrawBuffers
| CheckFramebufferStatus
| TexEnvi
| UseProgram (prog : Z)
| Uniform (location : Z)
| Quads (dx dy width height : Z)
| CreateShader (shader_type : GLenum)
| ShaderSource (shader : Z) (source : string)
| CompileShader (shader : Z)
| GetShaderiv (shader : Z)
| DeleteShader (shader : Z)
| CreateProgram
| AttachShader (prog shader : Z)
| LinkProgram (prog : Z)
| GetProgramiv (prog : Z)
| DetachShader (prog shader : Z)
| DeleteProgram (prog : Z)
| GetUniformLocation (prog : Z)
| XGetGeometry (pixmap : Z)
| XCreatePixmap (cfg pixmap fmt tgt : Z)
| XDestroyPixmap (glpixmap : Z)
| XReleaseTexImage (glpixmap : Z)
| XBindTexImage (glpixmap : Z).

(** The context: the capabilities switched on with [glEnable], and the
    calls issued so far, oldest first. *)
Record state : Type := {
  enabled : gset Z;
  calls : list call;
}.

(** Only [glEnable] and [glDisable] change a capability; every other
    call is logged. *)
Definition issue (c : call) (st : state) : state :=
  {| enabled := enabled st; calls := calls st ++ [c] |}.

Definition glEnable (cap : GLenum) (st : state) : state :=
  {| enabled := {[cap]} ∪ enabled st; calls := calls st ++ [Enable cap] |}.

Definition glDisable (cap : GLenum) (st : state) : state :=
  {| enabled := enabled st ∖ {[cap]}; calls := calls st ++ [Disable cap] |}.

Definition glIsEnabled (cap : GLenum) (st : state) : bool :=
  bool_decide (cap ∈ enabled st).

(** What the driver and the X server answer. An answer may depend on the
    moment of the call: it is indexed by the number of calls issued
    before it. A generated name of 0 is a failed allocation. *)
Record driver : Type := {
  glGenTextures : nat -> Z;
  glGenFramebuffers : nat -> Z;
  glCheckFramebufferStatus : nat -> GLenum;
  glCreateShader : nat -> Z;
  compile_status : nat -> bool;
  glCreateProgram : nat -> Z;
  link_status : nat -> bool;
  glGetUniformLocation : nat -> Z;
  XGetGeometry_reply : Z -> option (Z * Z * Z);  (* width, height, depth *)
  glXCreatePixmap : nat -> Z;
}.

Definition now (st : state) : nat := length (calls st).

End GL.

(** ** Pixmap-texture bridge *)

Module Pixmap.

Record glx_texture_t : Type := {
  texture : Z;
  glpixmap : Z;
  pixmap : Z;
  target : GL.GLenum;
  width : Z;
  height : Z;
  depth : Z;
  y_inverted : bool;
}.

(** [GLX_TEX_DEF] *)
Definition GLX_TEX_DEF : glx_texture_t :=
  {| texture := 0; glpixmap := 0; pixmap := 0; target := 0;
     width := 0; height := 0; depth := 0; y_inverted := false |}.

(** [ps->o.backend], [ps->psglx->fbconfigs] and
    [ps->psglx->has_texture_non_power_of_two]. *)
Record session_t : Type := {
  backend : Z;
  fbconfigs : list (option FBConfig.glx_fbconfig_t);
  has_texture_non_power_of_two : bool;
}.

(** [glx_release_pixmap] ([glx_check_err] only reports). *)
Definition glx_release_pixmap (ptex : glx_texture_t) (gl : GL.state)
    : glx_texture_t * GL.state :=
  (* Release binding *)
  let gl :=
    if negb (glpixmap ptex =? 0) && negb (texture ptex =? 0)
    then GL.issue (GL.BindTexture (target ptex) 0)
           (GL.issue (GL.XReleaseTexImage (glpixmap ptex))
             (GL.issue (GL.BindTexture (target ptex) (texture ptex)) gl))
    else gl in
  (* Free GLX Pixmap *)
  if negb (glpixmap ptex =? 0)
  then ({| texture := texture ptex; glpixmap := 0; pixmap := pixmap ptex;
           target := target ptex; width := width ptex;
           height := height ptex; depth := depth ptex;
           y_inverted := y_inverted ptex |},
        GL.issue (GL.XDestroyPixmap (glpixmap ptex)) gl)
  else (ptex, gl).

(** The texture target for an FBConfig, "copied from compiz". *)
Definition choose_tex_tgt (ps : session_t) (pcfg : FBConfig.glx_fbconfig_t)
    : Z :=
  if negb (Z.land GL.GLX_TEXTURE_2D_BIT_EXT (FBConfig.texture_tgts pcfg) =? 0)
     && has_texture_non_power_of_two ps
  then GL.GLX_TEXTURE_2D_EXT
  else if negb (Z.land GL.GLX_TEXTURE_RECTANGLE_BIT_EXT
                  (FBConfig.texture_tgts pcfg) =? 0)
  then GL.GLX_TEXTURE_RECTANGLE_EXT
  else if Z.land GL.GLX_TEXTURE_2D_BIT_EXT (FBConfig.texture_tgts pcfg) =? 0
  then GL.GLX_TEXTURE_RECTANGLE_EXT
  else GL.GLX_TEXTURE_2D_EXT.

Section WithConstants.

(** Constants of [common.h]. *)
Variable OPENGL_MAX_DEPTH : Z.
Variable BKEND_GLX : Z.
Variable BKEND_XR_GLX_HYBRID : Z.

Variable drv : GL.driver.

(** "Create GLX pixmap": the block run when [ptex->glpixmap] is 0.
    [inl] is an early [return false]. *)
Definition create_glx_pixmap (ps : session_t) (ptex : glx_texture_t)
    (pixmap width height depth : Z) (gl : GL.state)
    : outcome (GL.state + glx_texture_t * GL.state) :=
  (* Retrieve pixmap parameters, if they aren't provided *)
  let query := negb (negb (width =? 0) && negb (height =? 0)
                     && negb (depth =? 0)) in
  let gl := if query then GL.issue (GL.XGetGeometry pixmap) gl else gl in
  match (if query then GL.XGetGeometry_reply drv pixmap
         else Some (width, height, depth)) with
  | None => Returned (inl gl)
  | Some (width, height, depth) =>
      if query && (OPENGL_MAX_DEPTH <? depth) then Returned (inl gl)
      else
        do pcfg <-- c_index (fbconfigs ps) depth ;
        match pcfg with
        | None => Returned (inl gl)
        | Some pcfg =>
            let tex_tgt := choose_tex_tgt ps pcfg in
            let glpixmap := GL.glXCreatePixmap drv (GL.now gl) in
            let gl :=
              GL.issue (GL.XCreatePixmap (FBConfig.cfg pcfg) pixmap
                          (FBConfig.texture_fmt pcfg) tex_tgt) gl in
            Returned (inr
              ({| texture := texture ptex;
                  glpixmap := glpixmap;
                  pixmap := pixmap;
                  target := if tex_tgt =? GL.GLX_TEXTURE_2D_EXT
                            then GL.GL_TEXTURE_2D
                            else GL.GL_TEXTURE_RECTANGLE;
                  width := width;
                  height := height;
                  depth := depth;
                  y_inverted := FBConfig.y_inverted pcfg |}, gl))
        end
  end.

(** "Create texture": the block run when [ptex->texture] is 0. *)
Definition create_texture (ptex : glx_texture_t) (gl : GL.state)
    : glx_texture_t * GL.state :=
  let tex := GL.glGenTextures drv (GL.now gl) in
  let gl := GL.issue GL.GenTextures gl in
  let gl := GL.issue (GL.BindTexture (target ptex) tex) gl in
  let gl := GL.issue (GL.TexParameteri (target ptex)) gl in
  let gl := GL.issue (GL.TexParameteri (target ptex)) gl in
  let gl := GL.issue (GL.TexParameteri (target ptex)) gl in
  let gl := GL.issue (GL.TexParameteri (target ptex)) gl in
  let gl := GL.issue (GL.BindTexture (target ptex) 0) gl in
  ({| texture := tex; glpixmap := glpixmap ptex; pixmap := pixmap ptex;
      target := target ptex; width := width ptex; height := height ptex;
      depth := depth ptex; y_inverted := y_inverted ptex |}, gl).

(** [glx_bind_pixmap(ps, pptex, pixmap, width, height, depth)]: the
    returned flag, the binding left in [*pptex] and the GL context.
    ([cmalloc] is taken to succeed: [allocchk] ends the process
    otherwise.) *)
Definition glx_bind_pixmap (ps : session_t) (pptex : option glx_texture_t)
    (pixmap width height depth : Z) (gl : GL.state)
    : outcome (bool * option glx_texture_t * GL.state) :=
  if negb (backend ps =? BKEND_GLX)
     && negb (backend ps =? BKEND_XR_GLX_HYBRID)
  then Returned (true, pptex, gl)
  else if pixmap =? 0 then Returned (false, pptex, gl)
  else
    let need_release := true in
    (* Allocate structure *)
    let ptex := default GLX_TEX_DEF pptex in
    (* Release pixmap if parameters are inconsistent *)
    let '(ptex, gl) :=
      if negb (texture ptex =? 0) && negb (Pixmap.pixmap ptex =? pixmap)
      then glx_release_pixmap ptex gl else (ptex, gl) in
    (* Create GLX pixmap *)
    do created <--
      (if glpixmap ptex =? 0
       then do r <-- create_glx_pixmap ps ptex pixmap width height depth gl ;
            Returned (match r with
                      | inl gl => inl (ptex, gl)
                      | inr (ptex, gl) => inr (ptex, gl, false)
                      end)
       else Returned (inr (ptex, gl, need_release))) ;
    match created with
    | inl (ptex, gl) => Returned (false, Some ptex, gl)
    | inr (ptex, gl, need_release) =>
        if glpixmap ptex =? 0 then Returned (false, Some ptex, gl)
        else
          let gl := GL.glEnable (target ptex) gl in
          (* Create texture *)
          let '(ptex, gl, need_release) :=
            if texture ptex =? 0
            then let '(ptex, gl) := create_texture ptex gl in
                 (ptex, gl, false)
            else (ptex, gl, need_release) in
          if texture ptex =? 0 then Returned (false, Some ptex, gl)
          else
            let gl := GL.issue (GL.BindTexture (target ptex) (texture ptex)) gl in
            let gl :=
              if need_release
              then GL.issue (GL.XReleaseTexImage (glpixmap ptex)) gl
              else gl in
            let gl := GL.issue (GL.XBindTexImage (glpixmap ptex)) gl in
            (* Cleanup *)
            let gl := GL.issue (GL.BindTexture (target ptex) 0) gl in
            let gl := GL.glDisable (target ptex) gl in
            Returned (true, Some ptex, gl)
    end.

End WithConstants.

End Pixmap.

(** ** C strings and [sprintf]

    A [char] buffer holds a text and its terminating NUL. [sprintf] is
    part of the C library, not of [opengl.c]: what it writes for [%s] and
    [%d] is fixed by the C standard and written out here; what it writes
    for [%.7g] depends on the value of a [double] and is an input of the
    model. *)

Module CString.

(** [strlen] *)
Definition strlen (s : string) : Z := Z.of_nat (String.length s).

(** The line feed that ends a line of shader source. *)
Definition LF : string := String (Ascii.ascii_of_nat 10) EmptyString.

(** The conversion specifications that [opengl.c] uses. *)
Inductive conv : Type :=
| Conv_s      (* %s *)
| Conv_g7     (* %.7g *)
| Conv_d.     (* %d *)

(** A format is a sequence of literal text and conversions. *)
Inductive piece : Type :=
| Lit (s : string)
| Spec (c : conv).

Definition format : Type := list piece.

Definition conv_text (c : conv) : string :=
  match c with
  | Conv_s => "%s"
  | Conv_g7 => "%.7g"
  | Conv_d => "%d"
  end.

(** The format as the string literal of the source, which is what
    [strlen(format)] measures. *)
Fixpoint format_text (f : format) : string :=
  match f with
  | [] => ""
  | Lit s :: f => s ++ format_text f
  | Spec c :: f => conv_text c ++ format_text f
  end.

(** An argument of [sprintf]: a string, a [double] (the rational it
    denotes) or an [int]. *)
Inductive arg : Type :=
| Arg_s (s : string)
| Arg_g (d : Q)
| Arg_d (i : Z).

(** The decimal digits of [n], most significant first, in front of
    [acc]; an [int] has at most ten of them. *)
Fixpoint digits (fuel : nat) (n : Z) (acc : string) : string :=
  match fuel with
  | O => acc
  | S fuel' =>
      let acc := String (Ascii.ascii_of_nat (48 + Z.to_nat (n mod 10))) acc in
      if n <? 10 then acc else digits fuel' (n / 10) acc
  end.

(** [%d] of an [int]. *)
Definition printf_d (i : Z) : string :=
  if i <? 0 then ("-" ++ digits 10 (- i) "")%string else digits 10 i "".

Section WithLibc.

(** [%.7g] of a [double]. *)
Variable printf_g7 : Q -> string.

(** The text [sprintf(buf, f, args...)] writes. Every format of
    [opengl.c] is a literal with arguments of the types it asks for; a
    conversion without such an argument, which C leaves undefined, writes
    nothing here. *)
Fixpoint sprintf (f : format) (args : list arg) : string :=
  match f with
  | [] => ""
  | Lit s :: f => s ++ sprintf f args
  | Spec c :: f =>
      match c, args with
      | Conv_s, Arg_s s :: args => s ++ sprintf f args
      | Conv_g7, Arg_g d :: args => printf_g7 d ++ sprintf f args
      | Conv_d, Arg_d i :: args => printf_d i ++ sprintf f args
      | _, _ => sprintf f (tail args)
      end
  end.

(** [sprintf(pc, f, args...)] where [pc] points at the NUL that ends the
    text [buf] of a buffer of [len] bytes: the new text and its NUL must
    fit, writing past the end of the buffer is undefined. The result is
    the text in the buffer. *)
Definition sprintf_at (len : Z) (buf : string) (f : format) (args : list arg)
    : outcome string :=
  let buf := (buf ++ sprintf f args)%string in
  if strlen buf <? len then Returned buf else Undefined.

End WithLibc.

End CString.

(** ** Shader and program builder, blur initialisation *)

Module Shader.

Import CString.

(** [glx_blur_pass_t] *)
Record glx_blur_pass_t : Type := {
  frag_shader : Z;
  prog : Z;
  unifm_offset_x : Z;
  unifm_offset_y : Z;
  unifm_factor_center : Z;
  unifm_offset : Z;
  unifm_halfpixel : Z;
  unifm_fulltex : Z;
}.

(** [ps->o.blur_method]; [BLRMTHD_other] stands for every value the
    [switch] sends to [default]. *)
Inductive blur_method_t : Type :=
| BLRMTHD_CONV
| BLRMTHD_KAWASE
| BLRMTHD_other.

(** A kernel is an array of [xcb_render_fixed_t]: width, height, then
    the cells row by row. *)
Abbreviation kernel := (list Z).

Record session_t : Type := {
  blur_method : blur_method_t;
  blur_kerns : list (option kernel);   (* ps->o.blur_kerns[MAX_BLUR_PASS] *)
  glx_use_gpushader4 : bool;
  has_texture_non_power_of_two : bool;
  blur_passes : list glx_blur_pass_t;  (* ps->psglx->blur_passes[MAX_BLUR_PASS] *)
}.

Definition set_blur_passes (ps : session_t) (l : list glx_blur_pass_t)
    : session_t :=
  {| blur_method := blur_method ps; blur_kerns := blur_kerns ps;
     glx_use_gpushader4 := glx_use_gpushader4 ps;
     has_texture_non_power_of_two := has_texture_non_power_of_two ps;
     blur_passes := l |}.

(** The arguments of one
    [sprintf(pc, shader_add, val, texture_func, k - wid / 2, j - hei / 2)]. *)
Record blur_add : Type := {
  add_val : Q;
  add_texture_func : string;
  add_dx : Z;
  add_dy : Z;
}.

Definition add_args (t : blur_add) : list arg :=
  [Arg_g (add_val t); Arg_s (add_texture_func t);
   Arg_d (add_dx t); Arg_d (add_dy t)].

(** [FRAG_SHADER_BLUR_PREFIX] of [glx_init_conv_blur] *)
Definition FRAG_SHADER_BLUR_PREFIX : format :=
  [ Lit ("#version 110" ++ LF)%string;
    Spec Conv_s;
    Lit ("uniform float offset_x;" ++ LF ++ "uniform float offset_y;" ++
         LF ++ "uniform float factor_center;" ++ LF ++ "uniform ")%string;
    Spec Conv_s;
    Lit (" tex_scr;" ++ LF ++ LF ++ "void main() {" ++ LF ++
         "  vec4 sum = vec4(0.0, 0.0, 0.0, 0.0);" ++ LF)%string ].

(** [FRAG_SHADER_BLUR_ADD] *)
Definition FRAG_SHADER_BLUR_ADD : format :=
  [ Lit ("  sum += float(")%string;
    Spec Conv_g7;
    Lit (") * ")%string;
    Spec Conv_s;
    Lit ("(tex_scr, vec2(gl_TexCoord[0].x + offset_x * float(")%string;
    Spec Conv_d;
    Lit ("), gl_TexCoord[0].y + offset_y * float(")%string;
    Spec Conv_d;
    Lit (")));" ++ LF)%string ].

(** [FRAG_SHADER_BLUR_ADD_GPUSHADER4] *)
Definition FRAG_SHADER_BLUR_ADD_GPUSHADER4 : format :=
  [ Lit ("  sum += float(")%string;
    Spec Conv_g7;
    Lit (") * ")%string;
    Spec Conv_s;
    Lit ("Offset(tex_scr, vec2(gl_TexCoord[0].x, gl_TexCoord[0].y), ivec2(")%string;
    Spec Conv_d;
    Lit (", ")%string;
    Spec Conv_d;
    Lit ("));" ++ LF)%string ].

(** [FRAG_SHADER_BLUR_SUFFIX] *)
Definition FRAG_SHADER_BLUR_SUFFIX : format :=
  [ Lit ("  sum += ")%string;
    Spec Conv_s;
    Lit (
         "(tex_scr, vec2(gl_TexCoord[0].x, gl_TexCoord[0].y)) * factor_center;" ++
         LF ++ "  gl_FragColor = sum / (factor_center + float(")%string;
    Spec Conv_g7;
    Lit ("));" ++ LF ++ "}" ++ LF)%string ].

(** [FRAG_SHADER_PREFIX] of [glx_init_kawase_blur] *)
Definition FRAG_SHADER_PREFIX : format :=
  [ Lit ("#version 110" ++ LF)%string;
    Spec Conv_s;
    Lit ("uniform float offset;" ++ LF ++ "uniform vec2 halfpixel;" ++
         LF ++ "uniform vec2 fulltex;" ++ LF ++ "uniform ")%string;
    Spec Conv_s;
    Lit (" tex_scr;" ++ LF ++ "vec4 clamp_tex(vec2 uv)" ++ LF ++ "{" ++
         LF ++ "  return ")%string;
    Spec Conv_s;
    Lit ("(tex_scr, clamp(uv, vec2(0), fulltex));" ++ LF ++ "}" ++ LF ++
         LF ++ "void main()" ++ LF ++ "{" ++ LF ++
         "  vec2 uv = (gl_TexCoord[0].xy / fulltex);" ++ LF ++ "  " ++ LF)%string ].

(** [FRAG_SHADER_KAWASE_DOWN]: fragment shader (Dual Kawase Blur), downsample *)
Definition FRAG_SHADER_KAWASE_DOWN : format :=
  [ Lit ("  vec4 sum = clamp_tex(uv) * 4.0;" ++ LF ++
         "  sum += clamp_tex(uv - halfpixel.xy * offset);" ++ LF ++
         "  sum += clamp_tex(uv + halfpixel.xy * offset);" ++ LF ++
         "  sum += clamp_tex(uv + vec2(halfpixel.x, -halfpixel.y) * offset);" ++
         LF ++
         "  sum += clamp_tex(uv - vec2(halfpixel.x, -halfpixel.y) * offset);" ++
         LF ++ LF ++ "  gl_FragColor = sum / 8.0;" ++ LF ++ "}" ++ LF)%string ].

(** [FRAG_SHADER_KAWASE_UP]: fragment shader (Dual Kawase Blur), upsample *)
Definition FRAG_SHADER_KAWASE_UP : format :=
  [ Lit (
         "  vec4 sum = clamp_tex(uv + vec2(-halfpixel.x * 2.0, 0.0) * offset);" ++
         LF ++
         "  sum += clamp_tex(uv + vec2(-halfpixel.x, halfpixel.y) * offset) * 2.0;" ++
         LF ++
         "  sum += clamp_tex(uv + vec2(0.0, halfpixel.y * 2.0) * offset);" ++
         LF ++
         "  sum += clamp_tex(uv + vec2(halfpixel.x, halfpixel.y) * offset) * 2.0;" ++
         LF ++
         "  sum += clamp_tex(uv + vec2(halfpixel.x * 2.0, 0.0) * offset);" ++
         LF ++
         "  sum += clamp_tex(uv + vec2(halfpixel.x, -halfpixel.y) * offset) * 2.0;" ++
         LF ++
         "  sum += clamp_tex(uv + vec2(0.0, -halfpixel.y * 2.0) * offset);" ++
         LF ++
         "  sum += clamp_tex(uv + vec2(-halfpixel.x, -halfpixel.y) * offset) * 2.0;" ++
         LF ++ LF ++ "  gl_FragColor = sum / 12.0;" ++ LF ++ "}" ++ LF)%string ].

(** [(int) d] for a [double] [d]: truncation towards zero. *)
Definition int_of_double (d : Q) : Z := Z.quot (Qnum d) (Zpos (Qden d)).

Section WithConstants.

(** [XFIXED_TO_DOUBLE] of [common.h]: the [double] a fixed-point cell
    stands for. Doubles are modelled by the rationals they denote and
    [sum += val] by exact addition. *)
Variable XFIXED_TO_DOUBLE : Z -> Q.

(** [%.7g] of the C library. *)
Variable printf_g7 : Q -> string.

Variable MAX_BLUR_PASS : Z.

Variable drv : GL.driver.

(** [for (int k = 0; k < wid; ++k)] of row [j]; [n] counts the
    iterations left, [acc] is [sum] and the text in [shader_str], a
    buffer of [len] bytes. *)
Fixpoint add_row (kern : kernel) (shader_add : format) (texture_func : string)
    (len wid hei j : Z) (n : nat) (k : Z) (acc : Q * string)
    : outcome (Q * string) :=
  match n with
  | O => Returned acc
  | S n' =>
      if (Z.quot hei 2 =? j) && (Z.quot wid 2 =? k)
      then add_row kern shader_add texture_func len wid hei j n' (k + 1) acc
      else
        do cell <-- c_index kern (2 + j * wid + k) ;
        let val := XFIXED_TO_DOUBLE cell in
        if Qeq_bool 0 val
        then add_row kern shader_add texture_func len wid hei j n' (k + 1) acc
        else
          let sum := Qplus (fst acc) val in
          do shader_str <--
            sprintf_at printf_g7 len (snd acc) shader_add
              (add_args {| add_val := val;
                           add_texture_func := texture_func;
                           add_dx := k - Z.quot wid 2;
                           add_dy := j - Z.quot hei 2 |}) ;
          do _ <-- c_assert (strlen shader_str <? len) ;
          add_row kern shader_add texture_func len wid hei j n' (k + 1)
            (sum, shader_str)
  end.

(** [for (int j = 0; j < hei; ++j)] *)
Fixpoint add_rows (kern : kernel) (shader_add : format) (texture_func : string)
    (len wid hei : Z) (n : nat) (j : Z) (acc : Q * string)
    : outcome (Q * string) :=
  match n with
  | O => Returned acc
  | S n' =>
      do acc <--
        add_row kern shader_add texture_func len wid hei j (Z.to_nat wid) 0 acc ;
      add_rows kern shader_add texture_func len wid hei n' (j + 1) acc
  end.

(** The "Build shader" block of [glx_init_conv_blur] for one kernel: the
    text of [shader_str] that is handed to [glx_create_shader]. [len] is
    an [unsigned int] that receives a sum computed in [size_t], with the
    [int] [nele] converted to it: it is that sum modulo 2^32. ([ccalloc]
    is taken to succeed.) *)
Definition build_shader (ps : session_t) (kern : kernel) : outcome string :=
  let use_texture_rect := negb (has_texture_non_power_of_two ps) in
  let sampler_type :=
    if use_texture_rect then "sampler2DRect"%string else "sampler2D"%string in
  let texture_func :=
    if use_texture_rect then "texture2DRect"%string else "texture2D"%string in
  let shader_add := FRAG_SHADER_BLUR_ADD in
  let extension := ""%string in
  let extension :=
    if use_texture_rect
    then (extension ++ "#extension GL_ARB_texture_rectangle : require" ++ LF)%string
    else extension in
  let '(extension, shader_add) :=
    if glx_use_gpushader4 ps
    then ((extension ++ "#extension GL_EXT_gpu_shader4 : require" ++ LF)%string,
          FRAG_SHADER_BLUR_ADD_GPUSHADER4)
    else (extension, shader_add) in
  do k0 <-- c_index kern 0 ;
  do k1 <-- c_index kern 1 ;
  do wid <-- CInt.int_checked (int_of_double (XFIXED_TO_DOUBLE k0)) ;
  do hei <-- CInt.int_checked (int_of_double (XFIXED_TO_DOUBLE k1)) ;
  do area <-- CInt.int_checked (wid * hei) ;
  do nele <-- CInt.int_checked (area - 1) ;
  let len :=
    (strlen (format_text FRAG_SHADER_BLUR_PREFIX)
     + strlen sampler_type
     + strlen extension
     + (strlen (format_text shader_add) + strlen texture_func + 42) * nele
     + strlen (format_text FRAG_SHADER_BLUR_SUFFIX)
     + strlen texture_func + 12 + 1) mod 2 ^ 32 in
  do shader_str <--
    sprintf_at printf_g7 len "" FRAG_SHADER_BLUR_PREFIX
      [Arg_s extension; Arg_s sampler_type] ;
  do _ <-- c_assert (strlen shader_str <? len) ;
  do (sum, shader_str) <--
    add_rows kern shader_add texture_func len wid hei (Z.to_nat hei) 0
      (0%Q, shader_str) ;
  do shader_str <--
    sprintf_at printf_g7 len shader_str FRAG_SHADER_BLUR_SUFFIX
      [Arg_s texture_func; Arg_g sum] ;
  do _ <-- c_assert (strlen shader_str <? len) ;
  Returned shader_str.

(** [glx_create_shader]: the shader name, 0 on failure. *)
Definition glx_create_shader (shader_type : GL.GLenum) (shader_str : string)
    (gl : GL.state) : Z * GL.state :=
  let shader := GL.glCreateShader drv (GL.now gl) in
  let gl := GL.issue (GL.CreateShader shader_type) gl in
  if shader =? 0 then (0, gl)
  else
    let gl := GL.issue (GL.ShaderSource shader shader_str) gl in
    let gl := GL.issue (GL.CompileShader shader) gl in
    (* Get shader status *)
    let status := GL.compile_status drv (GL.now gl) in
    let gl := GL.issue (GL.GetShaderiv shader) gl in
    if status then (shader, gl)
    else (0, GL.issue (GL.DeleteShader shader) gl).

(** [glx_create_program] *)
Definition glx_create_program (shaders : list Z) (gl : GL.state)
    : Z * GL.state :=
  let program := GL.glCreateProgram drv (GL.now gl) in
  let gl := GL.issue GL.CreateProgram gl in
  if program =? 0 then (0, gl)
  else
    let gl := fold_left (fun g s => GL.issue (GL.AttachShader program s) g)
                shaders gl in
    let gl := GL.issue (GL.LinkProgram program) gl in
    (* Get program status *)
    let status := GL.link_status drv (GL.now gl) in
    let gl := GL.issue (GL.GetProgramiv program) gl in
    let gl := fold_left (fun g s => GL.issue (GL.DetachShader program s) g)
                shaders gl in
    if status then (program, gl)
    else (0, GL.issue (GL.DeleteProgram program) gl).

(** [ppass->target = glGetUniformLocation(ppass->prog, name)] *)
Definition get_unifm_loc (prog : Z) (gl : GL.state) : Z * GL.state :=
  (GL.glGetUniformLocation drv (GL.now gl),
   GL.issue (GL.GetUniformLocation prog) gl).

(** One turn of [for (int i = 0; i < MAX_BLUR_PASS && ps->o.blur_kerns[i]; ++i)]
    for the kernel [kern]: [inl] is a [return false]. *)
Definition conv_pass (ps : session_t) (i : Z) (kern : kernel)
    (gl : GL.state) : outcome (session_t * GL.state + session_t * GL.state) :=
  do ppass <-- c_index (blur_passes ps) i ;
  (* Build shader *)
  do shader_str <-- build_shader ps kern ;
  let '(fs, gl) := glx_create_shader GL.GL_FRAGMENT_SHADER shader_str gl in
  let store p := set_blur_passes ps (<[Z.to_nat i := p]> (blur_passes ps)) in
  let ppass :=
    {| frag_shader := fs; prog := prog ppass;
       unifm_offset_x := unifm_offset_x ppass;
       unifm_offset_y := unifm_offset_y ppass;
       unifm_factor_center := unifm_factor_center ppass;
       unifm_offset := unifm_offset ppass;
       unifm_halfpixel := unifm_halfpixel ppass;
       unifm_fulltex := unifm_fulltex ppass |} in
  if fs =? 0 then Returned (inl (store ppass, gl))
  else
    (* Build program *)
    let '(pr, gl) := glx_create_program [fs] gl in
    let ppass :=
      {| frag_shader := fs; prog := pr;
         unifm_offset_x := unifm_offset_x ppass;
         unifm_offset_y := unifm_offset_y ppass;
         unifm_factor_center := unifm_factor_center ppass;
         unifm_offset := unifm_offset ppass;
         unifm_halfpixel := unifm_halfpixel ppass;
         unifm_fulltex := unifm_fulltex ppass |} in
    if pr =? 0 then Returned (inl (store ppass, gl))
    else
      (* Get uniform addresses *)
      let '(fc, gl) := get_unifm_loc pr gl in
      let '(ox, oy, gl) :=
        if negb (glx_use_gpushader4 ps)
        then let '(ox, gl) := get_unifm_loc pr gl in
             let '(oy, gl) := get_unifm_loc pr gl in
             (ox, oy, gl)
        else (unifm_offset_x ppass, unifm_offset_y ppass, gl) in
      Returned (inr (store
        {| frag_shader := fs; prog := pr;
           unifm_offset_x := ox;
           unifm_offset_y := oy;
           unifm_factor_center := fc;
           unifm_offset := unifm_offset ppass;
           unifm_halfpixel := unifm_halfpixel ppass;
           unifm_fulltex := unifm_fulltex ppass |}, gl)).

(** The loop over the kernels; [kerns] is what is left of
    [ps->o.blur_kerns] from index [i] on. *)
Fixpoint conv_passes (ps : session_t) (i : Z) (kerns : list (option kernel))
    (gl : GL.state) : outcome (bool * session_t * GL.state) :=
  if negb (i <? MAX_BLUR_PASS) then Returned (true, ps, gl)
  else
    match kerns with
    | [] => Undefined
    | None :: _ => Returned (true, ps, gl)
    | Some kern :: rest =>
        do r <-- conv_pass ps i kern gl ;
        match r with
        | inl (ps, gl) => Returned (false, ps, gl)
        | inr (ps, gl) => conv_passes ps (i + 1) rest gl
        end
    end.

(** [glx_init_conv_blur] (the [LC_NUMERIC] switch and [glx_check_err]
    left out). *)
Definition glx_init_conv_blur (ps : session_t) (gl : GL.state)
    : outcome (bool * session_t * GL.state) :=
  do k0 <-- c_index (blur_kerns ps) 0 ;
  do _ <-- c_assert (bool_decide (k0 <> None)) ;
  (* Allocate PBO if more than one blur kernel is present *)
  do k1 <-- c_index (blur_kerns ps) 1 ;
  do r <--
    (match k1 with
     | Some _ =>
         (* Try to generate a framebuffer *)
         let fbo := GL.glGenFramebuffers drv (GL.now gl) in
         let gl := GL.issue GL.GenFramebuffers gl in
         if fbo =? 0 then Returned (inl gl)
         else Returned (inr (GL.issue (GL.DeleteFramebuffers fbo) gl))
     | None => Returned (inr gl)
     end) ;
  match r with
  | inl gl => Returned (false, ps, gl)
  | inr gl => conv_passes ps 0 (blur_kerns ps) gl
  end.

(** The text of [shader_str] in one of the two blocks of
    [glx_init_kawase_blur]; [body] is [FRAG_SHADER_KAWASE_DOWN] or
    [FRAG_SHADER_KAWASE_UP]. [len] is an [int]. ([calloc] taken to
    succeed.) *)
Definition kawase_shader (ps : session_t) (body : format) : outcome string :=
  let use_texture_rect := negb (has_texture_non_power_of_two ps) in
  let sampler_type :=
    if use_texture_rect then "sampler2DRect"%string else "sampler2D"%string in
  let texture_func :=
    if use_texture_rect then "texture2DRect"%string else "texture2D"%string in
  let extension := ""%string in
  let extension :=
    if use_texture_rect
    then (extension ++ "#extension GL_ARB_texture_rectangle : require" ++ LF)%string
    else extension in
  do len <--
    CInt.int_checked
      (strlen (format_text FRAG_SHADER_PREFIX) + strlen extension
       + strlen sampler_type + strlen texture_func
       + strlen (format_text body) + 1) ;
  do shader_str <--
    sprintf_at printf_g7 len "" FRAG_SHADER_PREFIX
      [Arg_s extension; Arg_s sampler_type; Arg_s texture_func] ;
  do _ <-- c_assert (strlen shader_str <? len) ;
  do shader_str <-- sprintf_at printf_g7 len shader_str body [] ;
  do _ <-- c_assert (strlen shader_str <? len) ;
  Returned shader_str.

(** One of the two programs of [glx_init_kawase_blur], built into
    [blur_passes[i]] from the shader text that ends with [body]: [inl] is
    a [return false]. *)
Definition kawase_pass (ps : session_t) (i : Z) (body : format)
    (gl : GL.state)
    : outcome (session_t * GL.state + session_t * GL.state) :=
  do pass <-- c_index (blur_passes ps) i ;
  let store p := set_blur_passes ps (<[Z.to_nat i := p]> (blur_passes ps)) in
  do shader_str <-- kawase_shader ps body ;
  let '(fs, gl) := glx_create_shader GL.GL_FRAGMENT_SHADER shader_str gl in
  let pass :=
    {| frag_shader := fs; prog := prog pass;
       unifm_offset_x := unifm_offset_x pass;
       unifm_offset_y := unifm_offset_y pass;
       unifm_factor_center := unifm_factor_center pass;
       unifm_offset := unifm_offset pass;
       unifm_halfpixel := unifm_halfpixel pass;
       unifm_fulltex := unifm_fulltex pass |} in
  if fs =? 0 then Returned (inl (store pass, gl))
  else
    (* Build program *)
    let '(pr, gl) := glx_create_program [fs] gl in
    let pass :=
      {| frag_shader := fs; prog := pr;
         unifm_offset_x := unifm_offset_x pass;
         unifm_offset_y := unifm_offset_y pass;
         unifm_factor_center := unifm_factor_center pass;
         unifm_offset := unifm_offset pass;
         unifm_halfpixel := unifm_halfpixel pass;
         unifm_fulltex := unifm_fulltex pass |} in
    if pr =? 0 then Returned (inl (store pass, gl))
    else
      (* Get uniform addresses *)
      let '(off, gl) := get_unifm_loc pr gl in
      let '(hp, gl) := get_unifm_loc pr gl in
      let '(ft, gl) := get_unifm_loc pr gl in
      Returned (inr (store
        {| frag_shader := fs; prog := pr;
           unifm_offset_x := unifm_offset_x pass;
           unifm_offset_y := unifm_offset_y pass;
           unifm_factor_center := unifm_factor_center pass;
           unifm_offset := off;
           unifm_halfpixel := hp;
           unifm_fulltex := ft |}, gl)).

(** [glx_init_kawase_blur] ([calloc] taken to succeed). *)
Definition glx_init_kawase_blur (ps : session_t) (gl : GL.state)
    : outcome (bool * session_t * GL.state) :=
  (* Try to generate a framebuffer *)
  let fbo := GL.glGenFramebuffers drv (GL.now gl) in
  let gl := GL.issue GL.GenFramebuffers gl in
  if fbo =? 0 then Returned (false, ps, gl)
  else
    let gl := GL.issue (GL.DeleteFramebuffers fbo) gl in
    (* Build kawase downsample shader *)
    do down <-- kawase_pass ps 0 FRAG_SHADER_KAWASE_DOWN gl ;
    match down with
    | inl (ps, gl) => Returned (false, ps, gl)
    | inr (ps, gl) =>
        (* Build kawase upsample shader *)
        do up <-- kawase_pass ps 1 FRAG_SHADER_KAWASE_UP gl ;
        match up with
        | inl (ps, gl) => Returned (false, ps, gl)
        | inr (ps, gl) => Returned (true, ps, gl)
        end
    end.

(** [glx_init_blur] *)
Definition glx_init_blur (ps : session_t) (gl : GL.state)
    : outcome (bool * session_t * GL.state) :=
  match blur_method ps with
  | BLRMTHD_CONV => glx_init_conv_blur ps gl
  | BLRMTHD_KAWASE => glx_init_kawase_blur ps gl
  | BLRMTHD_other => Returned (false, ps, gl)
  end.

End WithConstants.

End Shader.

(** ** Blur engine *)

Module Blur.

Import Shader.

(** [glx_blur_cache_t] of [opengl.h]: one framebuffer object and the
    scratch textures, sized [width] x [height]. *)
Record glx_blur_cache_t : Type := {
  fbo : Z;
  textures : list Z;
  width : Z;
  height : Z;
}.

(** The session fields the two blur operations read. *)
Record session_t : Type := {
  blur_passes : list glx_blur_pass_t;
  has_texture_non_power_of_two : bool;
  root_height : Z;
  iterations : Z;                      (* ps->o.blur_strength.iterations *)
}.

Definition set_textures (pbc : glx_blur_cache_t) (l : list Z)
    : glx_blur_cache_t :=
  {| fbo := fbo pbc; textures := l; width := width pbc; height := height pbc |}.

Definition set_size (pbc : glx_blur_cache_t) (w h : Z) : glx_blur_cache_t :=
  {| fbo := fbo pbc; textures := textures pbc; width := w; height := h |}.

Definition set_fbo (pbc : glx_blur_cache_t) (f : Z) : glx_blur_cache_t :=
  {| fbo := f; textures := textures pbc; width := width pbc; height := height pbc |}.

(** [pbc->textures[i] = tex]: a write past the array is undefined. *)
Definition store_texture (pbc : glx_blur_cache_t) (i : Z) (tex : Z)
    : outcome glx_blur_cache_t :=
  do _ <-- c_index (textures pbc) i ;
  Returned (set_textures pbc (<[Z.to_nat i := tex]> (textures pbc))).

(** Modelled from the spec: [free_glx_bc_resize] is defined in
    [opengl.h], outside the sources at hand. The textures of a cache are
    resized together, and the stale ones are freed before new ones are
    allocated for a new size: every texture is deleted and the recorded
    size is reset. *)
Definition free_glx_bc_resize (pbc : glx_blur_cache_t) (gl : GL.state)
    : glx_blur_cache_t * GL.state :=
  ({| fbo := fbo pbc; textures := map (fun _ => 0) (textures pbc);
      width := 0; height := 0 |},
   fold_left (fun g t => if t =? 0 then g else GL.issue (GL.DeleteTextures t) g)
     (textures pbc) gl).

(** Modelled from the spec: [free_glx_bc] is defined in [opengl.h],
    outside the sources at hand. A cache is freed as a whole: the
    framebuffer object, then the textures. *)
Definition free_glx_bc (pbc : glx_blur_cache_t) (gl : GL.state)
    : glx_blur_cache_t * GL.state :=
  let gl := if fbo pbc =? 0 then gl
            else GL.issue (GL.DeleteFramebuffers (fbo pbc)) gl in
  free_glx_bc_resize (set_fbo pbc 0) gl.

(** [if (loc >= 0) glUniform...(loc, ...)] *)
Definition uniform_if (loc : Z) (gl : GL.state) : GL.state :=
  if 0 <=? loc then GL.issue (GL.Uniform loc) gl else gl.

(** [P_PAINTREG_START] ... [P_PAINTREG_END]: one quad for every
    rectangle of [reg_tgt] inside the blurred rectangle. *)
Definition paint_region (dx dy width height : Z) (gl : GL.state) : GL.state :=
  GL.issue (GL.Quads dx dy width height) gl.

Section WithConstants.

Variable MAX_BLUR_PASS : Z.
Variable drv : GL.driver.

(** [glx_gen_texture] *)
Definition glx_gen_texture (tex_tgt : GL.GLenum) (width height : Z)
    (gl : GL.state) : Z * GL.state :=
  let tex := GL.glGenTextures drv (GL.now gl) in
  let gl := GL.issue GL.GenTextures gl in
  if tex =? 0 then (0, gl)
  else
    let gl := GL.glEnable tex_tgt gl in
    let gl := GL.issue (GL.BindTexture tex_tgt tex) gl in
    let gl := GL.issue (GL.TexParameteri tex_tgt) gl in
    let gl := GL.issue (GL.TexParameteri tex_tgt) gl in
    let gl := GL.issue (GL.TexParameteri tex_tgt) gl in
    let gl := GL.issue (GL.TexParameteri tex_tgt) gl in
    let gl := GL.issue (GL.TexImage2D tex_tgt width height) gl in
    let gl := GL.issue (GL.BindTexture tex_tgt 0) gl in
    (tex, gl).

(** [glx_copy_region_to_tex] *)
Definition glx_copy_region_to_tex (ps : session_t) (tex_tgt : GL.GLenum)
    (basex basey dx dy width height : Z) (gl : GL.state) : GL.state :=
  if (0 <? width) && (0 <? height)
  then GL.issue (GL.CopyTexSubImage2D tex_tgt (dx - basex) (dy - basey)
                   dx (root_height ps - dy - height) width height) gl
  else gl.

(** [if (!pbc->textures[i]) pbc->textures[i] = glx_gen_texture(...)] *)
Definition ensure_texture (pbc : glx_blur_cache_t) (i : Z)
    (tex_tgt : GL.GLenum) (width height : Z) (gl : GL.state)
    : outcome (glx_blur_cache_t * GL.state) :=
  do t <-- c_index (textures pbc) i ;
  if t =? 0
  then let '(tex, gl) := glx_gen_texture tex_tgt width height gl in
       do pbc <-- store_texture pbc i tex ;
       Returned (pbc, gl)
  else Returned (pbc, gl).

(** [if (have_scissors) glEnable(GL_SCISSOR_TEST);
     if (have_stencil) glEnable(GL_STENCIL_TEST);] *)
Definition reenable_tests (have_scissors have_stencil : bool)
    (gl : GL.state) : GL.state :=
  let gl := if have_scissors then GL.glEnable GL.GL_SCISSOR_TEST gl else gl in
  if have_stencil then GL.glEnable GL.GL_STENCIL_TEST gl else gl.

(** The code after the labels [glx_conv_blur_dst_end] and
    [glx_kawase_blur_dst_end]; [own] tells that the cache is the local
    [ibc]. The caller's cache is handed back, the local one is freed. *)
Definition blur_dst_end (tex_tgt : GL.GLenum)
    (have_scissors have_stencil : bool) (own : bool) (ret : bool)
    (pbc : glx_blur_cache_t) (gl : GL.state)
    : bool * option glx_blur_cache_t * GL.state :=
  let gl := GL.issue (GL.BindFramebuffer 0) gl in
  let gl := GL.issue (GL.BindTexture tex_tgt 0) gl in
  let gl := GL.glDisable tex_tgt gl in
  let gl := reenable_tests have_scissors have_stencil gl in
  if own
  then let '(_, gl) := free_glx_bc pbc gl in (ret, None, gl)
  else (ret, Some pbc, gl).

(** The pass loop of [glx_conv_blur_dst],
    [for (int i = 0; !last_pass; ++i)]: [ppass] is [blur_passes[i]] and
    [rest] the passes after it. The result is [false] after a failed
    framebuffer attachment ([goto glx_conv_blur_dst_end]). *)
Fixpoint conv_loop (dx dy width height : Z) (tex_tgt : GL.GLenum)
    (have_scissors have_stencil : bool) (fbo : Z) (i : Z)
    (ppass : glx_blur_pass_t) (rest : list glx_blur_pass_t)
    (tex_scr tex_scr2 : Z) (gl : GL.state) : outcome (bool * GL.state) :=
  match rest with
  | [] => Undefined
  | next :: rest' =>
      let last_pass := prog next =? 0 in
      do _ <-- c_assert (i <? MAX_BLUR_PASS - 1) ;
      do _ <-- c_assert (negb (prog ppass =? 0)) ;
      do _ <-- c_assert (negb (tex_scr =? 0)) ;
      let gl := GL.issue (GL.BindTexture tex_tgt tex_scr) gl in
      let attach :=
        if negb last_pass
        then
          let gl := GL.issue (GL.BindFramebuffer fbo) gl in
          let gl := GL.issue (GL.FramebufferTexture2D tex_scr2) gl in
          let gl := GL.issue GL.DrawBuffers gl in
          let status := GL.glCheckFramebufferStatus drv (GL.now gl) in
          let gl := GL.issue GL.CheckFramebufferStatus gl in
          if negb (status =? GL.GL_FRAMEBUFFER_COMPLETE) then inl gl
          else inr gl
        else
          let gl := GL.issue (GL.BindFramebuffer 0) gl in
          let gl := GL.issue GL.DrawBuffers gl in
          inr (reenable_tests have_scissors have_stencil gl) in
      match attach with
      | inl gl => Returned (false, gl)
      | inr gl =>
          let gl := GL.issue GL.TexEnvi gl in
          let gl := GL.issue (GL.UseProgram (prog ppass)) gl in
          let gl := uniform_if (unifm_offset_x ppass) gl in
          let gl := uniform_if (unifm_offset_y ppass) gl in
          let gl := uniform_if (unifm_factor_center ppass) gl in
          let gl := paint_region dx dy width height gl in
          let gl := GL.issue (GL.UseProgram 0) gl in
          (* Swap tex_scr and tex_scr2 *)
          if last_pass then Returned (true, gl)
          else conv_loop dx dy width height tex_tgt have_scissors
                 have_stencil fbo (i + 1) next rest' tex_scr2 tex_scr gl
      end
  end.

(** [glx_conv_blur_dst(ps, dx, dy, width, height, z, factor_center,
    reg_tgt, pbc)]: the returned flag, the caller's cache and the GL
    context ([glx_check_err] only reports). *)
Definition glx_conv_blur_dst (ps : session_t) (dx dy width height : Z)
    (pbc : option glx_blur_cache_t) (gl : GL.state)
    : outcome (bool * option glx_blur_cache_t * GL.state) :=
  do pass1 <-- c_index (blur_passes ps) 1 ;
  let more_passes := negb (prog pass1 =? 0) in
  let have_scissors := GL.glIsEnabled GL.GL_SCISSOR_TEST gl in
  let have_stencil := GL.glIsEnabled GL.GL_STENCIL_TEST gl in
  (* Calculate copy region size *)
  let own := bool_decide (pbc = None) in
  let ibc := {| fbo := 0; textures := replicate (Z.to_nat MAX_BLUR_PASS) 0;
                width := 0; height := 0 |} in
  let pbc := default ibc pbc in
  let mdx := dx in
  let mdy := dy in
  let mwidth := width in
  let mheight := height in
  let tex_tgt :=
    if has_texture_non_power_of_two ps then GL.GL_TEXTURE_2D
    else GL.GL_TEXTURE_RECTANGLE in
  (* Free textures if size inconsistency discovered *)
  let '(pbc, gl) :=
    if negb (mwidth =? Blur.width pbc) || negb (mheight =? Blur.height pbc)
    then free_glx_bc_resize pbc gl else (pbc, gl) in
  (* Generate FBO and textures if needed *)
  do (pbc, gl) <-- ensure_texture pbc 0 tex_tgt mwidth mheight gl ;
  do tex_scr <-- c_index (textures pbc) 0 ;
  do (pbc, gl) <--
    (if more_passes then ensure_texture pbc 1 tex_tgt mwidth mheight gl
     else Returned (pbc, gl)) ;
  let pbc := set_size pbc mwidth mheight in
  do tex_scr2 <-- c_index (textures pbc) 1 ;
  let '(pbc, gl) :=
    if more_passes && (fbo pbc =? 0)
    then (set_fbo pbc (GL.glGenFramebuffers drv (GL.now gl)),
          GL.issue GL.GenFramebuffers gl)
    else (pbc, gl) in
  let fbo := Blur.fbo pbc in
  if (tex_scr =? 0) || (more_passes && (tex_scr2 =? 0))
  then Returned (blur_dst_end tex_tgt have_scissors have_stencil own false pbc gl)
  else if more_passes && (fbo =? 0)
  then Returned (blur_dst_end tex_tgt have_scissors have_stencil own false pbc gl)
  else
    (* Read destination pixels into a texture *)
    let gl := GL.glEnable tex_tgt gl in
    let gl := GL.issue (GL.BindTexture tex_tgt tex_scr) gl in
    let gl := glx_copy_region_to_tex ps tex_tgt mdx mdy mdx mdy mwidth mheight gl in
    (* Paint it back *)
    let gl :=
      if more_passes
      then GL.glDisable GL.GL_SCISSOR_TEST (GL.glDisable GL.GL_STENCIL_TEST gl)
      else gl in
    match blur_passes ps with
    | [] => Undefined
    | pass0 :: rest =>
        do (ret, gl) <--
          conv_loop dx dy width height tex_tgt have_scissors have_stencil
            fbo 0 pass0 rest tex_scr tex_scr2 gl ;
        Returned (blur_dst_end tex_tgt have_scissors have_stencil own ret pbc gl)
    end.

(** [while ((mwidth / (1 << (iterations-1))) < 1
           || (mheight / (1 << (iterations-1))) < 1)
      --iterations;]
    [n] bounds the number of turns left. From [iterations <= 0] on the
    shift is undefined, so that [Z.to_nat iterations] turns are all
    the loop can take. *)
Fixpoint reduce_iterations (n : nat) (mwidth mheight iterations : Z)
    : outcome Z :=
  do p <-- CInt.int_shl1 (iterations - 1) ;
  if (Z.quot mwidth p <? 1) || (Z.quot mheight p <? 1)
  then match n with
       | O => Undefined
       | S n' => reduce_iterations n' mwidth mheight (iterations - 1)
       end
  else Returned iterations.

(** "Check if we can scale down blur_strength.iterations" *)
Definition kawase_iterations (mwidth mheight iterations : Z) : outcome Z :=
  reduce_iterations (Z.to_nat iterations) mwidth mheight iterations.

(** [for (int i = 1; i <= iterations; i++)
      if (!pbc->textures[i])
        pbc->textures[i] = glx_gen_texture(ps, tex_tgt,
          mwidth / (1 << (i-1)), mheight / (1 << (i-1)));] *)
Fixpoint kawase_gen_textures (tex_tgt : GL.GLenum) (mwidth mheight : Z)
    (n : nat) (i : Z) (pbc : glx_blur_cache_t) (gl : GL.state)
    : outcome (glx_blur_cache_t * GL.state) :=
  match n with
  | O => Returned (pbc, gl)
  | S n' =>
      do t <-- c_index (textures pbc) i ;
      do (pbc, gl) <--
        (if t =? 0
         then do p <-- CInt.int_shl1 (i - 1) ;
              let '(tex, gl) :=
                glx_gen_texture tex_tgt (Z.quot mwidth p) (Z.quot mheight p) gl in
              do pbc <-- store_texture pbc i tex ;
              Returned (pbc, gl)
         else Returned (pbc, gl)) ;
      kawase_gen_textures tex_tgt mwidth mheight n' (i + 1) pbc gl
  end.

(** [for (int i = 1; i <= iterations; i++) if (!pbc->textures[i]) goto ...]:
    [true] when every texture is there. *)
Fixpoint kawase_textures_ok (pbc : glx_blur_cache_t) (n : nat) (i : Z)
    : outcome bool :=
  match n with
  | O => Returned true
  | S n' =>
      do t <-- c_index (textures pbc) i ;
      if t =? 0 then Returned false
      else kawase_textures_ok pbc n' (i + 1)
  end.

(** Bind [fbo] with [tex_dest] attached: [inl] when the framebuffer is
    not complete. *)
Definition attach_fbo (fbo tex_dest : Z) (gl : GL.state)
    : GL.state + GL.state :=
  let gl := GL.issue (GL.BindFramebuffer fbo) gl in
  let gl := GL.issue (GL.FramebufferTexture2D tex_dest) gl in
  let gl := GL.issue GL.DrawBuffers gl in
  let status := GL.glCheckFramebufferStatus drv (GL.now gl) in
  let gl := GL.issue GL.CheckFramebufferStatus gl in
  if negb (status =? GL.GL_FRAMEBUFFER_COMPLETE) then inl gl else inr gl.

(** [glUseProgram] and the three uniforms of a kawase pass, then the
    quads. *)
Definition kawase_draw (pass : glx_blur_pass_t) (dx dy width height : Z)
    (gl : GL.state) : GL.state :=
  let gl := GL.issue GL.TexEnvi gl in
  let gl := GL.issue (GL.UseProgram (prog pass)) gl in
  let gl := uniform_if (unifm_offset pass) gl in
  let gl := uniform_if (unifm_halfpixel pass) gl in
  let gl := uniform_if (unifm_fulltex pass) gl in
  paint_region dx dy width height gl.

(** "First pass(es): Kawase Downsample",
    [for (int i = 1; i <= iterations; i++)]; [false] after a failed
    attachment. *)
Fixpoint kawase_down (ps : session_t) (dx dy width height : Z)
    (tex_tgt : GL.GLenum) (pbc : glx_blur_cache_t) (n : nat) (i : Z)
    (gl : GL.state) : outcome (bool * GL.state) :=
  match n with
  | O => Returned (true, gl)
  | S n' =>
      do down_pass <-- c_index (blur_passes ps) 0 ;
      do _ <-- c_assert (negb (prog down_pass =? 0)) ;
      do _ <-- CInt.int_shl1 (i - 1) ;
      do tex_src2 <-- c_index (textures pbc) (i - 1) ;
      do tex_dest <-- c_index (textures pbc) i ;
      do _ <-- c_assert (negb (tex_src2 =? 0)) ;
      do _ <-- c_assert (negb (tex_dest =? 0)) ;
      let gl := GL.issue (GL.BindTexture tex_tgt tex_src2) gl in
      match attach_fbo (fbo pbc) tex_dest gl with
      | inl gl => Returned (false, gl)
      | inr gl =>
          let gl := kawase_draw down_pass dx dy width height gl in
          kawase_down ps dx dy width height tex_tgt pbc n' (i + 1) gl
      end
  end.

(** "Second pass(es): Kawase Upsample",
    [for (int i = iterations; i >= 1; i--)], with [i = n]. For [i = 1]
    the source computes [1 << (i-2)] into [tex_width] and overwrites
    it at once; the model does not evaluate that dead shift. *)
Fixpoint kawase_up (ps : session_t) (dx dy width height : Z)
    (tex_tgt : GL.GLenum) (have_scissors have_stencil : bool)
    (pbc : glx_blur_cache_t) (n : nat) (gl : GL.state)
    : outcome (bool * GL.state) :=
  match n with
  | O => Returned (true, gl)
  | S n' =>
      let i := Z.of_nat n in
      do up_pass <-- c_index (blur_passes ps) 1 ;
      let is_last := i =? 1 in
      do _ <-- c_assert (negb (prog up_pass =? 0)) ;
      do _ <-- (if is_last then Returned 1 else CInt.int_shl1 (i - 2)) ;
      do tex_src2 <-- c_index (textures pbc) i ;
      do tex_dest <-- c_index (textures pbc) (i - 1) ;
      do _ <-- c_assert (negb (tex_src2 =? 0)) ;
      do _ <-- c_assert (negb (tex_dest =? 0)) ;
      let gl := GL.issue (GL.BindTexture tex_tgt tex_src2) gl in
      let attach :=
        if negb is_last then attach_fbo (fbo pbc) tex_dest gl
        else
          let gl := GL.issue (GL.BindFramebuffer 0) gl in
          let gl := GL.issue GL.DrawBuffers gl in
          inr (reenable_tests have_scissors have_stencil gl) in
      match attach with
      | inl gl => Returned (false, gl)
      | inr gl =>
          let gl := kawase_draw up_pass dx dy width height gl in
          kawase_up ps dx dy width height tex_tgt have_scissors
            have_stencil pbc n' gl
      end
  end.

(** [glx_kawase_blur_dst(ps, dx, dy, width, height, z, reg_tgt, pbc)] *)
Definition glx_kawase_blur_dst (ps : session_t) (dx dy width height : Z)
    (pbc : option glx_blur_cache_t) (gl : GL.state)
    : outcome (bool * option glx_blur_cache_t * GL.state) :=
  let have_scissors := GL.glIsEnabled GL.GL_SCISSOR_TEST gl in
  let have_stencil := GL.glIsEnabled GL.GL_STENCIL_TEST gl in
  let iterations := iterations ps in
  (* Calculate copy region size *)
  let own := bool_decide (pbc = None) in
  let ibc := {| fbo := 0; textures := replicate (Z.to_nat MAX_BLUR_PASS) 0;
                width := 0; height := 0 |} in
  let pbc := default ibc pbc in
  let mdx := dx in
  let mdy := dy in
  let mwidth := width in
  let mheight := height in
  let tex_tgt :=
    if has_texture_non_power_of_two ps then GL.GL_TEXTURE_2D
    else GL.GL_TEXTURE_RECTANGLE in
  (* Free textures if size inconsistency discovered *)
  let '(pbc, gl) :=
    if negb (mwidth =? Blur.width pbc) || negb (mheight =? Blur.height pbc)
    then free_glx_bc_resize pbc gl else (pbc, gl) in
  (* Generate FBO and textures if needed *)
  do (pbc, gl) <-- ensure_texture pbc 0 tex_tgt mwidth mheight gl ;
  do tex_scr <-- c_index (textures pbc) 0 ;
  (* Check if we can scale down blur_strength.iterations *)
  do iterations <-- kawase_iterations mwidth mheight iterations ;
  do _ <-- c_assert (iterations <? MAX_BLUR_PASS) ;
  do (pbc, gl) <--
    kawase_gen_textures tex_tgt mwidth mheight (Z.to_nat iterations) 1 pbc gl ;
  let pbc := set_size pbc mwidth mheight in
  let '(pbc, gl) :=
    if fbo pbc =? 0
    then (set_fbo pbc (GL.glGenFramebuffers drv (GL.now gl)),
          GL.issue GL.GenFramebuffers gl)
    else (pbc, gl) in
  let finish := blur_dst_end tex_tgt have_scissors have_stencil own in
  if tex_scr =? 0 then Returned (finish false pbc gl)
  else
    do ok <-- kawase_textures_ok pbc (Z.to_nat iterations) 1 ;
    if negb ok then Returned (finish false pbc gl)
    else if fbo pbc =? 0 then Returned (finish false pbc gl)
    else
      (* Read destination pixels into a texture *)
      let gl := GL.glEnable tex_tgt gl in
      let gl := GL.issue (GL.BindTexture tex_tgt tex_scr) gl in
      let gl := glx_copy_region_to_tex ps tex_tgt mdx mdy mdx mdy mwidth mheight gl in
      (* Paint it back *)
      let gl := GL.glDisable GL.GL_STENCIL_TEST gl in
      let gl := GL.glDisable GL.GL_SCISSOR_TEST gl in
      do (ok, gl) <--
        kawase_down ps dx dy width height tex_tgt pbc (Z.to_nat iterations) 1 gl ;
      if negb ok then Returned (finish false pbc gl)
      else
        do (ok, gl) <--
          kawase_up ps dx dy width height tex_tgt have_scissors have_stencil
            pbc (Z.to_nat iterations) gl ;
        if negb ok then Returned (finish false pbc gl)
        else
          let gl := GL.issue (GL.UseProgram 0) gl in
          Returned (finish true pbc gl).

End WithConstants.

End Blur.

(** ** The blur entry point: [glx_blur_dst] *)

Module BlurDst.

Section WithConstants.

Variable MAX_BLUR_PASS : Z.
Variable drv : GL.driver.

(** [glx_blur_dst(ps, dx, dy, width, height, z, factor_center, reg_tgt, pbc)];
    [blur_method] is [ps->o.blur_method] ([glx_check_err] only reports). *)
Definition glx_blur_dst (blur_method : Shader.blur_method_t)
    (ps : Blur.session_t) (dx dy width height : Z)
    (pbc : option Blur.glx_blur_cache_t) (gl : GL.state)
    : outcome (bool * option Blur.glx_blur_cache_t * GL.state) :=
  do pass0 <-- c_index (Blur.blur_passes ps) 0 ;
  do _ <-- c_assert (negb (Shader.prog pass0 =? 0)) ;
  match blur_method with
  | Shader.BLRMTHD_CONV =>
      Blur.glx_conv_blur_dst MAX_BLUR_PASS drv ps dx dy width height pbc gl
  | Shader.BLRMTHD_KAWASE =>
      Blur.glx_kawase_blur_dst MAX_BLUR_PASS drv ps dx dy width height pbc gl
  | Shader.BLRMTHD_other => Returned (false, pbc, gl)
  end.

End WithConstants.

End BlurDst.

(** ** The main program: [glx_create_program_from_str],
    [glx_load_prog_main], [glx_free_prog_main] *)

Module Program.

(** Value of [GL/glext.h]. *)
Definition GL_VERTEX_SHADER : GL.GLenum := 0x8B31.

(** The fields of [glx_prog_main_t] that [opengl.c] uses. *)
Record glx_prog_main_t : Type := {
  prog : Z;
  unifm_opacity : Z;
  unifm_invert_color : Z;
  unifm_tex : Z;
}.

(** [glx_free_prog_main]; [None] is a NULL [pprogram]. *)
Definition glx_free_prog_main (pprogram : option glx_prog_main_t)
    (gl : GL.state) : option glx_prog_main_t * GL.state :=
  match pprogram with
  | None => (None, gl)
  | Some p =>
      let '(pr, gl) :=
        if negb (prog p =? 0)
        then (0, GL.issue (GL.DeleteProgram (prog p)) gl)
        else (prog p, gl) in
      (Some {| prog := pr; unifm_opacity := -1;
               unifm_invert_color := -1; unifm_tex := -1 |}, gl)
  end.

Section WithDriver.

Variable drv : GL.driver.

(** [glx_create_program_from_str]; [None] is a NULL shader string. *)
Definition glx_create_program_from_str
    (vert_shader_str frag_shader_str : option string) (gl : GL.state)
    : outcome (Z * GL.state) :=
  let vert_shader := 0 in
  let frag_shader := 0 in
  let prog := 0 in
  let '(vert_shader, gl) :=
    match vert_shader_str with
    | Some vert_shader_str =>
        Shader.glx_create_shader drv GL_VERTEX_SHADER vert_shader_str gl
    | None => (vert_shader, gl)
    end in
  let '(frag_shader, gl) :=
    match frag_shader_str with
    | Some frag_shader_str =>
        Shader.glx_create_shader drv GL.GL_FRAGMENT_SHADER frag_shader_str gl
    | None => (frag_shader, gl)
    end in
  let shaders : list Z := [] in
  let shaders :=
    if negb (vert_shader =? 0) then shaders ++ [vert_shader] else shaders in
  let shaders :=
    if negb (frag_shader =? 0) then shaders ++ [frag_shader] else shaders in
  let count := Z.of_nat (length shaders) in
  do _ <-- c_assert (count <=? 2) ;
  let '(prog, gl) :=
    if negb (count =? 0) then Shader.glx_create_program drv shaders gl
    else (prog, gl) in
  let gl :=
    if negb (vert_shader =? 0)
    then GL.issue (GL.DeleteShader vert_shader) gl else gl in
  let gl :=
    if negb (frag_shader =? 0)
    then GL.issue (GL.DeleteShader frag_shader) gl else gl in
  Returned (prog, gl).

(** [glx_load_prog_main]: the returned flag, [*pprogram] and the GL
    context ([glx_check_err] only reports). *)
Definition glx_load_prog_main (vshader_str fshader_str : option string)
    (pprogram : option glx_prog_main_t) (gl : GL.state)
    : outcome (bool * glx_prog_main_t * GL.state) :=
  match pprogram with
  | None => Aborted                     (* assert(pprogram) *)
  | Some p =>
      (* Build program *)
      do (pr, gl) <-- glx_create_program_from_str vshader_str fshader_str gl ;
      let p := {| prog := pr; unifm_opacity := unifm_opacity p;
                  unifm_invert_color := unifm_invert_color p;
                  unifm_tex := unifm_tex p |} in
      if pr =? 0 then Returned (false, p, gl)
      else
        (* Get uniform addresses *)
        let '(opacity, gl) := Shader.get_unifm_loc drv pr gl in
        let '(invert_color, gl) := Shader.get_unifm_loc drv pr gl in
        let '(tex, gl) := Shader.get_unifm_loc drv pr gl in
        Returned (true,
                  {| prog := pr; unifm_opacity := opacity;
                     unifm_invert_color := invert_color; unifm_tex := tex |},
                  gl)
  end.

End WithDriver.

End Program.

(** ** Painting: [glx_set_clip], [glx_dim_dst], [glx_render] *)

Module Paint.

(** Values of [GL/gl.h]. *)
Definition GL_BLEND : GL.GLenum := 0x0BE2.
Definition GL_COLOR_LOGIC_OP : GL.GLenum := 0x0BF2.
Definition GL_TEXTURE0 : GL.GLenum := 0x84C0.
Definition GL_TEXTURE1 : GL.GLenum := 0x84C1.

(** The calls the painting functions issue, with their integer arguments
    (floating-point arguments are left out). [Quads] stands for
    [P_PAINTREG_START] ... [P_PAINTREG_END]: [glBegin(GL_QUADS)], one quad
    for every rectangle of [reg_tgt] inside the painted rectangle, and
    [glEnd()]. *)
Inductive call : Type :=
| Enable (cap : GL.GLenum)
| Disable (cap : GL.GLenum)
| Scissor (x y width height : Z)
| BlendFunc
| Color4f
| TexEnv
| LogicOp
| ActiveTexture (texture : GL.GLenum)
| BindTexture (target : GL.GLenum) (texture : Z)
| UseProgram (prog : Z)
| Uniform1f (location : Z)
| Uniform1i (location : Z) (v : Z)
| Quads (dx dy width height : Z)
| End_.

(** The context: the capabilities switched on, the active texture unit
    and the calls issued so far, oldest first. Capabilities are kept for
    the context as a whole, not for each texture unit. *)
Record state : Type := {
  enabled : gset Z;
  active_texture : GL.GLenum;
  calls : list call;
}.

Definition issue (c : call) (st : state) : state :=
  {| enabled := enabled st; active_texture := active_texture st;
     calls := calls st ++ [c] |}.

Definition glEnable (cap : GL.GLenum) (st : state) : state :=
  {| enabled := {[cap]} ∪ enabled st; active_texture := active_texture st;
     calls := calls st ++ [Enable cap] |}.

Definition glDisable (cap : GL.GLenum) (st : state) : state :=
  {| enabled := enabled st ∖ {[cap]}; active_texture := active_texture st;
     calls := calls st ++ [Disable cap] |}.

Definition glIsEnabled (cap : GL.GLenum) (st : state) : bool :=
  bool_decide (cap ∈ enabled st).

Definition glActiveTexture (texture : GL.GLenum) (st : state) : state :=
  {| enabled := enabled st; active_texture := texture;
     calls := calls st ++ [ActiveTexture texture] |}.

(** [rect_t]: a pixman box. *)
Record rect_t : Type := {
  x1 : Z;
  y1 : Z;
  x2 : Z;
  y2 : Z;
}.

(** [ps->o.glx_no_stencil], [ps->root_height] and
    [ps->psglx->fbconfigs]. *)
Record session_t : Type := {
  glx_no_stencil : bool;
  root_height : Z;
  fbconfigs : list (option FBConfig.glx_fbconfig_t);
}.

(** [glx_set_clip(ps, reg)]: [reg] is [None] for a NULL region and
    otherwise the rectangles [pixman_region32_rectangles] returns
    ([glx_check_err] only reports). *)
Definition glx_set_clip (ps : session_t) (reg : option (list rect_t))
    (st : state) : outcome state :=
  (* Quit if we aren't using stencils *)
  if glx_no_stencil ps then Returned st
  else
    let st := glDisable GL.GL_STENCIL_TEST st in
    let st := glDisable GL.GL_SCISSOR_TEST st in
    match reg with
    | None => Returned st
    | Some rects =>
        let nrects := Z.of_nat (length rects) in
        if nrects =? 1
        then
          let st := glEnable GL.GL_SCISSOR_TEST st in
          do r <-- c_index rects 0 ;
          do y <-- CInt.int_sub (root_height ps) (y2 r) ;
          do w <-- CInt.int_sub (x2 r) (x1 r) ;
          do h <-- CInt.int_sub (y2 r) (y1 r) ;
          Returned (issue (Scissor (x1 r) y w h) st)
        else Returned st
    end.

(** [glx_dim_dst(ps, dx, dy, width, height, z, factor, reg_tgt)]
    ([glx_check_err] only reports). *)
Definition glx_dim_dst (dx dy width height : Z) (st : state) : bool * state :=
  let st := glEnable GL_BLEND st in
  let st := issue BlendFunc st in
  let st := issue Color4f st in
  let st := issue (Quads dx dy width height) st in
  let st := issue End_ st in
  let st := issue Color4f st in
  let st := glDisable GL_BLEND st in
  (true, st).

(** [if (loc >= 0) glUniform1f(loc, ...)] and
    [if (loc >= 0) glUniform1i(loc, v)] *)
Definition uniform1f_if (loc : Z) (st : state) : state :=
  if 0 <=? loc then issue (Uniform1f loc) st else st.

Definition uniform1i_if (loc v : Z) (st : state) : state :=
  if 0 <=? loc then issue (Uniform1i loc v) st else st.

(** [glx_render(ps, ptex, x, y, dx, dy, width, height, z, opacity, argb,
    neg, reg_tgt, pprogram)]; [opacity] is the rational the [double]
    denotes, and [x], [y] and [z] only enter the coordinates of the quads
    ([glx_check_err] only reports). *)
Definition glx_render (ps : session_t) (ptex : option Pixmap.glx_texture_t)
    (dx dy width height : Z) (opacity : Q) (argb neg : bool)
    (pprogram : option Program.glx_prog_main_t) (st : state)
    : outcome (bool * state) :=
  match ptex with
  | None => Returned (false, st)
  | Some ptex =>
      if Pixmap.texture ptex =? 0 then Returned (false, st)
      else
        (* [argb || (... == fbconfigs[ptex->depth]->texture_fmt)]: the
           table is read only when [argb] is false *)
        do argb <--
          (if argb then Returned true
           else
             do pcfg <-- c_index (fbconfigs ps) (Pixmap.depth ptex) ;
             match pcfg with
             | None => Undefined        (* a NULL [fbconfigs[ptex->depth]] *)
             | Some pcfg =>
                 Returned (FBConfig.GLX_TEXTURE_FORMAT_RGBA_EXT
                           =? FBConfig.texture_fmt pcfg)
             end) ;
        let has_prog :=
          match pprogram with
          | Some p => negb (Program.prog p =? 0)
          | None => false
          end in
        let dual_texture := false in
        let target := Pixmap.target ptex in
        let st := glEnable target st in
        (* Enable blending if needed *)
        let st :=
          if negb (Qle_bool 1 opacity) || argb
          then issue Color4f (issue BlendFunc (issue TexEnv
                 (glEnable GL_BLEND st)))
          else st in
        do (dual_texture, st) <--
          (if negb has_prog
           then
             (* The default, fixed-function path *)
             if neg
             then
               (* Simple color negation *)
               if negb (glIsEnabled GL_BLEND st)
               then Returned (dual_texture,
                              issue LogicOp (glEnable GL_COLOR_LOGIC_OP st))
               (* ARGB texture color negation *)
               else if argb
               then
                 (* Texture stage 0 *)
                 let st := glActiveTexture GL_TEXTURE0 st in
                 let st := Nat.iter 9 (issue TexEnv) st in
                 (* Texture stage 1 *)
                 let st := glActiveTexture GL_TEXTURE1 st in
                 let st := glEnable target st in
                 let st :=
                   issue (BindTexture target (Pixmap.texture ptex)) st in
                 let st := Nat.iter 11 (issue TexEnv) st in
                 let st := glActiveTexture GL_TEXTURE0 st in
                 Returned (true, st)
               (* RGB blend color negation *)
               else Returned (dual_texture, Nat.iter 11 (issue TexEnv) st)
             else Returned (dual_texture, st)
           else
             (* Programmable path *)
             match pprogram with
             | None => Returned (dual_texture, st)  (* not with [has_prog] *)
             | Some p =>
                 do _ <-- c_assert (negb (Program.prog p =? 0)) ;
                 let st := issue (UseProgram (Program.prog p)) st in
                 let st := uniform1f_if (Program.unifm_opacity p) st in
                 let st :=
                   uniform1i_if (Program.unifm_invert_color p)
                     (if neg then 1 else 0) st in
                 let st := uniform1i_if (Program.unifm_tex p) 0 st in
                 Returned (dual_texture, st)
             end) ;
        (* Bind texture *)
        let st := issue (BindTexture target (Pixmap.texture ptex)) st in
        let st :=
          if dual_texture
          then glActiveTexture GL_TEXTURE0
                 (issue (BindTexture target (Pixmap.texture ptex))
                   (glActiveTexture GL_TEXTURE1 st))
          else st in
        (* Painting *)
        let st := issue (Quads dx dy width height) st in
        (* Cleanup *)
        let st := issue (BindTexture target 0) st in
        let st := issue Color4f st in
        let st := issue TexEnv st in
        let st := glDisable GL_BLEND st in
        let st := glDisable GL_COLOR_LOGIC_OP st in
        let st := glDisable target st in
        let st :=
          if dual_texture
          then glActiveTexture GL_TEXTURE0
                 (glDisable target
                   (issue (BindTexture target 0)
                     (glActiveTexture GL_TEXTURE1 st)))
          else st in
        let st := if has_prog then issue (UseProgram 0) st else st in
        Returned (true, st)
  end.

End Paint.

(** ** Start and end of the backend: [glx_init], [glx_destroy] *)

Module Init.

(** Value of [GL/gl.h]. *)
Definition GL_DEPTH_TEST : GL.GLenum := 0x0B71.

(** The fields of [glx_session_t] that [glx_init] and [glx_destroy]
    touch; a [context] or a function address of 0 is NULL. *)
Record glx_session_t : Type := {
  context : Z;
  has_texture_non_power_of_two : bool;
  glXBindTexImageProc : Z;
  glXReleaseTexImageProc : Z;
  fbconfigs : list (option FBConfig.glx_fbconfig_t);
  blur_passes : list Shader.glx_blur_pass_t;
}.

(** The fields of [session_t] that the two functions touch; [win_list]
    is [ps->list], the windows, and [psglx] is [None] for NULL. *)
Record session_t : Type := {
  glx_exists : bool;
  glx_swap_method : Z;                 (* ps->o.glx_swap_method *)
  glx_no_stencil : bool;               (* ps->o.glx_no_stencil *)
  dpy : FBConfig.Display;
  depth : Z;
  win_list : list Z;
  glx_prog_win : Program.glx_prog_main_t;
  psglx : option glx_session_t;
}.

(** What the X server and the GL driver answer to the queries of
    [glx_init]. [glXGetConfig_*] is [Some value] for [Success];
    [XGetVisualInfo] tells whether a visual is found; a context or a
    function address of 0 is NULL. *)
Record server : Type := {
  glXQueryExtension : bool;
  XGetVisualInfo : bool;
  glXGetConfig_USE_GL : option Z;
  glXGetConfig_DOUBLEBUFFER : option Z;
  glx_hasglxext_texture_from_pixmap : bool;
  glXCreateContext : Z;
  glXMakeCurrent : bool;
  GL_STENCIL_BITS : Z;
  glx_hasglext_texture_non_power_of_two : bool;
  glXGetProcAddress_BindTexImage : Z;
  glXGetProcAddress_ReleaseTexImage : Z;
}.

Definition set_psglx (ps : session_t) (g : option glx_session_t) : session_t :=
  {| glx_exists := glx_exists ps; glx_swap_method := glx_swap_method ps;
     glx_no_stencil := glx_no_stencil ps; dpy := dpy ps; depth := depth ps;
     win_list := win_list ps; glx_prog_win := glx_prog_win ps; psglx := g |}.

Definition set_glx_exists (ps : session_t) (b : bool) : session_t :=
  {| glx_exists := b; glx_swap_method := glx_swap_method ps;
     glx_no_stencil := glx_no_stencil ps; dpy := dpy ps; depth := depth ps;
     win_list := win_list ps; glx_prog_win := glx_prog_win ps;
     psglx := psglx ps |}.

Definition set_glx_prog_win (ps : session_t) (p : Program.glx_prog_main_t)
    : session_t :=
  {| glx_exists := glx_exists ps; glx_swap_method := glx_swap_method ps;
     glx_no_stencil := glx_no_stencil ps; dpy := dpy ps; depth := depth ps;
     win_list := win_list ps; glx_prog_win := p; psglx := psglx ps |}.

Definition set_context (g : glx_session_t) (c : Z) : glx_session_t :=
  {| context := c;
     has_texture_non_power_of_two := has_texture_non_power_of_two g;
     glXBindTexImageProc := glXBindTexImageProc g;
     glXReleaseTexImageProc := glXReleaseTexImageProc g;
     fbconfigs := fbconfigs g; blur_passes := blur_passes g |}.

Definition set_has_texture_non_power_of_two (g : glx_session_t) (b : bool)
    : glx_session_t :=
  {| context := context g; has_texture_non_power_of_two := b;
     glXBindTexImageProc := glXBindTexImageProc g;
     glXReleaseTexImageProc := glXReleaseTexImageProc g;
     fbconfigs := fbconfigs g; blur_passes := blur_passes g |}.

Definition set_procs (g : glx_session_t) (bind release : Z) : glx_session_t :=
  {| context := context g;
     has_texture_non_power_of_two := has_texture_non_power_of_two g;
     glXBindTexImageProc := bind; glXReleaseTexImageProc := release;
     fbconfigs := fbconfigs g; blur_passes := blur_passes g |}.

Definition set_fbconfigs (g : glx_session_t)
    (l : list (option FBConfig.glx_fbconfig_t)) : glx_session_t :=
  {| context := context g;
     has_texture_non_power_of_two := has_texture_non_power_of_two g;
     glXBindTexImageProc := glXBindTexImageProc g;
     glXReleaseTexImageProc := glXReleaseTexImageProc g;
     fbconfigs := l; blur_passes := blur_passes g |}.

Definition set_blur_passes (g : glx_session_t)
    (l : list Shader.glx_blur_pass_t) : glx_session_t :=
  {| context := context g;
     has_texture_non_power_of_two := has_texture_non_power_of_two g;
     glXBindTexImageProc := glXBindTexImageProc g;
     glXReleaseTexImageProc := glXReleaseTexImageProc g;
     fbconfigs := fbconfigs g; blur_passes := l |}.

(** [Success != glXGetConfig(..., &value) || !value], negated. *)
Definition config_set (answer : option Z) : bool :=
  match answer with
  | Some value => negb (value =? 0)
  | None => false
  end.

Section WithConstants.

(** Constants of [common.h] and [opengl.h]; [CGLX_SESSION_DEF] is the
    value of the macro [CGLX_SESSION_INIT]. *)
Variable CGLX_MAX_BUFFER_AGE : Z.
Variable OPENGL_MAX_DEPTH : Z.
Variable MAX_BLUR_PASS : Z.
Variable CGLX_SESSION_DEF : glx_session_t.

(** [free_win_res_glx(ps, w)] of [opengl.h] frees what a window holds;
    the windows are not part of [session_t] as modelled here, and what
    the function does to the GL context is a parameter. *)
Variable free_win_res_glx : Z -> GL.state -> GL.state.

Variable srv : server.

(** [for (int i = 0; i < MAX_BLUR_PASS; ++i)] of [glx_destroy]:
    [n] counts the iterations left. *)
Fixpoint free_passes (passes : list Shader.glx_blur_pass_t) (n : nat) (i : Z)
    (gl : GL.state) : outcome GL.state :=
  match n with
  | O => Returned gl
  | S n' =>
      do ppass <-- c_index passes i ;
      let gl :=
        if negb (Shader.frag_shader ppass =? 0)
        then GL.issue (GL.DeleteShader (Shader.frag_shader ppass)) gl else gl in
      let gl :=
        if negb (Shader.prog ppass =? 0)
        then GL.issue (GL.DeleteProgram (Shader.prog ppass)) gl else gl in
      free_passes passes n' (i + 1) gl
  end.

(** [glx_destroy]. The FBConfig table and the context go with
    [ps->psglx]; [glXDestroyContext] acts on the X server only
    ([glx_check_err] only reports). *)
Definition glx_destroy (ps : session_t) (gl : GL.state)
    : outcome (session_t * GL.state) :=
  match psglx ps with
  | None => Returned (ps, gl)
  | Some g =>
      (* Free all GLX resources of windows *)
      let gl := fold_left (fun gl w => free_win_res_glx w gl) (win_list ps) gl in
      (* Free GLSL shaders/programs *)
      do gl <-- free_passes (blur_passes g) (Z.to_nat MAX_BLUR_PASS) 0 gl ;
      let '(prog_win, gl) :=
        Program.glx_free_prog_main (Some (glx_prog_win ps)) gl in
      let ps := set_glx_prog_win ps (default (glx_prog_win ps) prog_win) in
      Returned (set_psglx ps None, gl)
  end.

(** [for (int i = 0; i < MAX_BLUR_PASS; ++i)] of [glx_init]: the three
    uniform locations of every pass are set to -1. *)
Fixpoint init_passes (passes : list Shader.glx_blur_pass_t) (n : nat) (i : Z)
    : outcome (list Shader.glx_blur_pass_t) :=
  match n with
  | O => Returned passes
  | S n' =>
      do ppass <-- c_index passes i ;
      init_passes
        (<[Z.to_nat i :=
             {| Shader.frag_shader := Shader.frag_shader ppass;
                Shader.prog := Shader.prog ppass;
                Shader.unifm_offset_x := -1;
                Shader.unifm_offset_y := -1;
                Shader.unifm_factor_center := -1;
                Shader.unifm_offset := Shader.unifm_offset ppass;
                Shader.unifm_halfpixel := Shader.unifm_halfpixel ppass;
                Shader.unifm_fulltex := Shader.unifm_fulltex ppass |}]> passes)
        n' (i + 1)
  end.

(** [glx_init] up to the label [glx_init_end]: the value of [success],
    the session and the GL context there. [glx_on_root_change] and the
    calls [glDepthMask], [glClear], [glStencilMask], [glStencilFunc] and
    [glClearColor] set the projection, masks and clear values, which
    nothing here reads; they are left out. *)
Definition glx_init_body (ps : session_t) (need_render : bool) (gl : GL.state)
    : outcome (bool * session_t * GL.state) :=
  (* Check for GLX extension *)
  let '(found, ps) :=
    if negb (glx_exists ps)
    then if glXQueryExtension srv then (true, set_glx_exists ps true)
         else (false, ps)
    else (true, ps) in
  if negb found then Returned (false, ps, gl)
  else if CGLX_MAX_BUFFER_AGE <? glx_swap_method ps then Returned (false, ps, gl)
  (* Get XVisualInfo *)
  else if negb (XGetVisualInfo srv) then Returned (false, ps, gl)
  (* Ensure the visual is double-buffered *)
  else if need_render && negb (config_set (glXGetConfig_USE_GL srv))
  then Returned (false, ps, gl)
  else if need_render && negb (config_set (glXGetConfig_DOUBLEBUFFER srv))
  then Returned (false, ps, gl)
  (* Ensure GLX_EXT_texture_from_pixmap exists *)
  else if need_render && negb (glx_hasglxext_texture_from_pixmap srv)
  then Returned (false, ps, gl)
  else
    (* Initialize GLX data structure *)
    do g <--
      (match psglx ps with
       | Some g => Returned g
       | None =>
           do passes <-- init_passes (blur_passes CGLX_SESSION_DEF)
                           (Z.to_nat MAX_BLUR_PASS) 0 ;
           Returned (set_blur_passes CGLX_SESSION_DEF passes)
       end) ;
    let '(attached, g) :=
      if context g =? 0
      then
        (* Get GLX context *)
        let g := set_context g (glXCreateContext srv) in
        if context g =? 0 then (false, g)
        (* Attach GLX context *)
        else if negb (glXMakeCurrent srv) then (false, g)
        else (true, g)
      else (true, g) in
    if negb attached then Returned (false, set_psglx ps (Some g), gl)
    (* Ensure we have a stencil buffer *)
    else if need_render && negb (glx_no_stencil ps)
            && (GL_STENCIL_BITS srv =? 0)
    then Returned (false, set_psglx ps (Some g), gl)
    else
      (* Check GL_ARB_texture_non_power_of_two *)
      let g :=
        if need_render
        then set_has_texture_non_power_of_two g
               (glx_hasglext_texture_non_power_of_two srv)
        else g in
      (* Acquire function addresses *)
      let g :=
        if need_render
        then set_procs g (glXGetProcAddress_BindTexImage srv)
               (glXGetProcAddress_ReleaseTexImage srv)
        else g in
      if need_render
         && ((glXBindTexImageProc g =? 0) || (glXReleaseTexImageProc g =? 0))
      then Returned (false, set_psglx ps (Some g), gl)
      else
        (* Acquire FBConfigs *)
        do (acquired, g) <--
          (if need_render
           then
             do (r, fs) <--
               FBConfig.glx_update_fbconfig OPENGL_MAX_DEPTH
                 {| FBConfig.dpy := dpy ps; FBConfig.depth := depth ps;
                    FBConfig.fbconfigs := fbconfigs g |} ;
             Returned (r, set_fbconfigs g (FBConfig.fbconfigs fs))
           else Returned (true, g)) ;
        if negb acquired then Returned (false, set_psglx ps (Some g), gl)
        else
          (* Render preparations *)
          let gl :=
            if need_render
            then
              let gl := GL.glDisable GL_DEPTH_TEST gl in
              let gl := GL.issue GL.TexEnvi gl in
              let gl := GL.glDisable Paint.GL_BLEND gl in
              if negb (glx_no_stencil ps)
              (* Initialize stencil buffer *)
              then GL.glDisable GL.GL_STENCIL_TEST gl
              else gl
            else gl in
          Returned (true, set_psglx ps (Some g), gl).

(** [glx_init]: after [glx_init_end], a failure destroys the backend. *)
Definition glx_init (ps : session_t) (need_render : bool) (gl : GL.state)
    : outcome (bool * session_t * GL.state) :=
  do (success, ps, gl) <-- glx_init_body ps need_render gl ;
  if negb success
  then do (ps, gl) <-- glx_destroy ps gl ; Returned (false, ps, gl)
  else Returned (true, ps, gl).

(** What [vsync_init] of [vsync.c] answers for a session. *)
Variable vsync_init : session_t -> bool.

(** [glx_reinit]. [vsync_deinit] of [vsync.c] touches neither the backend
    data nor the GL context. *)
Definition glx_reinit (ps : session_t) (need_render : bool) (gl : GL.state)
    : outcome (bool * session_t * GL.state) :=
  do (ps, gl) <-- glx_destroy ps gl ;
  do (ok, ps, gl) <-- glx_init ps need_render gl ;
  if negb ok then Returned (false, ps, gl)
  else if negb (vsync_init ps) then Returned (false, ps, gl)
  else Returned (true, ps, gl).

End WithConstants.

End Init.

(** * Example inputs and specification predicates *)

(** A session with five history entries, one pixel each, and a
    ten-pixel screen. *)
Definition damage_example : Damage.session_t :=
  {| Damage.glx_swap_method := -1;
     Damage.all_damage_last :=
       [ {[ (1, 0) ]}; {[ (2, 0) ]}; {[ (3, 0) ]}; {[ (4, 0) ]}; {[ (5, 0) ]} ];
     Damage.screen_reg :=
       list_to_set (map (fun x => (x, 0)) [0; 1; 2; 3; 4; 5; 6; 7; 8; 9]) |}.

(** A driver whose allocations all succeed. *)
Definition good_driver : GL.driver :=
  {| GL.glGenTextures := fun n => Z.of_nat n + 1;
     GL.glGenFramebuffers := fun n => Z.of_nat n + 1;
     GL.glCheckFramebufferStatus := fun _ => GL.GL_FRAMEBUFFER_COMPLETE;
     GL.glCreateShader := fun n => Z.of_nat n + 1;
     GL.compile_status := fun _ => true;
     GL.glCreateProgram := fun n => Z.of_nat n + 1;
     GL.link_status := fun _ => true;
     GL.glGetUniformLocation := fun _ => 0;
     GL.XGetGeometry_reply := fun _ => Some (10, 10, 24);
     GL.glXCreatePixmap := fun _ => 7 |}.

(** The same driver, out of texture names. *)
Definition no_texture_driver : GL.driver :=
  {| GL.glGenTextures := fun _ => 0;
     GL.glGenFramebuffers := GL.glGenFramebuffers good_driver;
     GL.glCheckFramebufferStatus := GL.glCheckFramebufferStatus good_driver;
     GL.glCreateShader := GL.glCreateShader good_driver;
     GL.compile_status := GL.compile_status good_driver;
     GL.glCreateProgram := GL.glCreateProgram good_driver;
     GL.link_status := GL.link_status good_driver;
     GL.glGetUniformLocation := GL.glGetUniformLocation good_driver;
     GL.XGetGeometry_reply := GL.XGetGeometry_reply good_driver;
     GL.glXCreatePixmap := GL.glXCreatePixmap good_driver |}.

(** A fresh context: nothing enabled, nothing issued. *)
Definition gl_init : GL.state := {| GL.enabled := ∅; GL.calls := [] |}.

(** A 24-bit RGB FBConfig and a 33-slot table that holds it. *)
Definition fbconfig_24 : FBConfig.glx_fbconfig_t :=
  {| FBConfig.cfg := 1;
     FBConfig.texture_fmt := FBConfig.GLX_TEXTURE_FORMAT_RGB_EXT;
     FBConfig.texture_tgts := 6;
     FBConfig.y_inverted := false |}.

Definition pixmap_session (bk : Z) : Pixmap.session_t :=
  {| Pixmap.backend := bk;
     Pixmap.fbconfigs := <[24%nat := Some fbconfig_24]> (replicate 33 None);
     Pixmap.has_texture_non_power_of_two := true |}.


(** The invariant of a binding: the GLX pixmap handle and the texture
    handle are both absent or both present. *)
Definition handles_consistent (t : Pixmap.glx_texture_t) : Prop :=
  (Pixmap.glpixmap t = 0 /\ Pixmap.texture t = 0)
  \/ (Pixmap.glpixmap t <> 0 /\ Pixmap.texture t <> 0).

(** A call that tears a binding down: it destroys a GLX pixmap, releases
    the image of one, or deletes a texture. *)
Definition tears_down (c : GL.call) : bool :=
  match c with
  | GL.XDestroyPixmap _ | GL.XReleaseTexImage _ | GL.DeleteTextures _ => true
  | _ => false
  end.

(** The binding [glx_bind_pixmap] works on once past its entry, with the
    GL context there: the binding found in [*pptex] (a fresh one for
    NULL), released when it holds a texture for another pixmap than the
    one asked for. *)
Definition entry_binding (pptex : option Pixmap.glx_texture_t) (pixmap : Z)
    (gl : GL.state) : Pixmap.glx_texture_t * GL.state :=
  let t0 := default Pixmap.GLX_TEX_DEF pptex in
  if negb (Pixmap.texture t0 =? 0) && negb (Pixmap.pixmap t0 =? pixmap)
  then Pixmap.glx_release_pixmap t0 gl
  else (t0, gl).

(** The binding left by a first bind whose texture allocation fails. *)
Definition half_bound : Pixmap.glx_texture_t :=
  {| Pixmap.texture := 0; Pixmap.glpixmap := 7; Pixmap.pixmap := 5;
     Pixmap.target := GL.GL_TEXTURE_2D; Pixmap.width := 10;
     Pixmap.height := 10; Pixmap.depth := 24; Pixmap.y_inverted := false |}.

(** The GL context after that call: the texture target is left enabled
    and no [glXDestroyPixmap] was issued. *)
Definition half_bound_gl : GL.state :=
  {| GL.enabled := {[ GL.GL_TEXTURE_2D ]};
     GL.calls :=
       [ GL.XCreatePixmap 1 5 FBConfig.GLX_TEXTURE_FORMAT_RGB_EXT
           GL.GLX_TEXTURE_2D_EXT;
         GL.Enable GL.GL_TEXTURE_2D;
         GL.GenTextures;
         GL.BindTexture GL.GL_TEXTURE_2D 0;
         GL.TexParameteri GL.GL_TEXTURE_2D;
         GL.TexParameteri GL.GL_TEXTURE_2D;
         GL.TexParameteri GL.GL_TEXTURE_2D;
         GL.TexParameteri GL.GL_TEXTURE_2D;
         GL.BindTexture GL.GL_TEXTURE_2D 0 ] |}.

(** *** Ranking of FBConfigs *)

(** What a comparison reads for an attribute: the value the query stores,
    0 when it stores nothing. *)
Definition attr_value (d : FBConfig.Display) (c : FBConfig.glx_fbconfig_t)
    (attr : FBConfig.glx_attr) : Z :=
  default 0 (FBConfig.glXGetFBConfigAttrib d (FBConfig.cfg c) attr).

Definition red_size (d : FBConfig.Display) (c : FBConfig.glx_fbconfig_t)
    : option Z :=
  FBConfig.glXGetFBConfigAttrib d (FBConfig.cfg c) FBConfig.GLX_RED_SIZE.

(** A candidate as GLX describes one: its red size can be queried and its
    attributes are sizes, counts and flags, that is non-negative [int]s. *)
Definition valid_candidate (d : FBConfig.Display)
    (c : FBConfig.glx_fbconfig_t) : Prop :=
  is_Some (red_size d c)
  /\ forall attr v,
       FBConfig.glXGetFBConfigAttrib d (FBConfig.cfg c) attr = Some v ->
       0 <= v <= CInt.INT_MAX.

(** [a] is ranked strictly better than [b]: the comparison of [a] with [b]
    is positive. *)
Definition ranked_better (d : FBConfig.Display)
    (a b : FBConfig.glx_fbconfig_t) : Prop :=
  exists r, FBConfig.glx_cmp_fbconfig d (Some a) (Some b) = Returned r /\ 0 < r.

(** The test of [glx_update_fbconfig_bydepth]: the candidate [new]
    replaces the retained [cur] when the comparison of [cur] with [new] is
    negative. *)
Definition overrides (d : FBConfig.Display)
    (new cur : FBConfig.glx_fbconfig_t) : Prop :=
  exists r, FBConfig.glx_cmp_fbconfig d (Some cur) (Some new) = Returned r /\ r < 0.

(** The attributes compared after the red size, each signed so that the
    larger key is the preferred one: [P_CMPATTR_LT] prefers the smaller
    value, [P_CMPATTR_GT] the larger. *)
Definition keys (d : FBConfig.Display) (c : FBConfig.glx_fbconfig_t) : list Z :=
  [ - attr_value d c FBConfig.GLX_BIND_TO_TEXTURE_RGBA_EXT;
    - attr_value d c FBConfig.GLX_DOUBLEBUFFER;
    - attr_value d c FBConfig.GLX_STENCIL_SIZE;
    - attr_value d c FBConfig.GLX_DEPTH_SIZE;
    attr_value d c FBConfig.GLX_BIND_TO_MIPMAP_TEXTURE_EXT ].

(** The first non-zero difference of two key lists, 0 when there is none. *)
Fixpoint lex_diff (ka kb : list Z) : Z :=
  match ka, kb with
  | x :: ka', y :: kb' => if negb (x - y =? 0) then x - y else lex_diff ka' kb'
  | _, _ => 0
  end.

(** The comparison as a function of the attribute values. *)
Definition cmp_values (d : FBConfig.Display)
    (a b : FBConfig.glx_fbconfig_t) : Z :=
  if negb (attr_value d a FBConfig.GLX_RED_SIZE =? 8) then -1
  else if negb (attr_value d b FBConfig.GLX_RED_SIZE =? 8) then 1
  else lex_diff (keys d a) (keys d b).

(** The acceptance condition of a table entry [e] stored in slot [slot]:
    the candidate's buffer size less its alpha size is the depth of its
    visual, it is RGB-bindable and is stored with the RGB format; or its
    buffer size is the depth of its visual, it is RGBA-bindable and is
    stored with the RGBA format. The slot is that depth. *)
Definition accepted (d : FBConfig.Display) (slot : nat)
    (e : FBConfig.glx_fbconfig_t) : Prop :=
  exists bs al vd,
    FBConfig.glXGetFBConfigAttrib d (FBConfig.cfg e) FBConfig.GLX_BUFFER_SIZE = Some bs
    /\ FBConfig.glXGetFBConfigAttrib d (FBConfig.cfg e) FBConfig.GLX_ALPHA_SIZE = Some al
    /\ FBConfig.glXGetVisualFromFBConfig d (FBConfig.cfg e) = Some vd
    /\ Z.of_nat slot = vd
    /\ ((bs - al = vd
         /\ FBConfig.attr_is_set d (FBConfig.cfg e) FBConfig.GLX_BIND_TO_TEXTURE_RGB_EXT = true
         /\ FBConfig.texture_fmt e = FBConfig.GLX_TEXTURE_FORMAT_RGB_EXT)
        \/ (bs = vd
            /\ FBConfig.attr_is_set d (FBConfig.cfg e) FBConfig.GLX_BIND_TO_TEXTURE_RGBA_EXT = true
            /\ FBConfig.texture_fmt e = FBConfig.GLX_TEXTURE_FORMAT_RGBA_EXT)).

(** Every entry of the table is an accepted candidate of the display. *)
Definition table_ok (d : FBConfig.Display)
    (tbl : list (option FBConfig.glx_fbconfig_t)) : Prop :=
  forall slot e,
    tbl !! slot = Some (Some e) ->
    In (FBConfig.cfg e) (FBConfig.glXGetFBConfigs d) /\ accepted d slot e.

(** A display with six FBConfigs: 1, 2 and 6 are 24-bit RGB configurations
    that differ in double buffering and stencil size, 3 is a 32-bit RGBA
    one, 4 has 10-bit colour channels, and the visual of 5 has a depth that
    matches neither its buffer size nor its buffer size less alpha. *)
Definition example_attrib (c : FBConfig.GLXFBConfig) (a : FBConfig.glx_attr)
    : option Z :=
  match a with
  | FBConfig.GLX_RED_SIZE => Some (if c =? 4 then 10 else 8)
  | FBConfig.GLX_BIND_TO_TEXTURE_RGBA_EXT => Some (if c =? 3 then 1 else 0)
  | FBConfig.GLX_DOUBLEBUFFER => Some (if c =? 2 then 0 else 1)
  | FBConfig.GLX_STENCIL_SIZE =>
      Some (if c =? 2 then 0 else if c =? 6 then 16 else 8)
  | FBConfig.GLX_DEPTH_SIZE => Some 24
  | FBConfig.GLX_BIND_TO_MIPMAP_TEXTURE_EXT => Some 0
  | FBConfig.GLX_SAMPLES => Some 0
  | FBConfig.GLX_BUFFER_SIZE =>
      Some (if (c =? 3) || (c =? 4) then 32 else 24)
  | FBConfig.GLX_ALPHA_SIZE =>
      Some (if c =? 3 then 8 else if c =? 4 then 2 else 0)
  | FBConfig.GLX_BIND_TO_TEXTURE_TARGETS_EXT => Some 6
  | FBConfig.GLX_BIND_TO_TEXTURE_RGB_EXT => Some 1
  | FBConfig.GLX_Y_INVERTED_EXT => Some 1
  end.

Definition example_display : FBConfig.Display :=
  {| FBConfig.glXGetFBConfigAttrib := example_attrib;
     FBConfig.glXGetVisualFromFBConfig :=
       fun c => Some (if c =? 3 then 32 else if c =? 4 then 30
                      else if c =? 5 then 32 else 24);
     FBConfig.glXGetFBConfigs := [1; 2; 3; 4; 5; 6] |}.

(** The candidate the negotiation builds for FBConfig [c]. *)
Definition candidate (c : FBConfig.GLXFBConfig) (fmt : Z)
    : FBConfig.glx_fbconfig_t :=
  {| FBConfig.cfg := c; FBConfig.texture_fmt := fmt;
     FBConfig.texture_tgts := 6; FBConfig.y_inverted := true |}.

Definition example_session : FBConfig.session_t :=
  {| FBConfig.dpy := example_display;
     FBConfig.depth := 24;
     FBConfig.fbconfigs := replicate 33 None |}.

(** The table negotiated on [example_display]. *)
Definition example_negotiated : FBConfig.session_t :=
  {| FBConfig.dpy := example_display;
     FBConfig.depth := 24;
     FBConfig.fbconfigs :=
       <[24%nat := Some (candidate 2 FBConfig.GLX_TEXTURE_FORMAT_RGB_EXT)]>
       (<[30%nat := Some (candidate 4 FBConfig.GLX_TEXTURE_FORMAT_RGB_EXT)]>
       (<[32%nat := Some (candidate 3 FBConfig.GLX_TEXTURE_FORMAT_RGBA_EXT)]>
       (replicate 33 None))) |}.

(** *** The convolution shader, as the specification words it *)

(** The cell of row [j] and column [k] of a kernel of width [wid]. *)
Definition cell (kern : Shader.kernel) (wid j k : Z) : Z :=
  default 0 (kern !! Z.to_nat (2 + j * wid + k)).

(** The cells of a [wid] x [hei] kernel, row by row, as pairs (row, column). *)
Definition grid (wid hei : Z) : list (Z * Z) :=
  seqZ 0 hei ≫= (fun j => pair j <$> seqZ 0 wid).

(** A cell gets a term when it is not the center cell and its weight is
    not zero. *)
Definition selected (X : Z -> Q) (kern : Shader.kernel) (wid hei : Z)
    (c : Z * Z) : bool :=
  negb ((Z.quot hei 2 =? c.1) && (Z.quot wid 2 =? c.2))
  && negb (Qeq_bool 0 (X (cell kern wid c.1 c.2))).

(** The term of a cell: its weight, at its offset from the center. *)
Definition term (X : Z -> Q) (kern : Shader.kernel) (texture_func : string)
    (wid hei : Z) (c : Z * Z) : Shader.blur_add :=
  {| Shader.add_val := X (cell kern wid c.1 c.2);
     Shader.add_texture_func := texture_func;
     Shader.add_dx := c.2 - Z.quot wid 2;
     Shader.add_dy := c.1 - Z.quot hei 2 |}.

(** One term for each selected cell of a list of cells. *)
Definition terms_of (X : Z -> Q) (kern : Shader.kernel) (texture_func : string)
    (wid hei : Z) (cells : list (Z * Z)) : list Shader.blur_add :=
  term X kern texture_func wid hei
    <$> filter (fun c => selected X kern wid hei c = true) cells.

(** The total of the weights of a list of terms, added to [s] from the
    left as [sum += val] does. *)
Definition add_weights (s : Q) (adds : list Shader.blur_add) : Q :=
  fold_left (fun s t => Qplus s (Shader.add_val t)) adds s.

(** What the session asks of the shader: rectangle textures where
    textures must otherwise have sides that are powers of two, and offset
    sampling with [GL_EXT_gpu_shader4]. *)
Definition conv_sampler_type (ps : Shader.session_t) : string :=
  if Shader.has_texture_non_power_of_two ps then "sampler2D" else "sampler2DRect".

Definition conv_texture_func (ps : Shader.session_t) : string :=
  if Shader.has_texture_non_power_of_two ps then "texture2D" else "texture2DRect".

Definition conv_extension (ps : Shader.session_t) : string :=
  ((if Shader.has_texture_non_power_of_two ps then ""
    else "#extension GL_ARB_texture_rectangle : require" ++ CString.LF)
   ++ (if Shader.glx_use_gpushader4 ps
       then "#extension GL_EXT_gpu_shader4 : require" ++ CString.LF
       else ""))%string.

Definition conv_shader_add (ps : Shader.session_t) : CString.format :=
  if Shader.glx_use_gpushader4 ps
  then Shader.FRAG_SHADER_BLUR_ADD_GPUSHADER4
  else Shader.FRAG_SHADER_BLUR_ADD.

(** The lines of a list of terms: each term rendered by the format
    [shader_add], one after the other. *)
Definition lines_text (g7 : Q -> string) (shader_add : CString.format)
    (adds : list Shader.blur_add) : string :=
  fold_right
    (fun t rest =>
       (CString.sprintf g7 shader_add (Shader.add_args t) ++ rest)%string)
    ""%string adds.

(** The convolution shader of a [wid] x [hei] kernel: the declarations,
    one line for each cell that gets a term, and the output expression
    that divides by [factor_center] plus the total of the weights. *)
Definition conv_shader_text (X : Z -> Q) (g7 : Q -> string)
    (ps : Shader.session_t) (kern : Shader.kernel) (wid hei : Z) : string :=
  let adds := terms_of X kern (conv_texture_func ps) wid hei (grid wid hei) in
  (CString.sprintf g7 Shader.FRAG_SHADER_BLUR_PREFIX
     [CString.Arg_s (conv_extension ps); CString.Arg_s (conv_sampler_type ps)]
   ++ lines_text g7 (conv_shader_add ps) adds
   ++ CString.sprintf g7 Shader.FRAG_SHADER_BLUR_SUFFIX
        [CString.Arg_s (conv_texture_func ps);
         CString.Arg_g (add_weights 0 adds)])%string.

(** A kernel the shader is built for: an array that holds a width and a
    height of at least 1, with at most 2^24 cells, and the cells. *)
Definition kernel_ok (X : Z -> Q) (kern : Shader.kernel) : Prop :=
  exists (k0 k1 : Z) (cells : list Z),
    kern = k0 :: k1 :: cells
    /\ 1 <= Shader.int_of_double (X k0)
    /\ 1 <= Shader.int_of_double (X k1)
    /\ Shader.int_of_double (X k0) * Shader.int_of_double (X k1) <= 2 ^ 24
    /\ Z.of_nat (length cells)
       = Shader.int_of_double (X k0) * Shader.int_of_double (X k1).

(** A [%.7g] that is right for the whole numbers below 10^7: it writes
    their decimal digits. *)
Definition g7_whole (d : Q) : string := CString.printf_d (Shader.int_of_double d).

(** 16.16 fixed point, the reading of [xcb_render_fixed_t]. *)
Definition fixed_16_16 (v : Z) : Q := Qmake v 65536.

(** A 3 x 3 box kernel without its center. *)
Definition box_3x3 : Shader.kernel :=
  [ 3 * 65536; 3 * 65536;
    65536; 65536; 65536;
    65536; 0; 65536;
    65536; 65536; 65536 ].

(** A kernel of width 0 and height 0: no cell at all. *)
Definition empty_kernel : Shader.kernel := [0; 0].

Definition shader_session (kerns : list (option Shader.kernel))
    : Shader.session_t :=
  {| Shader.blur_method := Shader.BLRMTHD_CONV;
     Shader.blur_kerns := kerns;
     Shader.glx_use_gpushader4 := false;
     Shader.has_texture_non_power_of_two := true;
     Shader.blur_passes :=
       replicate 5 {| Shader.frag_shader := 0; Shader.prog := 0;
                      Shader.unifm_offset_x := -1; Shader.unifm_offset_y := -1;
                      Shader.unifm_factor_center := -1; Shader.unifm_offset := -1;
                      Shader.unifm_halfpixel := -1; Shader.unifm_fulltex := -1 |} |}.

(** A driver that cannot generate framebuffer objects. *)
Definition no_fbo_driver : GL.driver :=
  {| GL.glGenTextures := GL.glGenTextures good_driver;
     GL.glGenFramebuffers := fun _ => 0;
     GL.glCheckFramebufferStatus := GL.glCheckFramebufferStatus good_driver;
     GL.glCreateShader := GL.glCreateShader good_driver;
     GL.compile_status := GL.compile_status good_driver;
     GL.glCreateProgram := GL.glCreateProgram good_driver;
     GL.link_status := GL.link_status good_driver;
     GL.glGetUniformLocation := GL.glGetUniformLocation good_driver;
     GL.XGetGeometry_reply := GL.XGetGeometry_reply good_driver;
     GL.glXCreatePixmap := GL.glXCreatePixmap good_driver |}.

(** Two kernels configured: a two-pass convolution blur. *)
Definition two_pass_session : Shader.session_t :=
  shader_session [Some box_3x3; Some box_3x3; None; None; None].

(** *** Pyramid levels *)

(** Level [i] of the pyramid of a [w] x [h] rectangle is not empty: both
    sides shifted right by [i - 1] are at least 1. *)
Definition level_fits (w h i : Z) : Prop :=
  1 <= Z.shiftr w (i - 1) /\ 1 <= Z.shiftr h (i - 1).

(** *** Clip tests around a blur *)

(** No clip test is on that was off on entry ([hs], [hst]: scissor and
    stencil test on entry). *)
Definition tests_within (hs hst : bool) (gl : GL.state) : Prop :=
  (GL.glIsEnabled GL.GL_SCISSOR_TEST gl = true -> hs = true)
  /\ (GL.glIsEnabled GL.GL_STENCIL_TEST gl = true -> hst = true).

(** Both clip tests are as they were on entry. *)
Definition tests_restored (hs hst : bool) (gl : GL.state) : Prop :=
  GL.glIsEnabled GL.GL_SCISSOR_TEST gl = hs
  /\ GL.glIsEnabled GL.GL_STENCIL_TEST gl = hst.

(** The texture target of the blur textures. *)
Definition is_tex_tgt (cap : GL.GLenum) : Prop :=
  cap = GL.GL_TEXTURE_2D \/ cap = GL.GL_TEXTURE_RECTANGLE.

(** A built pass (program 3) and an empty slot. *)
Definition built_pass : Shader.glx_blur_pass_t :=
  {| Shader.frag_shader := 2; Shader.prog := 3;
     Shader.unifm_offset_x := 0; Shader.unifm_offset_y := 1;
     Shader.unifm_factor_center := 2; Shader.unifm_offset := 0;
     Shader.unifm_halfpixel := 1; Shader.unifm_fulltex := 2 |}.

Definition empty_pass : Shader.glx_blur_pass_t :=
  {| Shader.frag_shader := 0; Shader.prog := 0;
     Shader.unifm_offset_x := -1; Shader.unifm_offset_y := -1;
     Shader.unifm_factor_center := -1; Shader.unifm_offset := -1;
     Shader.unifm_halfpixel := -1; Shader.unifm_fulltex := -1 |}.

(** A session with two built passes and 3 requested pyramid iterations. *)
Definition blur_session : Blur.session_t :=
  {| Blur.blur_passes := [built_pass; built_pass; empty_pass; empty_pass; empty_pass];
     Blur.has_texture_non_power_of_two := true;
     Blur.root_height := 1080;
     Blur.iterations := 3 |}.

(** A driver on which no framebuffer is ever complete. *)
Definition incomplete_fbo_driver : GL.driver :=
  {| GL.glGenTextures := GL.glGenTextures good_driver;
     GL.glGenFramebuffers := GL.glGenFramebuffers good_driver;
     GL.glCheckFramebufferStatus := fun _ => 0;
     GL.glCreateShader := GL.glCreateShader good_driver;
     GL.compile_status := GL.compile_status good_driver;
     GL.glCreateProgram := GL.glCreateProgram good_driver;
     GL.link_status := GL.link_status good_driver;
     GL.glGetUniformLocation := GL.glGetUniformLocation good_driver;
     GL.XGetGeometry_reply := GL.XGetGeometry_reply good_driver;
     GL.glXCreatePixmap := GL.glXCreatePixmap good_driver |}.

(** A context with the scissor test on and the stencil test off. *)
Definition gl_scissor : GL.state :=
  {| GL.enabled := {[ GL.GL_SCISSOR_TEST ]}; GL.calls := [] |}.
(** *** Runs of frames *)

(** [glx_paint_pre] called once per frame: each frame comes with the
    region to repaint and the buffer age the server reports. *)
Fixpoint paint_frames (CGLX_MAX_BUFFER_AGE SWAPM_BUFFER_AGE : Z)
    (ps : Damage.session_t) (frames : list (Damage.region_t * Z))
    : outcome Damage.session_t :=
  match frames with
  | [] => Returned ps
  | (preg, val) :: rest =>
      do (ps, _) <-- Damage.glx_paint_pre CGLX_MAX_BUFFER_AGE SWAPM_BUFFER_AGE
                       ps preg val ;
      paint_frames CGLX_MAX_BUFFER_AGE SWAPM_BUFFER_AGE ps rest
  end.

(** *** What the negotiation offers to a slot *)

(** The conditions under which the loop of [glx_update_fbconfig] hands
    the FBConfig [c] to [glx_update_fbconfig_bydepth] for the slot
    [slot], and the latter looks at it: [c] is not multi-sampled, its
    sizes, texture targets and visual can be queried, and either its
    buffer size less its alpha size is the depth of its visual, is below
    32 and is [slot], and [c] is RGB-bindable; or its buffer size is the
    depth of its visual, is 32 or more and is [slot], its alpha size is
    not 0 and [c] is RGBA-bindable. The slot is one of the table. *)
Definition offered (d : FBConfig.Display) (OPENGL_MAX_DEPTH : Z) (slot : Z)
    (c : FBConfig.GLXFBConfig) : Prop :=
  0 <= slot <= OPENGL_MAX_DEPTH
  /\ (forall v, FBConfig.glXGetFBConfigAttrib d c FBConfig.GLX_SAMPLES = Some v ->
                v <= 1)
  /\ exists bs al vd,
       FBConfig.glXGetFBConfigAttrib d c FBConfig.GLX_BUFFER_SIZE = Some bs
       /\ FBConfig.glXGetFBConfigAttrib d c FBConfig.GLX_ALPHA_SIZE = Some al
       /\ is_Some (FBConfig.glXGetFBConfigAttrib d c
                     FBConfig.GLX_BIND_TO_TEXTURE_TARGETS_EXT)
       /\ FBConfig.glXGetVisualFromFBConfig d c = Some vd
       /\ ((slot = bs - al /\ bs - al = vd /\ bs - al < 32
            /\ FBConfig.attr_is_set d c FBConfig.GLX_BIND_TO_TEXTURE_RGB_EXT = true)
           \/ (slot = bs /\ bs = vd /\ 32 <= bs /\ al <> 0
               /\ FBConfig.attr_is_set d c FBConfig.GLX_BIND_TO_TEXTURE_RGBA_EXT
                  = true)).

(** The retained entry [e] stands against the candidate [x]: when [x]
    has 8-bit red, so has [e], and the comparison of [e] with [x] is not
    negative, so that [x] would not replace [e]. *)
Definition dominates (d : FBConfig.Display)
    (e x : FBConfig.glx_fbconfig_t) : Prop :=
  attr_value d x FBConfig.GLX_RED_SIZE = 8 ->
  attr_value d e FBConfig.GLX_RED_SIZE = 8 /\ 0 <= cmp_values d e x.

(** A call keeps the length of the table and never empties a slot. *)
Definition table_grows (tbl tbl' : list (option FBConfig.glx_fbconfig_t))
    : Prop :=
  length tbl' = length tbl
  /\ forall s e, tbl !! s = Some (Some e) ->
                 exists e2, tbl' !! s = Some (Some e2).

(** Every entry of the table is an FBConfig of the display. *)
Definition entries_of (d : FBConfig.Display)
    (tbl : list (option FBConfig.glx_fbconfig_t)) : Prop :=
  forall s e, tbl !! s = Some (Some e) ->
              In (FBConfig.cfg e) (FBConfig.glXGetFBConfigs d).

(** The entry [e2] stands against every candidate [e] stands against. *)
Definition improves (d : FBConfig.Display)
    (e2 e : FBConfig.glx_fbconfig_t) : Prop :=
  forall x, dominates d e x -> dominates d e2 x.

(** From [tbl] to [tbl'] entries are only replaced by better ones. *)
Definition table_improves (d : FBConfig.Display)
    (tbl tbl' : list (option FBConfig.glx_fbconfig_t)) : Prop :=
  forall s e, tbl !! s = Some (Some e) ->
              exists e2, tbl' !! s = Some (Some e2) /\ improves d e2 e.

(** Every slot that a candidate among [P] was offered to holds an entry
    that stands against this candidate. *)
Definition best_for (d : FBConfig.Display) (OPENGL_MAX_DEPTH : Z)
    (tbl : list (option FBConfig.glx_fbconfig_t))
    (P : list FBConfig.GLXFBConfig) : Prop :=
  forall slot x,
    In (FBConfig.cfg x) P -> offered d OPENGL_MAX_DEPTH slot (FBConfig.cfg x) ->
    exists e, tbl !! Z.to_nat slot = Some (Some e) /\ dominates d e x.

(** *** Bindings that can be rendered *)

(** A binding as a successful [glx_bind_pixmap] leaves it, read against
    the FBConfig table of the session: both handles are present, the
    target is one of the two texture targets, and the slot of the depth
    of the binding holds an FBConfig. *)
Definition bound_ok (fbconfigs : list (option FBConfig.glx_fbconfig_t))
    (t : Pixmap.glx_texture_t) : Prop :=
  Pixmap.texture t <> 0
  /\ Pixmap.glpixmap t <> 0
  /\ is_tex_tgt (Pixmap.target t)
  /\ 0 <= Pixmap.depth t
  /\ exists pcfg, fbconfigs !! Z.to_nat (Pixmap.depth t) = Some (Some pcfg).

(** A bound texture: texture 3 on GLX pixmap 7 for the X pixmap 5. *)
Definition bound_24 : Pixmap.glx_texture_t :=
  {| Pixmap.texture := 3; Pixmap.glpixmap := 7; Pixmap.pixmap := 5;
     Pixmap.target := GL.GL_TEXTURE_2D; Pixmap.width := 10;
     Pixmap.height := 10; Pixmap.depth := 24; Pixmap.y_inverted := false |}.

(** *** Calls issued by a function *)

(** The calls issued from the context [gl] to the context [gl']. *)
Definition issued (gl gl' : GL.state) : list GL.call :=
  drop (length (GL.calls gl)) (GL.calls gl').

(** A driver whose shaders never compile. *)
Definition no_compile_driver : GL.driver :=
  {| GL.glGenTextures := GL.glGenTextures good_driver;
     GL.glGenFramebuffers := GL.glGenFramebuffers good_driver;
     GL.glCheckFramebufferStatus := GL.glCheckFramebufferStatus good_driver;
     GL.glCreateShader := GL.glCreateShader good_driver;
     GL.compile_status := fun _ => false;
     GL.glCreateProgram := GL.glCreateProgram good_driver;
     GL.link_status := GL.link_status good_driver;
     GL.glGetUniformLocation := GL.glGetUniformLocation good_driver;
     GL.XGetGeometry_reply := GL.XGetGeometry_reply good_driver;
     GL.glXCreatePixmap := GL.glXCreatePixmap good_driver |}.

(** A driver whose programs never link. *)
Definition no_link_driver : GL.driver :=
  {| GL.glGenTextures := GL.glGenTextures good_driver;
     GL.glGenFramebuffers := GL.glGenFramebuffers good_driver;
     GL.glCheckFramebufferStatus := GL.glCheckFramebufferStatus good_driver;
     GL.glCreateShader := GL.glCreateShader good_driver;
     GL.compile_status := GL.compile_status good_driver;
     GL.glCreateProgram := GL.glCreateProgram good_driver;
     GL.link_status := fun _ => false;
     GL.glGetUniformLocation := GL.glGetUniformLocation good_driver;
     GL.XGetGeometry_reply := GL.XGetGeometry_reply good_driver;
     GL.glXCreatePixmap := GL.glXCreatePixmap good_driver |}.

(** *** The main program *)

(** [*pprogram] after [glx_free_prog_main]. *)
Definition freed_prog : Program.glx_prog_main_t :=
  {| Program.prog := 0; Program.unifm_opacity := -1;
     Program.unifm_invert_color := -1; Program.unifm_tex := -1 |}.

(** *** Blur sessions *)

(** A session whose five pass slots all hold a program. *)
Definition full_blur_session : Blur.session_t :=
  {| Blur.blur_passes := replicate 5 built_pass;
     Blur.has_texture_non_power_of_two := true;
     Blur.root_height := 1080;
     Blur.iterations := 3 |}.

(** A session that asks for 8 pyramid levels. *)
Definition deep_blur_session : Blur.session_t :=
  {| Blur.blur_passes := [built_pass; built_pass; empty_pass; empty_pass; empty_pass];
     Blur.has_texture_non_power_of_two := true;
     Blur.root_height := 1080;
     Blur.iterations := 8 |}.

(** A session none of whose passes is built. *)
Definition unbuilt_blur_session : Blur.session_t :=
  {| Blur.blur_passes := replicate 5 empty_pass;
     Blur.has_texture_non_power_of_two := true;
     Blur.root_height := 1080;
     Blur.iterations := 3 |}.

(** The texture target the blur operations work with. *)
Definition blur_tex_tgt (ps : Blur.session_t) : GL.GLenum :=
  if Blur.has_texture_non_power_of_two ps then GL.GL_TEXTURE_2D
  else GL.GL_TEXTURE_RECTANGLE.

(** *** Painting *)

(** A fresh painting context: nothing enabled, texture unit 0 active. *)
Definition paint_init : Paint.state :=
  {| Paint.enabled := ∅; Paint.active_texture := Paint.GL_TEXTURE0;
     Paint.calls := [] |}.

(** A painting context with blending, the stencil test and texture unit 1
    left on. *)
Definition paint_dirty : Paint.state :=
  {| Paint.enabled := {[ Paint.GL_BLEND; GL.GL_STENCIL_TEST ]};
     Paint.active_texture := Paint.GL_TEXTURE1;
     Paint.calls := [] |}.

(** A session with stencil clipping on a screen 1080 pixels high, with
    the FBConfig table of [pixmap_session]. *)
Definition paint_session : Paint.session_t :=
  {| Paint.glx_no_stencil := false;
     Paint.root_height := 1080;
     Paint.fbconfigs := Pixmap.fbconfigs (pixmap_session 1) |}.

(** The box from (10, 20) to (110, 40). *)
Definition box_100x20 : Paint.rect_t :=
  {| Paint.x1 := 10; Paint.y1 := 20; Paint.x2 := 110; Paint.y2 := 40 |}.

(** A session whose table of FBConfigs has no entry at all. *)
Definition empty_paint_session : Paint.session_t :=
  {| Paint.glx_no_stencil := false;
     Paint.root_height := 1080;
     Paint.fbconfigs := replicate 33 None |}.

(** [glx_render] takes the two-texture path: no program, color negation
    asked for, and an ARGB source (by the flag or by the texture format of
    the FBConfig of the binding). *)
Definition dual_texture_path (ps : Paint.session_t)
    (ptex : Pixmap.glx_texture_t) (argb neg : bool)
    (pprogram : option Program.glx_prog_main_t) : Prop :=
  (forall p, pprogram = Some p -> Program.prog p = 0)
  /\ neg = true
  /\ (argb = true
      \/ exists pcfg,
           Paint.fbconfigs ps !! Z.to_nat (Pixmap.depth ptex) = Some (Some pcfg)
           /\ FBConfig.texture_fmt pcfg = FBConfig.GLX_TEXTURE_FORMAT_RGBA_EXT).

(** *** Start and end of the backend *)

(** [CGLX_SESSION_INIT] read as: no context, no function address, an
    empty table of 33 slots and five empty passes. *)
Definition session_def : Init.glx_session_t :=
  {| Init.context := 0;
     Init.has_texture_non_power_of_two := false;
     Init.glXBindTexImageProc := 0;
     Init.glXReleaseTexImageProc := 0;
     Init.fbconfigs := replicate 33 None;
     Init.blur_passes :=
       replicate 5 {| Shader.frag_shader := 0; Shader.prog := 0;
                      Shader.unifm_offset_x := 0; Shader.unifm_offset_y := 0;
                      Shader.unifm_factor_center := 0; Shader.unifm_offset := 0;
                      Shader.unifm_halfpixel := 0; Shader.unifm_fulltex := 0 |} |}.

(** A server on which everything [glx_init] asks for is there. *)
Definition good_server : Init.server :=
  {| Init.glXQueryExtension := true;
     Init.XGetVisualInfo := true;
     Init.glXGetConfig_USE_GL := Some 1;
     Init.glXGetConfig_DOUBLEBUFFER := Some 1;
     Init.glx_hasglxext_texture_from_pixmap := true;
     Init.glXCreateContext := 9;
     Init.glXMakeCurrent := true;
     Init.GL_STENCIL_BITS := 8;
     Init.glx_hasglext_texture_non_power_of_two := true;
     Init.glXGetProcAddress_BindTexImage := 11;
     Init.glXGetProcAddress_ReleaseTexImage := 12 |}.

(** The same server, unable to create a context. *)
Definition no_context_server : Init.server :=
  {| Init.glXQueryExtension := true;
     Init.XGetVisualInfo := true;
     Init.glXGetConfig_USE_GL := Some 1;
     Init.glXGetConfig_DOUBLEBUFFER := Some 1;
     Init.glx_hasglxext_texture_from_pixmap := true;
     Init.glXCreateContext := 0;
     Init.glXMakeCurrent := true;
     Init.GL_STENCIL_BITS := 8;
     Init.glx_hasglext_texture_non_power_of_two := true;
     Init.glXGetProcAddress_BindTexImage := 11;
     Init.glXGetProcAddress_ReleaseTexImage := 12 |}.

(** A session before [glx_init], on the example display, with two
    windows. *)
Definition init_session : Init.session_t :=
  {| Init.glx_exists := false;
     Init.glx_swap_method := 0;
     Init.glx_no_stencil := false;
     Init.dpy := example_display;
     Init.depth := 24;
     Init.win_list := [1; 2];
     Init.glx_prog_win := freed_prog;
     Init.psglx := None |}.

(** A running session: a context, two built blur passes and a main
    program. *)
Definition running_session : Init.session_t :=
  {| Init.glx_exists := true;
     Init.glx_swap_method := 0;
     Init.glx_no_stencil := false;
     Init.dpy := example_display;
     Init.depth := 24;
     Init.win_list := [1; 2];
     Init.glx_prog_win :=
       {| Program.prog := 8; Program.unifm_opacity := 0;
          Program.unifm_invert_color := 1; Program.unifm_tex := 2 |};
     Init.psglx :=
       Some {| Init.context := 9;
               Init.has_texture_non_power_of_two := true;
               Init.glXBindTexImageProc := 11;
               Init.glXReleaseTexImageProc := 12;
               Init.fbconfigs := FBConfig.fbconfigs example_negotiated;
               Init.blur_passes :=
                 [built_pass; built_pass; empty_pass; empty_pass; empty_pass] |} |}.

(** Freeing the resources of a window, read as doing nothing to the GL
    context. *)
Definition free_win_nothing (w : Z) (gl : GL.state) : GL.state := gl.

(** * Properties *)

(** ** Outcomes and C integers *)

Lemma obind_Returned {A B : Type} (m : outcome A) (k : A -> outcome B) (b : B) :
  obind m k = Returned b -> exists a, m = Returned a /\ k a = Returned b.
Proof. destruct m; simpl; intros H; try discriminate. eauto. Qed.

Lemma c_assert_Returned (b : bool) (u : unit) :
  c_assert b = Returned u -> b = true.
Proof. destruct b; simpl; [reflexivity | discriminate]. Qed.

Lemma c_index_lookup {A : Type} (a : list A) (i : Z) (x : A) :
  0 <= i -> a !! Z.to_nat i = Some x -> c_index a i = Returned x.
Proof.
  intros Hi Hx. unfold c_index.
  destruct (Z.ltb_spec i 0); [lia |]. rewrite Hx. reflexivity.
Qed.

Lemma c_index_Returned {A : Type} (a : list A) (i : Z) (x : A) :
  c_index a i = Returned x -> 0 <= i /\ a !! Z.to_nat i = Some x.
Proof.
  unfold c_index. destruct (Z.ltb_spec i 0); [discriminate |].
  destruct (a !! Z.to_nat i); [| discriminate].
  intros [= ->]. auto.
Qed.

(** Inversion of a sequence of binds in a hypothesis. *)
Ltac invert_bind H :=
  let x := fresh "x" in
  let E := fresh "E" in
  apply obind_Returned in H; destruct H as (x & E & H).

Tactic Notation "bind_inv" hyp(H) "as" simple_intropattern(x) ident(E) :=
  apply obind_Returned in H; destruct H as (x & E & H).

Lemma in_int_spec (x : Z) :
  CInt.in_int x = true <-> CInt.INT_MIN <= x <= CInt.INT_MAX.
Proof. unfold CInt.in_int. rewrite andb_true_iff, !Z.leb_le. tauto. Qed.

Lemma int_checked_in_range (x : Z) :
  CInt.INT_MIN <= x <= CInt.INT_MAX -> CInt.int_checked x = Returned x.
Proof.
  intros H. unfold CInt.int_checked.
  apply in_int_spec in H. rewrite H. reflexivity.
Qed.

Lemma int_of_unsigned_small (u : Z) :
  u <= CInt.INT_MAX -> CInt.int_of_unsigned u = u.
Proof.
  intros H. unfold CInt.int_of_unsigned.
  destruct (Z.leb_spec u CInt.INT_MAX); [reflexivity | lia].
Qed.

Lemma int_shl1_in_range (n : Z) :
  0 <= n <= 30 -> CInt.int_shl1 n = Returned (2 ^ n).
Proof.
  intros H. unfold CInt.int_shl1.
  destruct (Z.leb_spec 0 n), (Z.leb_spec n 30); simpl; try lia.
  rewrite Z.shiftl_1_l. reflexivity.
Qed.

Lemma int_shl1_out_of_range (n : Z) :
  n < 0 \/ 30 < n -> CInt.int_shl1 n = Undefined.
Proof.
  intros H. unfold CInt.int_shl1.
  destruct (Z.leb_spec 0 n), (Z.leb_spec n 30); simpl; try reflexivity; lia.
Qed.

(** ** The damage tracker *)

Section DamageFacts.

Import Damage.

Variable CGLX_MAX_BUFFER_AGE : Z.
Variable SWAPM_BUFFER_AGE : Z.

(** The loop unions the [n] history entries from index [i] on. *)
Lemma union_damage_take (hist : list region_t) (n : nat) :
  forall (i : Z) (preg : region_t),
    0 <= i ->
    (Z.to_nat i + n <= length hist)%nat ->
    union_damage hist n i preg
    = Returned (preg ∪ ⋃ (take n (drop (Z.to_nat i) hist))).
Proof.
  induction n as [| n IH]; intros i preg Hi Hlen; simpl.
  - f_equal. simpl. symmetry. apply (right_id_L ∅ (∪)).
  - destruct (lookup_lt_is_Some_2 hist (Z.to_nat i)) as [d Hd]; [lia |].
    rewrite (c_index_lookup _ _ _ Hi Hd). simpl.
    rewrite IH by lia.
    rewrite (drop_S _ _ _ Hd).
    replace (Z.to_nat (i + 1)) with (S (Z.to_nat i)) by lia.
    simpl. unfold pixman_region32_union. f_equal.
    symmetry. apply (assoc_L (∪)).
Qed.

(** Age 0, and any age that is not asked for: the whole screen. *)
Lemma paint_region_age_0 (ps : session_t) (preg : region_t) :
  paint_region CGLX_MAX_BUFFER_AGE SWAPM_BUFFER_AGE ps preg 0
  = Returned (screen_reg ps).
Proof.
  unfold paint_region, glx_paint_pre.
  rewrite int_of_unsigned_small by (unfold CInt.INT_MAX; lia).
  assert (Hage : (if glx_swap_method ps =? SWAPM_BUFFER_AGE then 0 else 0) = 0)
    by (destruct (glx_swap_method ps =? SWAPM_BUFFER_AGE); reflexivity).
  rewrite Hage.
  destruct (CGLX_MAX_BUFFER_AGE + 1 <? 0); reflexivity.
Qed.

(** Ages up to [CGLX_MAX_BUFFER_AGE + 1]: the input and the [a - 1] most
    recent history entries. *)
Lemma paint_region_age_tracked (ps : session_t) (preg : region_t) (a : Z) :
  glx_swap_method ps = SWAPM_BUFFER_AGE ->
  length (all_damage_last ps) = Z.to_nat CGLX_MAX_BUFFER_AGE ->
  1 <= a <= CGLX_MAX_BUFFER_AGE + 1 ->
  a <= CInt.INT_MAX ->
  paint_region CGLX_MAX_BUFFER_AGE SWAPM_BUFFER_AGE ps preg a
  = Returned (preg ∪ ⋃ (take (Z.to_nat (a - 1)) (all_damage_last ps))).
Proof.
  intros Hswap Hlen Ha Hint.
  unfold paint_region, glx_paint_pre.
  rewrite Hswap, Z.eqb_refl, int_of_unsigned_small by assumption.
  destruct (Z.ltb_spec (CGLX_MAX_BUFFER_AGE + 1) a); [lia |].
  destruct (Z.leb_spec 0 a); [| lia]. simpl.
  destruct (Z.eqb_spec a 0); [lia |]. simpl.
  rewrite union_damage_take by (simpl; lia).
  simpl. rewrite drop_0. reflexivity.
Qed.

(** Ages above [CGLX_MAX_BUFFER_AGE + 1]: as for age 0. *)
Lemma paint_region_age_too_high (ps : session_t) (preg : region_t) (a : Z) :
  CGLX_MAX_BUFFER_AGE + 1 < a <= CInt.INT_MAX ->
  -1 <= CGLX_MAX_BUFFER_AGE ->
  glx_swap_method ps = SWAPM_BUFFER_AGE ->
  paint_region CGLX_MAX_BUFFER_AGE SWAPM_BUFFER_AGE ps preg a
  = Returned (screen_reg ps).
Proof.
  intros Ha Hmax Hswap.
  unfold paint_region, glx_paint_pre.
  rewrite Hswap, Z.eqb_refl, int_of_unsigned_small by lia.
  destruct (Z.ltb_spec (CGLX_MAX_BUFFER_AGE + 1) a); [| lia].
  reflexivity.
Qed.

End DamageFacts.

(** C1, as stated, fails one step above the history length: with
    [CGLX_MAX_BUFFER_AGE = 5] and a reported age of 6 the region is the
    input with all five history entries, not the screen region an age of 0
    gives. *)
Lemma paint_region_age_above_history_not_full :
  length (Damage.all_damage_last damage_example) = 5%nat
  /\ Damage.paint_region 5 (-1) damage_example ∅ 6
     = Returned {[ (1, 0); (2, 0); (3, 0); (4, 0); (5, 0) ]}
  /\ Damage.paint_region 5 (-1) damage_example ∅ 0
     = Returned (Damage.screen_reg damage_example)
  /\ Damage.paint_region 5 (-1) damage_example ∅ 6
     <> Damage.paint_region 5 (-1) damage_example ∅ 0.
Proof.
  assert (H6 : Damage.paint_region 5 (-1) damage_example ∅ 6
               = Returned {[ (1, 0); (2, 0); (3, 0); (4, 0); (5, 0) ]}).
  { rewrite paint_region_age_tracked;
      [| reflexivity | reflexivity | lia | unfold CInt.INT_MAX; lia ].
    reflexivity. }
  split; [reflexivity |]. split; [exact H6 |].
  split; [apply paint_region_age_0 |].
  rewrite H6, paint_region_age_0. intros Heq.
  apply (f_equal (fun o => match o with
                           | Returned r => bool_decide ((0, 0) ∈ r)
                           | _ => false
                           end)) in Heq.
  vm_compute in Heq. discriminate Heq.
Qed.

(** C1 (amended): under [SWAPM_BUFFER_AGE], for a reported age [a] that
    fits in an [int]: age 0 gives the full-screen region; an age between 1
    and [CGLX_MAX_BUFFER_AGE + 1] gives the input region unioned with the
    first [a - 1] entries of the damage history; an age above
    [CGLX_MAX_BUFFER_AGE + 1] gives what age 0 gives. *)
Theorem glx_paint_pre_region
    (CGLX_MAX_BUFFER_AGE SWAPM_BUFFER_AGE : Z)
    (ps : Damage.session_t) (preg : Damage.region_t) (a : Z) :
  Damage.glx_swap_method ps = SWAPM_BUFFER_AGE ->
  length (Damage.all_damage_last ps) = Z.to_nat CGLX_MAX_BUFFER_AGE ->
  0 <= CGLX_MAX_BUFFER_AGE ->
  0 <= a <= CInt.INT_MAX ->
  (a = 0 ->
   Damage.paint_region CGLX_MAX_BUFFER_AGE SWAPM_BUFFER_AGE ps preg a
   = Returned (Damage.screen_reg ps))
  /\ (1 <= a <= CGLX_MAX_BUFFER_AGE + 1 ->
      Damage.paint_region CGLX_MAX_BUFFER_AGE SWAPM_BUFFER_AGE ps preg a
      = Returned (preg ∪ ⋃ (take (Z.to_nat (a - 1)) (Damage.all_damage_last ps))))
  /\ (CGLX_MAX_BUFFER_AGE + 1 < a ->
      Damage.paint_region CGLX_MAX_BUFFER_AGE SWAPM_BUFFER_AGE ps preg a
      = Damage.paint_region CGLX_MAX_BUFFER_AGE SWAPM_BUFFER_AGE ps preg 0
      /\ Damage.paint_region CGLX_MAX_BUFFER_AGE SWAPM_BUFFER_AGE ps preg a
         = Returned (Damage.screen_reg ps)).
Proof.
  intros Hswap Hlen Hmax Ha. repeat split.
  - intros ->. apply paint_region_age_0.
  - intros Hr. apply paint_region_age_tracked; [assumption .. | lia].
  - rewrite paint_region_age_0.
    apply paint_region_age_too_high; [lia | lia | assumption].
  - apply paint_region_age_too_high; [lia | lia | assumption].
Qed.

(** The amended C1 at ages 0, 3 and 7 of the example session. *)
Lemma glx_paint_pre_region_witness :
  Damage.paint_region 5 (-1) damage_example {[ (9, 0) ]} 0
  = Returned (Damage.screen_reg damage_example)
  /\ Damage.paint_region 5 (-1) damage_example {[ (9, 0) ]} 3
     = Returned ({[ (9, 0) ]} ∪ ⋃ [ {[ (1, 0) ]}; {[ (2, 0) ]} ])
  /\ Damage.paint_region 5 (-1) damage_example {[ (9, 0) ]} 7
     = Returned (Damage.screen_reg damage_example).
Proof.
  assert (Hint : forall a, 0 <= a <= 7 -> 0 <= a <= CInt.INT_MAX)
    by (unfold CInt.INT_MAX; lia).
  split; [| split].
  - refine (proj1 (glx_paint_pre_region 5 (-1) damage_example {[ (9, 0) ]} 0
                     eq_refl eq_refl _ (Hint 0 _)) eq_refl); lia.
  - refine (proj1 (proj2 (glx_paint_pre_region 5 (-1) damage_example {[ (9, 0) ]} 3
                            eq_refl eq_refl _ (Hint 3 _))) _); lia.
  - refine (proj2 (proj2 (proj2 (glx_paint_pre_region 5 (-1) damage_example
                                   {[ (9, 0) ]} 7 eq_refl eq_refl _ (Hint 7 _))) _));
      lia.
Defined.

(** ** The pixmap-texture bridge *)

Section PixmapFacts.

Import Pixmap.

Variable OPENGL_MAX_DEPTH : Z.
Variable BKEND_GLX : Z.
Variable BKEND_XR_GLX_HYBRID : Z.
Variable drv : GL.driver.

Abbreviation bind_pixmap :=
  (glx_bind_pixmap OPENGL_MAX_DEPTH BKEND_GLX BKEND_XR_GLX_HYBRID drv).

(** The release path destroys the GLX pixmap and keeps everything else. *)
Lemma glx_release_pixmap_handles (ptex : glx_texture_t) (gl : GL.state) :
  glpixmap (glx_release_pixmap ptex gl).1 = 0
  /\ texture (glx_release_pixmap ptex gl).1 = texture ptex.
Proof.
  unfold glx_release_pixmap.
  destruct (Z.eqb_spec (glpixmap ptex) 0); simpl; auto.
Qed.

Lemma create_glx_pixmap_texture (ps : session_t) (ptex ptex' : glx_texture_t)
    (pixmap width height depth : Z) (gl gl' : GL.state) :
  create_glx_pixmap OPENGL_MAX_DEPTH drv ps ptex pixmap width height depth gl
  = Returned (inr (ptex', gl')) ->
  texture ptex' = texture ptex.
Proof.
  unfold create_glx_pixmap. intros H.
  repeat match type of H with
         | context [match ?x with _ => _ end] => destruct x; try discriminate
         end;
    simpl in H; try discriminate.
  all: repeat match type of H with
         | obind ?m _ = _ => destruct m as [[?|] | |]; simpl in H; try discriminate
         end.
  all: injection H as <- _; reflexivity.
Qed.

(** With a GLX backend and a non-zero pixmap, the binding after a call
    holds both handles when the call succeeds and at most one when it
    fails; a failure before the GLX pixmap exists keeps the texture handle
    found on entry. *)
Lemma glx_bind_pixmap_cases (ps : session_t) (pptex pptex' : option glx_texture_t)
    (pixmap width height depth : Z) (gl gl' : GL.state) (ret : bool) :
  backend ps = BKEND_GLX \/ backend ps = BKEND_XR_GLX_HYBRID ->
  pixmap <> 0 ->
  bind_pixmap ps pptex pixmap width height depth gl = Returned (ret, pptex', gl') ->
  exists t,
    pptex' = Some t
    /\ (ret = true -> glpixmap t <> 0 /\ texture t <> 0)
    /\ (ret = false ->
        (glpixmap t = 0 /\ texture t = texture (default GLX_TEX_DEF pptex))
        \/ (glpixmap t <> 0 /\ texture t = 0)).
Proof.
  intros Hbk Hpix H. unfold glx_bind_pixmap in H.
  assert (Hb : negb (backend ps =? BKEND_GLX)
               && negb (backend ps =? BKEND_XR_GLX_HYBRID) = false).
  { destruct Hbk as [-> | ->]; rewrite Z.eqb_refl; simpl;
      [reflexivity | apply andb_false_r]. }
  rewrite Hb in H.
  destruct (Z.eqb_spec pixmap 0) as [| _]; [contradiction |].
  set (t0 := default GLX_TEX_DEF pptex) in *.
  set (rel := if negb (texture t0 =? 0) && negb (Pixmap.pixmap t0 =? pixmap)
              then glx_release_pixmap t0 gl else (t0, gl)) in *.
  assert (Hrel : texture rel.1 = texture t0).
  { subst rel. destruct (negb (texture t0 =? 0) && negb (Pixmap.pixmap t0 =? pixmap));
      [apply glx_release_pixmap_handles | reflexivity]. }
  destruct rel as [t1 gl1]. simpl in Hrel.
  invert_bind H.
  destruct (Z.eqb_spec (glpixmap t1) 0) as [Hz | Hnz].
  - (* the GLX pixmap is created *)
    invert_bind E. injection E as <-.
    destruct x0 as [gl2 | [t2 gl2]].
    + injection H as <- <- <-. exists t1. split; [reflexivity |].
      split; [discriminate |]. intros _. left. split; [exact Hz | exact Hrel].
    + apply create_glx_pixmap_texture in E0.
      destruct (Z.eqb_spec (glpixmap t2) 0) as [Hz2 | Hnz2].
      * injection H as <- <- <-. exists t2. split; [reflexivity |].
        split; [discriminate |]. intros _. left. split; [exact Hz2 | congruence].
      * destruct (Z.eqb_spec (texture t2) 0) as [Ht | Ht].
        -- simpl in H.
           destruct (Z.eqb_spec (GL.glGenTextures drv (GL.now (GL.glEnable (target t2) gl2))) 0)
             as [Hg | Hg].
           ++ injection H as <- <- <-. eexists. split; [reflexivity |].
              split; [discriminate |]. intros _. right. simpl. auto.
           ++ injection H as <- <- <-. eexists. split; [reflexivity |].
              split; [| discriminate]. intros _. simpl. auto.
        -- destruct (Z.eqb_spec (texture t2) 0); [contradiction |].
           injection H as <- <- <-. exists t2. split; [reflexivity |].
           split; [| discriminate]. auto.
  - (* the GLX pixmap is already there *)
    injection E as <-.
    destruct (Z.eqb_spec (glpixmap t1) 0); [contradiction |].
    destruct (Z.eqb_spec (texture t1) 0) as [Ht | Ht].
    + simpl in H.
      destruct (Z.eqb_spec (GL.glGenTextures drv (GL.now (GL.glEnable (target t1) gl1))) 0)
        as [Hg | Hg].
      * injection H as <- <- <-. eexists. split; [reflexivity |].
        split; [discriminate |]. intros _. right. simpl. auto.
      * injection H as <- <- <-. eexists. split; [reflexivity |].
        split; [| discriminate]. intros _. simpl. auto.
    + destruct (Z.eqb_spec (texture t1) 0); [contradiction |].
      injection H as <- <- <-. exists t1. split; [reflexivity |].
      split; [| discriminate]. auto.
Qed.

Lemma calls_app_trans (a b c : GL.state) (t1 t2 : list GL.call) :
  GL.calls b = GL.calls a ++ t1 ->
  GL.calls c = GL.calls b ++ t2 ->
  GL.calls c = GL.calls a ++ (t1 ++ t2).
Proof. intros H1 H2. rewrite H2, H1, app_assoc. reflexivity. Qed.

(** The block that creates the GLX pixmap destroys and releases nothing;
    when it goes on, the binding holds the texture it held and the
    parameters of the pixmap asked for. *)
Lemma create_glx_pixmap_calls (ps : session_t) (ptex : glx_texture_t)
    (pixmap width height depth : Z) (gl : GL.state)
    (r : GL.state + glx_texture_t * GL.state) :
  create_glx_pixmap OPENGL_MAX_DEPTH drv ps ptex pixmap width height depth gl
  = Returned r ->
  exists tail,
    GL.calls (match r with inl g => g | inr (_, g) => g end)
    = GL.calls gl ++ tail
    /\ Forall (fun c => tears_down c = false) tail
    /\ match r with
       | inl _ => True
       | inr (t, _) => texture t = texture ptex /\ Pixmap.pixmap t = pixmap
       end.
Proof.
  unfold create_glx_pixmap. intros H.
  set (query := negb (negb (width =? 0) && negb (height =? 0)
                      && negb (depth =? 0))) in *.
  assert (Hq : exists t0,
             GL.calls (if query then GL.issue (GL.XGetGeometry pixmap) gl else gl)
             = GL.calls gl ++ t0
             /\ Forall (fun c => tears_down c = false) t0).
  { destruct query.
    - exists [GL.XGetGeometry pixmap]. split; [reflexivity |].
      repeat constructor.
    - exists []. rewrite app_nil_r. split; [reflexivity | constructor]. }
  destruct Hq as (t0 & Hq & Ht0).
  set (gl1 := if query then GL.issue (GL.XGetGeometry pixmap) gl else gl) in *.
  clearbody gl1.
  destruct (if query then GL.XGetGeometry_reply drv pixmap
            else Some (width, height, depth)) as [[[w h] d] |].
  2: { injection H as <-. exists t0. auto. }
  destruct (query && (OPENGL_MAX_DEPTH <? d)).
  { injection H as <-. exists t0. auto. }
  bind_inv H as pcfg Hp. destruct pcfg as [pcfg |].
  2: { injection H as <-. exists t0. auto. }
  injection H as <-.
  exists (t0 ++ [GL.XCreatePixmap (FBConfig.cfg pcfg) pixmap
                   (FBConfig.texture_fmt pcfg) (choose_tex_tgt ps pcfg)]).
  split; [| split].
  - unfold GL.issue. cbn [GL.calls]. rewrite Hq, app_assoc. reflexivity.
  - apply Forall_app. split; [exact Ht0 | repeat constructor].
  - split; reflexivity.
Qed.

(** A failing call, step by step: nothing is torn down after the entry;
    the binding left is without GLX pixmap and with the texture found on
    entry, or with a GLX pixmap and without texture. *)
Lemma glx_bind_pixmap_failure (ps : session_t)
    (pptex pptex' : option glx_texture_t)
    (pixmap width height depth : Z) (gl gl' : GL.state) :
  backend ps = BKEND_GLX \/ backend ps = BKEND_XR_GLX_HYBRID ->
  pixmap <> 0 ->
  bind_pixmap ps pptex pixmap width height depth gl
  = Returned (false, pptex', gl') ->
  exists t,
    pptex' = Some t
    /\ (exists tail,
          GL.calls gl' = GL.calls (entry_binding pptex pixmap gl).2 ++ tail
          /\ Forall (fun c => tears_down c = false) tail)
    /\ ((glpixmap (entry_binding pptex pixmap gl).1 = 0
         /\ glpixmap t = 0
         /\ texture t = texture (entry_binding pptex pixmap gl).1
         /\ (t = (entry_binding pptex pixmap gl).1 \/ Pixmap.pixmap t = pixmap))
        \/ (glpixmap t <> 0
            /\ texture t = 0
            /\ texture (entry_binding pptex pixmap gl).1 = 0
            /\ (glpixmap (entry_binding pptex pixmap gl).1 <> 0 ->
                t = (entry_binding pptex pixmap gl).1)
            /\ GL.glIsEnabled (target t) gl' = true)).
Proof.
  intros Hbk Hpix H. unfold glx_bind_pixmap in H.
  assert (Hb : negb (backend ps =? BKEND_GLX)
               && negb (backend ps =? BKEND_XR_GLX_HYBRID) = false).
  { destruct Hbk as [-> | ->]; rewrite Z.eqb_refl; simpl;
      [reflexivity | apply andb_false_r]. }
  rewrite Hb in H.
  destruct (Z.eqb_spec pixmap 0) as [| _]; [contradiction |].
  change (if negb (texture (default GLX_TEX_DEF pptex) =? 0)
             && negb (Pixmap.pixmap (default GLX_TEX_DEF pptex) =? pixmap)
          then glx_release_pixmap (default GLX_TEX_DEF pptex) gl
          else (default GLX_TEX_DEF pptex, gl))
    with (entry_binding pptex pixmap gl) in H.
  destruct (entry_binding pptex pixmap gl) as [t1 gl1]. cbn [fst snd].
  assert (Hgen : forall (t2 : glx_texture_t) (g2 : GL.state) (nr : bool) tail2,
             GL.calls g2 = GL.calls gl1 ++ tail2 ->
             Forall (fun c => tears_down c = false) tail2 ->
             glpixmap t2 <> 0 ->
             texture t2 = texture t1 ->
             (glpixmap t1 <> 0 -> t2 = t1) ->
             (let gl := GL.glEnable (target t2) g2 in
              let '(ptex, gl, need_release) :=
                if texture t2 =? 0
                then let '(ptex, gl) := create_texture drv t2 gl in
                     (ptex, gl, false)
                else (t2, gl, nr) in
              if texture ptex =? 0 then Returned (false, Some ptex, gl)
              else
                let gl := GL.issue (GL.BindTexture (target ptex) (texture ptex)) gl in
                let gl :=
                  if need_release
                  then GL.issue (GL.XReleaseTexImage (glpixmap ptex)) gl
                  else gl in
                let gl := GL.issue (GL.XBindTexImage (glpixmap ptex)) gl in
                let gl := GL.issue (GL.BindTexture (target ptex) 0) gl in
                let gl := GL.glDisable (target ptex) gl in
                Returned (true, Some ptex, gl))
             = Returned (false, pptex', gl') ->
             exists t,
               pptex' = Some t
               /\ (exists tail,
                     GL.calls gl' = GL.calls gl1 ++ tail
                     /\ Forall (fun c => tears_down c = false) tail)
               /\ glpixmap t <> 0
               /\ texture t = 0
               /\ texture t1 = 0
               /\ (glpixmap t1 <> 0 -> t = t1)
               /\ GL.glIsEnabled (target t) gl' = true).
  { intros t2 g2 nr tail2 Hc2 Hf2 Hg2 Ht2 Hsame Hrun. cbv zeta in Hrun.
    destruct (Z.eqb_spec (texture t2) 0) as [Hz | Hnz].
    - unfold create_texture in Hrun. cbv zeta in Hrun. cbn [texture] in Hrun.
      destruct (Z.eqb_spec (GL.glGenTextures drv (GL.now (GL.glEnable (target t2) g2))) 0)
        as [Hgz | Hgnz]; [| discriminate Hrun].
      injection Hrun as <- <-.
      eexists. split; [reflexivity |]. split; [| split; [| split; [| split; [| split]]]].
      + eexists. split.
        * unfold GL.issue, GL.glEnable. cbn [GL.calls]. rewrite Hc2.
          rewrite <- !app_assoc. reflexivity.
        * apply Forall_app. split; [exact Hf2 | repeat constructor].
      + exact Hg2.
      + exact Hgz.
      + congruence.
      + intros Hn. rewrite <- (Hsame Hn). rewrite Hgz, <- Hz.
        destruct t2; reflexivity.
      + unfold GL.glIsEnabled, GL.issue, GL.glEnable.
        cbn [target GL.enabled]. apply bool_decide_eq_true.
        apply elem_of_union. left. apply elem_of_singleton. reflexivity.
    - destruct (Z.eqb_spec (texture t2) 0); [contradiction | discriminate Hrun]. }
  bind_inv H as created Hcr.
  destruct (Z.eqb_spec (glpixmap t1) 0) as [Hz | Hnz].
  - bind_inv Hcr as r Hr. injection Hcr as <-.
    destruct (create_glx_pixmap_calls _ _ _ _ _ _ _ _ Hr) as (tail & Hc & Hf & Hfld).
    destruct r as [g2 | [t2 g2]].
    + injection H as <- <-. exists t1. split; [reflexivity |].
      split; [exists tail; auto |]. left. auto.
    + destruct Hfld as [Ht2 Hp2].
      destruct (Z.eqb_spec (glpixmap t2) 0) as [Hz2 | Hnz2].
      * injection H as <- <-. exists t2. split; [reflexivity |].
        split; [exists tail; auto |]. left. auto.
      * destruct (Hgen t2 g2 false tail Hc Hf Hnz2 Ht2
                    ltac:(intros Hc'; contradiction) H)
          as (t & -> & Htail & Hg & Ht & Ht1 & Hsame & Hen).
        exists t. split; [reflexivity |]. split; [exact Htail |].
        right. auto.
  - injection Hcr as <-.
    destruct (Z.eqb_spec (glpixmap t1) 0); [contradiction |].
    destruct (Hgen t1 gl1 true [] ltac:(rewrite app_nil_r; reflexivity)
                ltac:(constructor) Hnz eq_refl ltac:(auto) H)
      as (t & -> & Htail & Hg & Ht & Ht1 & Hsame & Hen).
    exists t. split; [reflexivity |]. split; [exact Htail |].
    right. auto.
Qed.

End PixmapFacts.

(** C4, as stated, fails when the texture cannot be allocated on a first
    bind: the call returns failure with the GLX pixmap it has just created
    (handle 7) still in the binding and no texture, and the calls it
    issued contain no [glXDestroyPixmap]: nothing is torn down. *)
Lemma glx_bind_pixmap_failure_not_torn_down :
  Pixmap.glx_bind_pixmap 32 1 2 no_texture_driver (pixmap_session 1)
    None 5 10 10 24 gl_init
  = Returned (false, Some half_bound,
              half_bound_gl)
  /\ ~ In (GL.XDestroyPixmap 7) (GL.calls half_bound_gl)
  /\ ~ handles_consistent half_bound.
Proof.
  split; [reflexivity |]. split.
  { simpl. intros H. repeat (destruct H as [H | H]; [discriminate H |]). exact H. }
  unfold handles_consistent, half_bound. simpl. intros [[H _] | [_ H]].
  - discriminate H.
  - apply H. reflexivity.
Qed.

(** C4 (amended): under a GLX backend and for a non-zero pixmap, a
    successful call leaves both handles present, so the both-or-neither
    invariant holds after it. The only release in [glx_bind_pixmap] is the
    one on entry: a binding that holds a texture for another pixmap than
    the one asked for has its GLX pixmap destroyed there and keeps its
    texture; any other binding is taken as it is. A failing call tears
    nothing down after that: the calls it issues past the entry destroy
    no GLX pixmap, release no image and delete no texture. The binding it
    leaves is either without GLX pixmap and with the texture handle found
    on entry (it is the binding as it was after the entry, or a binding
    that records the pixmap asked for), or with a GLX pixmap and without
    texture (the binding had no texture on entry, the GLX pixmap found on
    entry is kept with the rest of the binding, a GLX pixmap just created
    is kept too, and the texture target is left enabled). The invariant
    holds after a failing call exactly when both handles are absent. *)
Theorem glx_bind_pixmap_handles
    (OPENGL_MAX_DEPTH BKEND_GLX BKEND_XR_GLX_HYBRID : Z) (drv : GL.driver)
    (ps : Pixmap.session_t) (pptex pptex' : option Pixmap.glx_texture_t)
    (pixmap width height depth : Z) (gl gl' : GL.state) (ret : bool) :
  Pixmap.backend ps = BKEND_GLX \/ Pixmap.backend ps = BKEND_XR_GLX_HYBRID ->
  pixmap <> 0 ->
  Pixmap.glx_bind_pixmap OPENGL_MAX_DEPTH BKEND_GLX BKEND_XR_GLX_HYBRID drv
    ps pptex pixmap width height depth gl = Returned (ret, pptex', gl') ->
  let t0 := default Pixmap.GLX_TEX_DEF pptex in
  let entry := entry_binding pptex pixmap gl in
  (* the entry *)
  (Pixmap.texture t0 = 0 \/ Pixmap.pixmap t0 = pixmap -> entry = (t0, gl))
  /\ (Pixmap.texture t0 <> 0 -> Pixmap.pixmap t0 <> pixmap ->
      entry = Pixmap.glx_release_pixmap t0 gl
      /\ Pixmap.glpixmap entry.1 = 0
      /\ Pixmap.texture entry.1 = Pixmap.texture t0
      /\ (Pixmap.glpixmap t0 <> 0 ->
          In (GL.XDestroyPixmap (Pixmap.glpixmap t0)) (issued gl entry.2)))
  /\ exists t,
      pptex' = Some t
      (* a successful call *)
      /\ (ret = true ->
          Pixmap.glpixmap t <> 0 /\ Pixmap.texture t <> 0
          /\ handles_consistent t)
      (* a failing call *)
      /\ (ret = false ->
          (exists tail,
              GL.calls gl' = GL.calls entry.2 ++ tail
              /\ Forall (fun c => tears_down c = false) tail)
          /\ ((Pixmap.glpixmap t = 0
               /\ Pixmap.texture t = Pixmap.texture t0
               /\ (t = entry.1 \/ Pixmap.pixmap t = pixmap))
              \/ (Pixmap.glpixmap t <> 0
                  /\ Pixmap.texture t = 0
                  /\ Pixmap.texture t0 = 0
                  /\ (Pixmap.glpixmap t0 <> 0 -> t = t0)
                  /\ GL.glIsEnabled (Pixmap.target t) gl' = true))
          /\ (handles_consistent t
              <-> Pixmap.glpixmap t = 0 /\ Pixmap.texture t = 0)).
Proof.
  intros Hbk Hpix H t0 entry.
  assert (Hsame : Pixmap.texture t0 = 0 \/ Pixmap.pixmap t0 = pixmap ->
                  entry = (t0, gl)).
  { subst entry. unfold entry_binding. fold t0. intros [-> | ->].
    - reflexivity.
    - rewrite Z.eqb_refl, andb_false_r. reflexivity. }
  assert (Hrel : Pixmap.texture t0 <> 0 -> Pixmap.pixmap t0 <> pixmap ->
                 entry = Pixmap.glx_release_pixmap t0 gl).
  { subst entry. unfold entry_binding. fold t0. intros Ht Hp.
    destruct (Z.eqb_spec (Pixmap.texture t0) 0); [contradiction |].
    destruct (Z.eqb_spec (Pixmap.pixmap t0) pixmap); [contradiction |].
    reflexivity. }
  assert (Htex : Pixmap.texture entry.1 = Pixmap.texture t0).
  { destruct (Z.eq_dec (Pixmap.texture t0) 0) as [Hz | Hnz];
      [rewrite Hsame by auto; reflexivity |].
    destruct (Z.eq_dec (Pixmap.pixmap t0) pixmap) as [Hp | Hnp];
      [rewrite Hsame by auto; reflexivity |].
    rewrite (Hrel Hnz Hnp). apply glx_release_pixmap_handles. }
  split; [exact Hsame |]. split.
  { intros Ht Hp. split; [exact (Hrel Ht Hp) |].
    split; [rewrite (Hrel Ht Hp); apply glx_release_pixmap_handles |].
    split; [exact Htex |].
    intros Hg. rewrite (Hrel Ht Hp). unfold issued, Pixmap.glx_release_pixmap.
    destruct (Z.eqb_spec (Pixmap.glpixmap t0) 0); [contradiction |].
    destruct (Z.eqb_spec (Pixmap.texture t0) 0); [contradiction |].
    cbn [negb andb snd GL.issue GL.calls].
    rewrite <- !app_assoc, drop_app_length. simpl. auto. }
  destruct ret.
  - destruct (glx_bind_pixmap_cases _ _ _ _ _ _ _ _ _ _ _ _ _ _ Hbk Hpix H)
      as (t & -> & Htrue & _).
    exists t. split; [reflexivity |]. split; [| discriminate].
    intros _. destruct (Htrue eq_refl) as [Hg Ht].
    repeat split; try assumption. right. auto.
  - destruct (glx_bind_pixmap_failure _ _ _ _ _ _ _ _ _ _ _ _ _ Hbk Hpix H)
      as (t & -> & Htail & Hcases).
    fold entry in Htail, Hcases.
    exists t. split; [reflexivity |]. split; [discriminate |].
    intros _. split; [exact Htail |].
    assert (Hshape : (Pixmap.glpixmap t = 0
                      /\ Pixmap.texture t = Pixmap.texture t0
                      /\ (t = entry.1 \/ Pixmap.pixmap t = pixmap))
                     \/ (Pixmap.glpixmap t <> 0
                         /\ Pixmap.texture t = 0
                         /\ Pixmap.texture t0 = 0
                         /\ (Pixmap.glpixmap t0 <> 0 -> t = t0)
                         /\ GL.glIsEnabled (Pixmap.target t) gl' = true)).
    { destruct Hcases as [(_ & Hg & Ht & Hor) | (Hg & Ht & Ht1 & Hkeep & Hen)].
      - left. split; [exact Hg |]. split; [congruence | exact Hor].
      - right. rewrite Htex in Ht1.
        rewrite (Hsame (or_introl Ht1)) in Hkeep. auto. }
    split; [exact Hshape |].
    unfold handles_consistent. split.
    + intros [Hc | [Hg Ht]]; [exact Hc |].
      destruct Hshape as [(Hz & _) | (_ & Hz & _)]; contradiction.
    + intros Hc. left. exact Hc.
Qed.

(** The amended C4 at a successful first bind, at the failing first bind
    (the GLX pixmap 7 just created is kept, without texture), and at a
    failing bind of pixmap 6 at depth 16, for which there is no FBConfig,
    on the texture bound to pixmap 5: the GLX pixmap 7 was destroyed on
    entry, the texture 3 is kept and nothing else was issued. *)
Lemma glx_bind_pixmap_handles_witness :
  (exists t gl',
      Pixmap.glx_bind_pixmap 32 1 2 good_driver (pixmap_session 1)
        None 5 10 10 24 gl_init = Returned (true, Some t, gl')
      /\ handles_consistent t)
  /\ (handles_consistent half_bound
      <-> Pixmap.glpixmap half_bound = 0 /\ Pixmap.texture half_bound = 0)
  /\ (exists t gl',
         Pixmap.glx_bind_pixmap 32 1 2 good_driver (pixmap_session 1)
           (Some bound_24) 6 10 10 16 gl_init = Returned (false, Some t, gl')
         /\ Pixmap.glpixmap t = 0 /\ Pixmap.texture t = 3
         /\ In (GL.XDestroyPixmap 7) (GL.calls gl')
         /\ GL.calls gl' = GL.calls (entry_binding (Some bound_24) 6 gl_init).2).
Proof.
  split; [| split].
  - destruct (Pixmap.glx_bind_pixmap 32 1 2 good_driver (pixmap_session 1)
                None 5 10 10 24 gl_init) as [[[r o] g] | |] eqn:E;
      try (vm_compute in E; discriminate E).
    assert (Hr : r = true) by (vm_compute in E; congruence).
    subst r.
    destruct (glx_bind_pixmap_handles 32 1 2 good_driver (pixmap_session 1)
                None o 5 10 10 24 gl_init g true (or_introl eq_refl)
                ltac:(discriminate) E) as (_ & _ & t & -> & Ht & _).
    exists t, g. split; [reflexivity |]. apply Ht. reflexivity.
  - destruct (glx_bind_pixmap_handles 32 1 2 no_texture_driver (pixmap_session 1)
                None (Some half_bound) 5 10 10 24 gl_init half_bound_gl false
                (or_introl eq_refl) ltac:(discriminate) eq_refl)
      as (_ & _ & t & [= <-] & _ & Hf).
    apply Hf. reflexivity.
  - destruct (Pixmap.glx_bind_pixmap 32 1 2 good_driver (pixmap_session 1)
                (Some bound_24) 6 10 10 16 gl_init) as [[[r o] g] | |] eqn:E;
      try (vm_compute in E; discriminate E).
    assert (Hr : r = false) by (vm_compute in E; congruence).
    subst r.
    destruct (glx_bind_pixmap_handles 32 1 2 good_driver (pixmap_session 1)
                (Some bound_24) o 6 10 10 16 gl_init g false (or_introl eq_refl)
                ltac:(discriminate) E)
      as (_ & Hentry & t & -> & _ & Hf).
    destruct (Hentry ltac:(discriminate) ltac:(discriminate))
      as (_ & _ & _ & Hdestroyed).
    destruct (Hf eq_refl) as ((tail & Hcalls & _) & Hshape & _).
    exists t, g.
    assert (Hg : g = (entry_binding (Some bound_24) 6 gl_init).2)
      by (vm_compute in E; injection E as _ <-; reflexivity).
    split; [reflexivity |].
    destruct Hshape as [(Hz & Ht & _) | (Hnz & Ht & Ht0 & _)];
      [| discriminate Ht0].
    split; [exact Hz |]. split; [exact Ht |].
    split; [| rewrite Hg; reflexivity].
    rewrite Hg. specialize (Hdestroyed ltac:(discriminate)).
    unfold issued in Hdestroyed. simpl in Hdestroyed. exact Hdestroyed.
Defined.

(** A depth obtained by querying the X server is checked against
    [OPENGL_MAX_DEPTH] before the table is indexed. *)
Lemma glx_bind_pixmap_queried_depth_too_high
    (OPENGL_MAX_DEPTH BKEND_GLX BKEND_XR_GLX_HYBRID : Z) (drv : GL.driver)
    (ps : Pixmap.session_t) (pixmap width height depth w h d : Z)
    (gl : GL.state) :
  Pixmap.backend ps = BKEND_GLX \/ Pixmap.backend ps = BKEND_XR_GLX_HYBRID ->
  pixmap <> 0 ->
  width = 0 \/ height = 0 \/ depth = 0 ->
  GL.XGetGeometry_reply drv pixmap = Some (w, h, d) ->
  OPENGL_MAX_DEPTH < d ->
  Pixmap.glx_bind_pixmap OPENGL_MAX_DEPTH BKEND_GLX BKEND_XR_GLX_HYBRID drv
    ps None pixmap width height depth gl
  = Returned (false, Some Pixmap.GLX_TEX_DEF, GL.issue (GL.XGetGeometry pixmap) gl).
Proof.
  intros Hbk Hpix Hq Hreply Hd. unfold Pixmap.glx_bind_pixmap.
  assert (Hb : negb (Pixmap.backend ps =? BKEND_GLX)
               && negb (Pixmap.backend ps =? BKEND_XR_GLX_HYBRID) = false).
  { destruct Hbk as [-> | ->]; rewrite Z.eqb_refl; simpl;
      [reflexivity | apply andb_false_r]. }
  rewrite Hb. destruct (Z.eqb_spec pixmap 0); [contradiction |].
  simpl. unfold Pixmap.create_glx_pixmap.
  assert (Hquery : negb (negb (width =? 0) && negb (height =? 0)
                         && negb (depth =? 0)) = true).
  { destruct Hq as [-> | [-> | ->]]; simpl;
      rewrite ?andb_false_r; reflexivity. }
  rewrite Hquery, Hreply. simpl.
  destruct (Z.ltb_spec OPENGL_MAX_DEPTH d); [reflexivity | lia].
Qed.

(** C5: a depth of 33 supplied by the caller, with [OPENGL_MAX_DEPTH = 32]
    and a 33-slot table, is not compared with [OPENGL_MAX_DEPTH]: the call
    indexes [fbconfigs[33]], past the end of the table, and does not
    return failure. *)
Theorem glx_bind_pixmap_explicit_depth_unchecked :
  length (Pixmap.fbconfigs (pixmap_session 1)) = 33%nat
  /\ Pixmap.glx_bind_pixmap 32 1 2 good_driver (pixmap_session 1)
       None 5 10 10 33 gl_init = Undefined
  /\ Pixmap.create_glx_pixmap 32 good_driver (pixmap_session 1)
       Pixmap.GLX_TEX_DEF 5 10 10 33 gl_init = Undefined.
Proof. repeat split. Qed.

(** C10: when the backend is neither [BKEND_GLX] nor
    [BKEND_XR_GLX_HYBRID] the call returns success with the binding and
    the GL context untouched; with one of these backends and a zero pixmap
    it returns failure, again with both untouched. *)
Theorem glx_bind_pixmap_early_returns
    (OPENGL_MAX_DEPTH BKEND_GLX BKEND_XR_GLX_HYBRID : Z) (drv : GL.driver)
    (ps : Pixmap.session_t) (pptex : option Pixmap.glx_texture_t)
    (pixmap width height depth : Z) (gl : GL.state) :
  (Pixmap.backend ps <> BKEND_GLX ->
   Pixmap.backend ps <> BKEND_XR_GLX_HYBRID ->
   Pixmap.glx_bind_pixmap OPENGL_MAX_DEPTH BKEND_GLX BKEND_XR_GLX_HYBRID drv
     ps pptex pixmap width height depth gl = Returned (true, pptex, gl))
  /\ (Pixmap.backend ps = BKEND_GLX \/ Pixmap.backend ps = BKEND_XR_GLX_HYBRID ->
      pixmap = 0 ->
      Pixmap.glx_bind_pixmap OPENGL_MAX_DEPTH BKEND_GLX BKEND_XR_GLX_HYBRID drv
        ps pptex pixmap width height depth gl = Returned (false, pptex, gl)).
Proof.
  unfold Pixmap.glx_bind_pixmap. split.
  - intros H1 H2.
    destruct (Z.eqb_spec (Pixmap.backend ps) BKEND_GLX); [contradiction |].
    destruct (Z.eqb_spec (Pixmap.backend ps) BKEND_XR_GLX_HYBRID);
      [contradiction | reflexivity].
  - intros Hbk ->.
    assert (Hb : negb (Pixmap.backend ps =? BKEND_GLX)
                 && negb (Pixmap.backend ps =? BKEND_XR_GLX_HYBRID) = false).
    { destruct Hbk as [-> | ->]; rewrite Z.eqb_refl; simpl;
        [reflexivity | apply andb_false_r]. }
    rewrite Hb. reflexivity.
Qed.

(** C10 at an XRender session (backend 0) with a bound texture, and at a
    GLX session asked to bind pixmap 0. *)
Lemma glx_bind_pixmap_early_returns_witness :
  Pixmap.glx_bind_pixmap 32 1 2 good_driver (pixmap_session 0)
    (Some half_bound) 5 10 10 24 half_bound_gl
  = Returned (true, Some half_bound, half_bound_gl)
  /\ Pixmap.glx_bind_pixmap 32 1 2 good_driver (pixmap_session 1)
       (Some half_bound) 0 10 10 24 half_bound_gl
     = Returned (false, Some half_bound, half_bound_gl).
Proof.
  split.
  - apply (proj1 (glx_bind_pixmap_early_returns 32 1 2 good_driver
                    (pixmap_session 0) (Some half_bound) 5 10 10 24 half_bound_gl));
      simpl; lia.
  - apply (proj2 (glx_bind_pixmap_early_returns 32 1 2 good_driver
                    (pixmap_session 1) (Some half_bound) 0 10 10 24 half_bound_gl));
      [left; reflexivity | reflexivity].
Defined.

(** ** Ranking of FBConfigs *)

Section CmpFacts.

Import FBConfig.

Variable d : Display.

Lemma valid_attr_value (c : glx_fbconfig_t) (attr : glx_attr) :
  valid_candidate d c -> 0 <= attr_value d c attr <= CInt.INT_MAX.
Proof.
  intros [_ H]. unfold attr_value.
  destruct (glXGetFBConfigAttrib d (cfg c) attr) as [v |] eqn:E; simpl.
  - eauto.
  - unfold CInt.INT_MAX. lia.
Qed.

Lemma cmpattr_valid (a b : glx_fbconfig_t) (attr : glx_attr) :
  valid_candidate d a -> valid_candidate d b ->
  glx_cmp_fbconfig_cmpattr d a b attr
  = Returned (attr_value d a attr - attr_value d b attr).
Proof.
  intros Ha Hb. unfold glx_cmp_fbconfig_cmpattr, CInt.int_sub.
  apply int_checked_in_range.
  pose proof (valid_attr_value a attr Ha).
  pose proof (valid_attr_value b attr Hb).
  fold (attr_value d a attr). fold (attr_value d b attr).
  unfold CInt.INT_MIN, CInt.INT_MAX in *. lia.
Qed.

Lemma P_CMPATTR_LT_valid (a b : glx_fbconfig_t) (attr : glx_attr)
    (k : outcome Z) :
  valid_candidate d a -> valid_candidate d b ->
  P_CMPATTR_LT d a b attr k
  = if negb (attr_value d a attr - attr_value d b attr =? 0)
    then Returned (- (attr_value d a attr - attr_value d b attr))
    else k.
Proof.
  intros Ha Hb. unfold P_CMPATTR_LT. rewrite cmpattr_valid by assumption.
  simpl. destruct (negb _); [| reflexivity].
  unfold CInt.int_neg. apply int_checked_in_range.
  pose proof (valid_attr_value a attr Ha).
  pose proof (valid_attr_value b attr Hb).
  unfold CInt.INT_MIN, CInt.INT_MAX in *. lia.
Qed.

Lemma P_CMPATTR_GT_valid (a b : glx_fbconfig_t) (attr : glx_attr)
    (k : outcome Z) :
  valid_candidate d a -> valid_candidate d b ->
  P_CMPATTR_GT d a b attr k
  = if negb (attr_value d a attr - attr_value d b attr =? 0)
    then Returned (attr_value d a attr - attr_value d b attr)
    else k.
Proof.
  intros Ha Hb. unfold P_CMPATTR_GT. rewrite cmpattr_valid by assumption.
  reflexivity.
Qed.

(** On valid candidates the comparison is defined and is [cmp_values]. *)
Lemma glx_cmp_fbconfig_valid (a b : glx_fbconfig_t) :
  valid_candidate d a -> valid_candidate d b ->
  glx_cmp_fbconfig d (Some a) (Some b) = Returned (cmp_values d a b).
Proof.
  intros Ha Hb. unfold glx_cmp_fbconfig, cmp_values.
  rewrite !P_CMPATTR_LT_valid, P_CMPATTR_GT_valid by assumption.
  destruct Ha as [[ra Hra] _]. destruct Hb as [[rb Hrb] _].
  unfold red_size in Hra, Hrb.
  assert (Hva : attr_value d a GLX_RED_SIZE = ra)
    by (unfold attr_value; rewrite Hra; reflexivity).
  assert (Hvb : attr_value d b GLX_RED_SIZE = rb)
    by (unfold attr_value; rewrite Hrb; reflexivity).
  rewrite Hva, Hvb, Hra, Hrb. simpl.
  destruct (negb (ra =? 8)); [reflexivity |].
  destruct (negb (rb =? 8)); [reflexivity |].
  assert (Hflip : forall x y,
             (if negb (x - y =? 0) then Returned (- (x - y)) else Returned 0)
             = Returned (if negb (- x - - y =? 0) then - x - - y else 0)).
  { intros x y. destruct (Z.eqb_spec (x - y) 0), (Z.eqb_spec (- x - - y) 0);
      simpl; try lia; f_equal; lia. }
  repeat match goal with
         | |- (if negb (?x - ?y =? 0) then Returned (- (?x - ?y)) else ?k)
              = Returned (if negb (- ?x - - ?y =? 0) then _ else ?r) =>
             destruct (Z.eqb_spec (x - y) 0), (Z.eqb_spec (- x - - y) 0);
             simpl; try lia; [| f_equal; lia]
         end.
  destruct (negb _); reflexivity.
Qed.

Lemma ranked_better_values (a b : glx_fbconfig_t) :
  valid_candidate d a -> valid_candidate d b ->
  ranked_better d a b <-> 0 < cmp_values d a b.
Proof.
  intros Ha Hb. unfold ranked_better.
  rewrite glx_cmp_fbconfig_valid by assumption. split.
  - intros (r & [= <-] & Hr). exact Hr.
  - intros Hr. eauto.
Qed.

Lemma overrides_values (new cur : glx_fbconfig_t) :
  valid_candidate d new -> valid_candidate d cur ->
  overrides d new cur <-> cmp_values d cur new < 0.
Proof.
  intros Hn Hc. unfold overrides.
  rewrite glx_cmp_fbconfig_valid by assumption. split.
  - intros (r & [= <-] & Hr). exact Hr.
  - intros Hr. eauto.
Qed.

(** [lex_diff] is antisymmetric, and transitive on its positive side. *)
Lemma lex_diff_antisym (ka : list Z) :
  forall kb, lex_diff kb ka = - lex_diff ka kb.
Proof.
  induction ka as [| x ka IH]; intros [| y kb]; simpl; try reflexivity.
  destruct (Z.eqb_spec (y - x) 0), (Z.eqb_spec (x - y) 0); simpl; try lia.
  apply IH.
Qed.

Lemma lex_diff_refl (ka : list Z) : lex_diff ka ka = 0.
Proof. pose proof (lex_diff_antisym ka ka). lia. Qed.

Lemma lex_diff_trans (ka : list Z) :
  forall kb kc,
    length ka = length kb ->
    0 < lex_diff ka kb -> 0 < lex_diff kb kc -> 0 < lex_diff ka kc.
Proof.
  induction ka as [| x ka IH]; intros [| y kb] [| z kc] Hlen; simpl;
    try lia; try discriminate.
  destruct (Z.eqb_spec (x - y) 0), (Z.eqb_spec (y - z) 0),
    (Z.eqb_spec (x - z) 0); simpl; try lia.
  apply IH. simpl in Hlen. lia.
Qed.

(** Two key lists of one length with no difference either way are
    compared alike with any third. *)
Lemma lex_diff_zero (ka : list Z) :
  forall kb kc,
    length ka = length kb -> lex_diff ka kb = 0 ->
    lex_diff ka kc = lex_diff kb kc.
Proof.
  induction ka as [| x ka IH]; intros [| y kb] kc Hlen; simpl;
    try discriminate; try reflexivity.
  destruct (Z.eqb_spec (x - y) 0); simpl; [| lia].
  intros H0. destruct kc as [| z kc]; [reflexivity |].
  replace y with x by lia.
  destruct (negb (x - z =? 0)); [reflexivity |].
  apply IH; [simpl in Hlen; lia | exact H0].
Qed.

Lemma keys_length (a b : glx_fbconfig_t) :
  length (keys d a) = length (keys d b).
Proof. reflexivity. Qed.

(** The two red-size tests of [cmp_values], decided. *)
Ltac red_cases :=
  unfold cmp_values in *;
  repeat match goal with
         | H : context [negb (attr_value d ?c GLX_RED_SIZE =? 8)] |- _ =>
             destruct (Z.eqb_spec (attr_value d c GLX_RED_SIZE) 8);
             cbn [negb] in *
         | |- context [negb (attr_value d ?c GLX_RED_SIZE =? 8)] =>
             destruct (Z.eqb_spec (attr_value d c GLX_RED_SIZE) 8);
             cbn [negb] in *
         end;
  try lia.

Lemma cmp_values_irrefl (a : glx_fbconfig_t) : ~ 0 < cmp_values d a a.
Proof. red_cases. rewrite lex_diff_refl. lia. Qed.

Lemma cmp_values_trans_pos (a b c : glx_fbconfig_t) :
  0 < cmp_values d a b -> 0 < cmp_values d b c -> 0 < cmp_values d a c.
Proof.
  intros H1 H2. red_cases.
  eapply lex_diff_trans; [apply keys_length | eassumption ..].
Qed.

Lemma cmp_values_trans_neg (a b c : glx_fbconfig_t) :
  cmp_values d b a < 0 -> cmp_values d c b < 0 -> cmp_values d c a < 0.
Proof.
  intros H1 H2. red_cases.
  pose proof (lex_diff_antisym (keys d a) (keys d b)) as Eab.
  pose proof (lex_diff_antisym (keys d b) (keys d c)) as Ebc.
  pose proof (lex_diff_antisym (keys d a) (keys d c)) as Eac.
  assert (0 < lex_diff (keys d a) (keys d c))
    by (apply (lex_diff_trans _ (keys d b)); [apply keys_length | lia | lia]).
  lia.
Qed.

Lemma cmp_values_incomparable_trans (a b c : glx_fbconfig_t) :
  ~ 0 < cmp_values d a b -> ~ 0 < cmp_values d b a ->
  ~ 0 < cmp_values d b c -> ~ 0 < cmp_values d c b ->
  ~ 0 < cmp_values d a c /\ ~ 0 < cmp_values d c a.
Proof.
  intros H1 H2 H3 H4. red_cases.
  pose proof (lex_diff_antisym (keys d a) (keys d b)).
  pose proof (lex_diff_antisym (keys d b) (keys d c)).
  pose proof (lex_diff_antisym (keys d a) (keys d c)).
  assert (Hab : lex_diff (keys d a) (keys d b) = 0) by lia.
  rewrite (lex_diff_zero _ _ (keys d c) (keys_length a b) Hab) in *.
  lia.
Qed.

End CmpFacts.

(** C2: on the candidates GLX describes, "ranked strictly better" (a
    positive comparison) is a strict weak ordering: irreflexive,
    transitive, and with a transitive incomparability; the replacement
    test of the per-depth table (a negative comparison of the retained
    entry with the newcomer) is transitive as well; and a candidate whose
    red size is not 8 is neither ranked better than, nor replaces, one
    whose red size is 8, whatever the other attributes. *)
Theorem glx_cmp_fbconfig_strict_weak_order
    (d : FBConfig.Display) (A B C : FBConfig.glx_fbconfig_t) :
  valid_candidate d A -> valid_candidate d B -> valid_candidate d C ->
  ~ ranked_better d A A
  /\ (ranked_better d A B -> ranked_better d B C -> ranked_better d A C)
  /\ (~ ranked_better d A B -> ~ ranked_better d B A ->
      ~ ranked_better d B C -> ~ ranked_better d C B ->
      ~ ranked_better d A C /\ ~ ranked_better d C A)
  /\ (overrides d A B -> overrides d B C -> overrides d A C)
  /\ (red_size d A <> Some 8 -> red_size d B = Some 8 ->
      ~ ranked_better d A B /\ ~ overrides d A B).
Proof.
  intros HA HB HC.
  rewrite !ranked_better_values, !overrides_values by assumption.
  split; [apply cmp_values_irrefl |].
  split; [apply cmp_values_trans_pos |].
  split; [apply cmp_values_incomparable_trans |].
  split; [apply cmp_values_trans_neg |].
  intros HrA HrB. unfold cmp_values.
  assert (HvA : attr_value d A FBConfig.GLX_RED_SIZE <> 8).
  { destruct HA as [[ra Hra] _]. unfold attr_value. unfold red_size in *.
    rewrite Hra in *. simpl. congruence. }
  assert (HvB : attr_value d B FBConfig.GLX_RED_SIZE = 8).
  { unfold attr_value. unfold red_size in HrB. rewrite HrB. reflexivity. }
  rewrite HvB.
  destruct (Z.eqb_spec (attr_value d A FBConfig.GLX_RED_SIZE) 8);
    [contradiction |].
  simpl. lia.
Qed.

Lemma example_candidates_valid (c fmt : Z) :
  valid_candidate example_display (candidate c fmt).
Proof.
  split.
  - unfold red_size. simpl. eauto.
  - intros attr v. simpl. unfold CInt.INT_MAX.
    destruct attr; simpl; intros [= <-];
      repeat match goal with
             | |- context [if ?b then _ else _] => destruct b
             end; lia.
Qed.

(** C2 on the example display: FBConfig 2 is ranked better than 1, 1
    better than 6, hence 2 better than 6; and the 10-bit FBConfig 4 is not
    ranked better than 1. *)
Lemma glx_cmp_fbconfig_strict_weak_order_witness :
  ranked_better example_display (candidate 2 0) (candidate 6 0)
  /\ ~ ranked_better example_display (candidate 4 0) (candidate 1 0).
Proof.
  split.
  - refine (proj1 (proj2 (glx_cmp_fbconfig_strict_weak_order example_display
                            (candidate 2 0) (candidate 1 0) (candidate 6 0)
                            (example_candidates_valid 2 0)
                            (example_candidates_valid 1 0)
                            (example_candidates_valid 6 0))) _ _).
    + exists 1. split; [reflexivity | lia].
    + exists 8. split; [reflexivity | lia].
  - refine (proj1 (proj2 (proj2 (proj2 (proj2
              (glx_cmp_fbconfig_strict_weak_order example_display
                 (candidate 4 0) (candidate 1 0) (candidate 1 0)
                 (example_candidates_valid 4 0)
                 (example_candidates_valid 1 0)
                 (example_candidates_valid 1 0))))) _ _)).
    + unfold red_size. simpl. discriminate.
    + reflexivity.
Defined.

(** The replacement test alone is not irreflexive: between candidates
    whose red size is not 8 the newcomer always replaces the retained
    entry. *)
Lemma overrides_10_bit_itself :
  overrides example_display (candidate 4 0) (candidate 4 0).
Proof. exists (-1). split; [reflexivity | lia]. Qed.

(** ** The per-depth table *)

Section TableFacts.

Import FBConfig.

Variable OPENGL_MAX_DEPTH : Z.
Variable d : Display.

Lemma int_checked_Returned (x r : Z) :
  CInt.int_checked x = Returned r -> r = x.
Proof.
  unfold CInt.int_checked. destruct (CInt.in_int x); [| discriminate].
  intros [= <-]. reflexivity.
Qed.

(** Storing an accepted candidate keeps the table accepted. *)
Lemma glx_update_fbconfig_bydepth_ok (tbl tbl' : list (option glx_fbconfig_t))
    (depth : Z) (e : glx_fbconfig_t) :
  table_ok d tbl ->
  (0 <= depth ->
   In (cfg e) (glXGetFBConfigs d) /\ accepted d (Z.to_nat depth) e) ->
  glx_update_fbconfig_bydepth OPENGL_MAX_DEPTH d tbl depth e = Returned tbl' ->
  table_ok d tbl'.
Proof.
  intros Hok He H. unfold glx_update_fbconfig_bydepth in H.
  destruct (Z.ltb_spec depth 0) as [| Hd]; simpl in H.
  { injection H as <-. exact Hok. }
  destruct (OPENGL_MAX_DEPTH <? depth).
  { injection H as <-. exact Hok. }
  invert_bind H. invert_bind H.
  destruct (x0 <? 0); injection H as <-; [| exact Hok].
  intros slot e' Hslot.
  apply list_lookup_insert_Some in Hslot.
  destruct Hslot as [(<- & [= <-] & _) | (_ & Hslot)].
  - apply He. exact Hd.
  - apply Hok. exact Hslot.
Qed.

(** One candidate of the display keeps the table accepted. *)
Lemma glx_update_fbconfig_step_ok (tbl tbl' : list (option glx_fbconfig_t))
    (pcur : GLXFBConfig) :
  table_ok d tbl ->
  In pcur (glXGetFBConfigs d) ->
  glx_update_fbconfig_step OPENGL_MAX_DEPTH d tbl pcur = Returned tbl' ->
  table_ok d tbl'.
Proof.
  intros Hok Hin H. unfold glx_update_fbconfig_step in H.
  destruct (match glXGetFBConfigAttrib d pcur GLX_SAMPLES with
            | Some val => 1 <? val
            | None => false
            end).
  { injection H as <-. exact Hok. }
  destruct (glXGetFBConfigAttrib d pcur GLX_BUFFER_SIZE) as [bs |] eqn:Ebs;
    [| injection H as <-; exact Hok].
  destruct (glXGetFBConfigAttrib d pcur GLX_ALPHA_SIZE) as [al |] eqn:Eal;
    [| injection H as <-; exact Hok].
  destruct (glXGetFBConfigAttrib d pcur GLX_BIND_TO_TEXTURE_TARGETS_EXT)
    as [tgts |]; [| injection H as <-; exact Hok].
  destruct (glXGetVisualFromFBConfig d pcur) as [vd |] eqn:Evd;
    [| injection H as <-; exact Hok].
  invert_bind H. apply int_checked_Returned in E. subst x.
  invert_bind H. rename x into tbl1.
  assert (Hok1 : table_ok d tbl1).
  { destruct ((bs - al =? vd) && (bs - al <? 32)
              && attr_is_set d pcur GLX_BIND_TO_TEXTURE_RGB_EXT) eqn:Ec.
    - eapply glx_update_fbconfig_bydepth_ok; [exact Hok | | exact E].
      intros Hd. split; [exact Hin |].
      apply andb_true_iff in Ec. destruct Ec as [Ec Ergb].
      apply andb_true_iff in Ec. destruct Ec as [Ec _].
      apply Z.eqb_eq in Ec.
      exists bs, al, vd. simpl. repeat split; try assumption; [lia |].
      left. auto.
    - injection E as <-. exact Hok. }
  destruct ((bs =? vd) && ((32 <=? bs) && negb (al =? 0)
            && attr_is_set d pcur GLX_BIND_TO_TEXTURE_RGBA_EXT)) eqn:Ec.
  - eapply glx_update_fbconfig_bydepth_ok; [exact Hok1 | | exact H].
    intros Hd. split; [exact Hin |].
    apply andb_true_iff in Ec. destruct Ec as [Ec Ergba].
    apply andb_true_iff in Ergba. destruct Ergba as [_ Ergba].
    apply Z.eqb_eq in Ec.
    exists bs, al, vd. simpl. repeat split; try assumption; [lia |].
    right. auto.
  - injection H as <-. exact Hok1.
Qed.

(** The loop over candidates of the display keeps the table accepted. *)
Lemma glx_update_fbconfig_loop_ok (pfbcfgs : list GLXFBConfig) :
  forall tbl tbl',
    table_ok d tbl ->
    (forall c, In c pfbcfgs -> In c (glXGetFBConfigs d)) ->
    glx_update_fbconfig_loop OPENGL_MAX_DEPTH d tbl pfbcfgs = Returned tbl' ->
    table_ok d tbl'.
Proof.
  induction pfbcfgs as [| pcur rest IH]; intros tbl tbl' Hok Hsub H; simpl in H.
  - injection H as <-. exact Hok.
  - invert_bind H.
    apply (IH x tbl'); [| intros c Hc; apply Hsub; right; exact Hc | exact H].
    eapply glx_update_fbconfig_step_ok; [exact Hok | | exact E].
    apply Hsub. left. reflexivity.
Qed.

Lemma empty_table_ok (tbl : list (option glx_fbconfig_t)) :
  Forall (fun e => e = None) tbl -> table_ok d tbl.
Proof.
  intros Hall slot e Hslot.
  rewrite Forall_forall in Hall.
  assert (Some e = None); [| discriminate].
  apply Hall. eapply list_elem_of_lookup_2. exact Hslot.
Qed.

End TableFacts.

(** C6: starting from an empty table, every entry [glx_update_fbconfig]
    leaves in a slot is a candidate of the display that meets the
    acceptance condition for that slot, stored with the matching texture
    format; a candidate failing both conditions is in no slot. *)
Theorem glx_update_fbconfig_accepts
    (OPENGL_MAX_DEPTH : Z) (ps ps' : FBConfig.session_t) (ret : bool) :
  Forall (fun e => e = None) (FBConfig.fbconfigs ps) ->
  FBConfig.glx_update_fbconfig OPENGL_MAX_DEPTH ps = Returned (ret, ps') ->
  forall (slot : nat) (e : FBConfig.glx_fbconfig_t),
    FBConfig.fbconfigs ps' !! slot = Some (Some e) ->
    In (FBConfig.cfg e) (FBConfig.glXGetFBConfigs (FBConfig.dpy ps))
    /\ accepted (FBConfig.dpy ps) slot e.
Proof.
  intros Hempty H slot e Hslot.
  unfold FBConfig.glx_update_fbconfig in H.
  invert_bind H. rename x into tbl.
  assert (Hok : table_ok (FBConfig.dpy ps) tbl).
  { eapply glx_update_fbconfig_loop_ok; [| | exact E].
    - apply empty_table_ok. exact Hempty.
    - auto. }
  invert_bind H.
  assert (Hps : FBConfig.fbconfigs ps' = tbl).
  { destruct x as [e0 |].
    - invert_bind H. injection H as _ <-. reflexivity.
    - injection H as _ <-. reflexivity. }
  rewrite Hps in Hslot. apply Hok. exact Hslot.
Qed.

(** C6 on the example display: the negotiation returns success, slot 24
    holds FBConfig 2 as an RGB entry and slot 32 holds FBConfig 3 as an
    RGBA one, both accepted; FBConfig 5, which meets neither condition, is
    in no slot. *)
Lemma glx_update_fbconfig_accepts_witness :
  FBConfig.glx_update_fbconfig 32 example_session
  = Returned (true, example_negotiated)
  /\ accepted example_display 24 (candidate 2 FBConfig.GLX_TEXTURE_FORMAT_RGB_EXT)
  /\ accepted example_display 32 (candidate 3 FBConfig.GLX_TEXTURE_FORMAT_RGBA_EXT)
  /\ forall slot e,
       FBConfig.fbconfigs example_negotiated !! slot = Some (Some e) ->
       accepted example_display slot e.
Proof.
  assert (Hempty : Forall (fun e : option FBConfig.glx_fbconfig_t => e = None)
                     (FBConfig.fbconfigs example_session)).
  { apply Forall_forall. intros x Hx. simpl in Hx.
    apply list_elem_of_In in Hx.
    repeat (destruct Hx as [<- | Hx]; [reflexivity |]). destruct Hx. }
  pose proof (glx_update_fbconfig_accepts 32 example_session example_negotiated
                true Hempty eq_refl) as H.
  split; [reflexivity |].
  split; [exact (proj2 (H 24%nat _ eq_refl)) |].
  split; [exact (proj2 (H 32%nat _ eq_refl)) |].
  intros slot e Hslot. exact (proj2 (H slot e Hslot)).
Defined.

(** ** The calls of the shader and program builders *)

Lemma issued_app (gl gl' : GL.state) (t : list GL.call) :
  GL.calls gl' = GL.calls gl ++ t -> issued gl gl' = t.
Proof. intros H. unfold issued. rewrite H. apply drop_app_length. Qed.

Lemma fold_issue_calls {A : Type} (f : A -> GL.call) (l : list A) :
  forall gl,
    GL.calls (fold_left (fun g a => GL.issue (f a) g) l gl)
    = GL.calls gl ++ map f l.
Proof.
  induction l as [| a l IH]; intros gl; simpl.
  - symmetry. apply app_nil_r.
  - rewrite IH. simpl. rewrite <- app_assoc. reflexivity.
Qed.

Section ShaderTraces.

Variable drv : GL.driver.

(** The calls of [glx_create_shader], case by case. *)
Lemma glx_create_shader_calls (ty : GL.GLenum) (src : string)
    (gl gl' : GL.state) (s : Z) :
  Shader.glx_create_shader drv ty src gl = (s, gl') ->
  let x := GL.glCreateShader drv (GL.now gl) in
  (x = 0 /\ s = 0 /\ GL.calls gl' = GL.calls gl ++ [GL.CreateShader ty])
  \/ (x <> 0 /\ s = x
      /\ GL.compile_status drv (GL.now gl + 3) = true
      /\ GL.calls gl'
         = GL.calls gl ++ [ GL.CreateShader ty; GL.ShaderSource x src;
                            GL.CompileShader x; GL.GetShaderiv x ])
  \/ (x <> 0 /\ s = 0
      /\ GL.compile_status drv (GL.now gl + 3) = false
      /\ GL.calls gl'
         = GL.calls gl ++ [ GL.CreateShader ty; GL.ShaderSource x src;
                            GL.CompileShader x; GL.GetShaderiv x;
                            GL.DeleteShader x ]).
Proof.
  unfold Shader.glx_create_shader. intros H. cbv zeta.
  destruct (Z.eqb_spec (GL.glCreateShader drv (GL.now gl)) 0) as [Hz | Hnz].
  - injection H as <- <-. left. auto.
  - assert (Hnow : GL.now (GL.issue (GL.CompileShader (GL.glCreateShader drv (GL.now gl)))
                     (GL.issue (GL.ShaderSource (GL.glCreateShader drv (GL.now gl)) src)
                       (GL.issue (GL.CreateShader ty) gl)))
                   = (GL.now gl + 3)%nat).
    { unfold GL.now. simpl. rewrite !length_app. simpl. lia. }
    rewrite Hnow in H.
    destruct (GL.compile_status drv (GL.now gl + 3)); injection H as <- <-;
      [right; left | right; right]; simpl; rewrite <- !app_assoc; auto.
Qed.

(** The calls of [glx_create_program], case by case. *)
Lemma glx_create_program_calls (shaders : list Z) (gl gl' : GL.state) (p : Z) :
  Shader.glx_create_program drv shaders gl = (p, gl') ->
  let x := GL.glCreateProgram drv (GL.now gl) in
  (x = 0 /\ p = 0 /\ GL.calls gl' = GL.calls gl ++ [GL.CreateProgram])
  \/ (x <> 0
      /\ exists linked : bool,
           p = (if linked then x else 0)
           /\ GL.link_status drv (GL.now gl + length shaders + 2) = linked
           /\ GL.calls gl'
              = GL.calls gl
                ++ [GL.CreateProgram] ++ map (GL.AttachShader x) shaders
                ++ [GL.LinkProgram x; GL.GetProgramiv x]
                ++ map (GL.DetachShader x) shaders
                ++ (if linked then [] else [GL.DeleteProgram x])).
Proof.
  unfold Shader.glx_create_program. intros H. cbv zeta.
  destruct (Z.eqb_spec (GL.glCreateProgram drv (GL.now gl)) 0) as [Hz | Hnz].
  - injection H as <- <-. left. auto.
  - right. split; [exact Hnz |].
    set (x := GL.glCreateProgram drv (GL.now gl)) in *.
    set (g1 := fold_left (fun g s => GL.issue (GL.AttachShader x s) g) shaders
                 (GL.issue GL.CreateProgram gl)) in *.
    assert (H1 : GL.calls g1
                 = GL.calls gl ++ [GL.CreateProgram] ++ map (GL.AttachShader x) shaders).
    { subst g1. rewrite (fold_issue_calls (GL.AttachShader x)). simpl.
      rewrite <- app_assoc. reflexivity. }
    assert (Hnow : GL.now (GL.issue (GL.LinkProgram x) g1)
                   = (GL.now gl + length shaders + 2)%nat).
    { unfold GL.now. simpl. rewrite H1, !length_app, length_map. simpl.
      unfold GL.now. lia. }
    rewrite Hnow in H.
    exists (GL.link_status drv (GL.now gl + length shaders + 2)).
    destruct (GL.link_status drv (GL.now gl + length shaders + 2));
      injection H as <- <-; (split; [reflexivity |]); (split; [reflexivity |]);
      simpl; rewrite (fold_issue_calls (GL.DetachShader x)); simpl;
      rewrite H1; rewrite <- ?app_assoc; simpl; rewrite ?app_nil_r;
      reflexivity.
Qed.

End ShaderTraces.

(** ** The convolution shader *)

Section StringFacts.

Import CString.

Lemma strlen_app (a b : string) :
  strlen (a ++ b)%string = strlen a + strlen b.
Proof.
  unfold strlen. induction a as [| c a IH]; [reflexivity |].
  change (String c a ++ b)%string with (String c (a ++ b)%string).
  cbn [String.length]. rewrite !Nat2Z.inj_succ, IH. lia.
Qed.

Lemma strlen_nonneg (a : string) : 0 <= strlen a.
Proof. unfold strlen. lia. Qed.

Lemma string_app_assoc (a b c : string) :
  ((a ++ b) ++ c)%string = (a ++ (b ++ c))%string.
Proof.
  induction a as [| x a IH]; [reflexivity |].
  change (String x ((a ++ b) ++ c)%string = String x (a ++ (b ++ c))%string).
  rewrite IH. reflexivity.
Qed.

Lemma string_app_nil_r (a : string) : (a ++ "")%string = a.
Proof.
  induction a as [| x a IH]; [reflexivity |].
  change (String x (a ++ "")%string = String x a).
  rewrite IH. reflexivity.
Qed.

Lemma strlen_digits (fuel : nat) :
  forall (n : Z) (acc : string),
    strlen (digits fuel n acc) <= Z.of_nat fuel + strlen acc.
Proof.
  induction fuel as [| fuel IH]; intros n acc; cbn [digits]; [lia |].
  destruct (n <? 10).
  - unfold strlen. cbn [String.length]. lia.
  - specialize (IH (n / 10)
                  (String (Ascii.ascii_of_nat (48 + Z.to_nat (n mod 10))) acc)).
    unfold strlen in *. cbn [String.length] in IH. lia.
Qed.

(** [%d] writes at most 11 characters. *)
Lemma strlen_printf_d (i : Z) : strlen (printf_d i) <= 11.
Proof.
  unfold printf_d. destruct (i <? 0).
  - rewrite strlen_app. pose proof (strlen_digits 10 (- i) ""). 
    change (strlen "-") with 1. change (strlen "") with 0 in *. lia.
  - pose proof (strlen_digits 10 i ""). change (strlen "") with 0 in *. lia.
Qed.

(** A write that fits the buffer. *)
Lemma sprintf_at_fits (g7 : Q -> string) (len : Z) (buf : string) (f : format)
    (args : list arg) :
  strlen (buf ++ sprintf g7 f args)%string < len ->
  sprintf_at g7 len buf f args = Returned (buf ++ sprintf g7 f args)%string.
Proof.
  intros H. unfold sprintf_at.
  destruct (Z.ltb_spec (strlen (buf ++ sprintf g7 f args)) len);
    [reflexivity | lia].
Qed.

End StringFacts.

(** The length of the literal parts of a text. *)
Ltac strlen_lits :=
  rewrite ?strlen_app;
  repeat match goal with
         | |- context [CString.strlen ?s] =>
             lazymatch s with
             | context [CString.printf_d] => fail
             | _ => idtac
             end;
             let v := eval vm_compute in (CString.strlen s) in
             lazymatch v with
             | Z0 => idtac
             | Zpos ?p =>
                 lazymatch p with
                 | context [Pos.of_succ_nat] => fail
                 | _ => idtac
                 end
             end;
             progress change (CString.strlen s) with v
         end.

Section ShaderFacts.

Import CString Shader.

Variable XFIXED_TO_DOUBLE : Z -> Q.
Variable printf_g7 : Q -> string.
Variable kern : kernel.
Variable shader_add : format.
Variable texture_func : string.
Variables len wid hei : Z.

Abbreviation terms := (terms_of XFIXED_TO_DOUBLE kern texture_func wid hei).
Abbreviation lines := (lines_text printf_g7 shader_add).

Lemma terms_of_cons_selected (c : Z * Z) (cells : list (Z * Z)) :
  selected XFIXED_TO_DOUBLE kern wid hei c = true ->
  terms (c :: cells)
  = term XFIXED_TO_DOUBLE kern texture_func wid hei c :: terms cells.
Proof.
  intros H. unfold terms_of. rewrite filter_cons.
  destruct (decide (selected XFIXED_TO_DOUBLE kern wid hei c = true));
    [reflexivity | contradiction].
Qed.

Lemma terms_of_cons_skipped (c : Z * Z) (cells : list (Z * Z)) :
  selected XFIXED_TO_DOUBLE kern wid hei c = false ->
  terms (c :: cells) = terms cells.
Proof.
  intros H. unfold terms_of. rewrite filter_cons.
  destruct (decide (selected XFIXED_TO_DOUBLE kern wid hei c = true));
    [congruence | reflexivity].
Qed.

Lemma terms_of_app (l1 l2 : list (Z * Z)) :
  terms (l1 ++ l2) = terms l1 ++ terms l2.
Proof. unfold terms_of. rewrite filter_app, fmap_app. reflexivity. Qed.

Lemma lines_text_app (l1 l2 : list blur_add) :
  lines (l1 ++ l2) = (lines l1 ++ lines l2)%string.
Proof.
  induction l1 as [| t l1 IH]; [reflexivity |].
  cbn [app lines_text fold_right]. unfold lines_text in IH. rewrite IH.
  symmetry. apply string_app_assoc.
Qed.

(** The inner loop writes the lines of the terms of the cells
    [k .. k + n - 1] of row [j], as long as they fit the buffer, and adds
    their weights to [sum]. *)
Lemma add_row_text (j : Z) (n : nat) :
  forall (k : Z) (acc : Q * string),
    0 <= j -> 0 <= k -> 0 <= wid ->
    2 + j * wid + k + Z.of_nat n <= Z.of_nat (length kern) ->
    strlen (acc.2 ++ lines (terms (pair j <$> seqZ k (Z.of_nat n))))%string
    < len ->
    add_row XFIXED_TO_DOUBLE printf_g7 kern shader_add texture_func len wid hei
      j n k acc
    = Returned
        (add_weights acc.1 (terms (pair j <$> seqZ k (Z.of_nat n))),
         (acc.2 ++ lines (terms (pair j <$> seqZ k (Z.of_nat n))))%string).
Proof.
  induction n as [| n IH]; intros k acc Hj Hk Hwid Hlen Hfit.
  - simpl. rewrite string_app_nil_r. destruct acc; reflexivity.
  - rewrite seqZ_cons in Hfit |- * by lia.
    replace (Z.pred (Z.of_nat (S n))) with (Z.of_nat n) in * by lia.
    replace (Z.succ k) with (k + 1) in * by lia.
    rewrite fmap_cons in Hfit |- *. cbn [add_row].
    destruct ((Z.quot hei 2 =? j) && (Z.quot wid 2 =? k)) eqn:Ecenter.
    + rewrite terms_of_cons_skipped in Hfit |- *
        by (unfold selected; simpl; rewrite Ecenter; reflexivity).
      apply IH; solve [lia | exact Hfit].
    + assert (Hcell : c_index kern (2 + j * wid + k)
                      = Returned (cell kern wid j k)).
      { destruct (lookup_lt_is_Some_2 kern (Z.to_nat (2 + j * wid + k)))
          as [v Hv]; [nia |].
        unfold cell. rewrite Hv. apply c_index_lookup; [nia | exact Hv]. }
      rewrite Hcell. cbn [obind].
      destruct (Qeq_bool 0 (XFIXED_TO_DOUBLE (cell kern wid j k))) eqn:Ezero.
      * rewrite terms_of_cons_skipped in Hfit |- *
          by (unfold selected; simpl; rewrite Ecenter, Ezero; reflexivity).
        apply IH; solve [lia | exact Hfit].
      * rewrite terms_of_cons_selected in Hfit |- *
          by (unfold selected; simpl; rewrite Ecenter, Ezero; reflexivity).
        cbn [lines_text fold_right] in Hfit |- *.
        fold (lines (terms (pair j <$> seqZ (k + 1) (Z.of_nat n))))
          in Hfit |- *.
        rewrite <- string_app_assoc in Hfit |- *.
        change {| add_val := XFIXED_TO_DOUBLE (cell kern wid j k);
                  add_texture_func := texture_func;
                  add_dx := k - Z.quot wid 2;
                  add_dy := j - Z.quot hei 2 |}
          with (term XFIXED_TO_DOUBLE kern texture_func wid hei (j, k)).
        assert (Hline : strlen (acc.2
                          ++ sprintf printf_g7 shader_add
                               (add_args (term XFIXED_TO_DOUBLE kern
                                            texture_func wid hei (j, k))))%string
                        < len).
        { rewrite strlen_app in Hfit.
          pose proof (strlen_nonneg
                        (lines (terms (pair j <$> seqZ (k + 1) (Z.of_nat n))))).
          lia. }
        rewrite (sprintf_at_fits _ _ _ _ _ Hline). cbn [obind].
        destruct (Z.ltb_spec
                    (strlen (acc.2
                       ++ sprintf printf_g7 shader_add
                            (add_args (term XFIXED_TO_DOUBLE kern texture_func
                                         wid hei (j, k))))%string) len);
          [| lia].
        cbn [c_assert obind].
        rewrite IH by (cbn [fst snd]; solve [lia | exact Hfit]).
        reflexivity.
Qed.

(** The outer loop writes the lines of the rows [j .. j + n - 1]. *)
Lemma add_rows_text (n : nat) :
  forall (j : Z) (acc : Q * string),
    0 <= j -> 0 <= wid ->
    2 + (j + Z.of_nat n) * wid <= Z.of_nat (length kern) ->
    strlen (acc.2
            ++ lines (terms (seqZ j (Z.of_nat n)
                               ≫= (fun j => pair j <$> seqZ 0 wid))))%string
    < len ->
    add_rows XFIXED_TO_DOUBLE printf_g7 kern shader_add texture_func len wid hei
      n j acc
    = Returned
        (add_weights acc.1
           (terms (seqZ j (Z.of_nat n) ≫= (fun j => pair j <$> seqZ 0 wid))),
         (acc.2
          ++ lines (terms (seqZ j (Z.of_nat n)
                             ≫= (fun j => pair j <$> seqZ 0 wid))))%string).
Proof.
  induction n as [| n IH]; intros j acc Hj Hwid Hlen Hfit.
  - simpl. rewrite string_app_nil_r. destruct acc; reflexivity.
  - rewrite (seqZ_cons j) in Hfit |- * by lia.
    replace (Z.pred (Z.of_nat (S n))) with (Z.of_nat n) in * by lia.
    replace (Z.succ j) with (j + 1) in * by lia.
    rewrite bind_cons, terms_of_app, lines_text_app in Hfit |- *.
    rewrite <- string_app_assoc in Hfit |- *.
    cbn [add_rows].
    assert (Hn : 0 <= Z.of_nat n * wid) by (apply Z.mul_nonneg_nonneg; lia).
    rewrite add_row_text; rewrite ?Z2Nat.id by lia; try lia.
    2: { rewrite strlen_app in Hfit.
         pose proof (strlen_nonneg
                       (lines (terms (seqZ (j + 1) (Z.of_nat n)
                                        ≫= (fun j => pair j <$> seqZ 0 wid))))).
         lia. }
    cbn [obind].
    rewrite IH by (cbn [fst snd]; solve [lia | exact Hfit]). cbn [fst snd].
    unfold add_weights. rewrite fold_left_app. reflexivity.
Qed.

(** Every line fits the room that the size of the buffer gives to it. *)
Lemma strlen_lines (adds : list blur_add) (room : Z) :
  (forall t, In t adds ->
             strlen (sprintf printf_g7 shader_add (add_args t)) <= room) ->
  strlen (lines adds) <= room * Z.of_nat (length adds).
Proof.
  induction adds as [| t adds IH]; intros H.
  - change (0 <= room * 0). lia.
  - cbn [lines_text fold_right length]. rewrite strlen_app.
    fold (lines adds).
    specialize (IH (fun t' Ht' => H t' (or_intror Ht'))).
    specialize (H t (or_introl eq_refl)). lia.
Qed.

End ShaderFacts.

(** The cells of the grid: each cell of the kernel, once. *)
Lemma grid_cells (wid hei : Z) :
  NoDup (grid wid hei)
  /\ forall j k, (j, k) ∈ grid wid hei <-> (0 <= j < hei /\ 0 <= k < wid).
Proof.
  unfold grid. split.
  - apply NoDup_bind.
    + intros j1 j2 c _ _ H1 H2.
      apply list_elem_of_fmap in H1. destruct H1 as (k1 & -> & _).
      apply list_elem_of_fmap in H2. destruct H2 as (k2 & [= ->] & _).
      reflexivity.
    + intros j _. apply NoDup_fmap_2; [| apply NoDup_seqZ].
      intros k1 k2 [= ->]. reflexivity.
    + apply NoDup_seqZ.
  - intros j k. rewrite list_elem_of_bind. split.
    + intros (j' & Hk & Hj).
      apply list_elem_of_fmap in Hk. destruct Hk as (k' & [= -> ->] & Hk).
      apply elem_of_seqZ in Hj. apply elem_of_seqZ in Hk. lia.
    + intros [Hj Hk]. exists j. split.
      * apply list_elem_of_fmap. exists k. split; [reflexivity |].
        apply elem_of_seqZ. lia.
      * apply elem_of_seqZ. lia.
Qed.

Lemma length_grid (wid hei : Z) :
  0 <= wid -> 0 <= hei ->
  Z.of_nat (length (grid wid hei)) = wid * hei.
Proof.
  intros Hw Hh. unfold grid.
  assert (H : forall l : list Z,
             length (l ≫= (fun j => pair j <$> seqZ 0 wid))
             = (length l * Z.to_nat wid)%nat).
  { induction l as [| j l IH]; [reflexivity |].
    rewrite bind_cons, length_app, length_fmap, length_seqZ, IH.
    cbn [length]. lia. }
  rewrite H, length_seqZ. nia.
Qed.

(** With at least one row and one column the center is a cell of the
    grid; it gets no term, so there are fewer terms than cells. *)
Lemma length_terms_of (X : Z -> Q) (kern : Shader.kernel) (tf : string)
    (wid hei : Z) :
  1 <= wid -> 1 <= hei ->
  Z.of_nat (length (terms_of X kern tf wid hei (grid wid hei)))
  <= wid * hei - 1.
Proof.
  intros Hw Hh. unfold terms_of. rewrite length_fmap.
  assert (Hc : (Z.quot hei 2, Z.quot wid 2) ∈ grid wid hei).
  { apply grid_cells.
    pose proof (Z.quot_pos hei 2 ltac:(lia) ltac:(lia)).
    pose proof (Z.quot_pos wid 2 ltac:(lia) ltac:(lia)).
    pose proof (Z.quot_lt hei 2 ltac:(lia) ltac:(lia)).
    pose proof (Z.quot_lt wid 2 ltac:(lia) ltac:(lia)).
    lia. }
  pose proof (length_filter_lt
                (fun c => selected X kern wid hei c = true) (grid wid hei)
                _ Hc) as Hlt.
  rewrite <- (length_grid wid hei) by lia.
  assert (Hns : ~ selected X kern wid hei (Z.quot hei 2, Z.quot wid 2) = true).
  { unfold selected. cbn [fst snd]. rewrite !Z.eqb_refl. discriminate. }
  specialize (Hlt Hns). lia.
Qed.

Section ShaderText.

Import CString Shader.

Variable g7 : Q -> string.
Hypothesis Hg7 : forall d : Q, strlen (g7 d) <= 22.

(** What the three kinds of [sprintf] of the shader builder write, in
    characters. *)
Lemma strlen_prefix (extension sampler_type : string) :
  strlen (sprintf g7 FRAG_SHADER_BLUR_PREFIX
            [Arg_s extension; Arg_s sampler_type])
  = strlen (format_text FRAG_SHADER_BLUR_PREFIX) - 4
    + strlen extension + strlen sampler_type.
Proof.
  unfold FRAG_SHADER_BLUR_PREFIX. cbn [sprintf format_text conv_text].
  strlen_lits. lia.
Qed.

Lemma strlen_add_line (gpushader4 : bool) (t : blur_add) :
  strlen (sprintf g7 (if gpushader4 then FRAG_SHADER_BLUR_ADD_GPUSHADER4
                      else FRAG_SHADER_BLUR_ADD) (add_args t))
  <= strlen (format_text (if gpushader4 then FRAG_SHADER_BLUR_ADD_GPUSHADER4
                          else FRAG_SHADER_BLUR_ADD))
     + strlen (add_texture_func t) + 42.
Proof.
  pose proof (Hg7 (add_val t)).
  pose proof (strlen_printf_d (add_dx t)).
  pose proof (strlen_printf_d (add_dy t)).
  destruct gpushader4;
    unfold FRAG_SHADER_BLUR_ADD_GPUSHADER4, FRAG_SHADER_BLUR_ADD, add_args;
    cbn [sprintf format_text conv_text]; strlen_lits; lia.
Qed.

Lemma strlen_suffix (texture_func : string) (sum : Q) :
  strlen (sprintf g7 FRAG_SHADER_BLUR_SUFFIX [Arg_s texture_func; Arg_g sum])
  <= strlen (format_text FRAG_SHADER_BLUR_SUFFIX) + strlen texture_func + 16.
Proof.
  pose proof (Hg7 sum).
  unfold FRAG_SHADER_BLUR_SUFFIX. cbn [sprintf format_text conv_text].
  strlen_lits. lia.
Qed.

(** The shader built for a kernel with at least one row and one column
    and at most 2^24 cells: the buffer is large enough, and the text is the
    one of the terms of the selected cells. *)
Lemma build_shader_text (X : Z -> Q) (ps : session_t) (k0 k1 : Z)
    (cells : list Z) :
  1 <= int_of_double (X k0) ->
  1 <= int_of_double (X k1) ->
  int_of_double (X k0) * int_of_double (X k1) <= 2 ^ 24 ->
  Z.of_nat (length cells) = int_of_double (X k0) * int_of_double (X k1) ->
  build_shader X g7 ps (k0 :: k1 :: cells)
  = Returned (conv_shader_text X g7 ps (k0 :: k1 :: cells)
                (int_of_double (X k0)) (int_of_double (X k1))).
Proof.
  intros Hwid Hhei Harea Hlen. unfold conv_shader_text.
  set (wid := int_of_double (X k0)) in *.
  set (hei := int_of_double (X k1)) in *.
  set (kern := k0 :: k1 :: cells).
  assert (Hwid' : wid <= 2 ^ 24) by nia.
  assert (Hhei' : hei <= 2 ^ 24) by nia.
  set (adds := terms_of X kern (conv_texture_func ps) wid hei (grid wid hei)).
  assert (Hn : Z.of_nat (length adds) <= wid * hei - 1)
    by (apply length_terms_of; assumption).
  assert (Hfunc : forall t, In t adds -> add_texture_func t = conv_texture_func ps).
  { intros t Ht. subst adds. unfold terms_of in Ht.
    apply list_elem_of_In, list_elem_of_fmap in Ht.
    destruct Ht as (c & -> & _). reflexivity. }
  assert (Hlines : strlen (lines_text g7 (conv_shader_add ps) adds)
                   <= (strlen (format_text (conv_shader_add ps))
                       + strlen (conv_texture_func ps) + 42)
                      * Z.of_nat (length adds)).
  { apply strlen_lines. intros t Ht. rewrite <- (Hfunc t Ht).
    apply strlen_add_line. }
  pose proof (strlen_prefix (conv_extension ps) (conv_sampler_type ps)) as Hpre.
  pose proof (strlen_suffix (conv_texture_func ps) (add_weights 0 adds)) as Hsuf.
  pose proof (strlen_nonneg (lines_text g7 (conv_shader_add ps) adds)) as Hl0.
  pose proof (strlen_nonneg
                (sprintf g7 FRAG_SHADER_BLUR_SUFFIX
                   [Arg_s (conv_texture_func ps); Arg_g (add_weights 0 adds)]))
    as Hs0.
  assert (Hroom : 0 <= (strlen (format_text (conv_shader_add ps))
                        + strlen (conv_texture_func ps) + 42)
                       <= 200).
  { unfold conv_shader_add, conv_texture_func.
    destruct (has_texture_non_power_of_two ps), (glx_use_gpushader4 ps);
      strlen_lits; lia. }
  assert (Hhead : 0 <= strlen (conv_extension ps) + strlen (conv_sampler_type ps)
                       <= 200).
  { unfold conv_extension, conv_sampler_type.
    destruct (has_texture_non_power_of_two ps), (glx_use_gpushader4 ps);
      strlen_lits; lia. }
  assert (Hfmt : strlen (format_text FRAG_SHADER_BLUR_PREFIX) = 166
                 /\ strlen (format_text FRAG_SHADER_BLUR_SUFFIX) = 136)
    by (split; reflexivity).
  destruct Hfmt as [HP HS].
  assert (Hsame : build_shader X g7 ps kern
                  = let len :=
                      (strlen (format_text FRAG_SHADER_BLUR_PREFIX)
                       + strlen (conv_sampler_type ps)
                       + strlen (conv_extension ps)
                       + (strlen (format_text (conv_shader_add ps))
                          + strlen (conv_texture_func ps) + 42) * (wid * hei - 1)
                       + strlen (format_text FRAG_SHADER_BLUR_SUFFIX)
                       + strlen (conv_texture_func ps) + 12 + 1) mod 2 ^ 32 in
                    do shader_str <--
                      sprintf_at g7 len "" FRAG_SHADER_BLUR_PREFIX
                        [Arg_s (conv_extension ps);
                         Arg_s (conv_sampler_type ps)] ;
                    do _ <-- c_assert (strlen shader_str <? len) ;
                    do (sum, shader_str) <--
                      add_rows X g7 kern (conv_shader_add ps)
                        (conv_texture_func ps) len wid hei (Z.to_nat hei) 0
                        (0%Q, shader_str) ;
                    do shader_str <--
                      sprintf_at g7 len shader_str FRAG_SHADER_BLUR_SUFFIX
                        [Arg_s (conv_texture_func ps); Arg_g sum] ;
                    do _ <-- c_assert (strlen shader_str <? len) ;
                    Returned shader_str).
  { unfold build_shader.
    change (c_index kern 0) with (@Returned Z k0).
    change (c_index kern 1) with (@Returned Z k1).
    cbn [obind]. fold wid hei.
    unfold conv_sampler_type, conv_extension, conv_shader_add,
      conv_texture_func.
    destruct (has_texture_non_power_of_two ps), (glx_use_gpushader4 ps);
      cbn [negb];
      rewrite (int_checked_in_range wid)
        by (unfold CInt.INT_MIN, CInt.INT_MAX; lia);
      cbn [obind];
      rewrite (int_checked_in_range hei)
        by (unfold CInt.INT_MIN, CInt.INT_MAX; lia);
      cbn [obind];
      rewrite (int_checked_in_range (wid * hei))
        by (unfold CInt.INT_MIN, CInt.INT_MAX; lia);
      cbn [obind];
      rewrite (int_checked_in_range (wid * hei - 1))
        by (unfold CInt.INT_MIN, CInt.INT_MAX; lia);
      reflexivity. }
  rewrite Hsame. clear Hsame. cbv zeta.
  set (L := (_ mod 2 ^ 32)).
  assert (HL : L = strlen (format_text FRAG_SHADER_BLUR_PREFIX)
                   + strlen (conv_sampler_type ps)
                   + strlen (conv_extension ps)
                   + (strlen (format_text (conv_shader_add ps))
                      + strlen (conv_texture_func ps) + 42) * (wid * hei - 1)
                   + strlen (format_text FRAG_SHADER_BLUR_SUFFIX)
                   + strlen (conv_texture_func ps) + 12 + 1).
  { subst L. apply Z.mod_small.
    pose proof (strlen_nonneg (conv_texture_func ps)).
    pose proof (strlen_nonneg (conv_sampler_type ps)).
    pose proof (strlen_nonneg (conv_extension ps)).
    pose proof (strlen_nonneg (format_text (conv_shader_add ps))).
    assert (0 <= (strlen (format_text (conv_shader_add ps))
                  + strlen (conv_texture_func ps) + 42) * (wid * hei - 1)
                 <= 200 * 2 ^ 24) by nia.
    lia. }
  clearbody L.
  set (room := strlen (format_text (conv_shader_add ps))
               + strlen (conv_texture_func ps) + 42) in *.
  assert (Hbudget : room * Z.of_nat (length adds) <= room * (wid * hei - 1))
    by (apply Z.mul_le_mono_nonneg_l; lia).
  set (pre := sprintf g7 FRAG_SHADER_BLUR_PREFIX
                [Arg_s (conv_extension ps); Arg_s (conv_sampler_type ps)]) in *.
  set (suf := sprintf g7 FRAG_SHADER_BLUR_SUFFIX
                [Arg_s (conv_texture_func ps); Arg_g (add_weights 0 adds)]) in *.
  assert (Hfit1 : strlen ("" ++ pre)%string < L).
  { change ("" ++ pre)%string with pre. lia. }
  rewrite (sprintf_at_fits _ _ _ _ _ Hfit1). fold pre.
  change ("" ++ pre)%string with pre. cbn [obind].
  destruct (Z.ltb_spec (strlen pre) L); [| lia]. cbn [c_assert obind].
  assert (Hgrid : seqZ 0 (Z.of_nat (Z.to_nat hei))
                    ≫= (fun j => pair j <$> seqZ 0 wid) = grid wid hei).
  { rewrite Z2Nat.id by lia. reflexivity. }
  rewrite (add_rows_text X g7 kern (conv_shader_add ps) (conv_texture_func ps)
             L wid hei (Z.to_nat hei) 0 (0%Q, pre));
    rewrite ?Hgrid; try lia.
  2: { rewrite Z2Nat.id by lia. subst kern. cbn [length].
       rewrite !Nat2Z.inj_succ. lia. }
  2: { cbn [snd]. fold adds. rewrite strlen_app. lia. }
  cbn [obind fst snd]. fold adds.
  assert (Hfit2 : strlen ((pre ++ lines_text g7 (conv_shader_add ps) adds)
                          ++ suf)%string < L).
  { rewrite !strlen_app. lia. }
  fold suf. rewrite (sprintf_at_fits _ _ _ _ _ Hfit2). fold suf. cbn [obind].
  destruct (Z.ltb_spec
              (strlen ((pre ++ lines_text g7 (conv_shader_add ps) adds)
                       ++ suf)%string) L); [| lia].
  cbn [c_assert obind]. rewrite string_app_assoc. reflexivity.
Qed.

End ShaderText.

Section ShaderSources.

Import CString Shader.

Variable XFIXED_TO_DOUBLE : Z -> Q.
Variable printf_g7 : Q -> string.
Variable MAX_BLUR_PASS : Z.
Variable drv : GL.driver.

(** The shader text depends on the session through its two flags only. *)
Lemma build_shader_flags (ps ps' : session_t) (kern : kernel) :
  has_texture_non_power_of_two ps' = has_texture_non_power_of_two ps ->
  glx_use_gpushader4 ps' = glx_use_gpushader4 ps ->
  build_shader XFIXED_TO_DOUBLE printf_g7 ps' kern
  = build_shader XFIXED_TO_DOUBLE printf_g7 ps kern.
Proof. intros H1 H2. unfold build_shader. rewrite H1, H2. reflexivity. Qed.

(** [glx_create_program] gives no shader a source. *)
Lemma glx_create_program_no_source (shaders : list Z) (gl gl' : GL.state)
    (p : Z) :
  glx_create_program drv shaders gl = (p, gl') ->
  exists t,
    GL.calls gl' = GL.calls gl ++ t
    /\ forall s src, ~ In (GL.ShaderSource s src) t.
Proof.
  intros H. apply glx_create_program_calls in H. cbv zeta in H.
  destruct H as [(_ & _ & Hc) | (_ & linked & _ & _ & Hc)];
    eexists; (split; [exact Hc |]); intros s src Hin.
  - destruct Hin as [Hin | []]. discriminate Hin.
  - rewrite !in_app_iff in Hin.
    destruct Hin as [Hin | [Hin | [Hin | [Hin | Hin]]]].
    + destruct Hin as [Hin | []]. discriminate Hin.
    + apply in_map_iff in Hin. destruct Hin as (x & Hx & _). discriminate Hx.
    + destruct Hin as [Hin | [Hin | []]]; discriminate Hin.
    + apply in_map_iff in Hin. destruct Hin as (x & Hx & _). discriminate Hx.
    + destruct linked; [destruct Hin |].
      destruct Hin as [Hin | []]. discriminate Hin.
Qed.

(** One turn of the loop of [glx_init_conv_blur]: the text built from
    the kernel is the only source handed to [glShaderSource], and when the
    turn goes on it is the source of the shader stored in the pass. *)
Lemma conv_pass_source (ps : session_t) (i : Z) (kern : kernel)
    (gl : GL.state) (r : session_t * GL.state + session_t * GL.state) :
  conv_pass XFIXED_TO_DOUBLE printf_g7 drv ps i kern gl = Returned r ->
  exists (text : string) (tail : list GL.call) (p : glx_blur_pass_t),
    build_shader XFIXED_TO_DOUBLE printf_g7 ps kern = Returned text
    /\ 0 <= i
    /\ (Z.to_nat i < length (blur_passes ps))%nat
    /\ (match r with inl x | inr x => x end).1
       = set_blur_passes ps (<[Z.to_nat i := p]> (blur_passes ps))
    /\ GL.calls (match r with inl x | inr x => x end).2 = GL.calls gl ++ tail
    /\ (forall s src, In (GL.ShaderSource s src) tail -> src = text)
    /\ ((exists x, r = inr x) ->
        In (GL.ShaderSource (frag_shader p) text) tail).
Proof.
  unfold conv_pass. intros H.
  bind_inv H as ppass Hp. apply c_index_Returned in Hp. destruct Hp as [Hi Hp].
  bind_inv H as text Htext.
  exists text.
  destruct (glx_create_shader drv GL.GL_FRAGMENT_SHADER text gl) as [fs g1]
    eqn:Es.
  apply glx_create_shader_calls in Es. cbv zeta in Es.
  assert (Hs : exists t1,
             GL.calls g1 = GL.calls gl ++ t1
             /\ (forall s src, In (GL.ShaderSource s src) t1 -> src = text)
             /\ (fs <> 0 -> In (GL.ShaderSource fs text) t1)).
  { destruct Es as [(_ & -> & Hc) | [(_ & -> & _ & Hc) | (_ & -> & _ & Hc)]];
      eexists; (split; [exact Hc |]); split.
    - intros s src [Hin | []]. discriminate Hin.
    - intros Hc'. contradiction.
    - intros s src Hin. simpl in Hin.
      destruct Hin as [Hin | [Hin | [Hin | [Hin | []]]]];
        try discriminate Hin.
      injection Hin as _ <-. reflexivity.
    - intros _. simpl. tauto.
    - intros s src Hin. simpl in Hin.
      destruct Hin as [Hin | [Hin | [Hin | [Hin | [Hin | []]]]]];
        try discriminate Hin.
      injection Hin as _ <-. reflexivity.
    - intros Hc'. contradiction. }
  clear Es. destruct Hs as (t1 & Hc1 & Hsrc1 & Hfs1).
  assert (Hlt : (Z.to_nat i < length (blur_passes ps))%nat)
    by (eapply lookup_lt_Some; exact Hp).
  destruct (Z.eqb_spec fs 0) as [Hz | Hnz].
  { injection H as <-. eexists t1, _. cbn [fst snd].
    split; [exact Htext |]. split; [exact Hi |]. split; [exact Hlt |].
    split; [reflexivity |]. split; [exact Hc1 |]. split; [exact Hsrc1 |].
    intros [x Hx]. discriminate Hx. }
  destruct (glx_create_program drv [fs] g1) as [pr g2] eqn:Ep.
  apply glx_create_program_no_source in Ep. destruct Ep as (t2 & Hc2 & Hno2).
  destruct (Z.eqb_spec pr 0) as [Hpz | Hpnz].
  { injection H as <-. eexists (t1 ++ t2), _. cbn [fst snd].
    split; [exact Htext |]. split; [exact Hi |]. split; [exact Hlt |].
    split; [reflexivity |].
    split; [rewrite Hc2, Hc1, app_assoc; reflexivity |].
    split.
    - intros s src Hin. apply in_app_iff in Hin.
      destruct Hin as [Hin | Hin]; [eauto | destruct (Hno2 _ _ Hin)].
    - intros [x Hx]. discriminate Hx. }
  unfold get_unifm_loc in H.
  destruct (negb (glx_use_gpushader4 ps)); injection H as <-; cbn [fst snd].
  - eexists (t1 ++ t2 ++ [GL.GetUniformLocation pr; GL.GetUniformLocation pr;
                          GL.GetUniformLocation pr]), _.
    split; [exact Htext |]. split; [exact Hi |]. split; [exact Hlt |].
    split; [reflexivity |].
    split.
    { unfold GL.issue. cbn [GL.calls]. rewrite Hc2, Hc1, <- !app_assoc.
      reflexivity. }
    split.
    + intros s src Hin. rewrite !in_app_iff in Hin.
      destruct Hin as [Hin | [Hin | Hin]];
        [eauto | destruct (Hno2 _ _ Hin) |].
      simpl in Hin. intuition discriminate.
    + intros _. cbn [frag_shader]. apply in_app_iff. left. auto.
  - eexists (t1 ++ t2 ++ [GL.GetUniformLocation pr]), _.
    split; [exact Htext |]. split; [exact Hi |]. split; [exact Hlt |].
    split; [reflexivity |].
    split.
    { unfold GL.issue. cbn [GL.calls]. rewrite Hc2, Hc1, <- !app_assoc.
      reflexivity. }
    split.
    + intros s src Hin. rewrite !in_app_iff in Hin.
      destruct Hin as [Hin | [Hin | Hin]];
        [eauto | destruct (Hno2 _ _ Hin) |].
      simpl in Hin. intuition discriminate.
    + intros _. cbn [frag_shader]. apply in_app_iff. left. auto.
Qed.

(** The loop over the kernels: every source handed to [glShaderSource] is
    the text built from one of the kernels, and after a success the
    shader of every pass of the leading run of kernels was given the text
    built from the kernel of that pass. *)
Lemma conv_passes_source (kerns : list (option kernel)) :
  forall (ps ps' : session_t) (i : Z) (gl gl' : GL.state) (ret : bool),
    0 <= i ->
    conv_passes XFIXED_TO_DOUBLE printf_g7 MAX_BLUR_PASS drv ps i kerns gl
    = Returned (ret, ps', gl') ->
    exists tail,
      GL.calls gl' = GL.calls gl ++ tail
      /\ has_texture_non_power_of_two ps' = has_texture_non_power_of_two ps
      /\ glx_use_gpushader4 ps' = glx_use_gpushader4 ps
      /\ (forall j, (j < Z.to_nat i)%nat ->
                    blur_passes ps' !! j = blur_passes ps !! j)
      /\ (forall s src,
            In (GL.ShaderSource s src) tail ->
            exists k kern,
              kerns !! k = Some (Some kern)
              /\ build_shader XFIXED_TO_DOUBLE printf_g7 ps kern = Returned src)
      /\ (ret = true ->
          forall n : nat,
            i + Z.of_nat n <= MAX_BLUR_PASS ->
            (forall k, (k < n)%nat ->
                       exists kern, kerns !! k = Some (Some kern)) ->
            forall k, (k < n)%nat ->
              exists kern p text,
                kerns !! k = Some (Some kern)
                /\ blur_passes ps' !! (Z.to_nat i + k)%nat = Some p
                /\ build_shader XFIXED_TO_DOUBLE printf_g7 ps kern
                   = Returned text
                /\ In (GL.ShaderSource (frag_shader p) text) tail).
Proof.
  induction kerns as [| o rest IH]; intros ps ps' i gl gl' ret Hi H.
  - simpl in H. destruct (negb (i <? MAX_BLUR_PASS)) eqn:Ei; [| discriminate H].
    injection H as <- <- <-. exists []. rewrite app_nil_r.
    repeat split; try reflexivity.
    + intros s src [].
    + intros _ n Hn Hk k Hlt. destruct (Hk k Hlt) as [kern Hkern].
      rewrite lookup_nil in Hkern. discriminate Hkern.
  - cbn [conv_passes] in H.
    destruct (Z.ltb_spec i MAX_BLUR_PASS) as [Hlt | Hge]; cbn [negb] in H.
    2: { injection H as <- <- <-. exists []. rewrite app_nil_r.
         repeat split; try reflexivity; [intros s src [] |].
         intros _ n Hn Hk k Hk'. lia. }
    destruct o as [kern |].
    2: { injection H as <- <- <-. exists []. rewrite app_nil_r.
         repeat split; try reflexivity; [intros s src [] |].
         intros _ n Hn Hk k Hk'.
         destruct (Hk 0%nat ltac:(lia)) as [kern Hkern]. discriminate Hkern. }
    bind_inv H as r Hr.
    apply conv_pass_source in Hr.
    destruct Hr as (text & t1 & p & Htext & _ & Hlen & Hps1 & Hc1 & Hsrc1 & Hfs1).
    destruct r as [[ps1 g1] | [ps1 g1]]; cbn [fst snd] in Hps1, Hc1.
    { injection H as <- <- <-. exists t1.
      split; [exact Hc1 |]. rewrite Hps1. cbn [set_blur_passes
        has_texture_non_power_of_two glx_use_gpushader4 blur_passes].
      split; [reflexivity |]. split; [reflexivity |].
      split; [intros j Hj; apply list_lookup_insert_ne; lia |].
      split; [| discriminate].
      intros s src Hin. exists 0%nat, kern. split; [reflexivity |].
      rewrite (Hsrc1 s src Hin). exact Htext. }
    assert (Hf1 : has_texture_non_power_of_two ps1
                  = has_texture_non_power_of_two ps)
      by (rewrite Hps1; reflexivity).
    assert (Hf2 : glx_use_gpushader4 ps1 = glx_use_gpushader4 ps)
      by (rewrite Hps1; reflexivity).
    destruct (IH ps1 ps' (i + 1) g1 gl' ret ltac:(lia) H)
      as (t2 & Hc2 & Hn2 & Hg2 & Hkeep & Hsrc2 & Hbuilt).
    exists (t1 ++ t2).
    split; [rewrite Hc2, Hc1, app_assoc; reflexivity |].
    split; [congruence |]. split; [congruence |].
    split.
    { intros j Hj. rewrite Hkeep by lia. rewrite Hps1.
      cbn [set_blur_passes blur_passes]. apply list_lookup_insert_ne. lia. }
    split.
    { intros s src Hin. apply in_app_iff in Hin. destruct Hin as [Hin | Hin].
      - exists 0%nat, kern. split; [reflexivity |].
        rewrite (Hsrc1 s src Hin). exact Htext.
      - destruct (Hsrc2 s src Hin) as (k & kern' & Hk & Hb).
        exists (S k), kern'. split; [exact Hk |].
        rewrite <- Hb. symmetry. apply build_shader_flags; assumption. }
    intros Hret n Hn Hk k Hk'. destruct k as [| k].
    + exists kern, p, text. split; [reflexivity |].
      split.
      { rewrite Nat.add_0_r, Hkeep by lia. rewrite Hps1.
        cbn [set_blur_passes blur_passes].
        apply list_lookup_insert_eq. exact Hlen. }
      split; [exact Htext |].
      apply in_app_iff. left. apply Hfs1. eauto.
    + destruct (Hbuilt Hret (n - 1)%nat ltac:(lia)
                  (fun k' Hk'' => Hk (S k') ltac:(lia)) k ltac:(lia))
        as (kern' & q & text' & Hkern' & Hq & Hb & Hin).
      exists kern', q, text'. split; [exact Hkern' |].
      split.
      { replace (Z.to_nat i + S k)%nat with (Z.to_nat (i + 1) + k)%nat by lia.
        exact Hq. }
      split; [rewrite <- Hb; symmetry; apply build_shader_flags; assumption |].
      apply in_app_iff. right. exact Hin.
Qed.

(** [glx_init_conv_blur] as a whole. *)
Lemma glx_init_conv_blur_source (ps ps' : session_t) (gl gl' : GL.state)
    (ret : bool) :
  glx_init_conv_blur XFIXED_TO_DOUBLE printf_g7 MAX_BLUR_PASS drv ps gl
  = Returned (ret, ps', gl') ->
  (forall s src,
     In (GL.ShaderSource s src) (issued gl gl') ->
     exists k kern,
       blur_kerns ps !! k = Some (Some kern)
       /\ build_shader XFIXED_TO_DOUBLE printf_g7 ps kern = Returned src)
  /\ (ret = true ->
      forall n : nat,
        Z.of_nat n <= MAX_BLUR_PASS ->
        (forall k, (k < n)%nat ->
                   exists kern, blur_kerns ps !! k = Some (Some kern)) ->
        forall k, (k < n)%nat ->
          exists kern p text,
            blur_kerns ps !! k = Some (Some kern)
            /\ blur_passes ps' !! k = Some p
            /\ build_shader XFIXED_TO_DOUBLE printf_g7 ps kern = Returned text
            /\ In (GL.ShaderSource (frag_shader p) text) (issued gl gl')).
Proof.
  unfold glx_init_conv_blur. intros H.
  bind_inv H as k0 Hk0. bind_inv H as u Hu. bind_inv H as k1 Hk1.
  bind_inv H as r Hr.
  assert (Hfirst : exists t0,
             match r with
             | inl g => GL.calls g = GL.calls gl ++ t0
             | inr g => GL.calls g = GL.calls gl ++ t0
             end
             /\ forall s src, ~ In (GL.ShaderSource s src) t0).
  { destruct k1 as [kern1 |].
    - destruct (GL.glGenFramebuffers drv (GL.now gl) =? 0);
        injection Hr as <-.
      + exists [GL.GenFramebuffers]. split; [reflexivity |].
        intros s src [Hin | []]. discriminate Hin.
      + eexists [GL.GenFramebuffers; GL.DeleteFramebuffers _]. split.
        * unfold GL.issue. cbn [GL.calls]. rewrite <- app_assoc. reflexivity.
        * intros s src [Hin | [Hin | []]]; discriminate Hin.
    - injection Hr as <-. exists []. rewrite app_nil_r.
      split; [reflexivity |]. intros s src []. }
  destruct Hfirst as (t0 & Hc0 & Hno0).
  destruct r as [g | g].
  - injection H as <- <- <-. rewrite (issued_app _ _ _ Hc0).
    split; [intros s src Hin; destruct (Hno0 _ _ Hin) | discriminate].
  - apply conv_passes_source in H; [| lia].
    destruct H as (tail & Hc & _ & _ & _ & Hsrc & Hbuilt).
    assert (Hall : GL.calls gl' = GL.calls gl ++ (t0 ++ tail))
      by (rewrite Hc, Hc0, app_assoc; reflexivity).
    rewrite (issued_app _ _ _ Hall). split.
    + intros s src Hin. apply in_app_iff in Hin.
      destruct Hin as [Hin | Hin]; [destruct (Hno0 _ _ Hin) | eauto].
    + intros Hret n Hn Hk k Hlt.
      destruct (Hbuilt Hret n ltac:(lia) Hk k Hlt)
        as (kern & p & text & Hkern & Hp & Hb & Hin).
      exists kern, p, text. split; [exact Hkern |]. split; [exact Hp |].
      split; [exact Hb |]. apply in_app_iff. right. exact Hin.
Qed.

End ShaderSources.

Section ShaderReturns.

Import CString Shader.

Variable XFIXED_TO_DOUBLE : Z -> Q.
Variable printf_g7 : Q -> string.
Variable MAX_BLUR_PASS : Z.
Variable drv : GL.driver.

Hypothesis Hg7 : forall d : Q, strlen (printf_g7 d) <= 22.

(** One turn of the loop returns when the pass exists and the kernel is
    one the shader is built for. *)
Lemma conv_pass_returns (ps : session_t) (i : Z) (kern : kernel)
    (gl : GL.state) :
  0 <= i -> (Z.to_nat i < length (blur_passes ps))%nat ->
  kernel_ok XFIXED_TO_DOUBLE kern ->
  exists r,
    conv_pass XFIXED_TO_DOUBLE printf_g7 drv ps i kern gl = Returned r.
Proof.
  intros Hi Hlt (k0 & k1 & cells & -> & Hw & Hh & Ha & Hl).
  unfold conv_pass.
  destruct (lookup_lt_is_Some_2 (blur_passes ps) (Z.to_nat i) Hlt) as [pp Hpp].
  rewrite (c_index_lookup _ _ _ Hi Hpp). cbn [obind].
  rewrite (build_shader_text printf_g7 Hg7 XFIXED_TO_DOUBLE ps k0 k1 cells
             Hw Hh Ha Hl).
  cbn [obind].
  destruct (glx_create_shader drv GL.GL_FRAGMENT_SHADER _ gl) as [fs g1].
  destruct (fs =? 0); [eauto |].
  destruct (glx_create_program drv [fs] g1) as [pr g2].
  destruct (pr =? 0); [eauto |].
  unfold get_unifm_loc. destruct (negb (glx_use_gpushader4 ps)); eauto.
Qed.

(** The loop returns when the arrays of kernels and of passes have their
    [MAX_BLUR_PASS] entries and every kernel is one the shader is built
    for. *)
Lemma conv_passes_returns (kerns : list (option kernel)) :
  forall (ps : session_t) (i : Z) (gl : GL.state),
    0 <= i ->
    MAX_BLUR_PASS <= i + Z.of_nat (length kerns) ->
    MAX_BLUR_PASS <= Z.of_nat (length (blur_passes ps)) ->
    (forall kern, In (Some kern) kerns -> kernel_ok XFIXED_TO_DOUBLE kern) ->
    exists ret ps' gl',
      conv_passes XFIXED_TO_DOUBLE printf_g7 MAX_BLUR_PASS drv ps i kerns gl
      = Returned (ret, ps', gl').
Proof.
  induction kerns as [| o rest IH]; intros ps i gl Hi Hn Hp Hok.
  - simpl. destruct (Z.ltb_spec i MAX_BLUR_PASS); [simpl in Hn; lia |].
    simpl. eauto.
  - cbn [conv_passes].
    destruct (Z.ltb_spec i MAX_BLUR_PASS) as [Hlt | Hge]; cbn [negb];
      [| eauto].
    destruct o as [kern |]; [| eauto].
    destruct (conv_pass_returns ps i kern gl Hi ltac:(lia)
                (Hok kern (or_introl eq_refl))) as [r Hr].
    rewrite Hr. cbn [obind].
    apply conv_pass_source in Hr.
    destruct Hr as (_ & _ & p & _ & _ & _ & Hps1 & _).
    destruct r as [[ps1 g1] | [ps1 g1]]; [eauto |].
    cbn [fst] in Hps1.
    apply IH.
    + lia.
    + cbn [length] in Hn. lia.
    + rewrite Hps1. cbn [set_blur_passes blur_passes].
      rewrite length_insert. exact Hp.
    + intros kern' Hin. apply Hok. right. exact Hin.
Qed.

Lemma glx_init_conv_blur_returns (ps : session_t) (gl : GL.state) :
  2 <= MAX_BLUR_PASS ->
  Z.of_nat (length (blur_kerns ps)) = MAX_BLUR_PASS ->
  MAX_BLUR_PASS <= Z.of_nat (length (blur_passes ps)) ->
  (exists kern0, blur_kerns ps !! 0%nat = Some (Some kern0)) ->
  (forall kern, In (Some kern) (blur_kerns ps) ->
                kernel_ok XFIXED_TO_DOUBLE kern) ->
  exists ret ps' gl',
    glx_init_conv_blur XFIXED_TO_DOUBLE printf_g7 MAX_BLUR_PASS drv ps gl
    = Returned (ret, ps', gl').
Proof.
  intros Hmax Hk Hp [kern0 H0] Hok. unfold glx_init_conv_blur.
  rewrite (c_index_lookup _ 0 _ ltac:(lia) H0). cbn [obind].
  rewrite bool_decide_eq_true_2 by discriminate. cbn [c_assert obind].
  destruct (lookup_lt_is_Some_2 (blur_kerns ps) 1%nat ltac:(lia)) as [k1 H1].
  rewrite (c_index_lookup _ 1 _ ltac:(lia) H1). cbn [obind].
  destruct k1 as [kern1 |]; cbn [obind].
  - destruct (GL.glGenFramebuffers drv (GL.now gl) =? 0); cbn [obind];
      [eauto |].
    apply conv_passes_returns; try assumption; lia.
  - apply conv_passes_returns; try assumption; lia.
Qed.

End ShaderReturns.

(** [g7_whole] writes at most 11 characters. *)
Lemma g7_whole_short (d : Q) : CString.strlen (g7_whole d) <= 22.
Proof.
  unfold g7_whole. pose proof (strlen_printf_d (Shader.int_of_double d)). lia.
Qed.

Lemma box_3x3_ok : kernel_ok fixed_16_16 box_3x3.
Proof.
  exists (3 * 65536), (3 * 65536),
    [65536; 65536; 65536; 65536; 0; 65536; 65536; 65536; 65536].
  repeat split; vm_compute; discriminate.
Qed.

(** C3, as stated for every kernel, fails for a kernel without cells
    (width 0 and height 0, or width 0 and three rows): [nele] is -1, the
    buffer is sized for one line less than none, and the first [sprintf]
    writes past its end. No shader is synthesized: building the shader is
    undefined, and so is [glx_init_conv_blur] for a session whose first
    kernel is such a kernel. *)
Lemma glx_init_conv_blur_kernel_without_cells :
  Shader.build_shader fixed_16_16 g7_whole
    (shader_session [Some empty_kernel; None; None; None; None]) empty_kernel
  = Undefined
  /\ Shader.build_shader fixed_16_16 g7_whole
       (shader_session [Some [0; 3 * 65536]; None; None; None; None])
       [0; 3 * 65536]
     = Undefined
  /\ Shader.glx_init_conv_blur fixed_16_16 g7_whole 5 good_driver
       (shader_session [Some empty_kernel; None; None; None; None]) gl_init
     = Undefined.
Proof. split; [| split]; vm_compute; reflexivity. Qed.

(** C3 (amended): take a C library whose [%.7g] writes at most 22
    characters, and call a kernel good when it is a well-formed array of
    [2 + wid * hei] cells with at least one row and one column and at most
    2^24 cells. With [MAX_BLUR_PASS] kernel slots and passes, a first
    kernel and nothing but good kernels, [glx_init_conv_blur] returns.
    Whenever it returns, every source it handed to [glShaderSource] is the
    text built from one of the configured kernels; and after a success,
    for every pass of the leading run of configured kernels, the shader
    stored in the pass was given the text built from the kernel of that
    pass. For a good kernel of width [wid] and height [hei] that text is
    built without leaving the buffer, and it is: the declarations, one
    line for each cell of the grid that is not the center
    [(hei / 2, wid / 2)] and whose weight is not zero (the grid lists
    every cell once), in row order, each with the weight of the cell and
    the offset [(k - wid / 2, j - hei / 2)], and the output expression
    that divides by [factor_center] plus the total of these weights. For
    the 3 x 3 box kernel without center there are 8 lines, of weight 1
    each, and the divisor is [factor_center + 8]. *)
Theorem glx_init_conv_blur_shader
    (X : Z -> Q) (g7 : Q -> string) (MAX_BLUR_PASS : Z) (drv : GL.driver)
    (ps : Shader.session_t) (gl : GL.state) :
  (forall d : Q, CString.strlen (g7 d) <= 22) ->
  (* the call returns *)
  (2 <= MAX_BLUR_PASS ->
   Z.of_nat (length (Shader.blur_kerns ps)) = MAX_BLUR_PASS ->
   MAX_BLUR_PASS <= Z.of_nat (length (Shader.blur_passes ps)) ->
   (exists kern0, Shader.blur_kerns ps !! 0%nat = Some (Some kern0)) ->
   (forall kern, In (Some kern) (Shader.blur_kerns ps) -> kernel_ok X kern) ->
   exists ret ps' gl',
     Shader.glx_init_conv_blur X g7 MAX_BLUR_PASS drv ps gl
     = Returned (ret, ps', gl'))
  (* the sources handed to glShaderSource *)
  /\ (forall (ret : bool) (ps' : Shader.session_t) (gl' : GL.state),
        Shader.glx_init_conv_blur X g7 MAX_BLUR_PASS drv ps gl
        = Returned (ret, ps', gl') ->
        (forall s src,
           In (GL.ShaderSource s src) (issued gl gl') ->
           exists k kern,
             Shader.blur_kerns ps !! k = Some (Some kern)
             /\ Shader.build_shader X g7 ps kern = Returned src)
        /\ (ret = true ->
            forall n : nat,
              Z.of_nat n <= MAX_BLUR_PASS ->
              (forall k, (k < n)%nat ->
                 exists kern, Shader.blur_kerns ps !! k = Some (Some kern)) ->
              forall k, (k < n)%nat ->
                exists kern p text,
                  Shader.blur_kerns ps !! k = Some (Some kern)
                  /\ Shader.blur_passes ps' !! k = Some p
                  /\ Shader.build_shader X g7 ps kern = Returned text
                  /\ In (GL.ShaderSource (Shader.frag_shader p) text)
                       (issued gl gl')
                  /\ forall k0 k1 cells,
                       kern = k0 :: k1 :: cells ->
                       kernel_ok X kern ->
                       text = conv_shader_text X g7 ps kern
                                (Shader.int_of_double (X k0))
                                (Shader.int_of_double (X k1))))
  (* the text built from a kernel *)
  /\ (forall (k0 k1 : Z) (cells : list Z),
        kernel_ok X (k0 :: k1 :: cells) ->
        Shader.build_shader X g7 ps (k0 :: k1 :: cells)
        = Returned
            (conv_shader_text X g7 ps (k0 :: k1 :: cells)
               (Shader.int_of_double (X k0)) (Shader.int_of_double (X k1)))
        /\ NoDup (grid (Shader.int_of_double (X k0))
                       (Shader.int_of_double (X k1)))
        /\ (forall j k,
              (j, k) ∈ grid (Shader.int_of_double (X k0))
                            (Shader.int_of_double (X k1))
              <-> 0 <= j < Shader.int_of_double (X k1)
                  /\ 0 <= k < Shader.int_of_double (X k0)))
  (* the 3 x 3 box kernel *)
  /\ (forall tf : string,
        length (terms_of fixed_16_16 box_3x3 tf 3 3 (grid 3 3)) = 8%nat
        /\ Forall (fun t => Qeq (Shader.add_val t) 1)
             (terms_of fixed_16_16 box_3x3 tf 3 3 (grid 3 3))
        /\ map (fun t => (Shader.add_dx t, Shader.add_dy t))
             (terms_of fixed_16_16 box_3x3 tf 3 3 (grid 3 3))
           = [ (-1, -1); (0, -1); (1, -1); (-1, 0); (1, 0);
               (-1, 1); (0, 1); (1, 1) ]
        /\ Qeq (add_weights 0 (terms_of fixed_16_16 box_3x3 tf 3 3 (grid 3 3)))
             8).
Proof.
  intros Hg7.
  assert (Htext : forall (k0 k1 : Z) (cells : list Z),
             kernel_ok X (k0 :: k1 :: cells) ->
             Shader.build_shader X g7 ps (k0 :: k1 :: cells)
             = Returned
                 (conv_shader_text X g7 ps (k0 :: k1 :: cells)
                    (Shader.int_of_double (X k0))
                    (Shader.int_of_double (X k1)))).
  { intros k0 k1 cells (k0' & k1' & cells' & [= <- <- <-] & Hw & Hh & Ha & Hl).
    apply build_shader_text; assumption. }
  split; [| split; [| split]].
  - intros Hmax Hk Hp H0 Hok.
    apply glx_init_conv_blur_returns; assumption.
  - intros ret ps' gl' H.
    destruct (glx_init_conv_blur_source _ _ _ _ _ _ _ _ _ H) as [Hsrc Hpass].
    split; [exact Hsrc |].
    intros Hret n Hn Hk k Hlt.
    destruct (Hpass Hret n Hn Hk k Hlt)
      as (kern & p & text & Hkern & Hp & Hb & Hin).
    exists kern, p, text. repeat (split; [assumption |]).
    intros k0 k1 cells -> Hok. rewrite (Htext _ _ _ Hok) in Hb.
    injection Hb as <-. reflexivity.
  - intros k0 k1 cells Hok. split; [exact (Htext _ _ _ Hok) |].
    apply grid_cells.
  - intros tf. split; [reflexivity |].
    split; [repeat constructor |].
    split; reflexivity.
Qed.

(** The amended C3 at the session with two 3 x 3 box kernels, read as
    16.16 fixed point, on a working driver: the call returns, with
    success, and the shader of the first pass was given the text of the
    box kernel. *)
Lemma glx_init_conv_blur_shader_witness :
  exists ps' gl' p,
    Shader.glx_init_conv_blur fixed_16_16 g7_whole 5 good_driver
      two_pass_session gl_init = Returned (true, ps', gl')
    /\ Shader.blur_passes ps' !! 0%nat = Some p
    /\ In (GL.ShaderSource (Shader.frag_shader p)
             (conv_shader_text fixed_16_16 g7_whole two_pass_session box_3x3
                3 3))
         (issued gl_init gl').
Proof.
  destruct (glx_init_conv_blur_shader fixed_16_16 g7_whole 5 good_driver
              two_pass_session gl_init g7_whole_short)
    as (Hret & Hsrc & _).
  assert (Hok : forall kern,
             In (Some kern) (Shader.blur_kerns two_pass_session) ->
             kernel_ok fixed_16_16 kern).
  { intros kern [Hin | [Hin | [Hin | [Hin | [Hin | []]]]]];
      try discriminate Hin; injection Hin as <-; exact box_3x3_ok. }
  destruct (Hret ltac:(lia) eq_refl ltac:(cbn; lia)
              (ex_intro _ box_3x3 eq_refl) Hok)
    as (r & ps' & gl' & E).
  assert (Hr : r = true).
  { assert (Hc : exists ps1 gl1,
               Shader.glx_init_conv_blur fixed_16_16 g7_whole 5 good_driver
                 two_pass_session gl_init = Returned (true, ps1, gl1))
      by (vm_compute; eauto).
    destruct Hc as (ps1 & gl1 & Hc). rewrite Hc in E.
    injection E as <- _ _. reflexivity. }
  subst r.
  destruct (Hsrc true ps' gl' E) as [_ Hpass].
  assert (Hrun : forall k, (k < 1)%nat ->
             exists kern,
               Shader.blur_kerns two_pass_session !! k = Some (Some kern)).
  { intros k Hk. replace k with 0%nat by lia. exists box_3x3. reflexivity. }
  destruct (Hpass eq_refl 1%nat ltac:(lia) Hrun 0%nat ltac:(lia))
    as (kern & p & text & Hkern & Hp & Hb & Hin & Htext).
  injection Hkern as <-.
  specialize (Htext _ _ _ eq_refl box_3x3_ok).
  change (Shader.int_of_double (fixed_16_16 (3 * 65536))) with 3 in Htext.
  subst text.
  exists ps', gl', p. auto.
Defined.




(** ** Blur initialisation *)

(** C9: with a second kernel configured, when no framebuffer object can
    be generated [glx_init_conv_blur] returns failure, and so does
    [glx_init_blur] for the convolution method; no pass is built (the
    session is unchanged) and the only call issued is the failed
    [glGenFramebuffers]. *)
Theorem glx_init_conv_blur_needs_framebuffer
    (XFIXED_TO_DOUBLE : Z -> Q) (printf_g7 : Q -> string) (MAX_BLUR_PASS : Z) (drv : GL.driver)
    (ps : Shader.session_t) (gl : GL.state) (kern0 kern1 : list Z) :
  Shader.blur_kerns ps !! 0%nat = Some (Some kern0) ->
  Shader.blur_kerns ps !! 1%nat = Some (Some kern1) ->
  GL.glGenFramebuffers drv (GL.now gl) = 0 ->
  Shader.glx_init_conv_blur XFIXED_TO_DOUBLE printf_g7 MAX_BLUR_PASS drv ps gl
  = Returned (false, ps, GL.issue GL.GenFramebuffers gl)
  /\ (Shader.blur_method ps = Shader.BLRMTHD_CONV ->
      Shader.glx_init_blur XFIXED_TO_DOUBLE printf_g7 MAX_BLUR_PASS drv ps gl
      = Returned (false, ps, GL.issue GL.GenFramebuffers gl)).
Proof.
  intros H0 H1 Hfbo.
  assert (Hconv : Shader.glx_init_conv_blur XFIXED_TO_DOUBLE printf_g7 MAX_BLUR_PASS drv ps gl
                  = Returned (false, ps, GL.issue GL.GenFramebuffers gl)).
  { unfold Shader.glx_init_conv_blur.
    rewrite (c_index_lookup _ 0 _ ltac:(lia) H0).
    rewrite (c_index_lookup _ 1 _ ltac:(lia) H1).
    simpl. rewrite Hfbo. reflexivity. }
  split; [exact Hconv |].
  intros Hm. unfold Shader.glx_init_blur. rewrite Hm. exact Hconv.
Qed.

(** C9 at a two-kernel session on a driver without framebuffer objects;
    on a driver that has them the same session builds its two passes. *)
Lemma glx_init_conv_blur_needs_framebuffer_witness :
  Shader.glx_init_blur fixed_16_16 g7_whole 5 no_fbo_driver two_pass_session gl_init
  = Returned (false, two_pass_session, GL.issue GL.GenFramebuffers gl_init)
  /\ exists ps' gl',
       Shader.glx_init_blur fixed_16_16 g7_whole 5 good_driver two_pass_session gl_init
       = Returned (true, ps', gl')
       /\ Forall (fun p => Shader.prog p <> 0) (take 2 (Shader.blur_passes ps')).
Proof.
  split.
  - exact (proj2 (glx_init_conv_blur_needs_framebuffer fixed_16_16 g7_whole 5
                    no_fbo_driver two_pass_session gl_init box_3x3 box_3x3
                    eq_refl eq_refl eq_refl) eq_refl).
  - eexists _, _. split; [vm_compute; reflexivity |].
    repeat constructor; discriminate.
Defined.

(** ** Pyramid iteration count *)

Lemma quot_pow2_shiftr (w m : Z) :
  0 <= w -> 0 <= m -> Z.quot w (2 ^ m) = Z.shiftr w m.
Proof.
  intros Hw Hm. rewrite Z.shiftr_div_pow2 by assumption.
  apply Z.quot_div_nonneg; [assumption |].
  apply Z.pow_pos_nonneg; lia.
Qed.

(** The loop stops at the first count, from [iterations] down, whose
    level is not empty. *)
Lemma reduce_iterations_largest (w h : Z) (n : nat) :
  forall iterations : Z,
    1 <= w -> 1 <= h -> 1 <= iterations <= 31 ->
    (Z.to_nat iterations <= n)%nat ->
    exists i,
      Blur.reduce_iterations n w h iterations = Returned i
      /\ 1 <= i <= iterations
      /\ level_fits w h i
      /\ forall j, i < j <= iterations -> ~ level_fits w h j.
Proof.
  induction n as [| n IH]; intros iterations Hw Hh Hi Hn; [lia |].
  cbn [Blur.reduce_iterations].
  rewrite int_shl1_in_range by lia. cbn [obind].
  rewrite !quot_pow2_shiftr by lia.
  destruct (Z.ltb_spec (Z.shiftr w (iterations - 1)) 1) as [Hlt | Hge];
    [| destruct (Z.ltb_spec (Z.shiftr h (iterations - 1)) 1) as [Hlt | Hge']];
    cbn [orb].
  3: { exists iterations. unfold level_fits. repeat split; try lia. }
  all: assert (Hne : iterations <> 1)
    by (intros ->; change (1 - 1) with 0 in Hlt; rewrite Z.shiftr_0_r in Hlt; lia).
  all: destruct (IH (iterations - 1)) as (i & Hr & Hrange & Hfit & Hmax);
    try lia.
  all: exists i; split; [exact Hr |]; split; [lia |]; split; [exact Hfit |].
  all: intros j Hj [Hjw Hjh].
  all: destruct (Z.eq_dec j iterations) as [-> | Hneq];
    [lia | apply (Hmax j); [lia | split; assumption]].
Qed.

(** C7, as stated, fails for a requested count above 31: for a 1 x 1
    rectangle and 33 iterations the largest non-empty level is 1, but the
    loop condition starts by shifting 1 left by 32 bits, which is not
    defined on [int], so that the call does not come out with 1. *)
Lemma kawase_iterations_33_undefined :
  Blur.kawase_iterations 1 1 33 = Undefined
  /\ level_fits 1 1 1
  /\ (forall j, 1 < j <= 33 -> ~ level_fits 1 1 j)
  /\ Blur.kawase_iterations 1 1 33 <> Returned 1.
Proof.
  split; [reflexivity |].
  split; [unfold level_fits; change (1 - 1) with 0; rewrite Z.shiftr_0_r; lia |].
  split; [| discriminate].
  intros j Hj [Hfit _].
  rewrite Z.shiftr_div_pow2 in Hfit by lia.
  assert (2 <= 2 ^ (j - 1)).
  { change 2 with (2 ^ 1) at 1. apply Z.pow_le_mono_r; lia. }
  assert (1 / 2 ^ (j - 1) = 0) by (apply Z.div_small; lia).
  lia.
Qed.

(** C7 (amended): for a rectangle of width [w >= 1] and height [h >= 1]
    and a requested count [1 <= iterations <= 31] (the range in which
    [1 << (iterations - 1)] is defined), the reduction loop terminates
    with the largest [i <= iterations] such that [w] and [h] shifted right
    by [i - 1] are both at least 1. *)
Theorem kawase_iterations_largest (w h iterations : Z) :
  1 <= w -> 1 <= h -> 1 <= iterations <= 31 ->
  exists i,
    Blur.kawase_iterations w h iterations = Returned i
    /\ 1 <= i <= iterations
    /\ level_fits w h i
    /\ forall j, i < j <= iterations -> ~ level_fits w h j.
Proof.
  intros Hw Hh Hi. unfold Blur.kawase_iterations.
  apply reduce_iterations_largest; try assumption. lia.
Qed.

(** The amended C7 at a 100 x 20 rectangle and 8 requested iterations:
    the loop stops at 5, since 20 >> 4 is 1 and 20 >> 5 is 0. *)
Lemma kawase_iterations_largest_witness :
  exists i,
    Blur.kawase_iterations 100 20 8 = Returned i
    /\ 1 <= i <= 8
    /\ level_fits 100 20 i
    /\ forall j, i < j <= 8 -> ~ level_fits 100 20 j.
Proof.
  apply (kawase_iterations_largest 100 20 8); lia.
Defined.

Example kawase_iterations_100_20_8 : Blur.kawase_iterations 100 20 8 = Returned 5.
Proof. reflexivity. Qed.

(** ** Clip tests around a blur *)

Section TestFacts.

Variables hs hst : bool.

Lemma glIsEnabled_issue (cap : GL.GLenum) (c : GL.call) (gl : GL.state) :
  GL.glIsEnabled cap (GL.issue c gl) = GL.glIsEnabled cap gl.
Proof. reflexivity. Qed.

Lemma glIsEnabled_glEnable (cap cap' : GL.GLenum) (gl : GL.state) :
  GL.glIsEnabled cap (GL.glEnable cap' gl)
  = (cap =? cap') || GL.glIsEnabled cap gl.
Proof.
  unfold GL.glIsEnabled, GL.glEnable. simpl.
  destruct (Z.eqb_spec cap cap') as [-> | Hne]; simpl.
  - apply bool_decide_eq_true. apply elem_of_union. left.
    apply elem_of_singleton. reflexivity.
  - apply bool_decide_ext. rewrite elem_of_union, elem_of_singleton. tauto.
Qed.

Lemma glIsEnabled_glDisable (cap cap' : GL.GLenum) (gl : GL.state) :
  GL.glIsEnabled cap (GL.glDisable cap' gl)
  = negb (cap =? cap') && GL.glIsEnabled cap gl.
Proof.
  unfold GL.glIsEnabled, GL.glDisable. simpl.
  destruct (Z.eqb_spec cap cap') as [-> | Hne]; simpl.
  - apply bool_decide_eq_false. rewrite elem_of_difference, elem_of_singleton.
    tauto.
  - apply bool_decide_ext. rewrite elem_of_difference, elem_of_singleton.
    tauto.
Qed.

Lemma within_issue (c : GL.call) (gl : GL.state) :
  tests_within hs hst gl -> tests_within hs hst (GL.issue c gl).
Proof. intros H. exact H. Qed.

Lemma within_glDisable (cap : GL.GLenum) (gl : GL.state) :
  tests_within hs hst gl -> tests_within hs hst (GL.glDisable cap gl).
Proof.
  intros [H1 H2]. unfold tests_within. rewrite !glIsEnabled_glDisable.
  split; intros H; apply andb_true_iff in H; destruct H; auto.
Qed.

Lemma within_glEnable_tex (cap : GL.GLenum) (gl : GL.state) :
  is_tex_tgt cap ->
  tests_within hs hst gl -> tests_within hs hst (GL.glEnable cap gl).
Proof.
  intros Hcap [H1 H2]. unfold tests_within. rewrite !glIsEnabled_glEnable.
  destruct Hcap as [-> | ->]; simpl; auto.
Qed.

Lemma within_reenable (gl : GL.state) :
  tests_within hs hst gl ->
  tests_within hs hst (Blur.reenable_tests hs hst gl).
Proof.
  intros [H1 H2]. unfold Blur.reenable_tests, tests_within.
  destruct hs, hst; rewrite ?glIsEnabled_glEnable; simpl; auto.
Qed.

(** After the re-enabling code both tests are as on entry. *)
Lemma restored_reenable (gl : GL.state) :
  tests_within hs hst gl ->
  tests_restored hs hst (Blur.reenable_tests hs hst gl).
Proof.
  intros [H1 H2]. unfold Blur.reenable_tests, tests_restored.
  assert (S0 : hs = false -> GL.glIsEnabled GL.GL_SCISSOR_TEST gl = false).
  { intros E. destruct (GL.glIsEnabled GL.GL_SCISSOR_TEST gl);
      [rewrite H1 in E by reflexivity; discriminate E | reflexivity]. }
  assert (T0 : hst = false -> GL.glIsEnabled GL.GL_STENCIL_TEST gl = false).
  { intros E. destruct (GL.glIsEnabled GL.GL_STENCIL_TEST gl);
      [rewrite H2 in E by reflexivity; discriminate E | reflexivity]. }
  destruct hs, hst; rewrite ?glIsEnabled_glEnable;
    rewrite ?S0, ?T0 by reflexivity; split; reflexivity.
Qed.

Lemma within_fold_issue {A : Type} (f : A -> GL.state -> GL.state)
    (l : list A) :
  (forall a g, tests_within hs hst g -> tests_within hs hst (f a g)) ->
  forall gl, tests_within hs hst gl ->
             tests_within hs hst (fold_left (fun g a => f a g) l gl).
Proof.
  intros Hf. induction l as [| a l IH]; intros gl H; simpl; auto.
Qed.

Lemma restored_fold_issue {A : Type} (f : A -> GL.state -> GL.state)
    (l : list A) :
  (forall a g, tests_restored hs hst g -> tests_restored hs hst (f a g)) ->
  forall gl, tests_restored hs hst gl ->
             tests_restored hs hst (fold_left (fun g a => f a g) l gl).
Proof.
  intros Hf. induction l as [| a l IH]; intros gl H; simpl; auto.
Qed.

Lemma within_free_glx_bc_resize (pbc : Blur.glx_blur_cache_t) (gl : GL.state) :
  tests_within hs hst gl ->
  tests_within hs hst (Blur.free_glx_bc_resize pbc gl).2.
Proof.
  intros H. unfold Blur.free_glx_bc_resize. simpl.
  apply (within_fold_issue
           (fun t g => if t =? 0 then g else GL.issue (GL.DeleteTextures t) g));
    [| exact H].
  intros t g Hg. destruct (t =? 0); [exact Hg | apply within_issue; exact Hg].
Qed.

Lemma restored_free_glx_bc (pbc : Blur.glx_blur_cache_t) (gl : GL.state) :
  tests_restored hs hst gl ->
  tests_restored hs hst (Blur.free_glx_bc pbc gl).2.
Proof.
  intros H. unfold Blur.free_glx_bc, Blur.free_glx_bc_resize. simpl.
  apply (restored_fold_issue
           (fun t g => if t =? 0 then g else GL.issue (GL.DeleteTextures t) g)).
  - intros t g Hg. destruct (t =? 0); exact Hg.
  - destruct (Blur.fbo pbc =? 0); exact H.
Qed.

Lemma within_uniform_if (loc : Z) (gl : GL.state) :
  tests_within hs hst gl -> tests_within hs hst (Blur.uniform_if loc gl).
Proof. intros H. unfold Blur.uniform_if. destruct (0 <=? loc); exact H. Qed.

Lemma within_copy_region (ps : Blur.session_t) (tgt : GL.GLenum)
    (bx by_ dx dy w h : Z) (gl : GL.state) :
  tests_within hs hst gl ->
  tests_within hs hst (Blur.glx_copy_region_to_tex ps tgt bx by_ dx dy w h gl).
Proof.
  intros H. unfold Blur.glx_copy_region_to_tex.
  destruct ((0 <? w) && (0 <? h)); exact H.
Qed.

Section WithDriver.

Variable MAX_BLUR_PASS : Z.
Variable drv : GL.driver.

Lemma within_glx_gen_texture (tgt : GL.GLenum) (w h : Z) (gl : GL.state) :
  is_tex_tgt tgt ->
  tests_within hs hst gl ->
  tests_within hs hst (Blur.glx_gen_texture drv tgt w h gl).2.
Proof.
  intros Htgt H. unfold Blur.glx_gen_texture.
  destruct (GL.glGenTextures drv (GL.now gl) =? 0); simpl.
  - exact H.
  - repeat apply within_issue. apply within_glEnable_tex; assumption.
Qed.

Lemma within_ensure_texture (pbc pbc' : Blur.glx_blur_cache_t) (i : Z)
    (tgt : GL.GLenum) (w h : Z) (gl gl' : GL.state) :
  is_tex_tgt tgt ->
  tests_within hs hst gl ->
  Blur.ensure_texture drv pbc i tgt w h gl = Returned (pbc', gl') ->
  tests_within hs hst gl'.
Proof.
  intros Htgt H E. unfold Blur.ensure_texture in E.
  invert_bind E. destruct (x =? 0).
  - pose proof (within_glx_gen_texture tgt w h gl Htgt H) as Hg.
    destruct (Blur.glx_gen_texture drv tgt w h gl) as [tex g]. simpl in Hg.
    invert_bind E. injection E as _ <-. exact Hg.
  - injection E as _ <-. exact H.
Qed.

Lemma within_attach_fbo (fbo tex : Z) (gl : GL.state) :
  tests_within hs hst gl ->
  match Blur.attach_fbo drv fbo tex gl with
  | inl g | inr g => tests_within hs hst g
  end.
Proof.
  intros H. unfold Blur.attach_fbo.
  destruct (negb _); exact H.
Qed.

Lemma within_kawase_draw (pass : Shader.glx_blur_pass_t) (dx dy w h : Z)
    (gl : GL.state) :
  tests_within hs hst gl ->
  tests_within hs hst (Blur.kawase_draw pass dx dy w h gl).
Proof.
  intros H. unfold Blur.kawase_draw, Blur.paint_region.
  apply within_issue. repeat apply within_uniform_if. exact H.
Qed.

(** The end of both blur operations restores the tests. *)
Lemma restored_blur_dst_end (tgt : GL.GLenum) (own ret : bool)
    (pbc : Blur.glx_blur_cache_t) (gl : GL.state) :
  tests_within hs hst gl ->
  tests_restored hs hst (Blur.blur_dst_end tgt hs hst own ret pbc gl).2.
Proof.
  intros H. unfold Blur.blur_dst_end.
  set (g := Blur.reenable_tests hs hst _).
  assert (Hg : tests_restored hs hst g).
  { apply restored_reenable. apply within_glDisable. exact H. }
  destruct own.
  - pose proof (restored_free_glx_bc pbc g Hg) as Hf.
    destruct (Blur.free_glx_bc pbc g). exact Hf.
  - exact Hg.
Qed.

Lemma within_conv_loop (dx dy w h : Z) (tgt : GL.GLenum) (fbo : Z)
    (rest : list Shader.glx_blur_pass_t) :
  forall (i : Z) (ppass : Shader.glx_blur_pass_t) (t1 t2 : Z)
         (gl gl' : GL.state) (ret : bool),
    tests_within hs hst gl ->
    Blur.conv_loop MAX_BLUR_PASS drv dx dy w h tgt hs hst fbo i ppass rest
      t1 t2 gl = Returned (ret, gl') ->
    tests_within hs hst gl'.
Proof.
  induction rest as [| next rest IH]; intros i ppass t1 t2 gl gl' ret H E;
    cbn [Blur.conv_loop] in E; [discriminate |].
  do 3 invert_bind E.
  destruct (Shader.prog next =? 0) eqn:Elast; cbn [negb] in E.
  - injection E as _ <-.
    unfold Blur.paint_region. repeat apply within_issue.
    repeat apply within_uniform_if. repeat apply within_issue.
    apply within_reenable. exact H.
  - destruct (negb (GL.glCheckFramebufferStatus drv _ =? GL.GL_FRAMEBUFFER_COMPLETE)).
    + injection E as _ <-. exact H.
    + apply IH in E; [exact E |].
      unfold Blur.paint_region. repeat apply within_issue.
      repeat apply within_uniform_if. exact H.
Qed.

End WithDriver.

End TestFacts.

(** ** The blur operations restore the clip tests *)

Section BlurFacts.

Variable MAX_BLUR_PASS : Z.
Variable drv : GL.driver.

Lemma within_entry (gl : GL.state) :
  tests_within (GL.glIsEnabled GL.GL_SCISSOR_TEST gl)
    (GL.glIsEnabled GL.GL_STENCIL_TEST gl) gl.
Proof. split; intros H; exact H. Qed.

Lemma tex_tgt_is_tex_tgt (b : bool) :
  is_tex_tgt (if b then GL.GL_TEXTURE_2D else GL.GL_TEXTURE_RECTANGLE).
Proof. destruct b; [left | right]; reflexivity. Qed.

Lemma within_resize_if (hs hst : bool) (c : bool)
    (pbc pbc' : Blur.glx_blur_cache_t) (gl gl' : GL.state) :
  tests_within hs hst gl ->
  (if c then Blur.free_glx_bc_resize pbc gl else (pbc, gl)) = (pbc', gl') ->
  tests_within hs hst gl'.
Proof.
  intros H E. destruct c.
  - pose proof (within_free_glx_bc_resize hs hst pbc gl H) as Hf.
    rewrite E in Hf. exact Hf.
  - injection E as _ <-. exact H.
Qed.

Lemma within_gen_fbo_if (hs hst : bool) (c : bool)
    (pbc pbc' : Blur.glx_blur_cache_t) (f : Z) (gl gl' : GL.state) :
  tests_within hs hst gl ->
  (if c then (Blur.set_fbo pbc f, GL.issue GL.GenFramebuffers gl) else (pbc, gl))
  = (pbc', gl') ->
  tests_within hs hst gl'.
Proof. intros H E. destruct c; injection E as _ <-; exact H. Qed.

(** Whenever [glx_conv_blur_dst] returns, the scissor and stencil tests
    are as on entry. *)
Lemma glx_conv_blur_dst_restores (ps : Blur.session_t) (dx dy w h : Z)
    (pbc pbc' : option Blur.glx_blur_cache_t) (gl gl' : GL.state) (ret : bool) :
  Blur.glx_conv_blur_dst MAX_BLUR_PASS drv ps dx dy w h pbc gl
  = Returned (ret, pbc', gl') ->
  tests_restored (GL.glIsEnabled GL.GL_SCISSOR_TEST gl)
    (GL.glIsEnabled GL.GL_STENCIL_TEST gl) gl'.
Proof.
  intros E. unfold Blur.glx_conv_blur_dst in E.
  pose proof (within_entry gl) as H.
  set (hs := GL.glIsEnabled GL.GL_SCISSOR_TEST gl) in *.
  set (hst := GL.glIsEnabled GL.GL_STENCIL_TEST gl) in *.
  pose proof (tex_tgt_is_tex_tgt (Blur.has_texture_non_power_of_two ps)) as Htgt.
  set (tgt := if Blur.has_texture_non_power_of_two ps
              then GL.GL_TEXTURE_2D else GL.GL_TEXTURE_RECTANGLE) in *.
  clearbody hs hst tgt.
  bind_inv E as pass1 Epass1.
  match type of E with
  | context [if ?c then Blur.free_glx_bc_resize ?p ?g else _] =>
      destruct (if c then Blur.free_glx_bc_resize p g else (p, g))
        as [pbc1 gl1] eqn:H1;
      apply (within_resize_if hs hst) in H1; [| exact H]
  end.
  bind_inv E as [pbc2 gl2] H2.
  apply (within_ensure_texture hs hst drv) in H2; [| exact Htgt | exact H1].
  bind_inv E as tex_scr Etex.
  bind_inv E as [pbc3 gl3] H3.
  assert (H3' : tests_within hs hst gl3).
  { destruct (negb (Shader.prog pass1 =? 0)).
    - eapply within_ensure_texture; [exact Htgt | exact H2 | exact H3].
    - injection H3 as _ <-. exact H2. }
  bind_inv E as tex_scr2 Etex2.
  match type of E with
  | context [if ?c then (Blur.set_fbo ?p ?f, ?g') else _] =>
      destruct (if c then (Blur.set_fbo p f, g') else (p, gl3))
        as [pbc4 gl4] eqn:E6;
      apply (within_gen_fbo_if hs hst) in E6; [| exact H3']
  end.
  destruct ((tex_scr =? 0) || _).
  { injection E as E.
    pose proof (restored_blur_dst_end hs hst tgt
                  (bool_decide (pbc = None)) false pbc4 gl4 E6) as R.
    rewrite E in R. exact R. }
  destruct (_ && (Blur.fbo pbc4 =? 0)).
  { injection E as E.
    pose proof (restored_blur_dst_end hs hst tgt
                  (bool_decide (pbc = None)) false pbc4 gl4 E6) as R.
    rewrite E in R. exact R. }
  destruct (Blur.blur_passes ps) as [| pass0 rest]; [discriminate |].
  bind_inv E as [r gl5] E7.
  apply (within_conv_loop hs hst MAX_BLUR_PASS drv) in E7.
  - injection E as E.
    pose proof (restored_blur_dst_end hs hst tgt
                  (bool_decide (pbc = None)) r pbc4 gl5 E7) as R.
    rewrite E in R. exact R.
  - destruct (negb (Shader.prog pass1 =? 0)).
    + repeat apply within_glDisable. apply within_copy_region.
      apply within_issue. apply within_glEnable_tex; assumption.
    + apply within_copy_region.
      apply within_issue. apply within_glEnable_tex; assumption.
Qed.

Lemma within_kawase_gen_textures (hs hst : bool) (tgt : GL.GLenum)
    (w h : Z) (n : nat) :
  forall (i : Z) (pbc pbc' : Blur.glx_blur_cache_t) (gl gl' : GL.state),
    is_tex_tgt tgt ->
    tests_within hs hst gl ->
    Blur.kawase_gen_textures drv tgt w h n i pbc gl = Returned (pbc', gl') ->
    tests_within hs hst gl'.
Proof.
  induction n as [| n IH]; intros i pbc pbc' gl gl' Htgt H E;
    cbn [Blur.kawase_gen_textures] in E.
  - injection E as _ <-. exact H.
  - bind_inv E as t Et. bind_inv E as [pbc1 gl1] E1.
    apply IH in E; [exact E | exact Htgt |].
    destruct (t =? 0).
    + bind_inv E1 as p Ep.
      pose proof (within_glx_gen_texture hs hst drv tgt (Z.quot w p)
                    (Z.quot h p) gl Htgt H) as Hg.
      destruct (Blur.glx_gen_texture drv tgt (Z.quot w p) (Z.quot h p) gl)
        as [tex g].
      bind_inv E1 as pbc2 E2. injection E1 as _ <-. exact Hg.
    + injection E1 as _ <-. exact H.
Qed.

Lemma within_kawase_down (hs hst : bool) (ps : Blur.session_t)
    (dx dy w h : Z) (tgt : GL.GLenum) (pbc : Blur.glx_blur_cache_t) (n : nat) :
  forall (i : Z) (gl gl' : GL.state) (ok : bool),
    tests_within hs hst gl ->
    Blur.kawase_down drv ps dx dy w h tgt pbc n i gl = Returned (ok, gl') ->
    tests_within hs hst gl'.
Proof.
  induction n as [| n IH]; intros i gl gl' ok H E; cbn [Blur.kawase_down] in E.
  - injection E as _ <-. exact H.
  - bind_inv E as down_pass E1. bind_inv E as u1 E2.
    bind_inv E as p E3. bind_inv E as tex_src2 E4.
    bind_inv E as tex_dest E5. bind_inv E as u2 E6.
    bind_inv E as u3 E7.
    pose proof (within_attach_fbo hs hst drv (Blur.fbo pbc) tex_dest
                  (GL.issue (GL.BindTexture tgt tex_src2) gl)
                  (within_issue hs hst _ gl H)) as Ha.
    destruct (Blur.attach_fbo drv (Blur.fbo pbc) tex_dest
                (GL.issue (GL.BindTexture tgt tex_src2) gl)) as [g | g].
    + injection E as _ <-. exact Ha.
    + apply IH in E; [exact E |]. apply within_kawase_draw. exact Ha.
Qed.

(** The last upsample pass ([i = 1]) computes [1 << (i-2)] before it
    overwrites the result, and that shift is undefined in C. [kawase_up]
    leaves the shift out, so the properties of [glx_kawase_blur_dst] below
    also cover the runs in which the shift is evaluated to some value;
    under the strict reading these runs have no defined behaviour and the
    properties, which speak of the runs that return, hold of what is
    left. *)
Lemma kawase_up_dead_shift : CInt.int_shl1 (1 - 2) = Undefined.
Proof. reflexivity. Qed.

Lemma within_kawase_up (hs hst : bool) (ps : Blur.session_t)
    (dx dy w h : Z) (tgt : GL.GLenum) (pbc : Blur.glx_blur_cache_t) (n : nat) :
  forall (gl gl' : GL.state) (ok : bool),
    tests_within hs hst gl ->
    Blur.kawase_up drv ps dx dy w h tgt hs hst pbc n gl = Returned (ok, gl') ->
    tests_within hs hst gl'.
Proof.
  induction n as [| n IH]; intros gl gl' ok H E; cbn [Blur.kawase_up] in E.
  - injection E as _ <-. exact H.
  - do 7 invert_bind E.
    match type of E with
    | match ?a with _ => _ end = _ =>
        assert (Ha : match a with inl g | inr g => tests_within hs hst g end);
        [| destruct a as [g | g]]
    end.
    + destruct (negb (Z.of_nat (S n) =? 1)).
      * apply within_attach_fbo. apply within_issue. exact H.
      * apply within_reenable. repeat apply within_issue. exact H.
    + injection E as _ <-. exact Ha.
    + apply IH in E; [exact E |]. apply within_kawase_draw. exact Ha.
Qed.

(** Whenever [glx_kawase_blur_dst] returns, the scissor and stencil tests
    are as on entry. *)
Lemma glx_kawase_blur_dst_restores (ps : Blur.session_t) (dx dy w h : Z)
    (pbc pbc' : option Blur.glx_blur_cache_t) (gl gl' : GL.state) (ret : bool) :
  Blur.glx_kawase_blur_dst MAX_BLUR_PASS drv ps dx dy w h pbc gl
  = Returned (ret, pbc', gl') ->
  tests_restored (GL.glIsEnabled GL.GL_SCISSOR_TEST gl)
    (GL.glIsEnabled GL.GL_STENCIL_TEST gl) gl'.
Proof.
  intros E. unfold Blur.glx_kawase_blur_dst in E.
  pose proof (within_entry gl) as H.
  set (hs := GL.glIsEnabled GL.GL_SCISSOR_TEST gl) in *.
  set (hst := GL.glIsEnabled GL.GL_STENCIL_TEST gl) in *.
  pose proof (tex_tgt_is_tex_tgt (Blur.has_texture_non_power_of_two ps)) as Htgt.
  set (tgt := if Blur.has_texture_non_power_of_two ps
              then GL.GL_TEXTURE_2D else GL.GL_TEXTURE_RECTANGLE) in *.
  clearbody hs hst tgt.
  assert (Hend : forall r p g,
             tests_within hs hst g ->
             Returned (Blur.blur_dst_end tgt hs hst (bool_decide (pbc = None)) r p g)
             = Returned (ret, pbc', gl') ->
             tests_restored hs hst gl').
  { intros r p g Hg Eg. injection Eg as Eg.
    pose proof (restored_blur_dst_end hs hst tgt
                  (bool_decide (pbc = None)) r p g Hg) as R.
    rewrite Eg in R. exact R. }
  match type of E with
  | context [if ?c then Blur.free_glx_bc_resize ?p ?g else _] =>
      destruct (if c then Blur.free_glx_bc_resize p g else (p, g))
        as [pbc1 gl1] eqn:E1;
      apply (within_resize_if hs hst) in E1; [| exact H]
  end.
  bind_inv E as [pbc2 gl2] H2.
  apply (within_ensure_texture hs hst drv) in H2; [| exact Htgt | exact E1].
  bind_inv E as tex_scr Etex.
  bind_inv E as iters Eiters.
  bind_inv E as u Eassert.
  bind_inv E as [pbc3 gl3] H3.
  apply (within_kawase_gen_textures hs hst) in H3; [| exact Htgt | exact H2].
  match type of E with
  | context [if ?c then (Blur.set_fbo ?p ?f, ?g') else _] =>
      destruct (if c then (Blur.set_fbo p f, g') else (p, gl3))
        as [pbc4 gl4] eqn:E6;
      apply (within_gen_fbo_if hs hst) in E6; [| exact H3]
  end.
  destruct (tex_scr =? 0); [exact (Hend _ _ _ E6 E) |].
  bind_inv E as ok0 Eok0.
  destruct (negb ok0); [exact (Hend _ _ _ E6 E) |].
  destruct (Blur.fbo pbc4 =? 0); [exact (Hend _ _ _ E6 E) |].
  bind_inv E as [ok gl5] E8.
  apply (within_kawase_down hs hst) in E8.
  2: { repeat apply within_glDisable. apply within_copy_region.
       apply within_issue. apply within_glEnable_tex; assumption. }
  destruct (negb ok); [exact (Hend _ _ _ E8 E) |].
  bind_inv E as [ok' gl6] E9.
  apply (within_kawase_up hs hst) in E9; [| exact E8].
  destruct (negb ok'); [exact (Hend _ _ _ E9 E) |].
  apply (Hend _ _ _ (within_issue hs hst _ _ E9) E).
Qed.

End BlurFacts.

(** C8: whenever [glx_conv_blur_dst] or [glx_kawase_blur_dst] returns, be
    it with success or with failure (texture or framebuffer allocation,
    framebuffer attachment), the scissor test and the stencil test are
    enabled exactly when they were on entry. *)
Theorem blur_dst_restores_clip_tests
    (MAX_BLUR_PASS : Z) (drv : GL.driver) (ps : Blur.session_t)
    (dx dy width height : Z) (pbc pbc' : option Blur.glx_blur_cache_t)
    (gl gl' : GL.state) (ret : bool) :
  Blur.glx_conv_blur_dst MAX_BLUR_PASS drv ps dx dy width height pbc gl
  = Returned (ret, pbc', gl')
  \/ Blur.glx_kawase_blur_dst MAX_BLUR_PASS drv ps dx dy width height pbc gl
     = Returned (ret, pbc', gl') ->
  GL.glIsEnabled GL.GL_SCISSOR_TEST gl' = GL.glIsEnabled GL.GL_SCISSOR_TEST gl
  /\ GL.glIsEnabled GL.GL_STENCIL_TEST gl' = GL.glIsEnabled GL.GL_STENCIL_TEST gl.
Proof.
  intros [E | E].
  - exact (glx_conv_blur_dst_restores MAX_BLUR_PASS drv ps dx dy width height
             pbc pbc' gl gl' ret E).
  - exact (glx_kawase_blur_dst_restores MAX_BLUR_PASS drv ps dx dy width height
             pbc pbc' gl gl' ret E).
Qed.

(** C8 on [blur_session] with the scissor test on: both operations
    return success on a working driver and failure on one whose
    framebuffers are never complete, and the scissor test is on again
    after each of the four calls. *)
Lemma blur_dst_restores_clip_tests_witness :
  (exists gl',
      Blur.glx_conv_blur_dst 5 good_driver blur_session 10 10 100 20 None gl_scissor
      = Returned (true, None, gl')
      /\ GL.glIsEnabled GL.GL_SCISSOR_TEST gl' = true)
  /\ (exists gl',
         Blur.glx_conv_blur_dst 5 incomplete_fbo_driver blur_session
           10 10 100 20 None gl_scissor
         = Returned (false, None, gl')
         /\ GL.glIsEnabled GL.GL_SCISSOR_TEST gl' = true)
  /\ (exists gl',
         Blur.glx_kawase_blur_dst 5 good_driver blur_session 10 10 100 20 None gl_scissor
         = Returned (true, None, gl')
         /\ GL.glIsEnabled GL.GL_SCISSOR_TEST gl' = true)
  /\ (exists gl',
         Blur.glx_kawase_blur_dst 5 incomplete_fbo_driver blur_session
           10 10 100 20 None gl_scissor
         = Returned (false, None, gl')
         /\ GL.glIsEnabled GL.GL_SCISSOR_TEST gl' = true).
Proof.
  repeat split.
  - eexists. split; [vm_compute; reflexivity |].
    refine (proj1 (blur_dst_restores_clip_tests 5 good_driver blur_session
                     10 10 100 20 None None gl_scissor _ true (or_introl _))).
    vm_compute. reflexivity.
  - eexists. split; [vm_compute; reflexivity |].
    refine (proj1 (blur_dst_restores_clip_tests 5 incomplete_fbo_driver blur_session
                     10 10 100 20 None None gl_scissor _ false (or_introl _))).
    vm_compute. reflexivity.
  - eexists. split; [vm_compute; reflexivity |].
    refine (proj1 (blur_dst_restores_clip_tests 5 good_driver blur_session
                     10 10 100 20 None None gl_scissor _ true (or_intror _))).
    vm_compute. reflexivity.
  - eexists. split; [vm_compute; reflexivity |].
    refine (proj1 (blur_dst_restores_clip_tests 5 incomplete_fbo_driver blur_session
                     10 10 100 20 None None gl_scissor _ false (or_intror _))).
    vm_compute. reflexivity.
Defined.
(** * Further properties of [opengl.c] *)

(** ** The damage history *)

Section DamageHistory.

Import Damage.

Variable CGLX_MAX_BUFFER_AGE : Z.
Variable SWAPM_BUFFER_AGE : Z.

Lemma push_damage_take (hist : list region_t) (d : region_t) :
  length hist = Z.to_nat CGLX_MAX_BUFFER_AGE ->
  push_damage CGLX_MAX_BUFFER_AGE hist d
  = take (Z.to_nat CGLX_MAX_BUFFER_AGE) (d :: hist).
Proof.
  intros Hlen. unfold push_damage. destruct hist as [| h hist].
  - simpl in Hlen. rewrite <- Hlen. reflexivity.
  - simpl in Hlen.
    replace (Z.to_nat CGLX_MAX_BUFFER_AGE)
      with (S (Z.to_nat (CGLX_MAX_BUFFER_AGE - 1))) by lia.
    reflexivity.
Qed.

Lemma take_app_take {A : Type} (n : nat) (a b : list A) :
  take n (a ++ take n b) = take n (a ++ b).
Proof.
  rewrite !take_app. f_equal. rewrite take_take. f_equal. lia.
Qed.

Lemma glx_paint_pre_session (ps ps' : session_t) (preg r : region_t) (val : Z) :
  glx_paint_pre CGLX_MAX_BUFFER_AGE SWAPM_BUFFER_AGE ps preg val
  = Returned (ps', r) ->
  glx_swap_method ps' = glx_swap_method ps
  /\ screen_reg ps' = screen_reg ps
  /\ all_damage_last ps'
     = if (glx_swap_method ps <? 0) || (1 <? glx_swap_method ps)
       then push_damage CGLX_MAX_BUFFER_AGE (all_damage_last ps) preg
       else all_damage_last ps.
Proof.
  unfold glx_paint_pre. intros H.
  bind_inv H as u Hu. bind_inv H as preg' Hp.
  injection H as <- _. simpl.
  destruct ((glx_swap_method ps <? 0) || (1 <? glx_swap_method ps)); auto.
Qed.

End DamageHistory.

(** X1: whenever [glx_paint_pre] returns, the damage history keeps its
    [CGLX_MAX_BUFFER_AGE] entries; with damage tracing on (a swap method
    below 0 or above 1) the region as it was passed in, before the history
    was added to it, becomes the first entry and the others move down by
    one, the oldest being dropped; with a swap method of 0 or 1 the
    history is not touched. *)
Theorem glx_paint_pre_history
    (CGLX_MAX_BUFFER_AGE SWAPM_BUFFER_AGE : Z)
    (ps ps' : Damage.session_t) (preg r : Damage.region_t) (val : Z) :
  length (Damage.all_damage_last ps) = Z.to_nat CGLX_MAX_BUFFER_AGE ->
  Damage.glx_paint_pre CGLX_MAX_BUFFER_AGE SWAPM_BUFFER_AGE ps preg val
  = Returned (ps', r) ->
  length (Damage.all_damage_last ps') = Z.to_nat CGLX_MAX_BUFFER_AGE
  /\ (Damage.glx_swap_method ps < 0 \/ 1 < Damage.glx_swap_method ps ->
      Damage.all_damage_last ps'
      = take (Z.to_nat CGLX_MAX_BUFFER_AGE) (preg :: Damage.all_damage_last ps))
  /\ (0 <= Damage.glx_swap_method ps <= 1 ->
      Damage.all_damage_last ps' = Damage.all_damage_last ps).
Proof.
  intros Hlen H.
  destruct (glx_paint_pre_session _ _ _ _ _ _ _ H) as (_ & _ & Hh).
  destruct (Z.ltb_spec (Damage.glx_swap_method ps) 0) as [Hneg | Hnn];
    [| destruct (Z.ltb_spec 1 (Damage.glx_swap_method ps)) as [Hbig | Hsmall]];
    cbn [orb] in Hh.
  1, 2: rewrite push_damage_take in Hh by exact Hlen.
  1, 2: split; [rewrite Hh, length_take; simpl; lia |];
        split; [intros _; exact Hh | lia].
  split; [rewrite Hh; exact Hlen |]. split; [lia | intros _; exact Hh].
Qed.

(** X1 on the example session (swap method -1, five entries): after a
    frame whose damage is the pixel (9, 0) and whose reported age is 3,
    that pixel alone is the first entry, and the entry (5, 0) is gone. *)
Lemma glx_paint_pre_history_witness :
  exists ps' r,
    Damage.glx_paint_pre 5 (-1) damage_example {[ (9, 0) ]} 3 = Returned (ps', r)
    /\ Damage.all_damage_last ps'
       = [ {[ (9, 0) ]}; {[ (1, 0) ]}; {[ (2, 0) ]}; {[ (3, 0) ]}; {[ (4, 0) ]} ].
Proof.
  destruct (Damage.glx_paint_pre 5 (-1) damage_example {[ (9, 0) ]} 3)
    as [[ps' r] | |] eqn:E; try (vm_compute in E; discriminate E).
  exists ps', r. split; [reflexivity |].
  refine (proj1 (proj2 (glx_paint_pre_history 5 (-1) damage_example ps'
                          {[ (9, 0) ]} r 3 eq_refl E)) _).
  left. simpl. lia.
Defined.

(** X2: over a run of frames with damage tracing on, the history after
    the run holds the regions passed in, most recent first, followed by
    the entries it held before, cut to [CGLX_MAX_BUFFER_AGE] entries;
    after [CGLX_MAX_BUFFER_AGE] frames or more nothing older than the run
    is left. *)
Theorem paint_frames_history
    (CGLX_MAX_BUFFER_AGE SWAPM_BUFFER_AGE : Z)
    (frames : list (Damage.region_t * Z)) :
  forall ps ps' : Damage.session_t,
    length (Damage.all_damage_last ps) = Z.to_nat CGLX_MAX_BUFFER_AGE ->
    Damage.glx_swap_method ps < 0 \/ 1 < Damage.glx_swap_method ps ->
    paint_frames CGLX_MAX_BUFFER_AGE SWAPM_BUFFER_AGE ps frames = Returned ps' ->
    Damage.all_damage_last ps'
    = take (Z.to_nat CGLX_MAX_BUFFER_AGE)
        (rev (map fst frames) ++ Damage.all_damage_last ps)
    /\ (Z.to_nat CGLX_MAX_BUFFER_AGE <= length frames ->
        Damage.all_damage_last ps'
        = take (Z.to_nat CGLX_MAX_BUFFER_AGE) (rev (map fst frames)))%nat.
Proof.
  assert (Hmain : forall ps ps' : Damage.session_t,
    length (Damage.all_damage_last ps) = Z.to_nat CGLX_MAX_BUFFER_AGE ->
    Damage.glx_swap_method ps < 0 \/ 1 < Damage.glx_swap_method ps ->
    paint_frames CGLX_MAX_BUFFER_AGE SWAPM_BUFFER_AGE ps frames = Returned ps' ->
    Damage.all_damage_last ps'
    = take (Z.to_nat CGLX_MAX_BUFFER_AGE)
        (rev (map fst frames) ++ Damage.all_damage_last ps)).
  { induction frames as [| [preg val] rest IH]; intros ps ps' Hlen Htrace H;
      simpl in H.
    - injection H as <-. simpl. rewrite <- Hlen. symmetry. apply firstn_all.
    - bind_inv H as [ps1 r1] E1.
      destruct (glx_paint_pre_session _ _ _ _ _ _ _ E1) as (Hswap & _ & _).
      destruct (glx_paint_pre_history _ _ _ _ _ _ _ Hlen E1) as (Hlen1 & Hh & _).
      specialize (Hh Htrace).
      rewrite (IH ps1 ps' Hlen1 ltac:(rewrite Hswap; exact Htrace) H).
      rewrite Hh, take_app_take. simpl. rewrite <- app_assoc. reflexivity. }
  intros ps ps' Hlen Htrace H. split; [exact (Hmain ps ps' Hlen Htrace H) |].
  intros Hn. rewrite (Hmain ps ps' Hlen Htrace H).
  rewrite take_app_le; [reflexivity |].
  rewrite length_rev, length_map. exact Hn.
Qed.

(** X2 on the example session: two frames, the pixel (8, 0) and then the
    pixel (9, 0). *)
Lemma paint_frames_history_witness :
  exists ps',
    paint_frames 5 (-1) damage_example [({[ (8, 0) ]}, 1); ({[ (9, 0) ]}, 2)]
    = Returned ps'
    /\ Damage.all_damage_last ps'
       = [ {[ (9, 0) ]}; {[ (8, 0) ]}; {[ (1, 0) ]}; {[ (2, 0) ]}; {[ (3, 0) ]} ].
Proof.
  destruct (paint_frames 5 (-1) damage_example
              [({[ (8, 0) ]}, 1); ({[ (9, 0) ]}, 2)]) as [ps' | |] eqn:E;
    try (vm_compute in E; discriminate E).
  exists ps'. split; [reflexivity |].
  refine (proj1 (paint_frames_history 5 (-1) _ damage_example ps' eq_refl _ E)).
  left. simpl. lia.
Defined.

(** X3: the reported buffer age is only looked at under
    [SWAPM_BUFFER_AGE]: with any other swap method the region to repaint
    is the whole screen, whatever the input region and the age. *)
Theorem paint_region_other_swap_method
    (CGLX_MAX_BUFFER_AGE SWAPM_BUFFER_AGE : Z)
    (ps : Damage.session_t) (preg : Damage.region_t) (val : Z) :
  Damage.glx_swap_method ps <> SWAPM_BUFFER_AGE ->
  Damage.paint_region CGLX_MAX_BUFFER_AGE SWAPM_BUFFER_AGE ps preg val
  = Returned (Damage.screen_reg ps).
Proof.
  intros Hne. unfold Damage.paint_region, Damage.glx_paint_pre.
  destruct (Z.eqb_spec (Damage.glx_swap_method ps) SWAPM_BUFFER_AGE);
    [contradiction |].
  destruct (CGLX_MAX_BUFFER_AGE + 1 <? 0); reflexivity.
Qed.

(** X3 on the example session read with [SWAPM_BUFFER_AGE = 3]. *)
Lemma paint_region_other_swap_method_witness :
  Damage.paint_region 5 3 damage_example {[ (9, 0) ]} 2
  = Returned (Damage.screen_reg damage_example).
Proof.
  apply (paint_region_other_swap_method 5 3 damage_example {[ (9, 0) ]} 2).
  simpl. lia.
Defined.

(** X4: a reported age of 2^31 or more becomes a negative [int]; it is
    not above [CGLX_MAX_BUFFER_AGE + 1], so the reset to 0 does not catch
    it and [assert(buffer_age >= 0)] stops the process. *)
Theorem glx_paint_pre_negative_age
    (CGLX_MAX_BUFFER_AGE SWAPM_BUFFER_AGE : Z)
    (ps : Damage.session_t) (preg : Damage.region_t) (val : Z) :
  Damage.glx_swap_method ps = SWAPM_BUFFER_AGE ->
  -2 <= CGLX_MAX_BUFFER_AGE ->
  2 ^ 31 <= val < 2 ^ 32 ->
  Damage.glx_paint_pre CGLX_MAX_BUFFER_AGE SWAPM_BUFFER_AGE ps preg val
  = Aborted.
Proof.
  intros Hswap Hmax Hval. unfold Damage.glx_paint_pre.
  rewrite Hswap, Z.eqb_refl. unfold CInt.int_of_unsigned, CInt.INT_MAX.
  destruct (Z.leb_spec val (2 ^ 31 - 1)); [lia |].
  destruct (Z.ltb_spec (CGLX_MAX_BUFFER_AGE + 1) (val - 2 ^ 32)); [lia |].
  destruct (Z.leb_spec 0 (val - 2 ^ 32)); [lia |].
  reflexivity.
Qed.

(** X4 on the example session, at the age 2^32 - 1. *)
Lemma glx_paint_pre_negative_age_witness :
  Damage.glx_paint_pre 5 (-1) damage_example ∅ 4294967295 = Aborted.
Proof.
  apply (glx_paint_pre_negative_age 5 (-1) damage_example ∅ 4294967295);
    [reflexivity | lia | lia].
Defined.

(** ** The per-depth table: what the negotiation keeps *)

Section TableShape.

Import FBConfig.

Variable OPENGL_MAX_DEPTH : Z.
Variable d : Display.

Lemma table_grows_refl (tbl : list (option glx_fbconfig_t)) :
  table_grows tbl tbl.
Proof. split; [reflexivity | eauto]. Qed.

Lemma table_grows_trans (t1 t2 t3 : list (option glx_fbconfig_t)) :
  table_grows t1 t2 -> table_grows t2 t3 -> table_grows t1 t3.
Proof.
  intros [L1 F1] [L2 F2]. split; [congruence |].
  intros s e He. destruct (F1 s e He) as [e2 He2]. eauto.
Qed.

Lemma glx_update_fbconfig_bydepth_grows (tbl tbl' : list (option glx_fbconfig_t))
    (depth : Z) (e : glx_fbconfig_t) :
  glx_update_fbconfig_bydepth OPENGL_MAX_DEPTH d tbl depth e = Returned tbl' ->
  table_grows tbl tbl'.
Proof.
  unfold glx_update_fbconfig_bydepth. intros H.
  destruct ((depth <? 0) || (OPENGL_MAX_DEPTH <? depth)).
  { injection H as <-. apply table_grows_refl. }
  bind_inv H as cur Hcur. bind_inv H as r Hr.
  destruct (r <? 0); injection H as <-; [| apply table_grows_refl].
  split; [apply length_insert |].
  intros s e0 He0.
  destruct (Nat.eq_dec (Z.to_nat depth) s) as [<- | Hne].
  - exists e. apply list_lookup_insert_eq. eapply lookup_lt_Some. exact He0.
  - exists e0. rewrite list_lookup_insert_ne by exact Hne. exact He0.
Qed.

Lemma glx_update_fbconfig_step_grows (tbl tbl' : list (option glx_fbconfig_t))
    (pcur : GLXFBConfig) :
  glx_update_fbconfig_step OPENGL_MAX_DEPTH d tbl pcur = Returned tbl' ->
  table_grows tbl tbl'.
Proof.
  unfold glx_update_fbconfig_step. intros H.
  destruct (match glXGetFBConfigAttrib d pcur GLX_SAMPLES with
            | Some val => 1 <? val
            | None => false
            end).
  { injection H as <-. apply table_grows_refl. }
  destruct (glXGetFBConfigAttrib d pcur GLX_BUFFER_SIZE) as [bs |];
    [| injection H as <-; apply table_grows_refl].
  destruct (glXGetFBConfigAttrib d pcur GLX_ALPHA_SIZE) as [al |];
    [| injection H as <-; apply table_grows_refl].
  destruct (glXGetFBConfigAttrib d pcur GLX_BIND_TO_TEXTURE_TARGETS_EXT)
    as [tgts |]; [| injection H as <-; apply table_grows_refl].
  destruct (glXGetVisualFromFBConfig d pcur) as [vd |];
    [| injection H as <-; apply table_grows_refl].
  bind_inv H as tgtdpt Ht. bind_inv H as tbl1 H1.
  apply (table_grows_trans tbl tbl1 tbl').
  - match type of H1 with (if ?c then _ else _) = _ => destruct c end.
    + eapply glx_update_fbconfig_bydepth_grows. exact H1.
    + injection H1 as <-. apply table_grows_refl.
  - match type of H with (if ?c then _ else _) = _ => destruct c end.
    + eapply glx_update_fbconfig_bydepth_grows. exact H.
    + injection H as <-. apply table_grows_refl.
Qed.

Lemma glx_update_fbconfig_loop_grows (pfbcfgs : list GLXFBConfig) :
  forall tbl tbl',
    glx_update_fbconfig_loop OPENGL_MAX_DEPTH d tbl pfbcfgs = Returned tbl' ->
    table_grows tbl tbl'.
Proof.
  induction pfbcfgs as [| pcur rest IH]; intros tbl tbl' H; simpl in H.
  - injection H as <-. apply table_grows_refl.
  - bind_inv H as tbl1 H1.
    apply (table_grows_trans tbl tbl1 tbl').
    + eapply glx_update_fbconfig_step_grows. exact H1.
    + apply IH. exact H.
Qed.

End TableShape.

(** X5: whenever [glx_update_fbconfig] returns, the display and the
    default depth of the session are unchanged, the table has as many
    slots as before and no slot that held an entry is empty; the call
    returns success exactly when the slot of the default depth holds an
    entry. *)
Theorem glx_update_fbconfig_result
    (OPENGL_MAX_DEPTH : Z) (ps ps' : FBConfig.session_t) (ret : bool) :
  FBConfig.glx_update_fbconfig OPENGL_MAX_DEPTH ps = Returned (ret, ps') ->
  FBConfig.dpy ps' = FBConfig.dpy ps
  /\ FBConfig.depth ps' = FBConfig.depth ps
  /\ length (FBConfig.fbconfigs ps') = length (FBConfig.fbconfigs ps)
  /\ (forall s e, FBConfig.fbconfigs ps !! s = Some (Some e) ->
                  exists e2, FBConfig.fbconfigs ps' !! s = Some (Some e2))
  /\ (ret = true
      <-> exists e, FBConfig.fbconfigs ps' !! Z.to_nat (FBConfig.depth ps)
                    = Some (Some e)).
Proof.
  unfold FBConfig.glx_update_fbconfig. intros H.
  bind_inv H as tbl Hloop.
  apply glx_update_fbconfig_loop_grows in Hloop. destruct Hloop as [Hlen Hfill].
  bind_inv H as dflt Hd. apply c_index_Returned in Hd. destruct Hd as [_ Hd].
  destruct dflt as [e |].
  - bind_inv H as e32 H32. injection H as <- <-. simpl.
    repeat split; try assumption; eauto.
  - injection H as <- <-. simpl.
    repeat split; try assumption; try discriminate.
    intros [e He]. rewrite Hd in He. discriminate He.
Qed.

(** X5 on the example display: the negotiation from the empty 33-slot
    table returns success and slot 24 holds an entry. *)
Lemma glx_update_fbconfig_result_witness :
  length (FBConfig.fbconfigs example_negotiated) = 33%nat
  /\ exists e, FBConfig.fbconfigs example_negotiated !! 24%nat = Some (Some e).
Proof.
  destruct (glx_update_fbconfig_result 32 example_session example_negotiated
              true eq_refl) as (_ & _ & Hlen & _ & Hret).
  split; [exact Hlen |]. apply Hret. reflexivity.
Defined.

Section TableBest.

Import FBConfig.

Variable OPENGL_MAX_DEPTH : Z.
Variable d : Display.

Hypothesis Hvalid :
  forall e, In (cfg e) (glXGetFBConfigs d) -> valid_candidate d e.

Lemma dominates_refl (e : glx_fbconfig_t) : dominates d e e.
Proof.
  intros H. split; [exact H |]. unfold cmp_values.
  rewrite H, Z.eqb_refl. cbn [negb]. rewrite lex_diff_refl. lia.
Qed.

Lemma dominates_cfg (e x x' : glx_fbconfig_t) :
  cfg x = cfg x' -> dominates d e x -> dominates d e x'.
Proof.
  unfold dominates, cmp_values, keys, attr_value. intros Hc. rewrite Hc. auto.
Qed.

(** A newcomer that replaces an entry stands against all the entry stood
    against. *)
Lemma replaced_improves (e n : glx_fbconfig_t) :
  cmp_values d e n < 0 -> improves d n e.
Proof.
  intros Hlt x Hd Hx. destruct (Hd Hx) as [He Hex].
  unfold cmp_values in Hlt, Hex |- *.
  rewrite He, Z.eqb_refl in Hlt, Hex. rewrite Hx, Z.eqb_refl in Hex |- *.
  cbn [negb] in Hlt, Hex |- *.
  destruct (Z.eqb_spec (attr_value d n GLX_RED_SIZE) 8) as [Hn | Hn];
    cbn [negb] in Hlt |- *; [| lia].
  split; [exact Hn |].
  pose proof (lex_diff_antisym (keys d n) (keys d x)) as A1.
  pose proof (lex_diff_antisym (keys d e) (keys d n)) as A2.
  pose proof (lex_diff_antisym (keys d e) (keys d x)) as A3.
  destruct (Z_lt_le_dec (lex_diff (keys d n) (keys d x)) 0) as [Hneg |]; [| lia].
  assert (0 < lex_diff (keys d x) (keys d e)); [| lia].
  apply (lex_diff_trans _ (keys d n)); [apply keys_length | lia | lia].
Qed.

(** An entry that a newcomer does not replace stands against it. *)
Lemma kept_dominates (e n : glx_fbconfig_t) :
  0 <= cmp_values d e n -> dominates d e n.
Proof.
  intros Hge Hx. split; [| exact Hge]. unfold cmp_values in Hge.
  destruct (Z.eqb_spec (attr_value d e GLX_RED_SIZE) 8) as [He | He];
    cbn [negb] in Hge; [exact He | lia].
Qed.

Lemma table_improves_refl (tbl : list (option glx_fbconfig_t)) :
  table_improves d tbl tbl.
Proof. intros s e He. exists e. split; [exact He |]. intros x Hx. exact Hx. Qed.

Lemma table_improves_trans (t1 t2 t3 : list (option glx_fbconfig_t)) :
  table_improves d t1 t2 -> table_improves d t2 t3 -> table_improves d t1 t3.
Proof.
  intros H1 H2 s e He. destruct (H1 s e He) as (e2 & He2 & I2).
  destruct (H2 s e2 He2) as (e3 & He3 & I3).
  exists e3. split; [exact He3 |]. intros x Hx. apply I3, I2, Hx.
Qed.

Lemma best_for_improves (tbl tbl' : list (option glx_fbconfig_t))
    (P : list GLXFBConfig) :
  table_improves d tbl tbl' ->
  best_for d OPENGL_MAX_DEPTH tbl P -> best_for d OPENGL_MAX_DEPTH tbl' P.
Proof.
  intros Hi Hb slot x Hin Hoff.
  destruct (Hb slot x Hin Hoff) as (e & He & Hd).
  destruct (Hi _ _ He) as (e2 & He2 & I2).
  exists e2. split; [exact He2 | apply I2, Hd].
Qed.

(** One call of [glx_update_fbconfig_bydepth] with a candidate of the
    display: entries are only replaced by better ones, and afterwards the
    slot, when it is one of the table, holds an entry that stands against
    the candidate. *)
Lemma glx_update_fbconfig_bydepth_best (tbl tbl' : list (option glx_fbconfig_t))
    (depth : Z) (n : glx_fbconfig_t) :
  entries_of d tbl ->
  In (cfg n) (glXGetFBConfigs d) ->
  glx_update_fbconfig_bydepth OPENGL_MAX_DEPTH d tbl depth n = Returned tbl' ->
  entries_of d tbl'
  /\ table_improves d tbl tbl'
  /\ (0 <= depth <= OPENGL_MAX_DEPTH ->
      exists e2, tbl' !! Z.to_nat depth = Some (Some e2) /\ dominates d e2 n).
Proof.
  intros Hent Hn H. unfold glx_update_fbconfig_bydepth in H.
  destruct (Z.ltb_spec depth 0) as [Hlo | Hlo]; cbn [orb] in H.
  { injection H as <-. split; [exact Hent |].
    split; [apply table_improves_refl | lia]. }
  destruct (Z.ltb_spec OPENGL_MAX_DEPTH depth) as [Hhi | Hhi].
  { injection H as <-. split; [exact Hent |].
    split; [apply table_improves_refl | lia]. }
  bind_inv H as cur Hcur. apply c_index_Returned in Hcur.
  destruct Hcur as [_ Hcur].
  bind_inv H as r Hr.
  assert (Hr' : match cur with
                | Some e => r = cmp_values d e n
                | None => r = -1
                end).
  { destruct cur as [e |].
    - rewrite glx_cmp_fbconfig_valid in Hr.
      + injection Hr as <-. reflexivity.
      + apply Hvalid. eapply Hent. exact Hcur.
      + apply Hvalid. exact Hn.
    - simpl in Hr. injection Hr as <-. reflexivity. }
  destruct (Z.ltb_spec r 0) as [Hneg | Hpos]; injection H as <-.
  - (* the candidate is stored *)
    split; [| split].
    + intros s e He. apply list_lookup_insert_Some in He.
      destruct He as [(_ & [= <-] & _) | (_ & He)]; [exact Hn | eauto].
    + intros s e He.
      destruct (Nat.eq_dec (Z.to_nat depth) s) as [<- | Hne].
      * exists n. split.
        -- apply list_lookup_insert_eq. eapply lookup_lt_Some. exact He.
        -- rewrite Hcur in He. injection He as ->.
           apply replaced_improves. lia.
      * exists e. rewrite list_lookup_insert_ne by exact Hne.
        split; [exact He |]. intros x Hx. exact Hx.
    + intros _. exists n. split; [| apply dominates_refl].
      apply list_lookup_insert_eq. eapply lookup_lt_Some. exact Hcur.
  - (* the retained entry stays *)
    split; [exact Hent |]. split; [apply table_improves_refl |].
    intros _. destruct cur as [e |]; [| lia].
    exists e. split; [exact Hcur |]. apply kept_dominates. lia.
Qed.

(** One candidate of the display: afterwards every slot it was offered to
    holds an entry that stands against it. *)
Lemma glx_update_fbconfig_step_best (tbl tbl' : list (option glx_fbconfig_t))
    (pcur : GLXFBConfig) :
  entries_of d tbl ->
  In pcur (glXGetFBConfigs d) ->
  glx_update_fbconfig_step OPENGL_MAX_DEPTH d tbl pcur = Returned tbl' ->
  entries_of d tbl'
  /\ table_improves d tbl tbl'
  /\ best_for d OPENGL_MAX_DEPTH tbl' [pcur].
Proof.
  intros Hent Hin H.
  assert (Hnone : tbl' = tbl ->
                  (forall slot, ~ offered d OPENGL_MAX_DEPTH slot pcur) ->
                  entries_of d tbl' /\ table_improves d tbl tbl'
                  /\ best_for d OPENGL_MAX_DEPTH tbl' [pcur]).
  { intros -> Hno. split; [exact Hent |].
    split; [apply table_improves_refl |].
    intros slot x [Hx | []] Hoff. rewrite <- Hx in Hoff.
    destruct (Hno slot Hoff). }
  unfold glx_update_fbconfig_step in H.
  destruct (match glXGetFBConfigAttrib d pcur GLX_SAMPLES with
            | Some val => 1 <? val
            | None => false
            end) eqn:Esm.
  { injection H as <-. apply Hnone; [reflexivity |].
    intros slot (_ & Hs & _).
    destruct (glXGetFBConfigAttrib d pcur GLX_SAMPLES) as [v |];
      [| discriminate Esm].
    apply Z.ltb_lt in Esm. specialize (Hs v eq_refl). lia. }
  clear Esm.
  destruct (glXGetFBConfigAttrib d pcur GLX_BUFFER_SIZE) as [bs |] eqn:Ebs.
  2: { injection H as <-. apply Hnone; [reflexivity |].
       intros slot (_ & _ & bs & al & vd & E & _). congruence. }
  destruct (glXGetFBConfigAttrib d pcur GLX_ALPHA_SIZE) as [al |] eqn:Eal.
  2: { injection H as <-. apply Hnone; [reflexivity |].
       intros slot (_ & _ & bs' & al & vd & _ & E & _). congruence. }
  destruct (glXGetFBConfigAttrib d pcur GLX_BIND_TO_TEXTURE_TARGETS_EXT)
    as [tgts |] eqn:Etg.
  2: { injection H as <-. apply Hnone; [reflexivity |].
       intros slot (_ & _ & bs' & al' & vd & _ & _ & [tg E] & _). congruence. }
  destruct (glXGetVisualFromFBConfig d pcur) as [vd |] eqn:Evd.
  2: { injection H as <-. apply Hnone; [reflexivity |].
       intros slot (_ & _ & bs' & al' & vd & _ & _ & _ & E & _). congruence. }
  bind_inv H as tgtdpt Ht. unfold CInt.int_sub in Ht.
  apply int_checked_Returned in Ht. subst tgtdpt.
  bind_inv H as tbl1 H1.
  match type of H1 with
  | (if ?c then glx_update_fbconfig_bydepth _ _ _ _ ?n else _) = _ =>
      set (cond1 := c) in *; set (n1 := n) in *
  end.
  match type of H with
  | (if ?c then glx_update_fbconfig_bydepth _ _ _ _ ?n else _) = _ =>
      set (cond2 := c) in *; set (n2 := n) in *
  end.
  assert (A1 : entries_of d tbl1 /\ table_improves d tbl tbl1
               /\ (cond1 = true -> 0 <= bs - al <= OPENGL_MAX_DEPTH ->
                   exists e2, tbl1 !! Z.to_nat (bs - al) = Some (Some e2)
                              /\ dominates d e2 n1)).
  { destruct cond1.
    - destruct (glx_update_fbconfig_bydepth_best _ _ _ n1 Hent Hin H1)
        as (E1 & I1 & D1). auto.
    - injection H1 as <-. split; [exact Hent |].
      split; [apply table_improves_refl | discriminate]. }
  destruct A1 as (E1 & I1 & D1).
  assert (A2 : entries_of d tbl' /\ table_improves d tbl1 tbl'
               /\ (cond2 = true -> 0 <= bs <= OPENGL_MAX_DEPTH ->
                   exists e2, tbl' !! Z.to_nat bs = Some (Some e2)
                              /\ dominates d e2 n2)).
  { destruct cond2.
    - destruct (glx_update_fbconfig_bydepth_best _ _ _ n2 E1 Hin H)
        as (E2 & I2 & D2). auto.
    - injection H as <-. split; [exact E1 |].
      split; [apply table_improves_refl | discriminate]. }
  destruct A2 as (E2 & I2 & D2).
  split; [exact E2 |].
  split; [exact (table_improves_trans _ _ _ I1 I2) |].
  intros slot x [Hx | []] Hoff. rewrite <- Hx in Hoff.
  destruct Hoff as (Hr & _ & bs' & al' & vd' & Ebs' & Eal' & _ & Evd' & Hcase).
  rewrite Ebs in Ebs'. injection Ebs' as <-.
  rewrite Eal in Eal'. injection Eal' as <-.
  rewrite Evd in Evd'. injection Evd' as <-.
  destruct Hcase as [(-> & Hv & Hlt & Hrgb) | (-> & Hv & Hge & Hal & Hrgba)].
  - (* offered as an RGB candidate *)
    assert (Hc1 : cond1 = true).
    { subst cond1. rewrite Hrgb.
      destruct (Z.eqb_spec (bs - al) vd); [| contradiction].
      destruct (Z.ltb_spec (bs - al) 32); [reflexivity | lia]. }
    destruct (D1 Hc1 Hr) as (e2 & He2 & Hd2).
    destruct (I2 _ _ He2) as (e3 & He3 & I3).
    exists e3. split; [exact He3 |].
    apply (dominates_cfg e3 n1 x Hx). apply I3. exact Hd2.
  - (* offered as an RGBA candidate *)
    assert (Hc2 : cond2 = true).
    { subst cond2. rewrite Hrgba.
      destruct (Z.eqb_spec bs vd); [| contradiction].
      destruct (Z.leb_spec 32 bs); [| lia].
      destruct (Z.eqb_spec al 0); [contradiction | reflexivity]. }
    destruct (D2 Hc2 Hr) as (e2 & He2 & Hd2).
    exists e2. split; [exact He2 |].
    apply (dominates_cfg e2 n2 x Hx). exact Hd2.
Qed.

(** The loop: afterwards every slot that a candidate of the list was
    offered to holds an entry that stands against it. *)
Lemma glx_update_fbconfig_loop_best (pfbcfgs : list GLXFBConfig) :
  forall tbl tbl',
    entries_of d tbl ->
    (forall c, In c pfbcfgs -> In c (glXGetFBConfigs d)) ->
    glx_update_fbconfig_loop OPENGL_MAX_DEPTH d tbl pfbcfgs = Returned tbl' ->
    entries_of d tbl'
    /\ table_improves d tbl tbl'
    /\ best_for d OPENGL_MAX_DEPTH tbl' pfbcfgs.
Proof.
  induction pfbcfgs as [| pcur rest IH]; intros tbl tbl' Hent Hsub H;
    simpl in H.
  - injection H as <-. split; [exact Hent |].
    split; [apply table_improves_refl |]. intros slot x [].
  - bind_inv H as tbl1 H1.
    destruct (glx_update_fbconfig_step_best _ _ _ Hent
                (Hsub pcur (or_introl eq_refl)) H1) as (E1 & I1 & B1).
    destruct (IH tbl1 tbl' E1 (fun c Hc => Hsub c (or_intror Hc)) H)
      as (E2 & I2 & B2).
    split; [exact E2 |].
    split; [exact (table_improves_trans _ _ _ I1 I2) |].
    intros slot x [Hx | Hx] Hoff.
    + apply (best_for_improves _ _ _ I2 B1 slot x); [left; exact Hx | exact Hoff].
    + apply (B2 slot x Hx Hoff).
Qed.

End TableBest.

(** X6: on a display whose FBConfigs are described as GLX describes them,
    and starting from an empty table, [glx_update_fbconfig] leaves an
    entry in every slot that one of the FBConfigs was offered to; and
    when the FBConfig offered has 8-bit red, the entry has 8-bit red too
    and the FBConfig would not replace it: nothing offered to the slot is
    ranked above what the slot retains. *)
Theorem glx_update_fbconfig_keeps_best
    (OPENGL_MAX_DEPTH : Z) (ps ps' : FBConfig.session_t) (ret : bool) :
  Forall (fun e => e = None) (FBConfig.fbconfigs ps) ->
  (forall e, In (FBConfig.cfg e) (FBConfig.glXGetFBConfigs (FBConfig.dpy ps)) ->
             valid_candidate (FBConfig.dpy ps) e) ->
  FBConfig.glx_update_fbconfig OPENGL_MAX_DEPTH ps = Returned (ret, ps') ->
  forall (slot : Z) (x : FBConfig.glx_fbconfig_t),
    In (FBConfig.cfg x) (FBConfig.glXGetFBConfigs (FBConfig.dpy ps)) ->
    offered (FBConfig.dpy ps) OPENGL_MAX_DEPTH slot (FBConfig.cfg x) ->
    exists e,
      FBConfig.fbconfigs ps' !! Z.to_nat slot = Some (Some e)
      /\ In (FBConfig.cfg e) (FBConfig.glXGetFBConfigs (FBConfig.dpy ps))
      /\ (red_size (FBConfig.dpy ps) x = Some 8 ->
          red_size (FBConfig.dpy ps) e = Some 8
          /\ ~ overrides (FBConfig.dpy ps) x e).
Proof.
  intros Hempty Hvalid H slot x Hin Hoff.
  unfold FBConfig.glx_update_fbconfig in H.
  bind_inv H as tbl Hloop.
  assert (Hent : entries_of (FBConfig.dpy ps) (FBConfig.fbconfigs ps)).
  { intros s e He. rewrite Forall_forall in Hempty.
    assert (Some e = None); [| discriminate].
    apply Hempty. eapply list_elem_of_lookup_2. exact He. }
  destruct (glx_update_fbconfig_loop_best OPENGL_MAX_DEPTH (FBConfig.dpy ps)
              Hvalid _ _ _ Hent (fun c Hc => Hc) Hloop) as (E & _ & B).
  assert (Hps : FBConfig.fbconfigs ps' = tbl).
  { bind_inv H as dflt Hd. destruct dflt as [e0 |].
    - bind_inv H as e32 H32. injection H as _ <-. reflexivity.
    - injection H as _ <-. reflexivity. }
  destruct (B slot x Hin Hoff) as (e & He & Hd).
  exists e. rewrite Hps. split; [exact He |].
  split; [exact (E _ _ He) |].
  intros Hred.
  assert (Hx8 : attr_value (FBConfig.dpy ps) x FBConfig.GLX_RED_SIZE = 8).
  { unfold attr_value. unfold red_size in Hred. rewrite Hred. reflexivity. }
  destruct (Hd Hx8) as [He8 Hcmp].
  pose proof (Hvalid e (E _ _ He)) as Hve.
  split.
  - destruct Hve as [[r Hr] _]. rewrite Hr. f_equal.
    unfold attr_value in He8. unfold red_size in Hr. rewrite Hr in He8.
    exact He8.
  - rewrite overrides_values by auto. lia.
Qed.

Lemma example_display_valid (e : FBConfig.glx_fbconfig_t) :
  valid_candidate example_display e.
Proof.
  split.
  - unfold red_size. simpl. eauto.
  - intros attr v. simpl. unfold CInt.INT_MAX.
    destruct attr; simpl; intros [= <-];
      repeat match goal with
             | |- context [if ?b then _ else _] => destruct b
             end; lia.
Qed.

(** X6 on the example display: FBConfig 6, a 24-bit RGB configuration
    with a 16-bit stencil, is offered to slot 24; the slot retains an
    entry with 8-bit red that FBConfig 6 would not replace. *)
Lemma glx_update_fbconfig_keeps_best_witness :
  exists e,
    FBConfig.fbconfigs example_negotiated !! 24%nat = Some (Some e)
    /\ red_size example_display e = Some 8
    /\ ~ overrides example_display
           (candidate 6 FBConfig.GLX_TEXTURE_FORMAT_RGB_EXT) e.
Proof.
  destruct (glx_update_fbconfig_keeps_best 32 example_session example_negotiated
              true
              ltac:(repeat constructor)
              (fun e _ => example_display_valid e)
              eq_refl 24 (candidate 6 FBConfig.GLX_TEXTURE_FORMAT_RGB_EXT))
    as (e & He & _ & Hbest).
  - simpl. tauto.
  - split; [lia |]. split.
    + intros v [= <-]. lia.
    + exists 24, 0, 24. simpl. repeat split; eauto. left. repeat split; lia.
  - exists e. split; [exact He |]. apply Hbest. reflexivity.
Defined.

(** ** The pixmap-texture bridge: release, re-binding, what a success
    leaves *)

(** X7: [glx_release_pixmap] clears the GLX pixmap handle and nothing
    else of the binding: the texture, the pixmap, the target, the depth,
    the width, the height and the orientation are as they were; a second
    release finds nothing to do; a binding
    without GLX pixmap is left alone and no call is issued; and a binding
    with one has [glXDestroyPixmap] issued for it as the last call,
    preceded by the unbinding of the texture image when there is a
    texture. *)
Theorem glx_release_pixmap_idempotent
    (ptex : Pixmap.glx_texture_t) (gl : GL.state) :
  Pixmap.glpixmap (Pixmap.glx_release_pixmap ptex gl).1 = 0
  /\ Pixmap.texture (Pixmap.glx_release_pixmap ptex gl).1 = Pixmap.texture ptex
  /\ Pixmap.pixmap (Pixmap.glx_release_pixmap ptex gl).1 = Pixmap.pixmap ptex
  /\ Pixmap.target (Pixmap.glx_release_pixmap ptex gl).1 = Pixmap.target ptex
  /\ Pixmap.depth (Pixmap.glx_release_pixmap ptex gl).1 = Pixmap.depth ptex
  /\ Pixmap.width (Pixmap.glx_release_pixmap ptex gl).1 = Pixmap.width ptex
  /\ Pixmap.height (Pixmap.glx_release_pixmap ptex gl).1 = Pixmap.height ptex
  /\ Pixmap.y_inverted (Pixmap.glx_release_pixmap ptex gl).1
     = Pixmap.y_inverted ptex
  /\ Pixmap.glx_release_pixmap (Pixmap.glx_release_pixmap ptex gl).1
       (Pixmap.glx_release_pixmap ptex gl).2
     = Pixmap.glx_release_pixmap ptex gl
  /\ (Pixmap.glpixmap ptex = 0 -> Pixmap.glx_release_pixmap ptex gl = (ptex, gl))
  /\ (Pixmap.glpixmap ptex <> 0 ->
      GL.calls (Pixmap.glx_release_pixmap ptex gl).2
      = GL.calls gl
        ++ (if Pixmap.texture ptex =? 0 then []
            else [ GL.BindTexture (Pixmap.target ptex) (Pixmap.texture ptex);
                   GL.XReleaseTexImage (Pixmap.glpixmap ptex);
                   GL.BindTexture (Pixmap.target ptex) 0 ])
        ++ [ GL.XDestroyPixmap (Pixmap.glpixmap ptex) ]).
Proof.
  unfold Pixmap.glx_release_pixmap.
  destruct (Z.eqb_spec (Pixmap.glpixmap ptex) 0) as [Hz | Hnz]; simpl.
  - rewrite Hz. simpl. repeat split; auto. intros H. contradiction.
  - repeat split; auto; try contradiction.
    intros _. destruct (Pixmap.texture ptex =? 0); simpl;
      rewrite <- ?app_assoc; reflexivity.
Qed.

Section PixmapMore.

Import Pixmap.

Variable OPENGL_MAX_DEPTH : Z.
Variable BKEND_GLX : Z.
Variable BKEND_XR_GLX_HYBRID : Z.
Variable drv : GL.driver.

Lemma glx_backend_test (ps : session_t) :
  backend ps = BKEND_GLX \/ backend ps = BKEND_XR_GLX_HYBRID ->
  negb (backend ps =? BKEND_GLX) && negb (backend ps =? BKEND_XR_GLX_HYBRID)
  = false.
Proof.
  intros [-> | ->]; rewrite Z.eqb_refl; simpl;
    [reflexivity | apply andb_false_r].
Qed.

(** What the creation block records in the binding. *)
Lemma create_glx_pixmap_fields (ps : session_t) (ptex ptex' : glx_texture_t)
    (pixmap width height depth : Z) (gl gl' : GL.state) :
  create_glx_pixmap OPENGL_MAX_DEPTH drv ps ptex pixmap width height depth gl
  = Returned (inr (ptex', gl')) ->
  texture ptex' = texture ptex
  /\ Pixmap.pixmap ptex' = pixmap
  /\ is_tex_tgt (target ptex')
  /\ 0 <= Pixmap.depth ptex'
  /\ exists pcfg,
       fbconfigs ps !! Z.to_nat (Pixmap.depth ptex') = Some (Some pcfg).
Proof.
  unfold create_glx_pixmap. intros H.
  destruct (if negb _ then GL.XGetGeometry_reply drv pixmap else _)
    as [[[w h] dp] |]; [| discriminate].
  destruct (_ && (OPENGL_MAX_DEPTH <? dp)); [discriminate |].
  bind_inv H as pcfg Hp. apply c_index_Returned in Hp.
  destruct pcfg as [pcfg |]; [| discriminate].
  injection H as <- _. simpl.
  split; [reflexivity |]. split; [reflexivity |].
  split; [| split; [tauto | exists pcfg; tauto]].
  destruct (choose_tex_tgt ps pcfg =? GL.GLX_TEXTURE_2D_EXT);
    [left | right]; reflexivity.
Qed.

End PixmapMore.

(** X8: binding again a texture that is bound to the same pixmap
    allocates nothing: whatever size and depth are passed and whatever
    the driver would answer, the call returns success with the binding
    unchanged, having enabled the target, bound the texture, released and
    bound again the image of the GLX pixmap, unbound the texture and
    disabled the target. *)
Theorem glx_bind_pixmap_rebind
    (OPENGL_MAX_DEPTH BKEND_GLX BKEND_XR_GLX_HYBRID : Z) (drv : GL.driver)
    (ps : Pixmap.session_t) (t : Pixmap.glx_texture_t)
    (pixmap width height depth : Z) (gl : GL.state) :
  Pixmap.backend ps = BKEND_GLX \/ Pixmap.backend ps = BKEND_XR_GLX_HYBRID ->
  pixmap <> 0 ->
  Pixmap.texture t <> 0 ->
  Pixmap.glpixmap t <> 0 ->
  Pixmap.pixmap t = pixmap ->
  exists gl',
    Pixmap.glx_bind_pixmap OPENGL_MAX_DEPTH BKEND_GLX BKEND_XR_GLX_HYBRID drv
      ps (Some t) pixmap width height depth gl
    = Returned (true, Some t, gl')
    /\ GL.calls gl'
       = GL.calls gl
         ++ [ GL.Enable (Pixmap.target t);
              GL.BindTexture (Pixmap.target t) (Pixmap.texture t);
              GL.XReleaseTexImage (Pixmap.glpixmap t);
              GL.XBindTexImage (Pixmap.glpixmap t);
              GL.BindTexture (Pixmap.target t) 0;
              GL.Disable (Pixmap.target t) ]
    /\ GL.glIsEnabled (Pixmap.target t) gl' = false.
Proof.
  intros Hbk Hpix Htex Hglp Hsame. unfold Pixmap.glx_bind_pixmap.
  rewrite (glx_backend_test _ _ _ Hbk).
  destruct (Z.eqb_spec pixmap 0); [contradiction |].
  simpl. rewrite Hsame, Z.eqb_refl, andb_false_r.
  destruct (Z.eqb_spec (Pixmap.glpixmap t) 0); [contradiction |].
  simpl.
  destruct (Z.eqb_spec (Pixmap.glpixmap t) 0); [contradiction |].
  destruct (Z.eqb_spec (Pixmap.texture t) 0); [contradiction |].
  simpl.
  destruct (Z.eqb_spec (Pixmap.texture t) 0); [contradiction |].
  eexists. split; [reflexivity |]. split.
  - simpl. rewrite <- !app_assoc. reflexivity.
  - rewrite glIsEnabled_glDisable, Z.eqb_refl. reflexivity.
Qed.

(** X8 on the bound texture 3 of pixmap 5: a size of 0 x 0 and a depth of
    99 are passed and not looked at. *)
Lemma glx_bind_pixmap_rebind_witness :
  exists gl',
    Pixmap.glx_bind_pixmap 32 1 2 no_texture_driver (pixmap_session 1)
      (Some bound_24) 5 0 0 99 gl_init
    = Returned (true, Some bound_24, gl')
    /\ length (GL.calls gl') = 6%nat.
Proof.
  destruct (glx_bind_pixmap_rebind 32 1 2 no_texture_driver (pixmap_session 1)
              bound_24 5 0 0 99 gl_init (or_introl eq_refl)
              ltac:(discriminate) ltac:(discriminate) ltac:(discriminate)
              eq_refl) as (gl' & E & Hcalls & _).
  exists gl'. split; [exact E |]. rewrite Hcalls. reflexivity.
Defined.

(** What a successful [glx_bind_pixmap] leaves in the binding. *)
Lemma glx_bind_pixmap_success_binding
    (OPENGL_MAX_DEPTH BKEND_GLX BKEND_XR_GLX_HYBRID : Z) (drv : GL.driver)
    (ps : Pixmap.session_t) (pptex pptex' : option Pixmap.glx_texture_t)
    (pixmap width height depth : Z) (gl gl' : GL.state) :
  Pixmap.backend ps = BKEND_GLX \/ Pixmap.backend ps = BKEND_XR_GLX_HYBRID ->
  pixmap <> 0 ->
  (forall t0, pptex = Some t0 -> bound_ok (Pixmap.fbconfigs ps) t0) ->
  Pixmap.glx_bind_pixmap OPENGL_MAX_DEPTH BKEND_GLX BKEND_XR_GLX_HYBRID drv
    ps pptex pixmap width height depth gl = Returned (true, pptex', gl') ->
  exists t',
    pptex' = Some t'
    /\ bound_ok (Pixmap.fbconfigs ps) t'
    /\ Pixmap.pixmap t' = pixmap
    /\ (forall t0, pptex = Some t0 -> Pixmap.texture t' = Pixmap.texture t0)
    /\ GL.glIsEnabled (Pixmap.target t') gl' = false.
Proof.
  intros Hbk Hpix Hin H. unfold Pixmap.glx_bind_pixmap in H.
  rewrite (glx_backend_test _ _ _ Hbk) in H.
  destruct (Z.eqb_spec pixmap 0) as [| _]; [contradiction |].
  set (t0 := default Pixmap.GLX_TEX_DEF pptex) in *.
  assert (Ht0 : (pptex = None /\ Pixmap.texture t0 = 0 /\ Pixmap.glpixmap t0 = 0)
                \/ (pptex = Some t0 /\ bound_ok (Pixmap.fbconfigs ps) t0)).
  { subst t0. destruct pptex as [t |]; simpl; [right | left; auto].
    split; [reflexivity | apply Hin; reflexivity]. }
  set (rel := if negb (Pixmap.texture t0 =? 0) && negb (Pixmap.pixmap t0 =? pixmap)
              then Pixmap.glx_release_pixmap t0 gl else (t0, gl)) in *.
  assert (Hrel : Pixmap.texture rel.1 = Pixmap.texture t0
                 /\ (Pixmap.glpixmap rel.1 <> 0 ->
                     rel.1 = t0
                     /\ (Pixmap.texture t0 <> 0 -> Pixmap.pixmap t0 = pixmap))).
  { subst rel.
    destruct (Z.eqb_spec (Pixmap.texture t0) 0) as [Hz | Hnz];
      [| destruct (Z.eqb_spec (Pixmap.pixmap t0) pixmap) as [Hp | Hp]]; simpl.
    - split; [reflexivity |]. intros _. split; [reflexivity | contradiction].
    - split; [reflexivity |]. intros _. split; [reflexivity | auto].
    - destruct (glx_release_pixmap_handles t0 gl) as [Hg Ht].
      split; [exact Ht |]. intros Hne. contradiction. }
  destruct rel as [t1 gl1]. simpl in Hrel. destruct Hrel as [Htex1 Hkept].
  assert (Hend : forall (t : Pixmap.glx_texture_t) (g : GL.state),
             GL.glIsEnabled (Pixmap.target t)
               (GL.glDisable (Pixmap.target t) g) = false).
  { intros t g. rewrite glIsEnabled_glDisable, Z.eqb_refl. reflexivity. }
  bind_inv H as created Hc.
  destruct (Z.eqb_spec (Pixmap.glpixmap t1) 0) as [Hz | Hnz].
  - (* the GLX pixmap is created *)
    bind_inv Hc as r Hr. injection Hc as <-.
    destruct r as [gl2 | [t2 gl2]]; [discriminate H |].
    apply create_glx_pixmap_fields in Hr.
    destruct Hr as (Htx & Hpx & Htg & Hdp & Hcfg).
    destruct (Z.eqb_spec (Pixmap.glpixmap t2) 0) as [| Hg2]; [discriminate H |].
    destruct (Z.eqb_spec (Pixmap.texture t2) 0) as [Ht2 | Ht2].
    + simpl in H.
      destruct (Z.eqb_spec
                  (GL.glGenTextures drv (GL.now (GL.glEnable (Pixmap.target t2) gl2))) 0)
        as [| Hgen]; [discriminate H |].
      injection H as <- <-. eexists. split; [reflexivity |].
      split; [| split; [exact Hpx | split; [| exact (Hend t2 _)]]].
      * unfold bound_ok. simpl. auto.
      * intros t0' E0. destruct Ht0 as [(E & _) | (_ & Hok)]; [congruence |].
        destruct Hok as (Hne & _). rewrite <- Htex1, <- Htx in Hne.
        contradiction.
    + destruct (Z.eqb_spec (Pixmap.texture t2) 0); [contradiction |].
      injection H as <- <-. exists t2. split; [reflexivity |].
      split; [| split; [exact Hpx | split; [| apply Hend]]].
      * unfold bound_ok. auto.
      * intros t0' E0. rewrite Htx, Htex1.
        destruct Ht0 as [(E & _) | (E & _)]; congruence.
  - (* the GLX pixmap is already there *)
    injection Hc as <-.
    destruct (Hkept Hnz) as [-> Hsame].
    destruct Ht0 as [(_ & _ & Hg0) | (E0 & Hok)]; [contradiction |].
    destruct (Z.eqb_spec (Pixmap.glpixmap t0) 0); [contradiction |].
    destruct Hok as (Hne & Hok).
    destruct (Z.eqb_spec (Pixmap.texture t0) 0); [contradiction |].
    simpl in H.
    destruct (Z.eqb_spec (Pixmap.texture t0) 0); [contradiction |].
    injection H as <- <-. exists t0. split; [reflexivity |].
    split; [unfold bound_ok; auto |].
    split; [auto |]. split; [| apply Hend].
    intros t0' E0'. congruence.
Qed.

(** X9: under a GLX backend and for a non-zero pixmap, a successful
    [glx_bind_pixmap] on no binding, or on a binding that is well formed
    for the FBConfig table, leaves a binding that is well formed again:
    both handles are present, the target is a texture target and the
    slot of the recorded depth holds an FBConfig. The binding records the
    pixmap that was asked for, the texture of a binding found on entry is
    kept (also when its GLX pixmap is replaced), and the target is
    disabled on return. *)
Theorem glx_bind_pixmap_bound_ok
    (OPENGL_MAX_DEPTH BKEND_GLX BKEND_XR_GLX_HYBRID : Z) (drv : GL.driver)
    (ps : Pixmap.session_t) (pptex pptex' : option Pixmap.glx_texture_t)
    (pixmap width height depth : Z) (gl gl' : GL.state) :
  Pixmap.backend ps = BKEND_GLX \/ Pixmap.backend ps = BKEND_XR_GLX_HYBRID ->
  pixmap <> 0 ->
  (forall t0, pptex = Some t0 -> bound_ok (Pixmap.fbconfigs ps) t0) ->
  Pixmap.glx_bind_pixmap OPENGL_MAX_DEPTH BKEND_GLX BKEND_XR_GLX_HYBRID drv
    ps pptex pixmap width height depth gl = Returned (true, pptex', gl') ->
  exists t',
    pptex' = Some t'
    /\ bound_ok (Pixmap.fbconfigs ps) t'
    /\ Pixmap.pixmap t' = pixmap
    /\ (forall t0, pptex = Some t0 -> Pixmap.texture t' = Pixmap.texture t0)
    /\ GL.glIsEnabled (Pixmap.target t') gl' = false.
Proof.
  apply glx_bind_pixmap_success_binding.
Qed.

(** X9 at a first bind of pixmap 5 on a working driver. *)
Lemma glx_bind_pixmap_bound_ok_witness :
  exists t' gl',
    Pixmap.glx_bind_pixmap 32 1 2 good_driver (pixmap_session 1)
      None 5 10 10 24 gl_init = Returned (true, Some t', gl')
    /\ bound_ok (Pixmap.fbconfigs (pixmap_session 1)) t'
    /\ Pixmap.pixmap t' = 5.
Proof.
  destruct (Pixmap.glx_bind_pixmap 32 1 2 good_driver (pixmap_session 1)
              None 5 10 10 24 gl_init) as [[[r o] g] | |] eqn:E;
    try (vm_compute in E; discriminate E).
  assert (Hr : r = true) by (vm_compute in E; congruence).
  subst r.
  destruct (glx_bind_pixmap_bound_ok 32 1 2 good_driver (pixmap_session 1)
              None o 5 10 10 24 gl_init g (or_introl eq_refl)
              ltac:(discriminate) ltac:(discriminate) E)
    as (t' & -> & Hok & Hpix & _).
  exists t', g. split; [reflexivity |]. split; [exact Hok | exact Hpix].
Defined.

(** X10: the texture target chosen for an FBConfig is one of the two GLX
    targets; it is the 2D target exactly when the FBConfig can bind to 2D
    textures and either non-power-of-two textures are supported or the
    FBConfig cannot bind to rectangle textures. An FBConfig that can bind
    to neither gets the rectangle target. *)
Theorem choose_tex_tgt_cases
    (ps : Pixmap.session_t) (pcfg : FBConfig.glx_fbconfig_t) :
  (Pixmap.choose_tex_tgt ps pcfg = GL.GLX_TEXTURE_2D_EXT
   \/ Pixmap.choose_tex_tgt ps pcfg = GL.GLX_TEXTURE_RECTANGLE_EXT)
  /\ (Pixmap.choose_tex_tgt ps pcfg = GL.GLX_TEXTURE_2D_EXT
      <-> Z.land GL.GLX_TEXTURE_2D_BIT_EXT (FBConfig.texture_tgts pcfg) <> 0
          /\ (Pixmap.has_texture_non_power_of_two ps = true
              \/ Z.land GL.GLX_TEXTURE_RECTANGLE_BIT_EXT
                   (FBConfig.texture_tgts pcfg) = 0)).
Proof.
  unfold Pixmap.choose_tex_tgt.
  destruct (Z.eqb_spec (Z.land GL.GLX_TEXTURE_2D_BIT_EXT
                          (FBConfig.texture_tgts pcfg)) 0) as [H2 | H2];
    destruct (Z.eqb_spec (Z.land GL.GLX_TEXTURE_RECTANGLE_BIT_EXT
                            (FBConfig.texture_tgts pcfg)) 0) as [Hr | Hr];
    destruct (Pixmap.has_texture_non_power_of_two ps); simpl;
    (split; [auto |]); split; try tauto; try discriminate;
    intros [_ [Hn | Hn]]; try discriminate; contradiction.
Qed.

(** ** Shaders and programs: nothing is left behind *)

(** X11: [glx_create_shader] returns either the name of a shader that
    was given the source and compiled, and then no shader was deleted, or
    0, and then every shader it gave a source to has been deleted again. *)
Theorem glx_create_shader_no_leak
    (drv : GL.driver) (ty : GL.GLenum) (src : string) (gl gl' : GL.state)
    (s : Z) :
  Shader.glx_create_shader drv ty src gl = (s, gl') ->
  GL.calls gl' = GL.calls gl ++ issued gl gl'
  /\ (s <> 0 ->
      s = GL.glCreateShader drv (GL.now gl)
      /\ GL.compile_status drv (GL.now gl + 3) = true
      /\ In (GL.ShaderSource s src) (issued gl gl')
      /\ In (GL.CompileShader s) (issued gl gl')
      /\ forall x, ~ In (GL.DeleteShader x) (issued gl gl'))
  /\ (s = 0 ->
      forall x text, In (GL.ShaderSource x text) (issued gl gl') ->
                     In (GL.DeleteShader x) (issued gl gl')).
Proof.
  intros H. apply glx_create_shader_calls in H. cbv zeta in H.
  destruct H as [(Hx & Hs & Hc) | [(Hx & Hs & Hst & Hc) | (Hx & Hs & Hst & Hc)]];
    rewrite (issued_app _ _ _ Hc); (split; [exact Hc |]); split;
    try (intros Hn; congruence).
  - intros _ x text Hin. simpl in Hin. intuition discriminate.
  - intros _. split; [exact Hs |]. split; [exact Hst |].
    split; [simpl; rewrite Hs; tauto |].
    split; [simpl; rewrite Hs; tauto |].
    intros x Hin. simpl in Hin. intuition discriminate.
  - intros _ x text Hin. simpl in Hin |- *.
    destruct Hin as [Hin | [Hin | Hin]]; try discriminate Hin.
    + injection Hin as -> _. tauto.
    + intuition discriminate.
Qed.

(** X11 on a driver whose shaders never compile: the call returns 0 and
    the shader it created (name 1) is deleted. *)
Lemma glx_create_shader_no_leak_witness :
  exists gl',
    Shader.glx_create_shader no_compile_driver GL.GL_FRAGMENT_SHADER
      "void main() {}" gl_init
    = (0, gl')
    /\ In (GL.DeleteShader 1) (issued gl_init gl').
Proof.
  eexists. split; [reflexivity |].
  refine (proj2 (proj2 (glx_create_shader_no_leak no_compile_driver
                          GL.GL_FRAGMENT_SHADER "void main() {}" gl_init _ 0
                          eq_refl))
            eq_refl 1 "void main() {}"%string _).
  simpl. tauto.
Defined.

(** X12: [glx_create_program] detaches every shader it attached, whether
    the program links or not; it returns either the name of a program
    that linked, with every shader of the list attached to it and no
    program deleted, or 0, and then every program it linked has been
    deleted again. *)
Theorem glx_create_program_no_leak
    (drv : GL.driver) (shaders : list Z) (gl gl' : GL.state) (p : Z) :
  Shader.glx_create_program drv shaders gl = (p, gl') ->
  GL.calls gl' = GL.calls gl ++ issued gl gl'
  /\ (forall q s, In (GL.AttachShader q s) (issued gl gl')
                  <-> In (GL.DetachShader q s) (issued gl gl'))
  /\ (p <> 0 ->
      p = GL.glCreateProgram drv (GL.now gl)
      /\ GL.link_status drv (GL.now gl + length shaders + 2) = true
      /\ (forall s, In s shaders -> In (GL.AttachShader p s) (issued gl gl'))
      /\ forall q, ~ In (GL.DeleteProgram q) (issued gl gl'))
  /\ (p = 0 ->
      forall q, In (GL.LinkProgram q) (issued gl gl') ->
                In (GL.DeleteProgram q) (issued gl gl')).
Proof.
  intros H. apply glx_create_program_calls in H. cbv zeta in H.
  destruct H as [(Hx & Hp & Hc) | (Hx & linked & Hp & Hst & Hc)];
    rewrite (issued_app _ _ _ Hc); (split; [exact Hc |]).
  - split; [| split].
    + intros q s. simpl. intuition discriminate.
    + intros Hn. congruence.
    + intros _ q Hin. simpl in Hin. intuition discriminate.
  - set (x := GL.glCreateProgram drv (GL.now gl)) in *.
    assert (Hat : forall q s,
               In (GL.AttachShader q s) (map (GL.AttachShader x) shaders)
               <-> q = x /\ In s shaders).
    { intros q s. rewrite in_map_iff. split.
      - intros (s' & [= <- <-] & Hs). auto.
      - intros [-> Hs]. eauto. }
    assert (Hdt : forall q s,
               In (GL.DetachShader q s) (map (GL.DetachShader x) shaders)
               <-> q = x /\ In s shaders).
    { intros q s. rewrite in_map_iff. split.
      - intros (s' & [= <- <-] & Hs). auto.
      - intros [-> Hs]. eauto. }
    assert (Hna : forall (c : GL.call),
               (forall q s, c <> GL.DetachShader q s) ->
               ~ In c (map (GL.DetachShader x) shaders)).
    { intros c Hc' Hin. apply in_map_iff in Hin.
      destruct Hin as (s' & <- & _). eapply Hc'. reflexivity. }
    assert (Hnd : forall (c : GL.call),
               (forall q s, c <> GL.AttachShader q s) ->
               ~ In c (map (GL.AttachShader x) shaders)).
    { intros c Hc' Hin. apply in_map_iff in Hin.
      destruct Hin as (s' & <- & _). eapply Hc'. reflexivity. }
    split; [| split].
    + intros q s. rewrite !in_app_iff, Hat, Hdt. split.
      * intros [Hin | [Hin | [Hin | [Hin | Hin]]]]; auto.
        -- simpl in Hin. intuition discriminate.
        -- simpl in Hin. intuition discriminate.
        -- exfalso. revert Hin. apply Hna. discriminate.
        -- destruct linked; simpl in Hin; intuition discriminate.
      * intros [Hin | [Hin | [Hin | [Hin | Hin]]]]; auto.
        -- simpl in Hin. intuition discriminate.
        -- exfalso. revert Hin. apply Hnd. discriminate.
        -- simpl in Hin. intuition discriminate.
        -- destruct linked; simpl in Hin; intuition discriminate.
    + intros Hn. destruct linked; [| congruence].
      split; [exact Hp |]. split; [exact Hst |]. split.
      * intros s Hs. rewrite !in_app_iff, Hat. subst p. auto.
      * intros q. rewrite !in_app_iff.
        intros [Hin | [Hin | [Hin | [Hin | Hin]]]].
        -- simpl in Hin. intuition discriminate.
        -- revert Hin. apply Hnd. discriminate.
        -- simpl in Hin. intuition discriminate.
        -- revert Hin. apply Hna. discriminate.
        -- destruct Hin.
    + intros Hz. destruct linked; [congruence |].
      intros q. rewrite !in_app_iff.
      intros [Hin | [Hin | [Hin | [Hin | Hin]]]].
      * simpl in Hin. intuition discriminate.
      * exfalso. revert Hin. apply Hnd. discriminate.
      * simpl in Hin. destruct Hin as [[= ->] | [Hin | []]];
          [| discriminate Hin].
        right. right. right. right. simpl. tauto.
      * exfalso. revert Hin. apply Hna. discriminate.
      * simpl in Hin. intuition discriminate.
Qed.

(** X12 on a driver whose programs never link: the call returns 0, the
    two shaders were attached and detached, and the program is deleted. *)
Lemma glx_create_program_no_leak_witness :
  exists gl',
    Shader.glx_create_program no_link_driver [4; 5] gl_init = (0, gl')
    /\ In (GL.DetachShader 1 5) (issued gl_init gl')
    /\ In (GL.DeleteProgram 1) (issued gl_init gl').
Proof.
  eexists. split; [reflexivity |].
  destruct (glx_create_program_no_leak no_link_driver [4; 5] gl_init _ 0 eq_refl)
    as (_ & Hbal & _ & Hdel).
  split.
  - apply Hbal. simpl. tauto.
  - apply Hdel; [reflexivity |]. simpl. tauto.
Defined.

Section ProgramTraces.

Variable drv : GL.driver.

(** One of the two shader steps of [glx_create_program_from_str]. *)
Lemma shader_step_calls (str : option string) (ty : GL.GLenum)
    (gl gl' : GL.state) (s : Z) :
  match str with
  | Some src => Shader.glx_create_shader drv ty src gl
  | None => (0, gl)
  end = (s, gl') ->
  exists t,
    GL.calls gl' = GL.calls gl ++ t
    /\ (forall x text, In (GL.ShaderSource x text) t ->
                  (x = s /\ s <> 0) \/ In (GL.DeleteShader x) t)
    /\ (forall q x, ~ In (GL.AttachShader q x) t)
    /\ (forall q x, ~ In (GL.DetachShader q x) t)
    /\ (forall q, ~ In (GL.LinkProgram q) t)
    /\ (str = None -> s = 0 /\ gl' = gl).
Proof.
  destruct str as [src |].
  - intros H. apply glx_create_shader_calls in H. cbv zeta in H.
    destruct H as [(Hx & Hs & Hc) | [(Hx & Hs & Hst & Hc) | (Hx & Hs & Hst & Hc)]];
      eexists; (split; [exact Hc |]);
      (split; [| repeat split;
                 try (intros; simpl; intuition (try discriminate; try congruence))]).
    + intros x text Hin. simpl in Hin. intuition discriminate.
    + intros x text [Hin | [Hin | Hin]]; try discriminate Hin.
      * injection Hin as <- _. left. split; congruence.
      * simpl in Hin. intuition discriminate.
    + intros x text [Hin | [Hin | Hin]]; try discriminate Hin.
      * injection Hin as <- _. right. simpl. tauto.
      * simpl in Hin. intuition discriminate.
  - intros [= <- <-]. exists []. rewrite app_nil_r. simpl.
    repeat split; auto.
Qed.

(** The program step. *)
Lemma program_step_calls (run : bool) (shaders : list Z)
    (gl gl' : GL.state) (p : Z) :
  (if run then Shader.glx_create_program drv shaders gl else (0, gl))
  = (p, gl') ->
  exists t,
    GL.calls gl' = GL.calls gl ++ t
    /\ (forall x text, ~ In (GL.ShaderSource x text) t)
    /\ (forall x, ~ In (GL.DeleteShader x) t)
    /\ (forall q x, In (GL.AttachShader q x) t <-> In (GL.DetachShader q x) t)
    /\ (forall q, In (GL.LinkProgram q) t ->
                  (q = p /\ p <> 0) \/ In (GL.DeleteProgram q) t)
    /\ (run = false -> p = 0 /\ gl' = gl).
Proof.
  destruct run.
  - intros H. apply glx_create_program_calls in H. cbv zeta in H.
    destruct H as [(Hx & Hp & Hc) | (Hx & linked & Hp & Hst & Hc)];
      eexists; (split; [exact Hc |]).
    + simpl. repeat split; try discriminate; intros; intuition discriminate.
    + set (x := GL.glCreateProgram drv (GL.now gl)) in *.
      assert (Hmap : forall (f : Z -> GL.call) (c : GL.call),
                 In c (map f shaders) -> exists s, c = f s /\ In s shaders).
      { intros f c Hin. apply in_map_iff in Hin.
        destruct Hin as (s & <- & Hs). eauto. }
      split; [| split; [| split; [| split]]].
      * intros y text. rewrite !in_app_iff.
        intros [Hin | [Hin | [Hin | [Hin | Hin]]]];
          try (apply Hmap in Hin; destruct Hin as (s & Hs & _);
               discriminate Hs);
          try (destruct linked); simpl in Hin; intuition discriminate.
      * intros y. rewrite !in_app_iff.
        intros [Hin | [Hin | [Hin | [Hin | Hin]]]];
          try (apply Hmap in Hin; destruct Hin as (s & Hs & _);
               discriminate Hs);
          try (destruct linked); simpl in Hin; intuition discriminate.
      * intros q y. rewrite !in_app_iff. split.
        -- intros [Hin | [Hin | [Hin | [Hin | Hin]]]];
             try (simpl in Hin; intuition discriminate).
           ++ apply Hmap in Hin. destruct Hin as (s & [= -> ->] & Hs).
              right. right. right. left. apply in_map. exact Hs.
           ++ apply Hmap in Hin. destruct Hin as (s & Hs & _). discriminate Hs.
           ++ destruct linked; simpl in Hin; intuition discriminate.
        -- intros [Hin | [Hin | [Hin | [Hin | Hin]]]];
             try (simpl in Hin; intuition discriminate).
           ++ apply Hmap in Hin. destruct Hin as (s & Hs & _). discriminate Hs.
           ++ apply Hmap in Hin. destruct Hin as (s & [= -> ->] & Hs).
              right. left. apply in_map. exact Hs.
           ++ destruct linked; simpl in Hin; intuition discriminate.
      * intros q. rewrite !in_app_iff.
        intros [Hin | [Hin | [Hin | [Hin | Hin]]]];
          try (apply Hmap in Hin; destruct Hin as (s & Hs & _);
               discriminate Hs);
          try (simpl in Hin; intuition discriminate).
        -- simpl in Hin. destruct Hin as [[= ->] | [Hin | []]];
             [| discriminate Hin].
           destruct linked; [left; split; congruence |].
           right. right. right. right. right. simpl. tauto.
        -- destruct linked; simpl in Hin; intuition discriminate.
      * discriminate.
  - intros [= <- <-]. exists []. rewrite app_nil_r. simpl.
    repeat split; auto; tauto.
Qed.

End ProgramTraces.

(** The calls of [glx_create_program_from_str]. *)
Lemma glx_create_program_from_str_calls
    (drv : GL.driver) (vert_shader_str frag_shader_str : option string)
    (gl : GL.state) :
  exists p gl' t,
    Program.glx_create_program_from_str drv vert_shader_str frag_shader_str gl
    = Returned (p, gl')
    /\ GL.calls gl' = GL.calls gl ++ t
    /\ (forall x text, In (GL.ShaderSource x text) t -> In (GL.DeleteShader x) t)
    /\ (forall q x, In (GL.AttachShader q x) t <-> In (GL.DetachShader q x) t)
    /\ (forall q, In (GL.LinkProgram q) t ->
                  (q = p /\ p <> 0) \/ In (GL.DeleteProgram q) t)
    /\ (vert_shader_str = None -> frag_shader_str = None -> p = 0 /\ gl' = gl).
Proof.
  unfold Program.glx_create_program_from_str.
  destruct (match vert_shader_str with
            | Some src =>
                Shader.glx_create_shader drv Program.GL_VERTEX_SHADER src gl
            | None => (0, gl)
            end) as [vs g1] eqn:Ev.
  destruct (match frag_shader_str with
            | Some src =>
                Shader.glx_create_shader drv GL.GL_FRAGMENT_SHADER src g1
            | None => (0, g1)
            end) as [fs g2] eqn:Ef.
  apply shader_step_calls in Ev.
  destruct Ev as (tv & Cv & Sv & Av & Dv & Lv & Nv).
  apply shader_step_calls in Ef.
  destruct Ef as (tf & Cf & Sf & Af & Df & Lf & Nf).
  set (shaders := if negb (fs =? 0)
                  then (if negb (vs =? 0) then [] ++ [vs] else []) ++ [fs]
                  else if negb (vs =? 0) then [] ++ [vs] else []).
  assert (Hcount : (Z.of_nat (length shaders) <=? 2) = true).
  { subst shaders. destruct (negb (fs =? 0)), (negb (vs =? 0)); reflexivity. }
  rewrite Hcount. cbn [c_assert obind].
  assert (Hrun : negb (Z.of_nat (length shaders) =? 0) = false ->
                 vs = 0 /\ fs = 0).
  { subst shaders. destruct (Z.eqb_spec fs 0), (Z.eqb_spec vs 0); simpl;
      auto; discriminate. }
  destruct (if negb (Z.of_nat (length shaders) =? 0)
            then Shader.glx_create_program drv shaders g2 else (0, g2))
    as [p g3] eqn:Ep.
  apply program_step_calls in Ep.
  destruct Ep as (tp & Cp & Sp & Xp & Bp & Lp & Np).
  set (dv := if negb (vs =? 0) then [GL.DeleteShader vs] else []).
  set (df := if negb (fs =? 0) then [GL.DeleteShader fs] else []).
  eexists p, _, (tv ++ tf ++ tp ++ dv ++ df). split; [reflexivity |].
  split.
  { subst dv df. destruct (negb (vs =? 0)), (negb (fs =? 0)); simpl;
      rewrite Cp, Cf, Cv, <- ?app_assoc, ?app_nil_r; reflexivity. }
  assert (Hdv : forall x, In (GL.DeleteShader x) dv <-> x = vs /\ vs <> 0).
  { intros x. subst dv. destruct (Z.eqb_spec vs 0); simpl; split;
      try tauto; intuition congruence. }
  assert (Hdf : forall x, In (GL.DeleteShader x) df <-> x = fs /\ fs <> 0).
  { intros x. subst df. destruct (Z.eqb_spec fs 0); simpl; split;
      try tauto; intuition congruence. }
  assert (Hother : forall c, (forall x, c <> GL.DeleteShader x) ->
                             ~ In c dv /\ ~ In c df).
  { intros c Hc'. subst dv df.
    destruct (negb (vs =? 0)), (negb (fs =? 0)); simpl; split;
      try tauto; intros [<- | []]; eapply Hc'; reflexivity. }
  split; [| split; [| split]].
  - intros x text. rewrite !in_app_iff, Hdv, Hdf.
    intros [Hin | [Hin | [Hin | [Hin | Hin]]]].
    + destruct (Sv x text Hin) as [[-> Hne] | Hd];
        [right; right; right; left; auto | left; exact Hd].
    + destruct (Sf x text Hin) as [[-> Hne] | Hd];
        [right; right; right; right; auto | right; left; exact Hd].
    + destruct (Sp x text Hin).
    + destruct (Hother (GL.ShaderSource x text) ltac:(discriminate))
        as [Hno _].
      contradiction.
    + destruct (Hother (GL.ShaderSource x text) ltac:(discriminate))
        as [_ Hno].
      contradiction.
  - intros q x. rewrite !in_app_iff.
    destruct (Hother (GL.AttachShader q x) ltac:(discriminate)) as [Ha1 Ha2].
    destruct (Hother (GL.DetachShader q x) ltac:(discriminate)) as [Hd1 Hd2].
    specialize (Av q x). specialize (Af q x). specialize (Dv q x).
    specialize (Df q x). specialize (Bp q x). tauto.
  - intros q. rewrite !in_app_iff.
    destruct (Hother (GL.LinkProgram q) ltac:(discriminate)) as [Hl1 Hl2].
    specialize (Lv q). specialize (Lf q). specialize (Lp q). tauto.
  - intros Hvn Hfn. destruct (Nv Hvn) as [-> ->]. destruct (Nf Hfn) as [-> ->].
    apply Np. destruct (negb (Z.of_nat (length shaders) =? 0)) eqn:E;
      [| reflexivity].
    subst shaders. simpl in E. discriminate E.
Qed.

(** X13: [glx_create_program_from_str] always returns (the shader array
    cannot overflow); every shader that was given a source during the
    call has been deleted when it returns, and every shader attached has
    been detached, whether the program is returned or not; when it
    returns 0, every program linked has been deleted; and with two NULL
    strings it returns 0 without issuing a call. *)
Theorem glx_create_program_from_str_no_leak
    (drv : GL.driver) (vert_shader_str frag_shader_str : option string)
    (gl : GL.state) :
  exists p gl',
    Program.glx_create_program_from_str drv vert_shader_str frag_shader_str gl
    = Returned (p, gl')
    /\ GL.calls gl' = GL.calls gl ++ issued gl gl'
    /\ (forall x text, In (GL.ShaderSource x text) (issued gl gl') ->
                  In (GL.DeleteShader x) (issued gl gl'))
    /\ (forall q x, In (GL.AttachShader q x) (issued gl gl')
                    <-> In (GL.DetachShader q x) (issued gl gl'))
    /\ (p = 0 -> forall q, In (GL.LinkProgram q) (issued gl gl') ->
                           In (GL.DeleteProgram q) (issued gl gl'))
    /\ (vert_shader_str = None -> frag_shader_str = None -> p = 0 /\ gl' = gl).
Proof.
  destruct (glx_create_program_from_str_calls drv vert_shader_str
              frag_shader_str gl) as (p & gl' & t & E & Hc & Hs & Hb & Hl & Hn).
  exists p, gl'. rewrite (issued_app _ _ _ Hc).
  split; [exact E |]. split; [exact Hc |]. split; [exact Hs |].
  split; [exact Hb |]. split; [| exact Hn].
  intros Hz q Hq. destruct (Hl q Hq) as [[_ Hne] | Hd];
    [contradiction | exact Hd].
Qed.

(** X14: [glx_load_prog_main] stops on a NULL [pprogram] and returns
    otherwise; it returns success exactly when the program stored is not
    0; on failure the uniform locations are as they were and every
    program linked during the call has been deleted. Freeing the loaded
    program with [glx_free_prog_main] resets it to program 0 with all
    locations -1, after which every program linked since the start of the
    load has been deleted; and freeing once more changes nothing. *)
Theorem glx_load_free_prog_main
    (drv : GL.driver) (vshader_str fshader_str : option string)
    (p0 : Program.glx_prog_main_t) (gl : GL.state) :
  Program.glx_load_prog_main drv vshader_str fshader_str None gl = Aborted
  /\ exists ret p1 gl1 gl2,
       Program.glx_load_prog_main drv vshader_str fshader_str (Some p0) gl
       = Returned (ret, p1, gl1)
       /\ (ret = true <-> Program.prog p1 <> 0)
       /\ (ret = false ->
           Program.unifm_opacity p1 = Program.unifm_opacity p0
           /\ Program.unifm_invert_color p1 = Program.unifm_invert_color p0
           /\ Program.unifm_tex p1 = Program.unifm_tex p0
           /\ forall q, In (GL.LinkProgram q) (issued gl gl1) ->
                        In (GL.DeleteProgram q) (issued gl gl1))
       /\ Program.glx_free_prog_main (Some p1) gl1 = (Some freed_prog, gl2)
       /\ (forall q, In (GL.LinkProgram q) (issued gl gl2) ->
                     In (GL.DeleteProgram q) (issued gl gl2))
       /\ Program.glx_free_prog_main (Some freed_prog) gl2
          = (Some freed_prog, gl2).
Proof.
  split; [reflexivity |].
  unfold Program.glx_load_prog_main.
  destruct (glx_create_program_from_str_calls drv vshader_str fshader_str gl)
    as (p & gl' & t & E & Hc & _ & _ & Hl & _).
  rewrite E. cbn [obind].
  destruct (Z.eqb_spec p 0) as [-> | Hne].
  - eexists false, _, gl', gl'. split; [reflexivity |].
    split; [simpl; split; [discriminate | intros H; contradiction] |].
    assert (Hdel : forall q, In (GL.LinkProgram q) (issued gl gl') ->
                             In (GL.DeleteProgram q) (issued gl gl')).
    { rewrite (issued_app _ _ _ Hc). intros q Hq.
      destruct (Hl q Hq) as [[_ H0] | Hd]; [contradiction | exact Hd]. }
    split; [intros _; simpl; auto |].
    split; [reflexivity |]. split; [exact Hdel | reflexivity].
  - unfold Shader.get_unifm_loc.
    eexists true, _, _, _. split; [reflexivity |].
    split; [simpl; split; [intros _; exact Hne | reflexivity] |].
    split; [discriminate |].
    split.
    { unfold Program.glx_free_prog_main. simpl.
      destruct (Z.eqb_spec p 0); [contradiction |]. reflexivity. }
    split; [| reflexivity].
    match goal with
    | |- forall q, In _ (issued gl ?g) -> _ =>
        assert (Hc2 : GL.calls g
                      = GL.calls gl
                        ++ (t ++ [ GL.GetUniformLocation p;
                                   GL.GetUniformLocation p;
                                   GL.GetUniformLocation p;
                                   GL.DeleteProgram p ]))
    end.
    { simpl. rewrite Hc, <- !app_assoc. reflexivity. }
    rewrite (issued_app _ _ _ Hc2). intros q. rewrite !in_app_iff.
    intros [Hq | Hq].
    + destruct (Hl q Hq) as [[-> _] | Hd]; [right; simpl; tauto | left; exact Hd].
    + simpl in Hq. intuition discriminate.
Qed.

(** ** Blur initialisation: what a success has built *)

Section InitFacts.

Import Shader.

Variable XFIXED_TO_DOUBLE : Z -> Q.
Variable printf_g7 : Q -> string.
Variable MAX_BLUR_PASS : Z.
Variable drv : GL.driver.

(** A pass that has been built: both its shader and its program exist. *)
Lemma conv_pass_built (ps ps' : session_t) (i : Z) (kern : kernel)
    (gl gl' : GL.state) :
  conv_pass XFIXED_TO_DOUBLE printf_g7 drv ps i kern gl = Returned (inr (ps', gl')) ->
  0 <= i
  /\ (Z.to_nat i < length (blur_passes ps))%nat
  /\ exists p,
       blur_passes ps' = <[Z.to_nat i := p]> (blur_passes ps)
       /\ prog p <> 0 /\ frag_shader p <> 0.
Proof.
  unfold conv_pass. intros H.
  bind_inv H as ppass Hp. apply c_index_Returned in Hp. destruct Hp as [Hi Hp].
  bind_inv H as src Hsrc.
  destruct (glx_create_shader drv GL.GL_FRAGMENT_SHADER src gl) as [fs g1].
  destruct (Z.eqb_spec fs 0) as [| Hfs]; [discriminate H |].
  destruct (glx_create_program drv [fs] g1) as [pr g2].
  destruct (Z.eqb_spec pr 0) as [| Hpr]; [discriminate H |].
  split; [exact Hi |]. split; [eapply lookup_lt_Some; exact Hp |].
  unfold get_unifm_loc in H.
  destruct (negb (glx_use_gpushader4 ps)); injection H as <- _;
    eexists; (split; [reflexivity |]); simpl; auto.
Qed.

Lemma kawase_pass_built (ps ps' : session_t) (i : Z) (body : CString.format)
    (gl gl' : GL.state) :
  kawase_pass printf_g7 drv ps i body gl = Returned (inr (ps', gl')) ->
  0 <= i
  /\ (Z.to_nat i < length (blur_passes ps))%nat
  /\ exists p,
       blur_passes ps' = <[Z.to_nat i := p]> (blur_passes ps)
       /\ prog p <> 0 /\ frag_shader p <> 0.
Proof.
  unfold kawase_pass. intros H.
  bind_inv H as ppass Hp. apply c_index_Returned in Hp. destruct Hp as [Hi Hp].
  bind_inv H as src Hsrc.
  destruct (glx_create_shader drv GL.GL_FRAGMENT_SHADER src gl) as [fs g1].
  destruct (Z.eqb_spec fs 0) as [| Hfs]; [discriminate H |].
  destruct (glx_create_program drv [fs] g1) as [pr g2].
  destruct (Z.eqb_spec pr 0) as [| Hpr]; [discriminate H |].
  split; [exact Hi |]. split; [eapply lookup_lt_Some; exact Hp |].
  unfold get_unifm_loc in H. injection H as <- _.
  eexists. split; [reflexivity |]. simpl. auto.
Qed.

(** The loop over the kernels builds one pass for each kernel of the
    leading run of configured kernels, and leaves the passes below its
    starting index alone. *)
Lemma conv_passes_built (kerns : list (option kernel)) :
  forall (ps ps' : session_t) (i : Z) (gl gl' : GL.state),
    0 <= i ->
    conv_passes XFIXED_TO_DOUBLE printf_g7 MAX_BLUR_PASS drv ps i kerns gl
    = Returned (true, ps', gl') ->
    (forall j, (j < Z.to_nat i)%nat ->
               blur_passes ps' !! j = blur_passes ps !! j)
    /\ forall n : nat,
         i + Z.of_nat n <= MAX_BLUR_PASS ->
         (forall k, (k < n)%nat -> exists kern, kerns !! k = Some (Some kern)) ->
         forall k, (k < n)%nat ->
           exists p, blur_passes ps' !! (Z.to_nat i + k)%nat = Some p
                     /\ prog p <> 0 /\ frag_shader p <> 0.
Proof.
  induction kerns as [| o rest IH]; intros ps ps' i gl gl' Hi H.
  - simpl in H. destruct (negb (i <? MAX_BLUR_PASS)) eqn:Ei; [| discriminate H].
    injection H as <- _. split; [reflexivity |].
    intros n Hn Hk k Hlt. destruct (Hk k Hlt) as [kern Hkern].
    rewrite lookup_nil in Hkern. discriminate Hkern.
  - cbn [conv_passes] in H.
    destruct (Z.ltb_spec i MAX_BLUR_PASS) as [Hlt | Hge]; cbn [negb] in H.
    2: { injection H as <- _. split; [reflexivity |]. intros n Hn Hk k Hk'. lia. }
    destruct o as [kern |].
    2: { injection H as <- _. split; [reflexivity |].
         intros n Hn Hk k Hk'.
         destruct (Hk 0%nat ltac:(lia)) as [kern Hkern]. discriminate Hkern. }
    bind_inv H as r Hr. destruct r as [[ps1 g1] | [ps1 g1]]; [discriminate H |].
    apply conv_pass_built in Hr. destruct Hr as (_ & Hlen & p & Hp & Hprog & Hfs).
    destruct (IH ps1 ps' (i + 1) g1 gl' ltac:(lia) H) as [Hkeep Hbuilt].
    split.
    + intros j Hj. rewrite Hkeep by lia. rewrite Hp.
      apply list_lookup_insert_ne. lia.
    + intros n Hn Hk k Hk'. destruct k as [| k].
      * exists p. rewrite Nat.add_0_r, Hkeep by lia. rewrite Hp.
        split; [apply list_lookup_insert_eq; exact Hlen | auto].
      * destruct (Hbuilt (n - 1)%nat ltac:(lia)
                    (fun k' Hk'' => Hk (S k') ltac:(lia)) k ltac:(lia))
          as (q & Hq & Hq').
        exists q. split; [| exact Hq'].
        replace (Z.to_nat i + S k)%nat with (Z.to_nat (i + 1) + k)%nat by lia.
        exact Hq.
Qed.

End InitFacts.

(** X15: when [glx_init_conv_blur] returns success, a pass has been built
    (shader and program both present) for every kernel of the leading run
    of configured kernels, up to [MAX_BLUR_PASS] of them; with
    [MAX_BLUR_PASS] at least 1 the first pass is always among them, which
    is what [glx_blur_dst] asserts. *)
Theorem glx_init_conv_blur_builds_passes
    (XFIXED_TO_DOUBLE : Z -> Q) (printf_g7 : Q -> string) (MAX_BLUR_PASS : Z) (drv : GL.driver)
    (ps ps' : Shader.session_t) (gl gl' : GL.state) :
  Shader.glx_init_conv_blur XFIXED_TO_DOUBLE printf_g7 MAX_BLUR_PASS drv ps gl
  = Returned (true, ps', gl') ->
  (forall n : nat,
     Z.of_nat n <= MAX_BLUR_PASS ->
     (forall k, (k < n)%nat ->
                exists kern, Shader.blur_kerns ps !! k = Some (Some kern)) ->
     forall k, (k < n)%nat ->
       exists p, Shader.blur_passes ps' !! k = Some p
                 /\ Shader.prog p <> 0 /\ Shader.frag_shader p <> 0)
  /\ (1 <= MAX_BLUR_PASS ->
      exists p0, Shader.blur_passes ps' !! 0%nat = Some p0
                 /\ Shader.prog p0 <> 0).
Proof.
  unfold Shader.glx_init_conv_blur. intros H.
  bind_inv H as k0 Hk0. apply c_index_Returned in Hk0. destruct Hk0 as [_ Hk0].
  bind_inv H as u Hu. apply c_assert_Returned in Hu.
  apply bool_decide_eq_true in Hu.
  bind_inv H as k1 Hk1. bind_inv H as r Hr.
  destruct r as [g | g]; [discriminate H |].
  apply conv_passes_built in H; [| lia]. destruct H as [_ Hbuilt].
  assert (Hall : forall n : nat,
             Z.of_nat n <= MAX_BLUR_PASS ->
             (forall k, (k < n)%nat ->
                        exists kern, Shader.blur_kerns ps !! k = Some (Some kern)) ->
             forall k, (k < n)%nat ->
               exists p, Shader.blur_passes ps' !! k = Some p
                         /\ Shader.prog p <> 0 /\ Shader.frag_shader p <> 0).
  { intros n Hn Hk k Hlt.
    destruct (Hbuilt n ltac:(lia) Hk k Hlt) as (p & Hp & Hp').
    exists p. split; [exact Hp | exact Hp']. }
  split; [exact Hall |].
  intros Hmax. destruct k0 as [kern |]; [| contradiction].
  destruct (Hall 1%nat ltac:(lia)) with (k := 0%nat) as (p & Hp & Hprog & _);
    [| lia | eauto].
  intros k Hk. exists kern. replace k with 0%nat by lia. exact Hk0.
Qed.

(** X15 on the two-kernel session: both passes are built. *)
Lemma glx_init_conv_blur_builds_passes_witness :
  exists ps' gl' p0 p1,
    Shader.glx_init_conv_blur fixed_16_16 g7_whole 5 good_driver two_pass_session gl_init
    = Returned (true, ps', gl')
    /\ Shader.blur_passes ps' !! 0%nat = Some p0 /\ Shader.prog p0 <> 0
    /\ Shader.blur_passes ps' !! 1%nat = Some p1 /\ Shader.prog p1 <> 0.
Proof.
  destruct (Shader.glx_init_conv_blur fixed_16_16 g7_whole 5 good_driver two_pass_session
              gl_init) as [[[r ps'] gl'] | |] eqn:E;
    try (vm_compute in E; discriminate E).
  assert (Hr : r = true) by (vm_compute in E; congruence).
  subst r.
  destruct (glx_init_conv_blur_builds_passes fixed_16_16 g7_whole 5 good_driver
              two_pass_session ps' gl_init gl' E) as [Hall _].
  assert (Hk : forall k, (k < 2)%nat ->
                 exists kern,
                   Shader.blur_kerns two_pass_session !! k = Some (Some kern)).
  { intros [| [| k]] Hk; [eexists; reflexivity .. | lia]. }
  destruct (Hall 2%nat ltac:(lia) Hk 0%nat ltac:(lia)) as (p0 & H0 & P0 & _).
  destruct (Hall 2%nat ltac:(lia) Hk 1%nat ltac:(lia)) as (p1 & H1 & P1 & _).
  exists ps', gl', p0, p1. auto.
Defined.

(** X16: [glx_init_kawase_blur] returns failure, having issued nothing
    but the failed [glGenFramebuffers], when no framebuffer object can be
    generated; and when it returns success the downsample pass (slot 0)
    and the upsample pass (slot 1) are both built. *)
Theorem glx_init_kawase_blur_builds_passes
    (printf_g7 : Q -> string) (drv : GL.driver) (ps : Shader.session_t)
    (gl : GL.state) :
  (GL.glGenFramebuffers drv (GL.now gl) = 0 ->
   Shader.glx_init_kawase_blur printf_g7 drv ps gl
   = Returned (false, ps, GL.issue GL.GenFramebuffers gl))
  /\ forall ps' gl',
       Shader.glx_init_kawase_blur printf_g7 drv ps gl = Returned (true, ps', gl') ->
       exists p0 p1,
         Shader.blur_passes ps' !! 0%nat = Some p0
         /\ Shader.blur_passes ps' !! 1%nat = Some p1
         /\ Shader.prog p0 <> 0 /\ Shader.frag_shader p0 <> 0
         /\ Shader.prog p1 <> 0 /\ Shader.frag_shader p1 <> 0.
Proof.
  unfold Shader.glx_init_kawase_blur. split.
  - intros ->. reflexivity.
  - intros ps' gl' H.
    destruct (GL.glGenFramebuffers drv (GL.now gl) =? 0); [discriminate H |].
    bind_inv H as down Hdown.
    destruct down as [[ps1 g1] | [ps1 g1]]; [discriminate H |].
    bind_inv H as up Hup.
    destruct up as [[ps2 g2] | [ps2 g2]]; [discriminate H |].
    injection H as <- _.
    apply kawase_pass_built in Hdown.
    destruct Hdown as (_ & L0 & p0 & E0 & P0 & F0).
    apply kawase_pass_built in Hup.
    destruct Hup as (_ & L1 & p1 & E1 & P1 & F1).
    exists p0, p1. rewrite E1, E0. simpl.
    rewrite E0, length_insert in L1. simpl in L0, L1.
    split; [| split; [| auto]].
    + rewrite list_lookup_insert_ne by lia.
      apply list_lookup_insert_eq. exact L0.
    + apply list_lookup_insert_eq. rewrite length_insert. exact L1.
Qed.

(** ** The blur operations: what they hand back *)

Section BlurEnd.

Variable MAX_BLUR_PASS : Z.
Variable drv : GL.driver.

Lemma enabled_free_glx_bc (pbc : Blur.glx_blur_cache_t) (gl : GL.state) :
  GL.enabled (Blur.free_glx_bc pbc gl).2 = GL.enabled gl.
Proof.
  unfold Blur.free_glx_bc, Blur.free_glx_bc_resize. simpl.
  assert (Hfold : forall (l : list Z) (g : GL.state),
             GL.enabled
               (fold_left (fun g t => if t =? 0 then g
                                      else GL.issue (GL.DeleteTextures t) g) l g)
             = GL.enabled g).
  { induction l as [| t l IH]; intros g; simpl; [reflexivity |].
    rewrite IH. destruct (t =? 0); reflexivity. }
  rewrite Hfold. destruct (Blur.fbo pbc =? 0); reflexivity.
Qed.

(** The code after the end labels: the flag, the cache handed back and
    the texture target. *)
Lemma blur_dst_end_result (tgt : GL.GLenum) (hs hst own ret : bool)
    (pbc : Blur.glx_blur_cache_t) (gl : GL.state) :
  is_tex_tgt tgt ->
  (Blur.blur_dst_end tgt hs hst own ret pbc gl).1
  = (ret, if own then None else Some pbc)
  /\ GL.glIsEnabled tgt (Blur.blur_dst_end tgt hs hst own ret pbc gl).2 = false.
Proof.
  intros Htgt. unfold Blur.blur_dst_end.
  set (g := Blur.reenable_tests hs hst _).
  assert (Hg : GL.glIsEnabled tgt g = false).
  { subst g. unfold Blur.reenable_tests.
    destruct hs, hst; rewrite ?glIsEnabled_glEnable, glIsEnabled_glDisable,
      Z.eqb_refl; destruct Htgt as [-> | ->]; reflexivity. }
  destruct own.
  - pose proof (enabled_free_glx_bc pbc g) as He.
    destruct (Blur.free_glx_bc pbc g) as [c g']. simpl in *.
    split; [reflexivity |]. unfold GL.glIsEnabled in *. rewrite He. exact Hg.
  - simpl. split; [reflexivity | exact Hg].
Qed.

Lemma conv_loop_all_built (dx dy w h : Z) (tgt : GL.GLenum) (hs hst : bool)
    (fbo : Z) (rest : list Shader.glx_blur_pass_t) :
  Forall (fun p => Shader.prog p <> 0) rest ->
  forall (i : Z) (ppass : Shader.glx_blur_pass_t) (t1 t2 : Z)
         (gl gl' : GL.state) (ret : bool),
    Blur.conv_loop MAX_BLUR_PASS drv dx dy w h tgt hs hst fbo i ppass rest
      t1 t2 gl = Returned (ret, gl') ->
    ret = false.
Proof.
  induction 1 as [| next rest Hnext Hrest IH]; intros i ppass t1 t2 gl gl' ret E;
    cbn [Blur.conv_loop] in E; [discriminate E |].
  do 3 invert_bind E.
  destruct (Z.eqb_spec (Shader.prog next) 0) as [| _]; [contradiction |].
  cbn [negb] in E.
  destruct (negb (GL.glCheckFramebufferStatus drv _ =? GL.GL_FRAMEBUFFER_COMPLETE)).
  - injection E as <- _. reflexivity.
  - eapply IH. exact E.
Qed.

(** Every return of [glx_conv_blur_dst] goes through the end label, with
    a cache of the requested size; a success comes out of the pass
    loop. *)
Lemma glx_conv_blur_dst_via_end (ps : Blur.session_t) (dx dy w h : Z)
    (pbc : option Blur.glx_blur_cache_t) (gl : GL.state)
    (r : bool * option Blur.glx_blur_cache_t * GL.state) :
  Blur.glx_conv_blur_dst MAX_BLUR_PASS drv ps dx dy w h pbc gl = Returned r ->
  exists (ret : bool) (p : Blur.glx_blur_cache_t) (g : GL.state),
    r = Blur.blur_dst_end (blur_tex_tgt ps)
          (GL.glIsEnabled GL.GL_SCISSOR_TEST gl)
          (GL.glIsEnabled GL.GL_STENCIL_TEST gl)
          (bool_decide (pbc = None)) ret p g
    /\ Blur.width p = w /\ Blur.height p = h
    /\ (ret = true ->
        ~ Forall (fun q => Shader.prog q <> 0) (Blur.blur_passes ps)).
Proof.
  intros E. unfold Blur.glx_conv_blur_dst in E.
  fold (blur_tex_tgt ps) in E.
  set (hs := GL.glIsEnabled GL.GL_SCISSOR_TEST gl) in *.
  set (hst := GL.glIsEnabled GL.GL_STENCIL_TEST gl) in *.
  set (tgt := blur_tex_tgt ps) in *.
  clearbody hs hst tgt.
  bind_inv E as pass1 Epass1.
  match type of E with
  | context [if ?c then Blur.free_glx_bc_resize ?p ?g else _] =>
      destruct (if c then Blur.free_glx_bc_resize p g else (p, g))
        as [pbc1 gl1]
  end.
  bind_inv E as [pbc2 gl2] H2.
  bind_inv E as tex_scr Etex.
  bind_inv E as [pbc3 gl3] H3.
  bind_inv E as tex_scr2 Etex2.
  match type of E with
  | context [if ?c then (Blur.set_fbo ?p ?f, ?g') else _] =>
      destruct (if c then (Blur.set_fbo p f, g') else (p, gl3))
        as [pbc4 gl4] eqn:E4
  end.
  assert (Hsize : Blur.width pbc4 = w /\ Blur.height pbc4 = h).
  { destruct (_ && _) in E4; injection E4 as <- _; simpl; auto. }
  destruct Hsize as [Hw Hh].
  destruct ((tex_scr =? 0) || _).
  { injection E as <-. exists false, pbc4, gl4.
    split; [reflexivity |]. repeat split; auto. discriminate. }
  destruct (_ && (Blur.fbo pbc4 =? 0)).
  { injection E as <-. exists false, pbc4, gl4.
    split; [reflexivity |]. repeat split; auto. discriminate. }
  destruct (Blur.blur_passes ps) as [| pass0 rest] eqn:Eps; [discriminate |].
  bind_inv E as [ret gl5] E7.
  injection E as <-. exists ret, pbc4, gl5.
  split; [reflexivity |]. repeat split; auto.
  intros -> Hall. apply Forall_cons in Hall. destruct Hall as [_ Hall].
  apply (conv_loop_all_built _ _ _ _ _ _ _ _ _ Hall) in E7. discriminate E7.
Qed.

(** Every return of [glx_kawase_blur_dst] goes through the end label,
    with a cache of the requested size. *)
Lemma glx_kawase_blur_dst_via_end (ps : Blur.session_t) (dx dy w h : Z)
    (pbc : option Blur.glx_blur_cache_t) (gl : GL.state)
    (r : bool * option Blur.glx_blur_cache_t * GL.state) :
  Blur.glx_kawase_blur_dst MAX_BLUR_PASS drv ps dx dy w h pbc gl = Returned r ->
  exists (ret : bool) (p : Blur.glx_blur_cache_t) (g : GL.state),
    r = Blur.blur_dst_end (blur_tex_tgt ps)
          (GL.glIsEnabled GL.GL_SCISSOR_TEST gl)
          (GL.glIsEnabled GL.GL_STENCIL_TEST gl)
          (bool_decide (pbc = None)) ret p g
    /\ Blur.width p = w /\ Blur.height p = h.
Proof.
  intros E. unfold Blur.glx_kawase_blur_dst in E.
  fold (blur_tex_tgt ps) in E.
  set (hs := GL.glIsEnabled GL.GL_SCISSOR_TEST gl) in *.
  set (hst := GL.glIsEnabled GL.GL_STENCIL_TEST gl) in *.
  set (tgt := blur_tex_tgt ps) in *.
  clearbody hs hst tgt.
  match type of E with
  | context [if ?c then Blur.free_glx_bc_resize ?p ?g else _] =>
      destruct (if c then Blur.free_glx_bc_resize p g else (p, g))
        as [pbc1 gl1]
  end.
  bind_inv E as [pbc2 gl2] H2.
  bind_inv E as tex_scr Etex.
  bind_inv E as iters Eiters.
  bind_inv E as u Eassert.
  bind_inv E as [pbc3 gl3] H3.
  match type of E with
  | context [if ?c then (Blur.set_fbo ?p ?f, ?g') else _] =>
      destruct (if c then (Blur.set_fbo p f, g') else (p, gl3))
        as [pbc4 gl4] eqn:E4
  end.
  assert (Hsize : Blur.width pbc4 = w /\ Blur.height pbc4 = h).
  { destruct (_ =? 0) in E4; injection E4 as <- _; simpl; auto. }
  assert (Hend : forall ret g,
             Returned (Blur.blur_dst_end tgt hs hst (bool_decide (pbc = None))
                         ret pbc4 g) = Returned r ->
             exists (ret : bool) (p : Blur.glx_blur_cache_t) (g : GL.state),
               r = Blur.blur_dst_end tgt hs hst (bool_decide (pbc = None)) ret p g
               /\ Blur.width p = w /\ Blur.height p = h).
  { intros ret g [= <-]. exists ret, pbc4, g. split; [reflexivity | exact Hsize]. }
  destruct (tex_scr =? 0); [exact (Hend _ _ E) |].
  bind_inv E as ok0 Eok0.
  destruct (negb ok0); [exact (Hend _ _ E) |].
  destruct (Blur.fbo pbc4 =? 0); [exact (Hend _ _ E) |].
  bind_inv E as [ok gl5] E8.
  destruct (negb ok); [exact (Hend _ _ E) |].
  bind_inv E as [ok' gl6] E9.
  destruct (negb ok'); exact (Hend _ _ E).
Qed.

End BlurEnd.

(** X17: [glx_blur_dst] stops on [assert(blur_passes[0].prog)] when the
    first pass has no program; with a first pass built and a blur method
    it does not know it returns failure and touches neither cache nor
    context; and whenever it returns, the first pass had a program and
    the scissor and stencil tests are enabled exactly when they were on
    entry. *)
Theorem glx_blur_dst_contract
    (MAX_BLUR_PASS : Z) (drv : GL.driver) (blur_method : Shader.blur_method_t)
    (ps : Blur.session_t) (dx dy width height : Z)
    (pbc : option Blur.glx_blur_cache_t) (gl : GL.state) :
  (forall pass0,
     Blur.blur_passes ps !! 0%nat = Some pass0 -> Shader.prog pass0 = 0 ->
     BlurDst.glx_blur_dst MAX_BLUR_PASS drv blur_method ps dx dy width height
       pbc gl = Aborted)
  /\ (forall pass0,
        Blur.blur_passes ps !! 0%nat = Some pass0 -> Shader.prog pass0 <> 0 ->
        blur_method = Shader.BLRMTHD_other ->
        BlurDst.glx_blur_dst MAX_BLUR_PASS drv blur_method ps dx dy width height
          pbc gl = Returned (false, pbc, gl))
  /\ (forall ret pbc' gl',
        BlurDst.glx_blur_dst MAX_BLUR_PASS drv blur_method ps dx dy width height
          pbc gl = Returned (ret, pbc', gl') ->
        (exists pass0, Blur.blur_passes ps !! 0%nat = Some pass0
                       /\ Shader.prog pass0 <> 0)
        /\ GL.glIsEnabled GL.GL_SCISSOR_TEST gl'
           = GL.glIsEnabled GL.GL_SCISSOR_TEST gl
        /\ GL.glIsEnabled GL.GL_STENCIL_TEST gl'
           = GL.glIsEnabled GL.GL_STENCIL_TEST gl).
Proof.
  unfold BlurDst.glx_blur_dst. split; [| split].
  - intros pass0 H0 Hp. rewrite (c_index_lookup _ 0 _ ltac:(lia) H0).
    simpl. rewrite Hp. reflexivity.
  - intros pass0 H0 Hp ->. rewrite (c_index_lookup _ 0 _ ltac:(lia) H0).
    simpl. destruct (Z.eqb_spec (Shader.prog pass0) 0); [contradiction |].
    reflexivity.
  - intros ret pbc' gl' H.
    bind_inv H as pass0 H0. apply c_index_Returned in H0. destruct H0 as [_ H0].
    bind_inv H as u Hu. apply c_assert_Returned in Hu.
    split.
    { exists pass0. split; [exact H0 |].
      destruct (Z.eqb_spec (Shader.prog pass0) 0); [discriminate Hu | assumption]. }
    destruct blur_method.
    + exact (glx_conv_blur_dst_restores _ _ _ _ _ _ _ _ _ _ _ _ H).
    + exact (glx_kawase_blur_dst_restores _ _ _ _ _ _ _ _ _ _ _ _ H).
    + injection H as _ _ <-. split; reflexivity.
Qed.

(** X17 on [blur_session] with the scissor test on: the convolution
    method returns success with the scissor test on again, and the same
    session with an empty first pass stops on the assertion. *)
Lemma glx_blur_dst_contract_witness :
  (exists gl',
      BlurDst.glx_blur_dst 5 good_driver Shader.BLRMTHD_CONV blur_session
        10 10 100 20 None gl_scissor = Returned (true, None, gl')
      /\ GL.glIsEnabled GL.GL_SCISSOR_TEST gl' = true)
  /\ BlurDst.glx_blur_dst 5 good_driver Shader.BLRMTHD_CONV
       unbuilt_blur_session 10 10 100 20 None gl_scissor = Aborted.
Proof.
  split.
  - eexists. split; [vm_compute; reflexivity |].
    refine (proj1 (proj2 (proj2 (proj2 (glx_blur_dst_contract 5 good_driver
              Shader.BLRMTHD_CONV blur_session 10 10 100 20 None gl_scissor))
              true None _ _))).
    vm_compute. reflexivity.
  - refine (proj1 (glx_blur_dst_contract 5 good_driver Shader.BLRMTHD_CONV
                     unbuilt_blur_session 10 10 100 20 None gl_scissor)
              empty_pass eq_refl eq_refl).
Defined.

(** X18: whenever [glx_conv_blur_dst] or [glx_kawase_blur_dst] returns,
    the texture target it worked with is disabled; a call without cache
    hands no cache back (its own is freed), and a call with the caller's
    cache hands back a cache that records the size of the blurred
    rectangle, on failure as on success. *)
Theorem blur_dst_hands_back
    (MAX_BLUR_PASS : Z) (drv : GL.driver) (ps : Blur.session_t)
    (dx dy width height : Z) (pbc pbc' : option Blur.glx_blur_cache_t)
    (gl gl' : GL.state) (ret : bool) :
  Blur.glx_conv_blur_dst MAX_BLUR_PASS drv ps dx dy width height pbc gl
  = Returned (ret, pbc', gl')
  \/ Blur.glx_kawase_blur_dst MAX_BLUR_PASS drv ps dx dy width height pbc gl
     = Returned (ret, pbc', gl') ->
  GL.glIsEnabled (blur_tex_tgt ps) gl' = false
  /\ (pbc = None -> pbc' = None)
  /\ (pbc <> None ->
      exists c', pbc' = Some c'
                 /\ Blur.width c' = width /\ Blur.height c' = height).
Proof.
  intros E.
  assert (Hvia : exists (r : bool) (p : Blur.glx_blur_cache_t) (g : GL.state),
             (ret, pbc', gl')
             = Blur.blur_dst_end (blur_tex_tgt ps)
                 (GL.glIsEnabled GL.GL_SCISSOR_TEST gl)
                 (GL.glIsEnabled GL.GL_STENCIL_TEST gl)
                 (bool_decide (pbc = None)) r p g
             /\ Blur.width p = width /\ Blur.height p = height).
  { destruct E as [E | E].
    - apply glx_conv_blur_dst_via_end in E.
      destruct E as (r & p & g & Hr & Hw & Hh & _). eauto 6.
    - apply glx_kawase_blur_dst_via_end in E. exact E. }
  destruct Hvia as (r & p & g & Hr & Hw & Hh).
  destruct (blur_dst_end_result (blur_tex_tgt ps)
              (GL.glIsEnabled GL.GL_SCISSOR_TEST gl)
              (GL.glIsEnabled GL.GL_STENCIL_TEST gl)
              (bool_decide (pbc = None)) r p g
              (tex_tgt_is_tex_tgt _)) as [H1 H2].
  rewrite <- Hr in H1, H2. simpl in H1, H2. injection H1 as _ Hc.
  split; [exact H2 |]. split.
  - intros Hn. rewrite bool_decide_eq_true_2 in Hc by exact Hn. exact Hc.
  - intros Hn. rewrite bool_decide_eq_false_2 in Hc by exact Hn.
    exists p. auto.
Qed.

(** X18 on [blur_session] with a caller's cache of another size: the
    kawase blur of a 100 x 20 rectangle hands the cache back resized. *)
Lemma blur_dst_hands_back_witness :
  exists ret c' gl',
    Blur.glx_kawase_blur_dst 5 good_driver blur_session 10 10 100 20
      (Some {| Blur.fbo := 0; Blur.textures := [0; 0; 0; 0; 0];
               Blur.width := 64; Blur.height := 64 |}) gl_scissor
    = Returned (ret, Some c', gl')
    /\ Blur.width c' = 100 /\ Blur.height c' = 20.
Proof.
  destruct (Blur.glx_kawase_blur_dst 5 good_driver blur_session 10 10 100 20
              (Some {| Blur.fbo := 0; Blur.textures := [0; 0; 0; 0; 0];
                       Blur.width := 64; Blur.height := 64 |}) gl_scissor)
    as [[[ret o] g] | |] eqn:E; try (vm_compute in E; discriminate E).
  destruct (blur_dst_hands_back 5 good_driver blur_session 10 10 100 20 _ o
              gl_scissor g ret (or_intror E)) as (_ & _ & Hc).
  destruct (Hc ltac:(discriminate)) as (c' & -> & Hw & Hh).
  exists ret, c', g. auto.
Defined.

(** X19: when every slot of [blur_passes] holds a program,
    [glx_conv_blur_dst] never returns success: the pass loop looks for
    the first slot without program to find its last pass, and runs past
    the end of the array when there is none. *)
Theorem glx_conv_blur_dst_all_passes_built
    (MAX_BLUR_PASS : Z) (drv : GL.driver) (ps : Blur.session_t)
    (dx dy width height : Z) (pbc pbc' : option Blur.glx_blur_cache_t)
    (gl gl' : GL.state) (ret : bool) :
  Forall (fun p => Shader.prog p <> 0) (Blur.blur_passes ps) ->
  Blur.glx_conv_blur_dst MAX_BLUR_PASS drv ps dx dy width height pbc gl
  = Returned (ret, pbc', gl') ->
  ret = false.
Proof.
  intros Hall E. apply glx_conv_blur_dst_via_end in E.
  destruct E as (r & p & g & Hr & _ & _ & Hsucc).
  destruct (blur_dst_end_result (blur_tex_tgt ps)
              (GL.glIsEnabled GL.GL_SCISSOR_TEST gl)
              (GL.glIsEnabled GL.GL_STENCIL_TEST gl)
              (bool_decide (pbc = None)) r p g
              (tex_tgt_is_tex_tgt _)) as [H1 _].
  rewrite <- Hr in H1. simpl in H1. injection H1 as -> _.
  destruct r; [| reflexivity]. destruct (Hsucc eq_refl Hall).
Qed.

(** X19 on a session with five built passes: on a driver whose
    framebuffers are never complete the call returns, with failure; on a
    working driver it runs past the array. *)
Lemma glx_conv_blur_dst_all_passes_built_witness :
  (exists pbc' gl',
      Blur.glx_conv_blur_dst 5 incomplete_fbo_driver full_blur_session
        10 10 100 20 None gl_scissor = Returned (false, pbc', gl'))
  /\ Blur.glx_conv_blur_dst 5 good_driver full_blur_session
       10 10 100 20 None gl_scissor = Undefined.
Proof.
  split; [| vm_compute; reflexivity].
  destruct (Blur.glx_conv_blur_dst 5 incomplete_fbo_driver full_blur_session
              10 10 100 20 None gl_scissor) as [[[ret o] g] | |] eqn:E;
    try (vm_compute in E; discriminate E).
  rewrite (glx_conv_blur_dst_all_passes_built 5 incomplete_fbo_driver
             full_blur_session 10 10 100 20 None o gl_scissor g ret
             ltac:(repeat constructor; discriminate) E).
  eauto.
Defined.

(** X20: [glx_kawase_blur_dst] stops on [assert(iterations < MAX_BLUR_PASS)]
    when the number of pyramid levels, after it has been reduced to what
    the rectangle allows, is still [MAX_BLUR_PASS] or more; the cache
    only has to have a first texture slot. *)
Theorem glx_kawase_blur_dst_too_many_levels
    (MAX_BLUR_PASS : Z) (drv : GL.driver) (ps : Blur.session_t)
    (dx dy width height : Z) (pbc : option Blur.glx_blur_cache_t)
    (gl : GL.state) (i : Z) :
  1 <= MAX_BLUR_PASS ->
  (forall c, pbc = Some c -> Blur.textures c <> []) ->
  Blur.kawase_iterations width height (Blur.iterations ps) = Returned i ->
  MAX_BLUR_PASS <= i ->
  Blur.glx_kawase_blur_dst MAX_BLUR_PASS drv ps dx dy width height pbc gl
  = Aborted.
Proof.
  intros Hmax Hpbc Hit Hi. unfold Blur.glx_kawase_blur_dst.
  set (ibc := {| Blur.fbo := 0;
                 Blur.textures := replicate (Z.to_nat MAX_BLUR_PASS) 0;
                 Blur.width := 0; Blur.height := 0 |}).
  assert (H0 : exists t, Blur.textures (default ibc pbc) !! 0%nat = Some t).
  { destruct pbc as [c |]; simpl.
    - specialize (Hpbc c eq_refl). destruct (Blur.textures c) as [| t l];
        [contradiction | eauto].
    - exists 0. apply lookup_replicate. split; [reflexivity | lia]. }
  match goal with
  | |- context [if ?c then Blur.free_glx_bc_resize ?p ?g else _] =>
      assert (H1 : exists t,
                 Blur.textures (if c then Blur.free_glx_bc_resize p g
                                else (p, g)).1 !! 0%nat = Some t);
      [| destruct (if c then Blur.free_glx_bc_resize p g else (p, g))
           as [pbc1 gl1]]
  end.
  { destruct (_ || _); [| exact H0]. simpl. destruct H0 as [t Ht].
    exists 0. rewrite list_lookup_fmap, Ht. reflexivity. }
  simpl in H1. destruct H1 as [t1 Ht1].
  unfold Blur.ensure_texture.
  rewrite (c_index_lookup _ 0 _ ltac:(lia) Ht1). cbn [obind].
  assert (Hstore : forall tex,
             Blur.store_texture pbc1 0 tex
             = Returned (Blur.set_textures pbc1
                           (<[0%nat := tex]> (Blur.textures pbc1)))).
  { intros tex. unfold Blur.store_texture.
    rewrite (c_index_lookup _ 0 _ ltac:(lia) Ht1). reflexivity. }
  assert (Hafter : forall tex,
             exists t, <[0%nat := tex]> (Blur.textures pbc1) !! 0%nat = Some t).
  { intros tex. exists tex. apply list_lookup_insert_eq.
    eapply lookup_lt_Some. exact Ht1. }
  destruct (t1 =? 0).
  - destruct (Blur.glx_gen_texture drv _ width height gl1) as [tex g].
    rewrite Hstore. cbn [obind]. destruct (Hafter tex) as [t Ht].
    simpl. rewrite (c_index_lookup _ 0 _ ltac:(lia) Ht). cbn [obind].
    rewrite Hit. cbn [obind].
    destruct (Z.ltb_spec i MAX_BLUR_PASS); [lia | reflexivity].
  - cbn [obind]. rewrite (c_index_lookup _ 0 _ ltac:(lia) Ht1). cbn [obind].
    rewrite Hit. cbn [obind].
    destruct (Z.ltb_spec i MAX_BLUR_PASS); [lia | reflexivity].
Qed.

(** X20 on a session that asks for 8 levels: for a 100 x 20 rectangle the
    loop stops at 5 levels, which [MAX_BLUR_PASS = 5] does not admit. *)
Lemma glx_kawase_blur_dst_too_many_levels_witness :
  Blur.glx_kawase_blur_dst 5 good_driver deep_blur_session 10 10 100 20
    None gl_scissor = Aborted.
Proof.
  apply (glx_kawase_blur_dst_too_many_levels 5 good_driver deep_blur_session
           10 10 100 20 None gl_scissor 5);
    [lia | discriminate | reflexivity | lia].
Defined.

(** ** Painting *)

Section PaintFacts.

Import Paint.

Lemma paint_glIsEnabled_issue (cap : GL.GLenum) (c : call) (st : state) :
  glIsEnabled cap (issue c st) = glIsEnabled cap st.
Proof. reflexivity. Qed.

Lemma paint_glIsEnabled_active (cap texture : GL.GLenum) (st : state) :
  glIsEnabled cap (glActiveTexture texture st) = glIsEnabled cap st.
Proof. reflexivity. Qed.

Lemma paint_glIsEnabled_iter (cap : GL.GLenum) (c : call) (n : nat) (st : state) :
  glIsEnabled cap (Nat.iter n (issue c) st) = glIsEnabled cap st.
Proof. induction n as [| n IH]; simpl; [reflexivity | exact IH]. Qed.

Lemma paint_active_iter (c : call) (n : nat) (st : state) :
  active_texture (Nat.iter n (issue c) st) = active_texture st.
Proof. induction n as [| n IH]; simpl; [reflexivity | exact IH]. Qed.

Lemma paint_glIsEnabled_glEnable (cap cap' : GL.GLenum) (st : state) :
  glIsEnabled cap (glEnable cap' st) = (cap =? cap') || glIsEnabled cap st.
Proof.
  unfold glIsEnabled, glEnable. simpl.
  destruct (Z.eqb_spec cap cap') as [-> | Hne]; simpl.
  - apply bool_decide_eq_true. apply elem_of_union. left.
    apply elem_of_singleton. reflexivity.
  - apply bool_decide_ext. rewrite elem_of_union, elem_of_singleton. tauto.
Qed.

Lemma paint_glIsEnabled_glDisable (cap cap' : GL.GLenum) (st : state) :
  glIsEnabled cap (glDisable cap' st) = negb (cap =? cap') && glIsEnabled cap st.
Proof.
  unfold glIsEnabled, glDisable. simpl.
  destruct (Z.eqb_spec cap cap') as [-> | Hne]; simpl.
  - apply bool_decide_eq_false. rewrite elem_of_difference, elem_of_singleton.
    tauto.
  - apply bool_decide_ext. rewrite elem_of_difference, elem_of_singleton.
    tauto.
Qed.

Lemma paint_glEnable_other (cap cap' : GL.GLenum) (st : state) :
  cap <> cap' -> glIsEnabled cap (glEnable cap' st) = glIsEnabled cap st.
Proof.
  intros Hne. rewrite paint_glIsEnabled_glEnable.
  destruct (Z.eqb_spec cap cap'); [contradiction | reflexivity].
Qed.

Lemma paint_glDisable_other (cap cap' : GL.GLenum) (st : state) :
  cap <> cap' -> glIsEnabled cap (glDisable cap' st) = glIsEnabled cap st.
Proof.
  intros Hne. rewrite paint_glIsEnabled_glDisable.
  destruct (Z.eqb_spec cap cap'); [contradiction | reflexivity].
Qed.

Lemma paint_glDisable_off (cap cap' : GL.GLenum) (st : state) :
  cap = cap' \/ glIsEnabled cap st = false ->
  glIsEnabled cap (glDisable cap' st) = false.
Proof.
  intros H. rewrite paint_glIsEnabled_glDisable.
  destruct H as [-> | ->]; [rewrite Z.eqb_refl; reflexivity | apply andb_false_r].
Qed.

Lemma paint_uniform1f_if (cap loc : Z) (st : state) :
  glIsEnabled cap (uniform1f_if loc st) = glIsEnabled cap st
  /\ active_texture (uniform1f_if loc st) = active_texture st.
Proof. unfold uniform1f_if. destruct (0 <=? loc); auto. Qed.

Lemma paint_uniform1i_if (cap loc v : Z) (st : state) :
  glIsEnabled cap (uniform1i_if loc v st) = glIsEnabled cap st
  /\ active_texture (uniform1i_if loc v st) = active_texture st.
Proof. unfold uniform1i_if. destruct (0 <=? loc); auto. Qed.

End PaintFacts.

(** X21: without stencil clipping ([glx_no_stencil]) [glx_set_clip]
    changes nothing, whatever the region. With it, whenever the call
    returns, the stencil test is off; the scissor test is on exactly when
    the region is a single rectangle, and then the last call issued sets
    the scissor box to that rectangle, its vertical position counted from
    the bottom of the screen; no other capability changes. The call
    returns unless one of the three differences overflows. *)
Theorem glx_set_clip_tests
    (ps : Paint.session_t) (reg : option (list Paint.rect_t))
    (st : Paint.state) :
  (Paint.glx_no_stencil ps = true -> Paint.glx_set_clip ps reg st = Returned st)
  /\ (forall st',
        Paint.glx_no_stencil ps = false ->
        Paint.glx_set_clip ps reg st = Returned st' ->
        Paint.glIsEnabled GL.GL_STENCIL_TEST st' = false
        /\ (Paint.glIsEnabled GL.GL_SCISSOR_TEST st' = true
            <-> exists r, reg = Some [r])
        /\ (forall r, reg = Some [r] ->
              last (Paint.calls st')
              = Some (Paint.Scissor (Paint.x1 r)
                        (Paint.root_height ps - Paint.y2 r)
                        (Paint.x2 r - Paint.x1 r) (Paint.y2 r - Paint.y1 r)))
        /\ forall cap, cap <> GL.GL_STENCIL_TEST -> cap <> GL.GL_SCISSOR_TEST ->
             Paint.glIsEnabled cap st' = Paint.glIsEnabled cap st)
  /\ (Paint.glx_no_stencil ps = false ->
      (forall r, reg = Some [r] ->
         CInt.in_int (Paint.root_height ps - Paint.y2 r) = true
         /\ CInt.in_int (Paint.x2 r - Paint.x1 r) = true
         /\ CInt.in_int (Paint.y2 r - Paint.y1 r) = true) ->
      exists st', Paint.glx_set_clip ps reg st = Returned st').
Proof.
  unfold Paint.glx_set_clip. split; [| split].
  - intros ->. reflexivity.
  - intros st' -> H.
    assert (Hoff : forall g,
               g = Paint.glDisable GL.GL_SCISSOR_TEST
                     (Paint.glDisable GL.GL_STENCIL_TEST st) ->
               Paint.glIsEnabled GL.GL_STENCIL_TEST g = false
               /\ Paint.glIsEnabled GL.GL_SCISSOR_TEST g = false
               /\ forall cap, cap <> GL.GL_STENCIL_TEST ->
                              cap <> GL.GL_SCISSOR_TEST ->
                    Paint.glIsEnabled cap g = Paint.glIsEnabled cap st).
    { intros g ->. split; [| split].
      - apply paint_glDisable_off. right. apply paint_glDisable_off. auto.
      - apply paint_glDisable_off. auto.
      - intros cap H1 H2. rewrite !paint_glDisable_other by assumption.
        reflexivity. }
    destruct reg as [rects |].
    2: { injection H as <-. destruct (Hoff _ eq_refl) as (H1 & H2 & H3).
         split; [exact H1 |]. split; [| split; [discriminate | exact H3]].
         rewrite H2. split; [discriminate | intros [r Hr]; discriminate Hr]. }
    destruct (Z.eqb_spec (Z.of_nat (length rects)) 1) as [Hone | Hmany].
    + destruct rects as [| r [| r' rects]]; simpl in Hone; try lia.
      change (c_index [r] 0) with (@Returned Paint.rect_t r) in H.
      cbn [obind] in H.
      bind_inv H as y Hy. bind_inv H as w Hw. bind_inv H as h Hh.
      unfold CInt.int_sub in Hy, Hw, Hh.
      apply int_checked_Returned in Hy, Hw, Hh. subst y w h.
      injection H as <-.
      destruct (Hoff _ eq_refl) as (H1 & H2 & H3).
      split; [| split; [| split]].
      * rewrite paint_glIsEnabled_issue, paint_glEnable_other by discriminate.
        exact H1.
      * rewrite paint_glIsEnabled_issue, paint_glIsEnabled_glEnable, Z.eqb_refl.
        split; [eauto | reflexivity].
      * intros r0 [= <-]. simpl. apply last_snoc.
      * intros cap Hc1 Hc2.
        rewrite paint_glIsEnabled_issue, paint_glEnable_other by assumption.
        apply H3; assumption.
    + injection H as <-. destruct (Hoff _ eq_refl) as (H1 & H2 & H3).
      split; [exact H1 |]. split; [| split; [| exact H3]].
      * rewrite H2. split; [discriminate |].
        intros [r [= ->]]. simpl in Hmany. lia.
      * intros r [= ->]. simpl in Hmany. lia.
  - intros -> Hin. destruct reg as [rects |]; [| eauto].
    destruct (Z.eqb_spec (Z.of_nat (length rects)) 1) as [Hone | Hmany];
      [| eauto].
    destruct rects as [| r [| r' rects]]; simpl in Hone; try lia.
    destruct (Hin r eq_refl) as (Hy & Hw & Hh).
    change (c_index [r] 0) with (@Returned Paint.rect_t r). cbn [obind].
    unfold CInt.int_sub, CInt.int_checked. rewrite Hy, Hw, Hh. cbn [obind].
    eauto.
Qed.

(** X21 on a context with blending and the stencil test on: for the
    region made of the box from (10, 20) to (110, 40) on a screen 1080
    pixels high, the stencil test is off after the call, the scissor test
    is on and the scissor box is (10, 1040, 100, 20). *)
Lemma glx_set_clip_tests_witness :
  exists st',
    Paint.glx_set_clip paint_session (Some [box_100x20]) paint_dirty
    = Returned st'
    /\ Paint.glIsEnabled GL.GL_STENCIL_TEST st' = false
    /\ Paint.glIsEnabled GL.GL_SCISSOR_TEST st' = true
    /\ last (Paint.calls st') = Some (Paint.Scissor 10 1040 100 20).
Proof.
  destruct (proj2 (proj2 (glx_set_clip_tests paint_session (Some [box_100x20])
                            paint_dirty)) eq_refl) as [st' E].
  { intros r [= <-]. repeat split. }
  destruct (proj1 (proj2 (glx_set_clip_tests paint_session (Some [box_100x20])
                            paint_dirty)) st' eq_refl E) as (H1 & H2 & H3 & _).
  exists st'. split; [exact E |]. split; [exact H1 |].
  split; [apply H2; eauto | exact (H3 box_100x20 eq_refl)].
Defined.

(** X22: [glx_dim_dst] always returns success and leaves blending
    disabled, whether it was enabled on entry or not; no other capability
    and not the active texture unit changes. *)
Theorem glx_dim_dst_blend_off
    (dx dy width height : Z) (st : Paint.state) :
  (Paint.glx_dim_dst dx dy width height st).1 = true
  /\ Paint.glIsEnabled Paint.GL_BLEND (Paint.glx_dim_dst dx dy width height st).2
     = false
  /\ (forall cap, cap <> Paint.GL_BLEND ->
        Paint.glIsEnabled cap (Paint.glx_dim_dst dx dy width height st).2
        = Paint.glIsEnabled cap st)
  /\ Paint.active_texture (Paint.glx_dim_dst dx dy width height st).2
     = Paint.active_texture st.
Proof.
  unfold Paint.glx_dim_dst. cbn [fst snd].
  split; [reflexivity |]. split; [| split; [| reflexivity]].
  - apply paint_glDisable_off. auto.
  - intros cap Hc. rewrite paint_glDisable_other by exact Hc.
    rewrite !paint_glIsEnabled_issue. apply paint_glEnable_other. exact Hc.
Qed.

Lemma Returned_pair_inj {A B : Type} (a a' : A) (b b' : B) :
  Returned (a, b) = Returned (a', b') -> a = a' /\ b = b'.
Proof. intros H. injection H as <- <-. auto. Qed.

Section RenderFacts.

Import Paint.

Ltac paint_caps :=
  repeat match goal with
         | |- context [glIsEnabled ?c (issue ?x ?s)] =>
             rewrite (paint_glIsEnabled_issue c x s)
         | |- context [glIsEnabled ?c (glActiveTexture ?t ?s)] =>
             rewrite (paint_glIsEnabled_active c t s)
         | |- context [glIsEnabled ?c (Nat.iter ?n (issue ?x) ?s)] =>
             rewrite (paint_glIsEnabled_iter c x n s)
         | |- context [glIsEnabled ?c (glEnable ?c' ?s)] =>
             rewrite (paint_glEnable_other c c' s) by assumption
         | |- context [glIsEnabled ?c (glDisable ?c' ?s)] =>
             rewrite (paint_glDisable_other c c' s) by assumption
         | |- context [glIsEnabled ?c (uniform1f_if ?l ?s)] =>
             rewrite (proj1 (paint_uniform1f_if c l s))
         | |- context [glIsEnabled ?c (uniform1i_if ?l ?v ?s)] =>
             rewrite (proj1 (paint_uniform1i_if c l v s))
         end.

(** The cleanup code of [glx_render]. *)
Lemma glx_render_cleanup (target : GL.GLenum) (dual has_prog : bool)
    (st1 st' : state) :
  st' = (let st := glDisable target
                     (glDisable GL_COLOR_LOGIC_OP (glDisable GL_BLEND st1)) in
         let st :=
           if dual
           then glActiveTexture GL_TEXTURE0
                  (glDisable target
                    (issue (BindTexture target 0)
                      (glActiveTexture GL_TEXTURE1 st)))
           else st in
         if has_prog then issue (UseProgram 0) st else st) ->
  glIsEnabled GL_BLEND st' = false
  /\ glIsEnabled GL_COLOR_LOGIC_OP st' = false
  /\ glIsEnabled target st' = false
  /\ (forall cap, cap <> GL_BLEND -> cap <> GL_COLOR_LOGIC_OP -> cap <> target ->
                  glIsEnabled cap st' = glIsEnabled cap st1)
  /\ active_texture st' = (if dual then GL_TEXTURE0 else active_texture st1).
Proof.
  intros ->. cbv zeta.
  set (base := glDisable target
                 (glDisable GL_COLOR_LOGIC_OP (glDisable GL_BLEND st1))).
  assert (B : glIsEnabled GL_BLEND base = false).
  { do 2 (apply paint_glDisable_off; right). apply paint_glDisable_off. auto. }
  assert (L : glIsEnabled GL_COLOR_LOGIC_OP base = false).
  { apply paint_glDisable_off; right. apply paint_glDisable_off. auto. }
  assert (T : glIsEnabled target base = false).
  { apply paint_glDisable_off. auto. }
  assert (C : forall cap, cap <> GL_BLEND -> cap <> GL_COLOR_LOGIC_OP ->
                          cap <> target ->
                glIsEnabled cap base = glIsEnabled cap st1).
  { intros cap H1 H2 H3. subst base. paint_caps. reflexivity. }
  assert (A : active_texture base = active_texture st1) by reflexivity.
  clearbody base.
  destruct dual, has_prog;
    (split; [| split; [| split; [| split]]]);
    paint_caps;
    try (apply paint_glDisable_off; right; paint_caps);
    try assumption;
    try reflexivity;
    intros cap H1 H2 H3; paint_caps; apply C; assumption.
Qed.

(** The part of [glx_render] between the test of the texture and the
    cleanup: what it enables and which texture unit it leaves active. *)
Lemma glx_render_effect (ps : session_t) (ptex : Pixmap.glx_texture_t)
    (dx dy width height : Z) (opacity : Q) (argb neg : bool)
    (pprogram : option Program.glx_prog_main_t) (st st' : state) (ret : bool) :
  Pixmap.texture ptex <> 0 ->
  glx_render ps (Some ptex) dx dy width height opacity argb neg pprogram st
  = Returned (ret, st') ->
  ret = true
  /\ glIsEnabled GL_BLEND st' = false
  /\ glIsEnabled GL_COLOR_LOGIC_OP st' = false
  /\ glIsEnabled (Pixmap.target ptex) st' = false
  /\ (forall cap, cap <> GL_BLEND -> cap <> GL_COLOR_LOGIC_OP ->
                  cap <> Pixmap.target ptex ->
                  glIsEnabled cap st' = glIsEnabled cap st)
  /\ (dual_texture_path ps ptex argb neg pprogram ->
      active_texture st' = GL_TEXTURE0)
  /\ (~ dual_texture_path ps ptex argb neg pprogram ->
      active_texture st' = active_texture st).
Proof.
  intros Htex H. unfold glx_render in H.
  destruct (Z.eqb_spec (Pixmap.texture ptex) 0); [contradiction |].
  bind_inv H as argb' Hfmt.
  assert (Hargb : argb' = true
                  <-> (argb = true
                       \/ exists pcfg,
                            fbconfigs ps !! Z.to_nat (Pixmap.depth ptex)
                            = Some (Some pcfg)
                            /\ FBConfig.texture_fmt pcfg
                               = FBConfig.GLX_TEXTURE_FORMAT_RGBA_EXT)).
  { destruct argb.
    - injection Hfmt as <-. split; auto.
    - bind_inv Hfmt as o Ho. apply c_index_Returned in Ho.
      destruct Ho as [Hd Ho].
      destruct o as [pcfg |]; [| discriminate Hfmt].
      assert (Hv : argb' = (FBConfig.GLX_TEXTURE_FORMAT_RGBA_EXT
                            =? FBConfig.texture_fmt pcfg))
        by (injection Hfmt as <-; reflexivity).
      rewrite Hv, Z.eqb_eq. split.
      + intros Hf. right. exists pcfg. auto.
      + intros [Hc | (c & Hc & Hf)]; [discriminate Hc |].
        rewrite Ho in Hc. injection Hc as <-. auto. }
  clear Hfmt.
  set (has_prog := match pprogram with
                   | Some p => negb (Program.prog p =? 0)
                   | None => false
                   end) in *.
  set (target := Pixmap.target ptex) in *.
  set (st0 := if negb (Qle_bool 1 opacity) || argb'
              then issue Color4f (issue BlendFunc (issue TexEnv
                     (glEnable GL_BLEND (glEnable target st))))
              else glEnable target st) in *.
  assert (C0 : forall cap, cap <> GL_BLEND -> cap <> GL_COLOR_LOGIC_OP ->
                           cap <> target ->
                 glIsEnabled cap st0 = glIsEnabled cap st).
  { intros cap H1 H2 H3. subst st0.
    destruct (negb (Qle_bool 1 opacity) || argb'); paint_caps; reflexivity. }
  assert (B0 : argb' = true -> glIsEnabled GL_BLEND st0 = true).
  { intros Ha. subst st0. rewrite Ha, orb_true_r. paint_caps.
    rewrite paint_glIsEnabled_glEnable, Z.eqb_refl. reflexivity. }
  assert (A0 : active_texture st0 = active_texture st).
  { subst st0. destruct (negb (Qle_bool 1 opacity) || argb'); reflexivity. }
  assert (Hdual : dual_texture_path ps ptex argb neg pprogram
                  <-> has_prog = false /\ neg = true /\ argb' = true).
  { unfold dual_texture_path. subst has_prog. split.
    - intros (Hp & Hn & Ha). split; [| split; [exact Hn |]].
      + destruct pprogram as [p |]; [| reflexivity].
        rewrite (Hp p eq_refl). reflexivity.
      + apply Hargb. exact Ha.
    - intros (Hp & Hn & Ha). split; [| split; [exact Hn |]].
      + intros p ->. destruct (Z.eqb_spec (Program.prog p) 0);
          [assumption | discriminate Hp].
      + apply Hargb. exact Ha. }
  clear Hargb. clearbody st0.
  bind_inv H as [dual st1] E.
  assert (F : (forall cap, cap <> GL_BLEND -> cap <> GL_COLOR_LOGIC_OP ->
                           cap <> target ->
                 glIsEnabled cap st1 = glIsEnabled cap st)
              /\ (dual = true <-> has_prog = false /\ neg = true /\ argb' = true)
              /\ active_texture st1
                 = (if dual then GL_TEXTURE0 else active_texture st)).
  { destruct has_prog eqn:Ehp; cbn [negb] in E.
    - (* programmable path *)
      destruct pprogram as [p |]; [| discriminate Ehp].
      bind_inv E as u Eu. apply Returned_pair_inj in E; destruct E as [<- <-].
      split; [| split].
      + intros cap H1 H2 H3. paint_caps. apply C0; assumption.
      + split; [discriminate | intros (Hc & _); discriminate Hc].
      + unfold uniform1i_if, uniform1f_if.
        repeat match goal with
               | |- context [if ?c then _ else _] => destruct c
               end; exact A0.
    - destruct neg.
      2: { apply Returned_pair_inj in E; destruct E as [<- <-]. split; [exact C0 |]. split; [| exact A0].
           split; [discriminate | intros (_ & Hc & _); discriminate Hc]. }
      destruct (glIsEnabled GL_BLEND st0) eqn:Eb; cbn [negb] in E.
      + destruct argb' eqn:Ea.
        * apply Returned_pair_inj in E; destruct E as [<- <-]. split; [| split; [tauto | reflexivity]].
          intros cap H1 H2 H3. paint_caps. apply C0; assumption.
        * apply Returned_pair_inj in E; destruct E as [<- <-]. split; [| split].
          -- intros cap H1 H2 H3. paint_caps. apply C0; assumption.
          -- split; [discriminate | intros (_ & _ & Hc); discriminate Hc].
          -- rewrite paint_active_iter. exact A0.
      + apply Returned_pair_inj in E; destruct E as [<- <-]. split; [| split].
        * intros cap H1 H2 H3. paint_caps. apply C0; assumption.
        * split; [discriminate |]. intros (_ & _ & Ha).
          discriminate (B0 Ha).
        * exact A0. }
  destruct F as (F1 & F2 & F3).
  apply Returned_pair_inj in H; destruct H as [<- Hst']. symmetry in Hst'.
  match type of Hst' with
  | st' = (if ?hp then issue (UseProgram 0) ?s else ?s) =>
      assert (Hc : exists s1,
                 glIsEnabled GL_BLEND s1 = glIsEnabled GL_BLEND s1
                 /\ st' = (let st := glDisable target
                                       (glDisable GL_COLOR_LOGIC_OP
                                          (glDisable GL_BLEND s1)) in
                           let st :=
                             if dual
                             then glActiveTexture GL_TEXTURE0
                                    (glDisable target
                                      (issue (BindTexture target 0)
                                        (glActiveTexture GL_TEXTURE1 st)))
                             else st in
                           if has_prog then issue (UseProgram 0) st else st)
                 /\ (forall cap, glIsEnabled cap s1 = glIsEnabled cap st1)
                 /\ (dual = true \/ active_texture s1 = active_texture st1))
  end.
  { eexists. split; [reflexivity |]. split; [exact Hst' |]. split.
    - intros cap. destruct dual; paint_caps; reflexivity.
    - destruct dual; [left; reflexivity | right; reflexivity]. }
  destruct Hc as (s1 & _ & Hc & Hs1 & Ha1).
  apply glx_render_cleanup in Hc. destruct Hc as (Hb & Hl & Ht & Hcaps & Hact).
  split; [reflexivity |]. split; [exact Hb |]. split; [exact Hl |].
  split; [exact Ht |]. split; [| split].
  - intros cap H1 H2 H3. rewrite Hcaps, Hs1 by assumption. apply F1; assumption.
  - intros Hp. apply Hdual, F2 in Hp. rewrite Hact, Hp. reflexivity.
  - intros Hp. rewrite Hact.
    destruct dual; [exfalso; apply Hp, Hdual, F2; reflexivity |].
    destruct Ha1 as [Hc | Ha1]; [discriminate Hc |].
    rewrite Ha1, F3. reflexivity.
Qed.

(** With a texture, and with the ARGB flag or an FBConfig for the depth
    of the binding, the call returns. *)
Lemma glx_render_returns_flag (ps : session_t) (ptex : Pixmap.glx_texture_t)
    (dx dy width height : Z) (opacity : Q) (argb neg : bool)
    (pprogram : option Program.glx_prog_main_t) (st : state) :
  Pixmap.texture ptex <> 0 ->
  argb = true
  \/ (0 <= Pixmap.depth ptex
      /\ exists pcfg,
           fbconfigs ps !! Z.to_nat (Pixmap.depth ptex) = Some (Some pcfg)) ->
  exists st',
    glx_render ps (Some ptex) dx dy width height opacity argb neg pprogram st
    = Returned (true, st').
Proof.
  intros Htex Hsrc. unfold glx_render.
  destruct (Z.eqb_spec (Pixmap.texture ptex) 0); [contradiction |].
  match goal with
  | |- exists st', obind ?m _ = _ =>
      assert (Hm : exists a, m = Returned a); [| destruct Hm as [argb' ->]]
  end.
  { destruct argb; [eauto |].
    destruct Hsrc as [Hc | (Hd & pcfg & Hcfg)]; [discriminate Hc |].
    rewrite (c_index_lookup _ _ _ Hd Hcfg). cbn [obind]. eauto. }
  cbn [obind].
  match goal with
  | |- exists st', obind ?m _ = _ =>
      assert (Hm : exists r, m = Returned r); [| destruct Hm as [[dual st1] ->]]
  end.
  { destruct pprogram as [p |]; cbn [negb].
    - destruct (Z.eqb_spec (Program.prog p) 0) as [Hz | Hnz]; cbn [negb].
      + repeat match goal with
               | |- context [if ?c then _ else _] => destruct c
               end; eauto.
      + destruct (Z.eqb_spec (Program.prog p) 0); [contradiction |].
        cbn [negb c_assert obind]. eauto.
    - repeat match goal with
             | |- context [if ?c then _ else _] => destruct c
             end; eauto. }
  cbn [obind]. eauto.
Qed.

(** With a texture and an FBConfig for the depth of the binding the call
    returns. *)
Lemma glx_render_returns (ps : session_t) (ptex : Pixmap.glx_texture_t)
    (dx dy width height : Z) (opacity : Q) (argb neg : bool)
    (pprogram : option Program.glx_prog_main_t) (st : state) :
  bound_ok (fbconfigs ps) ptex ->
  exists st',
    glx_render ps (Some ptex) dx dy width height opacity argb neg pprogram st
    = Returned (true, st').
Proof.
  intros (Htex & _ & _ & Hd & pcfg & Hcfg).
  apply glx_render_returns_flag; [exact Htex |]. right. eauto.
Qed.

End RenderFacts.

(** X23: [glx_render] returns failure without touching the context when
    there is no binding or the binding has no texture. With a texture it
    returns when the ARGB flag is set, whatever the table of FBConfigs
    holds (the table is then not read), and when the table holds an
    FBConfig for the depth of the binding. With a texture,
    whenever it returns it returns success, blending, the color logic
    operation and the target of the binding are disabled, and no other
    capability has changed; texture unit 0 is the active one when the call
    took the two-texture path (no program, color negation, an ARGB
    source), and the active unit is the one found on entry otherwise. *)
Theorem glx_render_contract
    (ps : Paint.session_t) (ptex : option Pixmap.glx_texture_t)
    (dx dy width height : Z) (opacity : Q) (argb neg : bool)
    (pprogram : option Program.glx_prog_main_t) (st : Paint.state) :
  (ptex = None \/ (exists t, ptex = Some t /\ Pixmap.texture t = 0) ->
   Paint.glx_render ps ptex dx dy width height opacity argb neg pprogram st
   = Returned (false, st))
  /\ (forall t,
        ptex = Some t -> Pixmap.texture t <> 0 ->
        argb = true
        \/ (0 <= Pixmap.depth t
            /\ exists pcfg,
                 Paint.fbconfigs ps !! Z.to_nat (Pixmap.depth t)
                 = Some (Some pcfg)) ->
        exists st',
          Paint.glx_render ps ptex dx dy width height opacity argb neg pprogram
            st = Returned (true, st'))
  /\ (forall t ret st',
        ptex = Some t -> Pixmap.texture t <> 0 ->
        Paint.glx_render ps ptex dx dy width height opacity argb neg pprogram st
        = Returned (ret, st') ->
        ret = true
        /\ Paint.glIsEnabled Paint.GL_BLEND st' = false
        /\ Paint.glIsEnabled Paint.GL_COLOR_LOGIC_OP st' = false
        /\ Paint.glIsEnabled (Pixmap.target t) st' = false
        /\ (forall cap,
              cap <> Paint.GL_BLEND -> cap <> Paint.GL_COLOR_LOGIC_OP ->
              cap <> Pixmap.target t ->
              Paint.glIsEnabled cap st' = Paint.glIsEnabled cap st)
        /\ (dual_texture_path ps t argb neg pprogram ->
            Paint.active_texture st' = Paint.GL_TEXTURE0)
        /\ (~ dual_texture_path ps t argb neg pprogram ->
            Paint.active_texture st' = Paint.active_texture st)).
Proof.
  split; [| split].
  - intros [-> | (t & -> & Ht)]; [reflexivity |].
    unfold Paint.glx_render. rewrite Ht. reflexivity.
  - intros t -> Ht Hsrc. apply glx_render_returns_flag; assumption.
  - intros t ret st' -> Ht H.
    exact (glx_render_effect ps t dx dy width height opacity argb neg pprogram
             st st' ret Ht H).
Qed.

(** X23 on the bound texture of depth 24 and a table of FBConfigs
    without any entry, drawn color-negated with the ARGB flag and without
    program into a context that has blending and the stencil test on and
    texture unit 1 active: the call returns success, blending is off, the
    stencil test is still on and texture unit 0 is active. *)
Lemma glx_render_contract_witness :
  exists st',
    Paint.glx_render empty_paint_session (Some bound_24) 0 0 10 10 1 true true
      None paint_dirty = Returned (true, st')
    /\ Paint.glIsEnabled Paint.GL_BLEND st' = false
    /\ Paint.glIsEnabled GL.GL_STENCIL_TEST st' = true
    /\ Paint.active_texture st' = Paint.GL_TEXTURE0.
Proof.
  destruct (glx_render_contract empty_paint_session (Some bound_24) 0 0 10 10 1
              true true None paint_dirty) as (_ & Hret & Heff).
  destruct (Hret bound_24 eq_refl ltac:(discriminate) (or_introl eq_refl))
    as [st' E].
  destruct (Heff bound_24 true st' eq_refl ltac:(discriminate) E)
    as (_ & Hb & _ & _ & Hcaps & Hdual & _).
  exists st'. split; [exact E |]. split; [exact Hb |]. split.
  - rewrite Hcaps by discriminate. reflexivity.
  - apply Hdual. split; [discriminate |]. split; [reflexivity |].
    left. reflexivity.
Defined.

(** X24: a binding left by a successful [glx_bind_pixmap] (on no binding,
    or on a binding that is well formed for the FBConfig table) can be
    rendered against the same FBConfig table: [glx_render] finds the
    texture and the FBConfig of the depth of the binding, and returns
    success, whatever the rectangle, the opacity, the flags, the program
    and the context. *)
Theorem glx_bind_then_render
    (OPENGL_MAX_DEPTH BKEND_GLX BKEND_XR_GLX_HYBRID : Z) (drv : GL.driver)
    (ps : Pixmap.session_t) (pptex pptex' : option Pixmap.glx_texture_t)
    (pixmap width height depth : Z) (gl gl' : GL.state)
    (pps : Paint.session_t) (dx dy w h : Z) (opacity : Q) (argb neg : bool)
    (pprogram : option Program.glx_prog_main_t) (st : Paint.state) :
  Pixmap.backend ps = BKEND_GLX \/ Pixmap.backend ps = BKEND_XR_GLX_HYBRID ->
  pixmap <> 0 ->
  (forall t0, pptex = Some t0 -> bound_ok (Pixmap.fbconfigs ps) t0) ->
  Pixmap.glx_bind_pixmap OPENGL_MAX_DEPTH BKEND_GLX BKEND_XR_GLX_HYBRID drv
    ps pptex pixmap width height depth gl = Returned (true, pptex', gl') ->
  Paint.fbconfigs pps = Pixmap.fbconfigs ps ->
  exists st',
    Paint.glx_render pps pptex' dx dy w h opacity argb neg pprogram st
    = Returned (true, st').
Proof.
  intros Hbk Hpix Hin H Hsame.
  destruct (glx_bind_pixmap_success_binding _ _ _ _ _ _ _ _ _ _ _ _ _
              Hbk Hpix Hin H) as (t' & -> & Hok & _).
  apply glx_render_returns. rewrite Hsame. exact Hok.
Qed.

(** X24 at a first bind of pixmap 5 on a working driver, rendered at half
    opacity. *)
Lemma glx_bind_then_render_witness :
  exists t' gl' st',
    Pixmap.glx_bind_pixmap 32 1 2 good_driver (pixmap_session 1)
      None 5 10 10 24 gl_init = Returned (true, Some t', gl')
    /\ Paint.glx_render paint_session (Some t') 0 0 10 10 (1 # 2) false false
         None paint_init = Returned (true, st').
Proof.
  destruct (Pixmap.glx_bind_pixmap 32 1 2 good_driver (pixmap_session 1)
              None 5 10 10 24 gl_init) as [[[r o] g] | |] eqn:E;
    try (vm_compute in E; discriminate E).
  assert (Hr : r = true) by (vm_compute in E; congruence).
  subst r.
  assert (Ho : exists t', o = Some t').
  { destruct o as [t' |]; [eauto | vm_compute in E; discriminate E]. }
  destruct Ho as [t' ->].
  destruct (glx_bind_then_render 32 1 2 good_driver (pixmap_session 1)
              None (Some t') 5 10 10 24 gl_init g paint_session 0 0 10 10
              (1 # 2) false false None paint_init (or_introl eq_refl)
              ltac:(discriminate) ltac:(discriminate) E eq_refl) as [st' Hst].
  exists t', g, st'. split; [reflexivity | exact Hst].
Defined.

(** ** Start and end of the backend *)

Section InitDestroy.

Import Init.

Variable CGLX_MAX_BUFFER_AGE : Z.
Variable OPENGL_MAX_DEPTH : Z.
Variable MAX_BLUR_PASS : Z.
Variable CGLX_SESSION_DEF : glx_session_t.
Variable free_win_res_glx : Z -> GL.state -> GL.state.
Variable srv : server.

(** The pass loop of [glx_destroy] deletes the shader and the program of
    every pass it visits. *)
Lemma free_passes_calls (passes : list Shader.glx_blur_pass_t) (n : nat) :
  forall (i : Z) (gl gl' : GL.state),
    0 <= i ->
    free_passes passes n i gl = Returned gl' ->
    exists t,
      GL.calls gl' = GL.calls gl ++ t
      /\ forall (k : nat) (p : Shader.glx_blur_pass_t),
           (Z.to_nat i <= k < Z.to_nat i + n)%nat ->
           passes !! k = Some p ->
           (Shader.frag_shader p <> 0 ->
            In (GL.DeleteShader (Shader.frag_shader p)) t)
           /\ (Shader.prog p <> 0 ->
               In (GL.DeleteProgram (Shader.prog p)) t).
Proof.
  induction n as [| n IH]; intros i gl gl' Hi H; cbn [free_passes] in H.
  - injection H as <-. exists []. rewrite app_nil_r. split; [reflexivity |].
    intros k p Hk. lia.
  - bind_inv H as ppass Hp. apply c_index_Returned in Hp. destruct Hp as [_ Hp].
    apply IH in H; [| lia]. destruct H as (t & Ht & Hdel).
    set (t1 := if negb (Shader.frag_shader ppass =? 0)
               then [GL.DeleteShader (Shader.frag_shader ppass)] else []).
    set (t2 := if negb (Shader.prog ppass =? 0)
               then [GL.DeleteProgram (Shader.prog ppass)] else []).
    exists (t1 ++ t2 ++ t). split.
    + rewrite Ht. subst t1 t2.
      destruct (negb (Shader.frag_shader ppass =? 0)),
        (negb (Shader.prog ppass =? 0)); simpl; rewrite <- ?app_assoc;
        reflexivity.
    + intros k p Hk Hkp.
      destruct (Nat.eq_dec k (Z.to_nat i)) as [-> | Hne].
      * rewrite Hp in Hkp. injection Hkp as <-. split; intros Hnz.
        -- apply in_or_app. left. subst t1.
           destruct (Z.eqb_spec (Shader.frag_shader ppass) 0);
             [contradiction | left; reflexivity].
        -- apply in_or_app. right. apply in_or_app. left. subst t2.
           destruct (Z.eqb_spec (Shader.prog ppass) 0);
             [contradiction | left; reflexivity].
      * destruct (Hdel k p ltac:(lia) Hkp) as [D1 D2].
        split; intros Hnz; apply in_or_app; right; apply in_or_app; right;
          auto.
Qed.

Lemma glx_destroy_effect (ps ps' : session_t) (gl gl' : GL.state) :
  glx_destroy MAX_BLUR_PASS free_win_res_glx ps gl = Returned (ps', gl') ->
  psglx ps' = None
  /\ glx_exists ps' = glx_exists ps
  /\ glx_swap_method ps' = glx_swap_method ps
  /\ (psglx ps = None -> ps' = ps /\ gl' = gl)
  /\ (psglx ps <> None -> glx_prog_win ps' = freed_prog).
Proof.
  unfold glx_destroy. intros H. destruct (psglx ps) as [g |] eqn:Eg.
  - bind_inv H as gl1 H1.
    destruct (Program.glx_free_prog_main (Some (glx_prog_win ps)) gl1)
      as [pw g2] eqn:Ef.
    injection H as <- <-. simpl.
    repeat split; try discriminate.
    intros _. unfold Program.glx_free_prog_main in Ef.
    destruct (Z.eqb_spec (Program.prog (glx_prog_win ps)) 0) as [Hz | Hnz];
      injection Ef as <- _; simpl; [rewrite Hz |]; reflexivity.
  - injection H as <- <-. repeat split; auto. intros Hc. contradiction.
Qed.

(** What [glx_init] has checked when it reaches its end with success. *)
Lemma glx_init_body_success (ps ps' : session_t) (need_render : bool)
    (gl gl' : GL.state) :
  glx_init_body CGLX_MAX_BUFFER_AGE OPENGL_MAX_DEPTH MAX_BLUR_PASS
    CGLX_SESSION_DEF srv ps need_render gl = Returned (true, ps', gl') ->
  glx_exists ps' = true
  /\ glx_swap_method ps <= CGLX_MAX_BUFFER_AGE
  /\ (glx_exists ps = false -> glXQueryExtension srv = true)
  /\ XGetVisualInfo srv = true
  /\ (psglx ps = None -> context CGLX_SESSION_DEF = 0 ->
      glXMakeCurrent srv = true
      /\ exists g, psglx ps' = Some g /\ context g = glXCreateContext srv)
  /\ exists g,
       psglx ps' = Some g
       /\ context g <> 0
       /\ (need_render = true ->
           config_set (glXGetConfig_USE_GL srv) = true
           /\ config_set (glXGetConfig_DOUBLEBUFFER srv) = true
           /\ glx_hasglxext_texture_from_pixmap srv = true
           /\ (glx_no_stencil ps = false -> GL_STENCIL_BITS srv <> 0)
           /\ glXBindTexImageProc g <> 0
           /\ glXReleaseTexImageProc g <> 0
           /\ (exists cfg,
                 fbconfigs g !! Z.to_nat (depth ps) = Some (Some cfg))
           /\ GL.glIsEnabled GL_DEPTH_TEST gl' = false
           /\ GL.glIsEnabled Paint.GL_BLEND gl' = false
           /\ (glx_no_stencil ps = false ->
               GL.glIsEnabled GL.GL_STENCIL_TEST gl' = false)).
Proof.
  unfold glx_init_body. intros H.
  set (first := if negb (glx_exists ps)
                then if glXQueryExtension srv then (true, set_glx_exists ps true)
                     else (false, ps)
                else (true, ps)) in *.
  assert (Hfirst : first.1 = true ->
                   glx_exists first.2 = true
                   /\ (glx_exists ps = false -> glXQueryExtension srv = true)
                   /\ glx_swap_method first.2 = glx_swap_method ps
                   /\ glx_no_stencil first.2 = glx_no_stencil ps
                   /\ depth first.2 = depth ps
                   /\ dpy first.2 = dpy ps
                   /\ psglx first.2 = psglx ps).
  { subst first. destruct (glx_exists ps) eqn:Ee; simpl.
    - intros _. repeat split; auto. discriminate.
    - destruct (glXQueryExtension srv); simpl; [| discriminate].
      intros _. repeat split; auto. }
  destruct first as [found ps1]. simpl in Hfirst.
  destruct found; cbn [negb] in H; [| discriminate H].
  destruct (Hfirst eq_refl) as (He & Hq & Hsw & Hns & Hdp & Hdpy & Hpg).
  rewrite Hsw, Hns, Hdp, Hdpy, Hpg in H. clear Hfirst.
  destruct (Z.ltb_spec CGLX_MAX_BUFFER_AGE (glx_swap_method ps)) as [| Hswap];
    [discriminate H |].
  destruct (XGetVisualInfo srv) eqn:Evis; cbn [negb] in H; [| discriminate H].
  destruct (need_render && negb (config_set (glXGetConfig_USE_GL srv))) eqn:E1;
    [discriminate H |].
  destruct (need_render && negb (config_set (glXGetConfig_DOUBLEBUFFER srv)))
    eqn:E2; [discriminate H |].
  destruct (need_render && negb (glx_hasglxext_texture_from_pixmap srv)) eqn:E3;
    [discriminate H |].
  bind_inv H as g0 Hg0.
  set (att := if context g0 =? 0
              then if context (set_context g0 (glXCreateContext srv)) =? 0
                   then (false, set_context g0 (glXCreateContext srv))
                   else if negb (glXMakeCurrent srv)
                        then (false, set_context g0 (glXCreateContext srv))
                        else (true, set_context g0 (glXCreateContext srv))
              else (true, g0)) in *.
  assert (Hatt : att.1 = true ->
                 context att.2 <> 0
                 /\ (context g0 = 0 ->
                     glXMakeCurrent srv = true
                     /\ context att.2 = glXCreateContext srv)).
  { subst att. destruct (Z.eqb_spec (context g0) 0) as [Hz | Hnz]; simpl.
    - destruct (Z.eqb_spec (glXCreateContext srv) 0); simpl; [discriminate |].
      destruct (glXMakeCurrent srv); simpl; [auto | discriminate].
    - intros _. split; [exact Hnz |]. intros Hz. contradiction. }
  destruct att as [attached g1]. simpl in Hatt.
  destruct attached; cbn [negb] in H; [| discriminate H].
  destruct (Hatt eq_refl) as [Hctx Hnew]. clear Hatt. rename Hctx into Hatt.
  assert (Hfresh : psglx ps = None -> context CGLX_SESSION_DEF = 0 ->
                   context g0 = 0).
  { intros Hn Hz. rewrite Hn in Hg0. bind_inv Hg0 as passes Hpasses.
    injection Hg0 as <-. exact Hz. }
  destruct (need_render && negb (glx_no_stencil ps)
            && (GL_STENCIL_BITS srv =? 0)) eqn:E4; [discriminate H |].
  set (g2 := if need_render
             then set_procs
                    (if need_render
                     then set_has_texture_non_power_of_two g1
                            (glx_hasglext_texture_non_power_of_two srv)
                     else g1)
                    (glXGetProcAddress_BindTexImage srv)
                    (glXGetProcAddress_ReleaseTexImage srv)
             else if need_render
                  then set_has_texture_non_power_of_two g1
                         (glx_hasglext_texture_non_power_of_two srv)
                  else g1) in *.
  assert (Hg2 : context g2 = context g1).
  { subst g2. destruct need_render; reflexivity. }
  destruct (need_render
            && ((glXBindTexImageProc g2 =? 0) || (glXReleaseTexImageProc g2 =? 0)))
    eqn:E5; [discriminate H |].
  bind_inv H as [acquired g3] Hacq.
  destruct acquired; cbn [negb] in H; [| discriminate H].
  apply Returned_pair_inj in H. destruct H as [H Hgl].
  apply (f_equal snd) in H. simpl in H. subst ps'.
  split; [exact He |]. split; [exact Hswap |]. split; [exact Hq |].
  split; [reflexivity |].
  assert (Hg3 : context g3 = context g1).
  { rewrite <- Hg2. destruct need_render.
    - bind_inv Hacq as [r fs] Hupd. injection Hacq as _ <-. reflexivity.
    - injection Hacq as <-. reflexivity. }
  split.
  { intros Hn Hz. destruct (Hnew (Hfresh Hn Hz)) as [Hmk Hc].
    split; [exact Hmk |]. exists g3. split; [reflexivity | congruence]. }
  exists g3. split; [reflexivity |].
  destruct need_render.
  - bind_inv Hacq as [r fs] Hupd. injection Hacq as -> <-.
    simpl. split; [congruence |]. intros _.
    simpl in E1, E2, E3, E4, E5.
    apply negb_false_iff in E1, E2, E3.
    apply orb_false_iff in E5. destruct E5 as [E5 E6].
    apply Z.eqb_neq in E5, E6.
    split; [exact E1 |]. split; [exact E2 |]. split; [exact E3 |].
    split.
    { intros Hn. rewrite Hn in E4. simpl in E4. apply Z.eqb_neq in E4. exact E4. }
    split; [exact E5 |]. split; [exact E6 |].
    split.
    { unfold FBConfig.glx_update_fbconfig in Hupd. simpl in Hupd.
      bind_inv Hupd as tbl Hloop. bind_inv Hupd as dflt Hd.
      apply c_index_Returned in Hd. destruct Hd as [_ Hd].
      destruct dflt as [cfg |]; [| discriminate Hupd].
      bind_inv Hupd as e32 H32. injection Hupd as <-. simpl. eauto. }
    subst gl'.
    assert (Hd : GL.glIsEnabled GL_DEPTH_TEST
                   (GL.glDisable Paint.GL_BLEND
                      (GL.issue GL.TexEnvi (GL.glDisable GL_DEPTH_TEST gl)))
                 = false).
    { rewrite glIsEnabled_glDisable, glIsEnabled_issue,
        (glIsEnabled_glDisable GL_DEPTH_TEST GL_DEPTH_TEST), Z.eqb_refl.
      apply andb_false_r. }
    assert (Hb : GL.glIsEnabled Paint.GL_BLEND
                   (GL.glDisable Paint.GL_BLEND
                      (GL.issue GL.TexEnvi (GL.glDisable GL_DEPTH_TEST gl)))
                 = false).
    { rewrite glIsEnabled_glDisable, Z.eqb_refl. reflexivity. }
    destruct (glx_no_stencil ps); cbn [negb].
    + split; [exact Hd |]. split; [exact Hb | discriminate].
    + rewrite !(glIsEnabled_glDisable _ GL.GL_STENCIL_TEST), Hd, Hb, Z.eqb_refl.
      repeat split; reflexivity.
  - injection Hacq as <-. split; [congruence | discriminate].
Qed.

End InitDestroy.

(** X25: [glx_init] is all or nothing. When it returns failure no
    backend data is left ([ps->psglx] is NULL), also when there was some
    on entry. When it returns success the GLX extension is known to
    exist, the swap method is at most [CGLX_MAX_BUFFER_AGE], a visual was
    found and [ps->psglx] holds a context; and for rendering the visual is
    a double-buffered GL visual, texture-from-pixmap exists, there is a
    stencil buffer unless stencils are not used, both function addresses
    are there, the FBConfig table has an entry for the default depth, and
    the depth test, blending and (when stencils are used) the stencil
    test are off. *)
Theorem glx_init_all_or_nothing
    (CGLX_MAX_BUFFER_AGE OPENGL_MAX_DEPTH MAX_BLUR_PASS : Z)
    (CGLX_SESSION_DEF : Init.glx_session_t)
    (free_win_res_glx : Z -> GL.state -> GL.state) (srv : Init.server)
    (ps ps' : Init.session_t) (need_render ret : bool) (gl gl' : GL.state) :
  Init.glx_init CGLX_MAX_BUFFER_AGE OPENGL_MAX_DEPTH MAX_BLUR_PASS
    CGLX_SESSION_DEF free_win_res_glx srv ps need_render gl
  = Returned (ret, ps', gl') ->
  (ret = false -> Init.psglx ps' = None)
  /\ (ret = true ->
      Init.glx_exists ps' = true
      /\ Init.glx_swap_method ps <= CGLX_MAX_BUFFER_AGE
      /\ Init.XGetVisualInfo srv = true
      /\ exists g,
           Init.psglx ps' = Some g
           /\ Init.context g <> 0
           /\ (need_render = true ->
               Init.config_set (Init.glXGetConfig_USE_GL srv) = true
               /\ Init.config_set (Init.glXGetConfig_DOUBLEBUFFER srv) = true
               /\ Init.glx_hasglxext_texture_from_pixmap srv = true
               /\ (Init.glx_no_stencil ps = false -> Init.GL_STENCIL_BITS srv <> 0)
               /\ Init.glXBindTexImageProc g <> 0
               /\ Init.glXReleaseTexImageProc g <> 0
               /\ (exists cfg,
                     Init.fbconfigs g !! Z.to_nat (Init.depth ps)
                     = Some (Some cfg))
               /\ GL.glIsEnabled Init.GL_DEPTH_TEST gl' = false
               /\ GL.glIsEnabled Paint.GL_BLEND gl' = false
               /\ (Init.glx_no_stencil ps = false ->
                   GL.glIsEnabled GL.GL_STENCIL_TEST gl' = false))).
Proof.
  unfold Init.glx_init. intros H.
  bind_inv H as [[success ps1] gl1] Hbody.
  destruct success; cbn [negb] in H.
  - injection H as <- <- <-. split; [discriminate |]. intros _.
    destruct (glx_init_body_success _ _ _ _ _ _ _ _ _ _ Hbody)
      as (H1 & H2 & _ & H3 & _ & H4).
    auto.
  - bind_inv H as [ps2 gl2] Hd. injection H as <- <- <-.
    split; [| discriminate]. intros _.
    apply glx_destroy_effect in Hd. tauto.
Qed.

(** X25 on a session without backend data: on a server that has all
    that is asked for the call returns success with a context and an
    FBConfig for depth 24; on a server that cannot create a context it
    returns failure and no backend data is left. *)
Lemma glx_init_all_or_nothing_witness :
  (exists ps' gl' g,
      Init.glx_init 5 32 5 session_def free_win_nothing good_server
        init_session true gl_init = Returned (true, ps', gl')
      /\ Init.psglx ps' = Some g /\ Init.context g <> 0)
  /\ (exists ps' gl',
         Init.glx_init 5 32 5 session_def free_win_nothing no_context_server
           init_session true gl_init = Returned (false, ps', gl')
         /\ Init.psglx ps' = None).
Proof.
  split.
  - destruct (Init.glx_init 5 32 5 session_def free_win_nothing good_server
                init_session true gl_init) as [[[r ps'] gl'] | |] eqn:E;
      try (vm_compute in E; discriminate E).
    assert (Hr : r = true) by (vm_compute in E; congruence).
    subst r.
    destruct (proj2 (glx_init_all_or_nothing 5 32 5 session_def free_win_nothing
                       good_server init_session ps' true true gl_init gl' E)
                eq_refl) as (_ & _ & _ & g & Hg & Hc & _).
    exists ps', gl', g. auto.
  - destruct (Init.glx_init 5 32 5 session_def free_win_nothing no_context_server
                init_session true gl_init) as [[[r ps'] gl'] | |] eqn:E;
      try (vm_compute in E; discriminate E).
    assert (Hr : r = false) by (vm_compute in E; congruence).
    subst r.
    exists ps', gl'. split; [reflexivity |].
    exact (proj1 (glx_init_all_or_nothing 5 32 5 session_def free_win_nothing
                    no_context_server init_session ps' true false gl_init gl' E)
             eq_refl).
Defined.

(** X26: whenever [glx_destroy] returns, no backend data is left and a
    second call changes nothing; without backend data on entry the call
    does nothing at all; with backend data, the main program is reset
    (program 0, locations -1), and for each of the first
    [MAX_BLUR_PASS] passes the shader and the program it holds have been
    deleted. *)
Theorem glx_destroy_idempotent
    (MAX_BLUR_PASS : Z) (free_win_res_glx : Z -> GL.state -> GL.state)
    (ps ps' : Init.session_t) (gl gl' : GL.state) :
  Init.glx_destroy MAX_BLUR_PASS free_win_res_glx ps gl = Returned (ps', gl') ->
  Init.psglx ps' = None
  /\ Init.glx_destroy MAX_BLUR_PASS free_win_res_glx ps' gl' = Returned (ps', gl')
  /\ (Init.psglx ps = None -> ps' = ps /\ gl' = gl)
  /\ (forall g, Init.psglx ps = Some g ->
        Init.glx_prog_win ps' = freed_prog
        /\ forall (k : nat) (p : Shader.glx_blur_pass_t),
             Z.of_nat k < MAX_BLUR_PASS ->
             Init.blur_passes g !! k = Some p ->
             (Shader.frag_shader p <> 0 ->
              In (GL.DeleteShader (Shader.frag_shader p)) (GL.calls gl'))
             /\ (Shader.prog p <> 0 ->
                 In (GL.DeleteProgram (Shader.prog p)) (GL.calls gl'))).
Proof.
  intros H.
  destruct (glx_destroy_effect _ _ _ _ _ _ H) as (Hnone & _ & _ & Hsame & Hprog).
  split; [exact Hnone |].
  split; [unfold Init.glx_destroy; rewrite Hnone; reflexivity |].
  split; [exact Hsame |].
  intros g Hg. split; [apply Hprog; congruence |].
  unfold Init.glx_destroy in H. rewrite Hg in H.
  bind_inv H as gl1 H1.
  apply free_passes_calls in H1; [| lia]. destruct H1 as (t & Ht & Hdel).
  destruct (Program.glx_free_prog_main (Some (Init.glx_prog_win ps)) gl1)
    as [pw g2] eqn:Ef.
  injection H as _ <-.
  assert (Hcalls : exists t2, GL.calls g2 = GL.calls gl1 ++ t2).
  { unfold Program.glx_free_prog_main in Ef.
    destruct (negb (Program.prog (Init.glx_prog_win ps) =? 0));
      injection Ef as _ <-; [eexists; reflexivity |].
    exists []. rewrite app_nil_r. reflexivity. }
  destruct Hcalls as [t2 Ht2].
  intros k p Hk Hkp.
  destruct (Hdel k p ltac:(simpl; lia) Hkp) as [D1 D2].
  rewrite Ht2, Ht.
  split; intros Hnz; apply in_or_app; left; apply in_or_app; right; auto.
Qed.

(** X26 on a running session with two built passes (shader 2, program 3)
    and the main program 8: the call returns, no backend data is left,
    and the shader and the program of the passes have been deleted. *)
Lemma glx_destroy_idempotent_witness :
  exists ps' gl',
    Init.glx_destroy 5 free_win_nothing running_session gl_init
    = Returned (ps', gl')
    /\ Init.psglx ps' = None
    /\ Init.glx_prog_win ps' = freed_prog
    /\ In (GL.DeleteShader 2) (GL.calls gl')
    /\ In (GL.DeleteProgram 3) (GL.calls gl').
Proof.
  destruct (Init.glx_destroy 5 free_win_nothing running_session gl_init)
    as [[ps' gl'] | |] eqn:E; try (vm_compute in E; discriminate E).
  destruct (glx_destroy_idempotent 5 free_win_nothing running_session ps'
              gl_init gl' E) as (Hn & _ & _ & Hg).
  destruct (Hg _ eq_refl) as [Hp Hdel].
  destruct (Hdel 0%nat built_pass ltac:(lia) eq_refl) as [D1 D2].
  exists ps', gl'. split; [reflexivity |]. split; [exact Hn |].
  split; [exact Hp |]. split; [apply D1; discriminate | apply D2; discriminate].
Defined.

(** X27: [glx_reinit] starts from fresh backend data. With a
    [CGLX_SESSION_DEF] that holds no context, a success means that a new
    context was created and attached and that [vsync_init] succeeded. A
    failure leaves either no backend data at all, or, when only
    [vsync_init] failed, the new backend data in place: in that case the
    backend is not destroyed. *)
Theorem glx_reinit_fresh
    (CGLX_MAX_BUFFER_AGE OPENGL_MAX_DEPTH MAX_BLUR_PASS : Z)
    (CGLX_SESSION_DEF : Init.glx_session_t)
    (free_win_res_glx : Z -> GL.state -> GL.state) (srv : Init.server)
    (vsync_init : Init.session_t -> bool)
    (ps ps' : Init.session_t) (need_render ret : bool) (gl gl' : GL.state) :
  Init.context CGLX_SESSION_DEF = 0 ->
  Init.glx_reinit CGLX_MAX_BUFFER_AGE OPENGL_MAX_DEPTH MAX_BLUR_PASS
    CGLX_SESSION_DEF free_win_res_glx srv vsync_init ps need_render gl
  = Returned (ret, ps', gl') ->
  (ret = true ->
   vsync_init ps' = true
   /\ Init.glXMakeCurrent srv = true
   /\ Init.glXCreateContext srv <> 0
   /\ exists g,
        Init.psglx ps' = Some g
        /\ Init.context g = Init.glXCreateContext srv)
  /\ (ret = false ->
      Init.psglx ps' = None
      \/ (vsync_init ps' = false
          /\ exists g,
               Init.psglx ps' = Some g
               /\ Init.context g = Init.glXCreateContext srv)).
Proof.
  unfold Init.glx_reinit, Init.glx_init. intros Hdef H.
  bind_inv H as [ps1 gl1] Hd.
  apply glx_destroy_effect in Hd. destruct Hd as (Hnone & _).
  bind_inv H as [[ok ps2] gl2] Hi.
  bind_inv Hi as [[success ps3] gl3] Hbody.
  destruct success; cbn [negb] in Hi.
  - injection Hi as <- <- <-. cbn [negb] in H.
    destruct (glx_init_body_success _ _ _ _ _ _ _ _ _ _ Hbody)
      as (_ & _ & _ & _ & Hfresh & g' & Hg' & Hc' & _).
    destruct (Hfresh Hnone Hdef) as (Hmk & g & Hg & Hc).
    assert (Hnz : Init.glXCreateContext srv <> 0) by congruence.
    destruct (vsync_init ps3) eqn:Ev; cbn [negb] in H;
      injection H as <- <- <-.
    + split; [| discriminate]. intros _. eauto 6.
    + split; [discriminate |]. intros _. right. eauto.
  - bind_inv Hi as [ps4 gl4] Hd2. injection Hi as <- <- <-.
    cbn [negb] in H. injection H as <- <- <-.
    split; [discriminate |]. intros _. left.
    apply glx_destroy_effect in Hd2. tauto.
Qed.

(** X27 on the running session: when [vsync_init] fails, [glx_reinit]
    returns failure and the session keeps backend data with the new
    context. *)
Lemma glx_reinit_fresh_witness :
  exists ps' gl' g,
    Init.glx_reinit 5 32 5 session_def free_win_nothing good_server
      (fun _ => false) running_session true gl_init
    = Returned (false, ps', gl')
    /\ Init.psglx ps' = Some g
    /\ Init.context g = 9.
Proof.
  destruct (Init.glx_reinit 5 32 5 session_def free_win_nothing good_server
              (fun _ => false) running_session true gl_init)
    as [[[r ps'] gl'] | |] eqn:E; try (vm_compute in E; discriminate E).
  assert (Hr : r = false) by (vm_compute in E; congruence).
  subst r.
  destruct (proj2 (glx_reinit_fresh 5 32 5 session_def free_win_nothing
                     good_server (fun _ => false) running_session ps' true
                     false gl_init gl' eq_refl E) eq_refl)
    as [Hn | (_ & g & Hg & Hc)].
  - exfalso. vm_compute in E. injection E as <- _. discriminate Hn.
  - exists ps', gl', g. auto.
Defined.

(** ** From building the blur passes to blurring *)

(** After a successful [glx_init_blur] the first pass holds a program. *)
Lemma glx_init_blur_first_pass
    (XFIXED_TO_DOUBLE : Z -> Q) (printf_g7 : Q -> string) (MAX_BLUR_PASS : Z) (drv : GL.driver)
    (ps ps' : Shader.session_t) (gl gl' : GL.state) :
  Shader.glx_init_blur XFIXED_TO_DOUBLE printf_g7 MAX_BLUR_PASS drv ps gl
  = Returned (true, ps', gl') ->
  1 <= MAX_BLUR_PASS ->
  (Shader.blur_method ps = Shader.BLRMTHD_CONV
   \/ Shader.blur_method ps = Shader.BLRMTHD_KAWASE)
  /\ exists p0, Shader.blur_passes ps' !! 0%nat = Some p0 /\ Shader.prog p0 <> 0.
Proof.
  unfold Shader.glx_init_blur. intros H Hmax.
  destruct (Shader.blur_method ps); [| | discriminate H].
  - split; [left; reflexivity |].
    unfold Shader.glx_init_conv_blur in H.
    bind_inv H as k0 Hk0. apply c_index_Returned in Hk0.
    destruct Hk0 as [_ Hk0].
    bind_inv H as u Hu. apply c_assert_Returned in Hu.
    apply bool_decide_eq_true in Hu.
    bind_inv H as k1 Hk1. bind_inv H as r Hr.
    destruct r as [g | g]; [discriminate H |].
    apply conv_passes_built in H; [| lia]. destruct H as [_ Hbuilt].
    destruct k0 as [kern |]; [| contradiction].
    destruct (Hbuilt 1%nat ltac:(lia)) with (k := 0%nat) as (p & Hp & Hprog & _);
      [| lia | eauto].
    intros k Hk. exists kern. replace k with 0%nat by lia. exact Hk0.
  - split; [right; reflexivity |].
    unfold Shader.glx_init_kawase_blur in H.
    destruct (GL.glGenFramebuffers drv (GL.now gl) =? 0); [discriminate H |].
    bind_inv H as down Hdown.
    destruct down as [[ps1 g1] | [ps1 g1]]; [discriminate H |].
    bind_inv H as up Hup.
    destruct up as [[ps2 g2] | [ps2 g2]]; [discriminate H |].
    injection H as <- _.
    apply kawase_pass_built in Hdown.
    destruct Hdown as (_ & L0 & p0 & E0 & P0 & F0).
    apply kawase_pass_built in Hup.
    destruct Hup as (_ & L1 & p1 & E1 & P1 & F1).
    exists p0. rewrite E1, E0. simpl. split; [| exact P0].
    simpl in L0.
    rewrite list_lookup_insert_ne by lia.
    apply list_lookup_insert_eq. exact L0.
Qed.

(** X28: after a successful [glx_init_blur] (with [MAX_BLUR_PASS] at
    least 1) the blur method is one of the two known ones, and
    [glx_blur_dst] on a session holding the passes just built does not stop
    on its assertion: it is the blur of that method, whatever the
    rectangle, the cache and the GL context. *)
Theorem glx_init_blur_then_blur_dst
    (XFIXED_TO_DOUBLE : Z -> Q) (printf_g7 : Q -> string) (MAX_BLUR_PASS : Z) (drv : GL.driver)
    (ps ps' : Shader.session_t) (gl gl' : GL.state) (bs : Blur.session_t) :
  Shader.glx_init_blur XFIXED_TO_DOUBLE printf_g7 MAX_BLUR_PASS drv ps gl
  = Returned (true, ps', gl') ->
  1 <= MAX_BLUR_PASS ->
  Blur.blur_passes bs = Shader.blur_passes ps' ->
  (Shader.blur_method ps = Shader.BLRMTHD_CONV
   \/ Shader.blur_method ps = Shader.BLRMTHD_KAWASE)
  /\ forall (drv2 : GL.driver) (dx dy width height : Z)
       (pbc : option Blur.glx_blur_cache_t) (g : GL.state),
       BlurDst.glx_blur_dst MAX_BLUR_PASS drv2 (Shader.blur_method ps) bs
         dx dy width height pbc g
       = match Shader.blur_method ps with
         | Shader.BLRMTHD_KAWASE =>
             Blur.glx_kawase_blur_dst MAX_BLUR_PASS drv2 bs dx dy width height
               pbc g
         | _ =>
             Blur.glx_conv_blur_dst MAX_BLUR_PASS drv2 bs dx dy width height
               pbc g
         end.
Proof.
  intros H Hmax Hbs.
  destruct (glx_init_blur_first_pass _ _ _ _ _ _ _ _ H Hmax)
    as (Hm & p0 & Hp0 & Hprog).
  split; [exact Hm |].
  intros drv2 dx dy width height pbc g.
  unfold BlurDst.glx_blur_dst. rewrite <- Hbs in Hp0.
  rewrite (c_index_lookup _ 0 _ ltac:(lia) Hp0). simpl.
  destruct (Z.eqb_spec (Shader.prog p0) 0); [contradiction |]. simpl.
  destruct Hm as [-> | ->]; reflexivity.
Qed.

(** X28 on the two-kernel session: the passes are built, and
    [glx_blur_dst] on them is the convolution blur. *)
Lemma glx_init_blur_then_blur_dst_witness :
  exists ps' gl',
    Shader.glx_init_blur fixed_16_16 g7_whole 5 good_driver two_pass_session gl_init
    = Returned (true, ps', gl')
    /\ forall bs,
         Blur.blur_passes bs = Shader.blur_passes ps' ->
         BlurDst.glx_blur_dst 5 good_driver
           (Shader.blur_method two_pass_session) bs 0 0 100 20 None gl'
         = Blur.glx_conv_blur_dst 5 good_driver bs 0 0 100 20 None gl'.
Proof.
  destruct (Shader.glx_init_blur fixed_16_16 g7_whole 5 good_driver two_pass_session
              gl_init) as [[[r ps'] gl'] | |] eqn:E;
    try (vm_compute in E; discriminate E).
  assert (Hr : r = true) by (vm_compute in E; congruence).
  subst r.
  exists ps', gl'. split; [reflexivity |].
  intros bs Hbs.
  destruct (glx_init_blur_then_blur_dst fixed_16_16 g7_whole 5 good_driver
              two_pass_session ps' gl_init gl' bs E ltac:(lia) Hbs)
    as [_ Hrun].
  exact (Hrun good_driver 0 0 100 20 None gl').
Defined.

(** ** Blur textures *)

(** X29: [glx_gen_texture] returns the name the driver generates. When
    that name is 0 nothing but [glGenTextures] was issued and no
    capability changed. Otherwise the texture target is left enabled, no
    other capability changed, an image of the given size was defined, and
    the last call unbinds the texture. [glx_copy_region_to_tex] issues
    nothing for an empty rectangle. *)
Theorem glx_gen_texture_effect (drv : GL.driver) (tex_tgt : GL.GLenum)
    (width height : Z) (gl : GL.state) :
  let r := Blur.glx_gen_texture drv tex_tgt width height gl in
  r.1 = GL.glGenTextures drv (GL.now gl)
  /\ (r.1 = 0 -> r.2 = GL.issue GL.GenTextures gl)
  /\ (r.1 <> 0 ->
      GL.glIsEnabled tex_tgt r.2 = true
      /\ (forall cap, cap <> tex_tgt ->
            GL.glIsEnabled cap r.2 = GL.glIsEnabled cap gl)
      /\ In (GL.TexImage2D tex_tgt width height) (issued gl r.2)
      /\ last (GL.calls r.2) = Some (GL.BindTexture tex_tgt 0))
  /\ (forall (ps : Blur.session_t) (basex basey dx dy w h : Z),
        w <= 0 \/ h <= 0 ->
        Blur.glx_copy_region_to_tex ps tex_tgt basex basey dx dy w h gl = gl).
Proof.
  unfold Blur.glx_gen_texture. cbv zeta.
  destruct (Z.eqb_spec (GL.glGenTextures drv (GL.now gl)) 0) as [Hz | Hnz];
    cbn [fst snd].
  - split; [symmetry; exact Hz |]. split; [reflexivity |].
    split; [intros Hc; contradiction |].
    intros ps basex basey dx dy w h Hwh. unfold Blur.glx_copy_region_to_tex.
    destruct (Z.ltb_spec 0 w), (Z.ltb_spec 0 h); simpl; try reflexivity; lia.
  - split; [reflexivity |]. split; [intros Hc; contradiction |].
    split.
    + intros _. split; [| split; [| split]].
      * rewrite !glIsEnabled_issue, glIsEnabled_glEnable, Z.eqb_refl.
        reflexivity.
      * intros cap Hne.
        rewrite !glIsEnabled_issue, glIsEnabled_glEnable, glIsEnabled_issue.
        destruct (Z.eqb_spec cap tex_tgt); [contradiction | reflexivity].
      * unfold issued, GL.issue, GL.glEnable. cbn [GL.calls].
        rewrite <- !app_assoc. rewrite drop_app_length.
        simpl. do 7 right. left. reflexivity.
      * unfold GL.issue at 1. cbn [GL.calls]. apply last_snoc.
    + intros ps basex basey dx dy w h Hwh. unfold Blur.glx_copy_region_to_tex.
      destruct (Z.ltb_spec 0 w), (Z.ltb_spec 0 h); simpl; try reflexivity; lia.
Qed.

